(* ===== verification/_CoqProject ===== *)
-Q . S2P
Prelude.v
JsValue.v
Regex.v
Markdown.v
Effect.v
Sdk.v
Mock.v
Session.v
Host.v
Iam.v
Directory.v
Init.v
Comments.v
Merge.v
Capabilities.v
Lifecycle.v
Budget.v
Lift.v
UnitTests.v
Stats.v
Text.v
Metadata.v
Schema.v
Store.v
StoreComments.v
Topics.v
TopicOrder.v
StorePulls.v
StoreListing.v
History.v
Replay.v
StoreHistory.v
StoreInvariant.v
StoreReplay.v
StoreSessions.v
StoreRepos.v
StorePolicy.v
