(* ===== verification/Prelude.v ===== *)
(** * A verification development for the CodeCommit platform adapter

    The program is the AWS CodeCommit platform module of Renovate
    ([src/lib/modules/platform/codecommit/index.ts]) with the small modules
    that surround it in this repository: the IAM client, the metadata and
    the schema of the datasources, and the statistics of a repository
    run.  The adapter turns the pull-request,
    comment and merge API of the remote service into the uniform contract
    the orchestrator calls.  It keeps one piece of state of its own, the
    module-level [config] object with its [prList] cache slot, and reaches
    the service only through the functions of [codecommit-client].

    ** Files, in dependency order

    - [Prelude] (this file): the libraries every file loads, the hint
      database [adapter] and the rewrite database [eff], the tactics
      [invert] and [break_match], and lemmas on the first element of a
      filtered list.
    - [JsValue]: the JavaScript built-ins the handlers use, in [Module Js]:
      numbers with [NaN], [Number.parseInt], the template literal of a
      number, truthiness, [startsWith], [trim], [===] and [JSON.stringify]
      of a string array; [parseInt (toString n) = n].
    - [Regex]: the fragment of regular expressions the eleven patterns of
      the sources are written in, in [Module Re]: the backtracking matcher
      [run], the search [exec], groups, [replace_first] and the global
      [replace_all], the anchored [exec_with] and [replace_with], the
      literal [Lit_i] of the [i] flag; the language [matches] of a pattern
      and the proofs that the matcher is sound and complete for it, that
      the search is leftmost and that the global replace ends.
    - [Markdown]: [massageMarkdown] ([index.ts] 298-313).
    - [Effect]: the monad [M S A = S -> outcome A * S] of an [async]
      function over a state, with [throw], [try_catch], [attempt] (a [try]
      block whose [catch] goes on), [deref] (a property read that throws a
      [TypeError] on [undefined]) and [for_of] (a loop with [break] and
      local variables); its laws and the invariant rule of the loop;
      [respects Q c] (every run of [c] takes the state to one related by
      [Q]) with the rules that carry a preorder through sequencing, [try],
      [attempt] and the loop, proved once for the relations of the
      later files, and the tactic [solve_respects].
    - [Sdk]: the response records of the AWS SDK that the adapter reads,
      the type [Call] of calls to the collaborators, the interface
      [Client] the adapter is verified against, the interface [Utils] of
      [sanitize] and [smartTruncate] with its law.
    - [Mock]: the scripted SDK mock of the unit tests and the [Client]
      instance over it; every witness runs on it by computation.
    - [Session]: [Config] (the session context, [index.ts] 40-49), the
      [World] of a run (context, backend, trace of calls, log), the
      wrappers that record a call and run the backend, the predicates
      [extends_trace], [calls_satisfy], [keeps_config] and [config_inv],
      each [respects] of a preorder of the worlds, with their composition
      lemmas, and the tactics [eff_run], [solve_effect] and
      [solve_config_inv].
    - [Host]: what the initialisation reaches beyond the client: the
      environment [Env], the host state [Host R] (environment, the module
      variable [iam], backend), the interface [Services] (IAM request,
      [buildCodeCommitClient], [getCodeCommitUrl], [git.initRepo],
      [repoFingerprint]), the lifting [zoom_client] of a client to a
      larger state, and the backend [Stub] of the unit tests.
    - [Iam]: [initIamClient] and [getUserArn] ([iam-client.ts]).
    - [Directory]: [getPrList], [findPr], [getBranchPr], [getPr],
      [getRepos] ([index.ts] 152-296) and the state translation.
    - [Init]: [initPlatform] and [initRepo] ([index.ts] 51-150).
    - [Comments]: [ensureComment] and [ensureCommentRemoval] ([index.ts]
      577-715), the decision [reconcile] and the refinement theorem.
    - [Merge]: [createPr], [updatePr], [mergePr], [addReviewers]
      ([index.ts] 342-500).
    - [Capabilities]: [getRawFile], [getJsonFile] and the operations that
      CodeCommit does not support ([index.ts] 315-340, 502-575).
    - [Lifecycle]: a session as a sequence of requests: [Request],
      [serve], the relation [step], the class [SessionInvariant] and the
      invariants of every session; a preorder of the worlds that every
      request respects relates the two ends of every session
      ([steps_respect]), which is how the theorems on sessions are
      proved.
    - [Budget]: the number of calls a request adds to the trace
      ([costs]), the budget of each request and of a session.
    - [Lift]: a handler run in a host is the handler run on the service
      of the host ([lifts]), for every handler but the two of the
      initialisation.
    - [UnitTests]: the 48 tests of [index.spec.ts], each replayed as an
      [Example] on the mock the test scripts.
    - [Stats]: the two versions of the statistics module under
      [src/unnamed]: [runRenovateRepoStats], [branchCacheToMetadata],
      [runBranchSummary], and [filterDependencyDashboardData] of the first
      version in [Module V0], of the second in [Module V1].
    - [Text]: the string methods of [metadata.ts], in [Module Str]:
      [includes], [split], [join], [toLowerCase], [replace] with a string
      pattern; [split] and [join] are inverse to each other.
    - [Metadata]: [massageUrl], [massageGithubUrl], [massageGitlabUrl],
      [normalizeDate], [massageTimestamps], [addMetaData],
      [setSourceUrlToHomepage], [shouldDeleteHomepage]
      ([src/lib/modules/datasource/metadata.ts]), and the classes [Urls]
      and [Dates] of the libraries they call.
    - [Schema]: [ReleaseResultZodSchema]
      ([src/lib/modules/datasource/custom/schema.ts]) and the combinators
      of zod it is written with, in [Module Zod].
    - [Store]: the service as a state: the pull requests, their comment
      threads and events, the repositories, the files and the approval
      rules, and the instance of [Client] over it, one operation of the
      service for each of the seventeen functions of the client.
    - [StoreComments]: [ensureComment] run twice on the store.
    - [Topics]: the comments of a pull request as a map from topics to
      bodies ([topic_map]); [ensureComment] is an insertion into it, a
      sequence of calls the sequence of the insertions, and
      [ensureCommentRemoval] the deletion of the content of one comment.
    - [TopicOrder]: the calls of [ensureComment] for topics apart from
      each other ([apart]) in any order.
    - [StorePulls]: [mergePr] and [updatePr] followed by [getPr] on the
      store; the cached listing after a creation and after a merge.
    - [StoreListing]: [getPrList] on the store: the directory of a
      repository ([listing]) and what it holds after a creation and
      after a merge, once the session is reset.
    - [History]: the class [Advances] of the relations between states of
      the service that every operation of the client respects, and the
      proof that every request and every session respects them.
    - [Replay]: the class [Replays] of the services whose operations do
      what their calls say ([apply]), the state after a sequence of calls
      ([replay]), and the proof that the trace of a session is a complete
      log of what it did to the service; the instance of the mock.
    - [StoreHistory]: the order [store_le] of the states of the store and
      the instance of [Advances] for it.
    - [StoreInvariant]: the well-formedness [store_inv] of the store, the
      hypothesis of the theorems on the store, as an invariant of all
      sessions.
    - [StoreReplay]: what each call does to the store ([apply_call]),
      the instance of [Replays], and what follows for the sessions on the
      store: the store is the replay of the writes, lookups leave it
      alone.
    - [StoreSessions]: the listing and the idempotence of [ensureComment]
      at any point of a session on the store.
    - [StoreRepos]: [getRepos], [getRawFile], [initRepo] and
      [addReviewers] on the store.
    - [StorePolicy]: the requests that end in an exception on the store
      ([rejects]), exactly.

    ** How the code is modelled

    A handler [export async function f(args): Promise<T>] is a definition
    [f args : H R T], a function from the world before the call to an
    outcome ([Ok v] for a resolved promise, [Throw e] for a rejected one)
    and the world after it.  Statements are sequenced with [x <- c ;; k];
    an [await client.g(...)] is the wrapper [client_g], which appends the
    call to the trace and runs the operation [cl_g] of the backend; a
    [logger] call appends its message to the log.  A [try] block whose
    [catch] returns is [attempt] followed by a match on the outcome.  A
    loop is [for_of] over a body that returns [Continue] or [Break] with
    the new values of the locals.  Nothing is concurrent: the adapter
    awaits every call before the next statement.

    The backend is abstract.  Theorems are stated for every type [R] with a
    [Client R] instance and mention the backend only through the outcome of
    the calls on the path they describe; the witnesses instantiate them on
    [Mock], with the responses the unit tests script.  The theorems that
    relate two calls need a backend that answers the second call from what
    the first wrote: [Store] is that backend.  It is a model of the
    service, not code of the repository: a merge marks the targets between
    the two references of the call as merged, the status call accepts the
    one update from open to closed (what the comment in the [catch] of
    [updatePr] expects of the service), the listing call returns the pull
    requests of the repository whatever their status or author, a call
    for a pull request, a repository or a file the store does not hold is
    rejected, and the read of such a pull request resolves to nothing,
    the client catching that rejection.
    The store numbers pull requests and comments with one counter.  The
    handlers of the initialisation run in worlds whose backend is a
    [Host R]: [process.env]
    and the variable [iam] of [iam-client.ts] are fields of the host, the
    collaborators are the operations of [Services R].  The other handlers
    run in such a world unchanged, through the instance [host_client].

    A regular expression of the sources is a value of [Re.re], written
    constructor for constructor from the literal: [regionReg] (line 67),
    [userRe] ([iam-client.ts] 24) and the patterns of [massageMarkdown].
    [r.exec(s)] is [Re.exec r s], [s.replace(r, t)] is [Re.replace_first]
    or, with the [g] flag, [Re.replace_all].  The matcher tries the
    alternatives in the order of the language (greedy: longest first,
    lazy: shortest first), so that the match it returns is the one the
    engine returns.

    Strings are [string], read as sequences of code units below 256.  A
    JavaScript [undefined] or [null] is [None]; a field the SDK types
    declare optional is an [option], also where the code asserts with [!]
    that it is present.  Numbers are integers of [Z] with a separate [NaN];
    the model agrees with IEEE doubles below 2^53, which pull-request
    identifiers never reach.

    An object whose fields the code copies, deletes or destructures by
    name (the branches and upgrades of the repository cache in [Stats]) is
    a finite map [gmap string V] from field names to values; an absent key
    is [undefined], and the values are of a type of which the code uses
    truthiness only.  A function that only gives an object to the logger
    returns that object.

    [addMetaData] changes the result [dep] it is given: it is a
    computation in the same monad with [dep] for a state, so that what is
    left of [dep] when a date makes it throw is part of the outcome.
    [Date.now()] is read once: the clock is a variable [now] of the
    section.  A zod schema is a function from a value of JSON that may be
    [undefined] to the parsed value, or to nothing when zod reports an
    error.

    ** Fuel

    The handlers need no fuel: every loop runs over a finite list of the
    response.  The only definition with fuel is [Re.replace_loop], the
    loop of a global replace: each round consumes at least one character
    of what is left of the string, so [Re.replace_all] gives it one unit
    for every character and one more.  [replace_loop_terminates] proves
    that this is enough and that more fuel gives the same result;
    [massage_html_terminates] states it for the loops of
    [massageMarkdown].

    ** What the theorems show

    - Translation: the merge flag takes precedence over the raw status in
      [getPr]; the listing never reports [Merged].
    - Cache: a listing that completes is stored, a stored listing is served
      without a call and survives every sequence of requests, [initRepo]
      included; on [Store] a pull request created after the listing exists
      in the service and is not found until the session is reset, and a
      pull request merged after the listing is still listed as open, so
      that [getBranchPr] returns a merged pull request.
    - Lookup: [findPr] returns the first entry that passes its filters,
      never throws, and treats every concrete state as [Open]; lookups
      make no call that writes, and on [Store] a sequence of lookups
      leaves the store as it was ([lookups_keep_store]).
    - Comments: [ensureComment] refines [reconcile]; the calls of the
      create, update and no-op paths; a second run after a create decides
      [NoOp]; [ensureCommentRemoval] deletes at most one comment.  On the
      backend of [Store], which remembers what was written, a call that
      returned [true] has settled the topic: the same call again only
      reads, and the store keeps one thread for the topic.  Seen as a map
      from topics to bodies, the comments of a pull request after the call
      are the map before with the composed body under the topic, on the
      topic and on every topic whose header is not comparable with its
      header; topics on one line are such, a topic that continues another
      after a blank line shares its comment.  A sequence of calls is the
      fold of the insertions, so the last call for a topic is the one
      shown.  The calls for topics of which no two have comparable
      headers commute: in any order they leave a pull request that shows
      the same under every topic, with other threads and identifiers
      ([ensure_all_any_order]).  A removal by topic after the comment was
      posted leaves the topic empty and the emptied thread in place.
    - Merge: the calls and the result of [mergePr] on every branch; only a
      rejected read escapes; every call it makes has one of three shapes.
      On [Store]: [mergePr] on an open pull request returns [true] and
      [getPr] then reads it as merged; on a closed one it merges and
      returns [false]; [updatePr] sets the title, closes an open pull
      request when asked to and never opens a closed one; on a pull
      request the store does not hold its first call throws.
    - Directory on [Store]: with the cache empty [getPrList] returns and
      caches the listing of the store, one entry for each pull request of
      the repository in the order of the store; a session that is reset
      after [createPr] lists the new pull request last, one that is reset
      after [mergePr] lists the merged pull request as closed while
      [getPr] reads it as merged.
    - Initialisation: what [initPlatform] resolves, stores, calls and
      returns, and when it throws; the region read off an endpoint and
      the round trip with the default endpoint; the outcome of [initRepo]
      on every branch and the three errors it throws; the IAM client is
      constructed once; [getUserArn] recovers the ARN from a refusal.
    - Markdown: the unit test, the debug comment wrapped word for word,
      the fixed points, termination.
    - Sessions: every property of [config] that the assignments of the
      handlers keep is an invariant of all sessions ([session_inv]); the
      instances are the cache assigned once, the cache free of merged
      entries and the session staying connected.  The trace and the log
      of a session only grow.  Every preorder of the
      states of the service that the operations of the client respect is
      respected by all sessions ([session_advances]); on [Store] the
      states of the pull requests only move forward (open, closed,
      merged), no thread is removed, no identifier is given out twice and
      no approval rule is taken back.  An invariant of the service is the
      preorder [keeps] of it: the store stays well formed ([store_inv])
      over all sessions: pull requests numbered by the service, each
      with a target, threads with a first comment, first comments with
      identifiers of their own.  The requests after the initialisation
      run on the service of the host and leave the environment and the
      IAM client alone ([serve_refines]), so that what is proved of a call
      on the store holds of the call at any point of a session: the
      listing of [getPrList] and the idempotence of [ensureComment].
    - Trace: the trace is a complete log.  On every service whose
      operations do what their calls say, the service after a session is
      the service before it after the calls the session added to the
      trace, in their order and with the arguments recorded
      ([session_replays]); the scripted mock and the store are such
      services.  On the store the reads can be left out, so two sessions
      that made the same writes leave the same store.
    - Budget: once the session holds its list, a session makes at most
      as many calls as the budgets of its requests allow, three a request
      at most, whatever the service answers ([session_budget]); without
      the list the listing asks for every pull request the service
      names.
    - Repositories: on [Store], [getRepos] returns the names the store
      holds, [getRawFile] the content of a stored file or the rejection,
      [initRepo] the default branch of a stored repository and its own
      error for an unknown one, [addReviewers] leaves one rule more.
    - Errors: which malformed responses make a handler throw a [TypeError].
      On [Store], at any point of a session, a request after the
      initialisation throws exactly when it is [getRawFile] of a file the
      store does not hold, [createPr] with an empty title, [updatePr] or
      [addReviewers] for a pull request the store does not hold, or
      [ensureComment] creating the comment of a pull request without
      events; the lookups, [mergePr] and [ensureCommentRemoval] always
      return ([session_error_policy]).
    - Unit tests: the model returns, logs and calls what each test of
      [index.spec.ts] expects, for 47 of the 48 tests; "getRepositoryInfo
      returns bad results 2" expects [REPOSITORY_EMPTY] of an answer
      without metadata, for which [initRepo] throws
      [REPOSITORY_NOT_FOUND].
    - Statistics: what [runRenovateRepoStats] counts; on the listing of
      any session of the adapter it counts nothing as merged; the second
      filter lets through the fields it names only, the first every field
      it does not delete, and the two agree on the branches whose fields
      are among those one of them names; the summary splits the branches
      of the cache in two.
    - Metadata: a massaged GitHub link has at most five segments; the
      window of numbers [normalizeDate] takes for dates; the in-place loop
      of [massageTimestamps] is the function [restamp] of the list, and
      leaves strings or nothing; [addMetaData] returns unless a release
      holds an invalid date object, leaves valid links only, and has
      changed no link when it throws; the pattern [githubPages] matches
      hosts that are no pages of GitHub.
    - Schema: the objects the schema of a release accepts; fields it does
      not declare have no effect; the digest comes out as [newDigest] and
      is lost when the output is parsed again.

    ** What is not modelled

    Every function of the source files is modelled.  The service is
    modelled as far as the client reaches it: permissions, throttling,
    merge conflicts and the commits behind the references are not, and of
    the events of a pull request only that they are listed.  What a pull
    request shows after a removal is stated for threads of one comment
    only, the threads the adapter posts; replies are comments of other
    users.  What the sources only call is not modelled: the AWS SDK
    transport, the signing of the clone URL, the hash of the fingerprint,
    JSON5 parsing, the URL parsers, [github-url-from-git], the host rules,
    the tables of
    [metadata-manual], [Date] and luxon appear as operations of the
    interfaces [Client], [Services], [Utils], [Urls] and [Dates], and the
    theorems hold for every instance; zod is modelled from its
    documentation, and of a [ZodError] only that parsing fails.  The
    logger is such a library too: the level and the message of every
    call are recorded in the log of the world, in the order of the calls;
    the metadata objects given beside the message ([{ err }], the
    approval rule) are dropped, since no handler reads them back and the
    unit tests compare the messages.  Of
    the unit tests ([index.spec.ts]) the scripts, the calls and the
    expectations are modelled ([UnitTests]), Jest and the mock library as
    the queue of [Mock].  Numbers are
    integers: fractions and infinities of [normalizeDate]'s argument are
    outside the model.  Regular expressions with alternation, anchors
    inside a pattern, back-references or flags other than [g] and [i] are
    outside the fragment of [Regex]; the sources use none. *)

From Stdlib Require Export ZArith Lia Ascii.
From stdpp Require Export base tactics option list strings pretty.

(** ** Hint databases

    [adapter] holds the resolution hints of the handlers' lemmas; the
    rewrite database [eff] holds the equations that run one step of a
    handler. *)

Create HintDb adapter discriminated.
Create Rewrite HintDb eff.

(** ** Tactics *)

(** [invert H] inverts [H], substitutes and clears it. *)
Ltac invert H := inversion H; subst; clear H.

(** [break_match] splits on the scrutinee of the first [match] of the goal. *)
Ltac break_match :=
  match goal with
  | |- context [match ?x with _ => _ end] => destruct x eqn:?
  end.

(** ** Lists: the first element that passes a filter

    The adapter selects "the first match" in two ways: by filtering an
    array and reading index 0, and by a loop that stops at the first hit.
    Both are [head (filter P l)] or a [find]. *)

Section first_match.
Context {A : Type} (P : A → Prop) `{!∀ x, Decision (P x)}.

Lemma head_filter_nil_iff (l : list A) :
  head (filter P l) = None ↔ Forall (λ x, ¬ P x) l.
Proof.
  induction l as [|x l IH]; simpl; [by split; [constructor|]|].
  rewrite filter_cons. case_decide.
  - split; [done|]. by intros [? _]%Forall_cons.
  - rewrite IH, Forall_cons. tauto.
Qed.

Lemma head_filter_In (l : list A) (x : A) :
  head (filter P l) = Some x → x ∈ l ∧ P x.
Proof.
  intros Hh%head_Some_elem_of%list_elem_of_filter. tauto.
Qed.

Lemma head_filter_app_l (l1 l2 : list A) (x : A) :
  head (filter P l1) = Some x → head (filter P (l1 ++ l2)) = Some x.
Proof. rewrite filter_app. by destruct (filter P l1). Qed.

Lemma head_filter_app_r (l1 l2 : list A) :
  Forall (λ x, ¬ P x) l1 → head (filter P (l1 ++ l2)) = head (filter P l2).
Proof.
  intros Hn. rewrite filter_app.
  apply head_filter_nil_iff in Hn. by destruct (filter P l1).
Qed.

End first_match.

#[export] Hint Resolve head_filter_In : adapter.
