(* ===== verification/JsValue.v ===== *)
(** * JavaScript values the adapter computes with

    The few built-ins of the language the sources rely on: numbers with
    [NaN], [Number.parseInt] with an absent radix, the conversion of a
    number inside a template literal, truthiness of an optional string,
    [String.prototype.startsWith], [String.prototype.trim] and
    [JSON.stringify] on an array of strings.  Nothing
    here is code of the repository; the definitions follow ECMA-262 for
    strings whose code units are below 256 and for integers that a double
    represents exactly. *)

From S2P Require Import Prelude.

Module Js.

(** ** Numbers *)

Inductive number : Type :=
| Num (z : Z)
| NaN.

#[global] Instance number_eq_dec : EqDecision number.
Proof. solve_decision. Defined.

(** [`${n}`]: decimal digits, a leading minus sign, or the text "NaN". *)
Definition toString (n : number) : string :=
  match n with
  | Num z => pretty z
  | NaN => "NaN"
  end.

(** ** White space and trimming *)

(** WhiteSpace and LineTerminator code units below 256: TAB, LF, VT, FF, CR,
    SP and NBSP. *)
Definition is_white_space (c : ascii) : bool :=
  let n := Ascii.N_of_ascii c in
  bool_decide (n = 9 ∨ n = 10 ∨ n = 11 ∨ n = 12 ∨ n = 13 ∨ n = 32 ∨ n = 160)%N.

Fixpoint trimStart (s : string) : string :=
  match s with
  | String c s' => if is_white_space c then trimStart s' else s
  | EmptyString => EmptyString
  end.

Definition trimEnd (s : string) : string :=
  String.rev (trimStart (String.rev s)).

Definition trim (s : string) : string := trimEnd (trimStart s).

(** ** Number.parseInt(string), radix absent *)

Definition digit_value (radix : Z) (c : ascii) : option Z :=
  let n := Z.of_N (Ascii.N_of_ascii c) in
  let v := if bool_decide (48 ≤ n ≤ 57)%Z then Some (n - 48)%Z
           else if bool_decide (97 ≤ n ≤ 122)%Z then Some (n - 87)%Z
           else if bool_decide (65 ≤ n ≤ 90)%Z then Some (n - 55)%Z
           else None in
  match v with
  | Some d => if bool_decide (d < radix)%Z then Some d else None
  | None => None
  end.

(** The longest prefix of digits, read in [radix]; [acc] is [None] until a
    digit has been read. *)
Fixpoint parse_digits (radix : Z) (acc : option Z) (s : string) : option Z :=
  match s with
  | String c s' =>
      match digit_value radix c with
      | Some d => parse_digits radix (Some (radix * default 0%Z acc + d)%Z) s'
      | None => acc
      end
  | EmptyString => acc
  end.

Definition strip_sign (s : string) : bool * string :=
  match s with
  | String "-"%char r => (true, r)
  | String "+"%char r => (false, r)
  | _ => (false, s)
  end.

Definition strip_radix (s : string) : Z * string :=
  match s with
  | String "0"%char (String "x"%char r) => (16%Z, r)
  | String "0"%char (String "X"%char r) => (16%Z, r)
  | _ => (10%Z, s)
  end.

Definition parseInt (s : string) : number :=
  let '(neg, s2) := strip_sign (trimStart s) in
  let '(radix, s3) := strip_radix s2 in
  match parse_digits radix None s3 with
  | Some n => Num (if neg : bool then - n else n)
  | None => NaN
  end.

(** ** Truthiness, prefixes, strict equality *)

(** An optional string in a condition: [undefined] and the empty string
    are falsy. *)
Definition truthy (s : option string) : bool :=
  match s with
  | Some (String _ _) => true
  | _ => false
  end.

(** The string a truthy optional string holds. *)
Definition truthy_val (s : option string) : option string :=
  if truthy s then s else None.

(** The line feed of a [\n] escape and the double quote. *)
Definition LF : string := String (Ascii.ascii_of_nat 10) EmptyString.
Definition DQ : string := String (Ascii.ascii_of_nat 34) EmptyString.

(** An optional boolean in a condition. *)
Definition truthy_bool (b : option bool) : bool := default false b.

Definition startsWith (s p : string) : bool := String.prefix p s.

(** [s?.startsWith(p)] in a condition. *)
Definition opt_startsWith (s : option string) (p : string) : bool :=
  match s with
  | Some s => startsWith s p
  | None => false
  end.

(** [a === b] on optional strings. *)
Definition strict_eq (a b : option string) : bool := bool_decide (a = b).

(** ** JSON.stringify on an array of strings *)

Definition hex_digit (n : N) : ascii :=
  default "0"%char (String.get (N.to_nat n) "0123456789abcdef").

(** QuoteJSONString, one code unit: the short escapes, [\u00xx] for the
    other control characters, the character itself otherwise. *)
Definition json_quote_char (c : ascii) : string :=
  let n := Ascii.N_of_ascii c in
  if (n =? 8)%N then "\b"
  else if (n =? 9)%N then "\t"
  else if (n =? 10)%N then "\n"
  else if (n =? 12)%N then "\f"
  else if (n =? 13)%N then "\r"
  else if (n =? 34)%N then "\" +:+ DQ
  else if (n =? 92)%N then "\\"
  else if (n <? 32)%N
       then "\u00" +:+ String (hex_digit (n / 16)) (String (hex_digit (n mod 16)) "")
  else String c "".

Fixpoint json_quote_chars (s : string) : string :=
  match s with
  | EmptyString => EmptyString
  | String c s' => json_quote_char c +:+ json_quote_chars s'
  end.

Definition json_quote (s : string) : string :=
  DQ +:+ json_quote_chars s +:+ DQ.

(** [JSON.stringify(l)] for [l : string[]]. *)
Definition json_stringify_strings (l : list string) : string :=
  "[" +:+ String.concat "," (json_quote <$> l) +:+ "]".

End Js.

(** ** Lemmas *)

Section js_lemmas.
Import Js.

Lemma string_app_cons (c : ascii) (p r : string) :
  String c p +:+ r = String c (p +:+ r).
Proof. reflexivity. Qed.

Lemma startsWith_spec (s p : string) :
  startsWith s p = true ↔ ∃ r, s = p +:+ r.
Proof.
  unfold startsWith. revert s.
  induction p as [|c p IH]; intros [|d s]; cbn [String.prefix].
  - split; eauto.
  - split; eauto.
  - split; [done|by intros [? ?]].
  - setoid_rewrite string_app_cons.
    destruct (Ascii.ascii_dec c d) as [->|Hne].
    + rewrite IH. split; intros [r Hr]; exists r; congruence.
    + split; [done|]. intros [r Hr]. congruence.
Qed.

Lemma startsWith_app (p r : string) : startsWith (p +:+ r) p = true.
Proof. apply startsWith_spec. eauto. Qed.

Lemma string_app_nil_r (p : string) : p +:+ "" = p.
Proof. induction p; [done|]. rewrite string_app_cons. congruence. Qed.

Lemma startsWith_refl (p : string) : startsWith p p = true.
Proof. apply startsWith_spec. exists "". by rewrite string_app_nil_r. Qed.

Lemma strict_eq_true (a b : option string) : strict_eq a b = true ↔ a = b.
Proof. unfold strict_eq. by rewrite bool_decide_eq_true. Qed.

Lemma strict_eq_false (a b : option string) : strict_eq a b = false ↔ a ≠ b.
Proof. unfold strict_eq. by rewrite bool_decide_eq_false. Qed.

Lemma strict_eq_refl (a : option string) : strict_eq a a = true.
Proof. by apply strict_eq_true. Qed.

Lemma truthy_Some (s : option string) :
  truthy s = true ↔ ∃ c r, s = Some (String c r).
Proof.
  destruct s as [[|c r]|]; simpl; split; try done; eauto;
    by intros (? & ? & ?).
Qed.

Lemma truthy_val_Some (s : option string) (v : string) :
  truthy_val s = Some v ↔ s = Some v ∧ v ≠ "".
Proof.
  unfold truthy_val. destruct s as [[|c r]|]; simpl; split;
    try done; try (by intros [[= <-] ?]).
  by intros [= <-].
Qed.

Lemma truthy_val_None (s : option string) :
  truthy_val s = None ↔ s = None ∨ s = Some "".
Proof.
  unfold truthy_val. destruct s as [[|c r]|]; simpl; split;
    try done; auto; by intros [|].
Qed.

(** *** parseInt reads back what the template literal prints *)

Lemma digit_value_pretty (d : N) :
  (d < 10)%N → digit_value 10 (pretty_N_char d) = Some (Z.of_N d).
Proof.
  intros Hd.
  assert (d = 0 ∨ d = 1 ∨ d = 2 ∨ d = 3 ∨ d = 4 ∨ d = 5 ∨ d = 6 ∨ d = 7
          ∨ d = 8 ∨ d = 9)%N as Hc by lia.
  repeat destruct Hc as [->|Hc]; try subst d; reflexivity.
Qed.

Lemma parse_digits_pretty_go (x : N) (s : string) (acc : option Z) :
  (0 < x)%N → default 0%Z acc = 0%Z →
  parse_digits 10 acc (pretty_N_go x s) = parse_digits 10 (Some (Z.of_N x)) s.
Proof.
  revert s acc. induction (N.lt_wf_0 x) as [x _ IH]; intros s acc Hx Hacc.
  rewrite pretty_N_go_step by done.
  assert (x `mod` 10 < 10)%N as Hm by (apply N.mod_lt; lia).
  pose proof (N.div_mod x 10 ltac:(lia)) as Hdm.
  destruct (decide (x `div` 10 = 0)%N) as [Hq|Hq].
  - rewrite Hq, pretty_N_go_0. simpl.
    rewrite digit_value_pretty, Hacc by done. f_equal. f_equal. lia.
  - rewrite IH; [|apply N.div_lt; lia|lia|done]. simpl.
    rewrite digit_value_pretty by done. f_equal. f_equal. lia.
Qed.

Lemma pretty_N_go_head (x : N) (s : string) :
  (0 < x)%N → ∃ d r, (0 < d < 10)%N ∧ pretty_N_go x s = String (pretty_N_char d) r.
Proof.
  revert s. induction (N.lt_wf_0 x) as [x _ IH]; intros s Hx.
  rewrite pretty_N_go_step by done.
  assert (x `mod` 10 < 10)%N as Hm by (apply N.mod_lt; lia).
  pose proof (N.div_mod x 10 ltac:(lia)) as Hdm.
  destruct (decide (x `div` 10 = 0)%N) as [Hq|Hq].
  - rewrite Hq, pretty_N_go_0. exists (x `mod` 10)%N, s. split; [lia|done].
  - apply IH; [apply N.div_lt; lia|lia].
Qed.

Lemma parseInt_pretty_pos (p : positive) :
  trimStart (pretty p) = pretty p ∧
  strip_sign (pretty p) = (false, pretty p) ∧
  strip_radix (pretty p) = (10%Z, pretty p) ∧
  parse_digits 10 None (pretty p) = Some (Z.pos p).
Proof.
  unfold pretty, pretty_positive, pretty, pretty_N.
  rewrite decide_False by done.
  destruct (pretty_N_go_head (N.pos p) "" ltac:(lia)) as (d & r & Hd & Hr).
  rewrite parse_digits_pretty_go by (done || lia). rewrite Hr.
  assert (d = 1 ∨ d = 2 ∨ d = 3 ∨ d = 4 ∨ d = 5 ∨ d = 6 ∨ d = 7
          ∨ d = 8 ∨ d = 9)%N as Hc by lia.
  repeat destruct Hc as [->|Hc]; try subst d; done.
Qed.

Lemma parseInt_toString_Num (z : Z) : parseInt (toString (Num z)) = Num z.
Proof.
  destruct z as [|p|p]; [done|..]; unfold toString;
    destruct (parseInt_pretty_pos p) as (Ht & Hs & Hr & Hp).
  - change (pretty (Z.pos p)) with (pretty p).
    unfold parseInt. by rewrite Ht, Hs, Hr, Hp.
  - change (pretty (Z.neg p)) with (String "-" (pretty p)).
    unfold parseInt.
    change (trimStart (String "-" (pretty p))) with (String "-" (pretty p)).
    cbn [strip_sign]. by rewrite Hr, Hp.
Qed.

Lemma parseInt_toString (n : number) : parseInt (toString n) = n.
Proof. destruct n; [apply parseInt_toString_Num|done]. Qed.

Lemma toString_inj (n m : number) : toString n = toString m → n = m.
Proof.
  intros H. rewrite <-(parseInt_toString n), <-(parseInt_toString m).
  by rewrite H.
Qed.

End js_lemmas.

#[export] Hint Rewrite startsWith_app startsWith_refl strict_eq_refl
  parseInt_toString : eff.
