(* ===== verification/Regex.v ===== *)
(** * Regular expressions

    The adapter, the IAM client and the datasource metadata match strings
    against eleven regular expressions, through [regEx] of [util/regex],
    and replace with [String.prototype.replace].  This file holds the
    fragment of ECMAScript regular expressions those patterns are written
    in (literals, one character of a class, a repeated character class,
    greedy or lazy, an optional part, sequence, groups), a backtracking
    matcher with the priorities of the language (leftmost start, greedy
    before short, lazy before long), [exec] and the two forms of
    [replace].  A pattern that starts with [^] or ends with [$] is a
    pattern of the fragment with its [anchors]; a literal under the [i]
    flag is [Lit_i].

    [matches] is the language of a pattern, stated without an order of
    search.  The theorems show that the matcher finds only matches of the
    language, finds one whenever the string holds one, and finds the
    leftmost, with and without anchors; that the loop of the global
    replace terminates within the fuel it is given; and what a global
    replace leaves in the string. *)

From S2P Require Import Prelude JsValue.

Module Re.

(** ** Character classes *)

(** [.]: every code unit but a line terminator. *)
Definition dot (c : ascii) : bool :=
  let n := Ascii.N_of_ascii c in negb ((n =? 10)%N || (n =? 13)%N).

(** [\s] *)
Definition space (c : ascii) : bool := Js.is_white_space c.

(** [[^ ]] *)
Definition not_blank (c : ascii) : bool :=
  negb (Ascii.N_of_ascii c =? 32)%N.

(** ** Patterns *)

Inductive re : Type :=
| Lit (l : string)
| Rep (cls : ascii → bool) (min : nat) (greedy : bool)
| Opt (r : re)
| Seq (r1 r2 : re)
| Group (name : string) (r : re)
| Chr (cls : ascii → bool).

(** The named groups of a match, in the order they closed. *)
Definition Caps : Type := list (string * string).

(** ** Strings *)

(** [s] without the prefix [p], when it starts with it. *)
Fixpoint strip_prefix (p s : string) : option string :=
  match p, s with
  | EmptyString, _ => Some s
  | String a p', String b s' =>
      if decide (a = b) then strip_prefix p' s' else None
  | String _ _, EmptyString => None
  end.

(** The first [n] characters of [s]. *)
Fixpoint take (n : nat) (s : string) : string :=
  match n, s with
  | S n', String c s' => String c (take n' s')
  | _, _ => EmptyString
  end.

(** What was read between [s] and its suffix [s']. *)
Definition consumed (s s' : string) : string :=
  take (String.length s - String.length s') s.

(** Every character of [s] is in the class. *)
Fixpoint all_in (cls : ascii → bool) (s : string) : bool :=
  match s with
  | EmptyString => true
  | String c s' => cls c && all_in cls s'
  end.

(** ** The matcher *)

Section matcher.
Context {A : Type}.

(** [c*], [c+]: as many characters as the class allows, then one less at
    each failure of what follows. *)
Fixpoint rep_greedy (cls : ascii → bool) (min : nat) (s : string)
    (k : string → option A) : option A :=
  let stop := if decide (min = 0) then k s else None in
  match s with
  | String c s' =>
      if cls c
      then match rep_greedy cls (pred min) s' k with
           | Some a => Some a
           | None => stop
           end
      else stop
  | EmptyString => stop
  end.

(** [c*?]: as few characters as possible, then one more at each failure
    of what follows. *)
Fixpoint rep_lazy (cls : ascii → bool) (min : nat) (s : string)
    (k : string → option A) : option A :=
  match (if decide (min = 0) then k s else None) with
  | Some a => Some a
  | None =>
      match s with
      | String c s' => if cls c then rep_lazy cls (pred min) s' k else None
      | EmptyString => None
      end
  end.

(** [run r s caps k]: match [r] at the start of [s], then go on with [k]
    on what is left; on a failure of [k] try the next way to match [r]. *)
Fixpoint run (r : re) (s : string) (caps : Caps)
    (k : string → Caps → option A) : option A :=
  match r with
  | Lit l =>
      match strip_prefix l s with
      | Some s' => k s' caps
      | None => None
      end
  | Rep cls min true => rep_greedy cls min s (λ s', k s' caps)
  | Rep cls min false => rep_lazy cls min s (λ s', k s' caps)
  | Opt r' =>
      match run r' s caps k with
      | Some a => Some a
      | None => k s caps
      end
  | Seq r1 r2 => run r1 s caps (λ s' caps', run r2 s' caps' k)
  | Group name r' =>
      run r' s caps (λ s' caps', k s' (caps' ++ [(name, consumed s s')]))
  | Chr cls =>
      match s with
      | String c s' => if cls c then k s' caps else None
      | EmptyString => None
      end
  end.

End matcher.

(** ** exec *)

(** The result of [RegExp.prototype.exec]: where the match starts, its
    text, its named groups, and what follows it. *)
Record Match : Type := {
  index : nat;
  matched : string;
  groups : Caps;
  rest : string;
}.

(** A match that starts at the first character of [s]. *)
Definition match_here (r : re) (s : string) : option (string * Caps) :=
  run r s [] (λ s' caps, Some (s', caps)).

(** The first start position, from [i] on, at which [r] matches. *)
Fixpoint search (r : re) (s : string) (i : nat) : option Match :=
  match match_here r s with
  | Some (s', caps) =>
      Some {| index := i; matched := consumed s s'; groups := caps;
              rest := s' |}
  | None =>
      match s with
      | String _ s' => search r s' (S i)
      | EmptyString => None
      end
  end.

Definition exec (r : re) (s : string) : option Match := search r s 0.

(** [match.groups?.name] *)
Definition group (name : string) (m : Match) : option string :=
  snd <$> head (filter (λ g, g.1 = name) (reverse (groups m))).

(** ** replace *)

(** A replacement string, cut at its [$<name>] references. *)
Inductive piece : Type :=
| Text (t : string)
| Ref (name : string).

Definition expand (tmpl : list piece) (m : Match) : string :=
  foldr (λ p acc, match p with
                  | Text t => t +:+ acc
                  | Ref name => default "" (group name m) +:+ acc
                  end) "" tmpl.

(** [s.replace(r, tmpl)] for a pattern without the [g] flag: the first
    match is replaced. *)
Definition replace_first (r : re) (tmpl : list piece) (s : string) : string :=
  match exec r s with
  | Some m => take (index m) s +:+ expand tmpl m +:+ rest m
  | None => s
  end.

(** [s.replace(r, tmpl)] with the [g] flag: every match, from left to
    right, each search starting where the previous match ended.  After an
    empty match the search moves one character on.  [fuel] bounds the
    number of searches. *)
Fixpoint replace_loop (fuel : nat) (r : re) (tmpl : list piece) (s : string)
  : option string :=
  match fuel with
  | O => None
  | S fuel' =>
      match exec r s with
      | None => Some s
      | Some m =>
          let before := take (index m) s +:+ expand tmpl m in
          if decide (matched m = "")
          then match rest m with
               | EmptyString => Some before
               | String c s' =>
                   (λ t, before +:+ String c t) <$> replace_loop fuel' r tmpl s'
               end
          else (λ t, before +:+ t) <$> replace_loop fuel' r tmpl (rest m)
      end
  end.

Definition replace_all (r : re) (tmpl : list piece) (s : string) : string :=
  default s (replace_loop (S (String.length s)) r tmpl s).

(** ** Anchors and the [i] flag *)

(** A pattern of the form [^r], [r$] or [^r$]: where a match may start
    and where it has to end. *)
Record anchors : Type := {
  at_start : bool;
  at_end : bool;
}.

(** What is left after a match is accepted: with [$] nothing. *)
Definition accept (to_end : bool) (s' : string) (caps : Caps)
  : option (string * Caps) :=
  if to_end && negb (bool_decide (s' = "")) then None else Some (s', caps).

Definition match_at (to_end : bool) (r : re) (s : string)
  : option (string * Caps) :=
  run r s [] (accept to_end).

Fixpoint search_at (to_end : bool) (r : re) (s : string) (i : nat)
  : option Match :=
  match match_at to_end r s with
  | Some (s', caps) =>
      Some {| index := i; matched := consumed s s'; groups := caps;
              rest := s' |}
  | None =>
      match s with
      | String _ s' => search_at to_end r s' (S i)
      | EmptyString => None
      end
  end.

(** [exec] for an anchored pattern: with [^] the only start position is
    the first. *)
Definition exec_with (a : anchors) (r : re) (s : string) : option Match :=
  if at_start a
  then match match_at (at_end a) r s with
       | Some (s', caps) =>
           Some {| index := 0; matched := consumed s s'; groups := caps;
                   rest := s' |}
       | None => None
       end
  else search_at (at_end a) r s 0.

(** [s.replace(r, tmpl)] for an anchored pattern without the [g] flag. *)
Definition replace_with (a : anchors) (r : re) (tmpl : list piece) (s : string)
  : string :=
  match exec_with a r s with
  | Some m => take (index m) s +:+ expand tmpl m +:+ rest m
  | None => s
  end.

(** The two cases of a letter, for a pattern with the [i] flag; a
    character that is no letter of the basic alphabet stands for itself. *)
Definition same_letter (a c : ascii) : bool :=
  let fold n := if ((65 <=? n) && (n <=? 90))%N then (n + 32)%N else n in
  (fold (Ascii.N_of_ascii a) =? fold (Ascii.N_of_ascii c))%N.

(** A literal under the [i] flag. *)
Fixpoint Lit_i (l : string) : re :=
  match l with
  | EmptyString => Lit ""
  | String a l' => Seq (Chr (same_letter a)) (Lit_i l')
  end.

(** ** The language of a pattern *)

Inductive matches : re → string → Caps → Prop :=
| matches_Lit l : matches (Lit l) l []
| matches_Rep cls min greedy p :
    all_in cls p = true → min ≤ String.length p →
    matches (Rep cls min greedy) p []
| matches_Opt_skip r : matches (Opt r) "" []
| matches_Opt_take r p c : matches r p c → matches (Opt r) p c
| matches_Seq r1 r2 p1 p2 c1 c2 :
    matches r1 p1 c1 → matches r2 p2 c2 →
    matches (Seq r1 r2) (p1 +:+ p2) (c1 ++ c2)
| matches_Group name r p c :
    matches r p c → matches (Group name r) p (c ++ [(name, p)])
| matches_Chr cls a :
    cls a = true → matches (Chr cls) (String a "") [].

End Re.

(** ** Lemmas on strings *)

Section string_lemmas.
Import Re.

Lemma string_app_assoc (a b c : string) : (a +:+ b) +:+ c = a +:+ b +:+ c.
Proof. induction a as [|x a IH]; [done|]. by rewrite !string_app_cons, IH. Qed.

Lemma string_app_length (a b : string) :
  String.length (a +:+ b) = String.length a + String.length b.
Proof. induction a as [|x a IH]; [done|]. rewrite string_app_cons. simpl. lia. Qed.

Lemma string_app_nil_l (s : string) : "" +:+ s = s.
Proof. reflexivity. Qed.

Lemma strip_prefix_spec (p s s' : string) :
  strip_prefix p s = Some s' ↔ s = p +:+ s'.
Proof.
  revert s. induction p as [|a p IH]; intros [|b s]; simpl;
    rewrite ?string_app_cons, ?string_app_nil_l; try (split; congruence).
  case_decide as E; [subst b; rewrite IH|]; split; congruence.
Qed.

Lemma strip_prefix_app (p s : string) : strip_prefix p (p +:+ s) = Some s.
Proof. by apply strip_prefix_spec. Qed.

Lemma take_app (p s : string) : take (String.length p) (p +:+ s) = p.
Proof. induction p as [|a p IH]; [by destruct s|]. simpl. by rewrite IH. Qed.

Lemma take_0 (s : string) : take 0 s = "".
Proof. by destruct s. Qed.

Lemma consumed_app (p s : string) : consumed (p +:+ s) s = p.
Proof.
  unfold consumed. rewrite string_app_length.
  replace (_ + _ - _) with (String.length p) by lia. apply take_app.
Qed.

Lemma all_in_app cls (a b : string) :
  all_in cls (a +:+ b) = all_in cls a && all_in cls b.
Proof.
  induction a as [|x a IH]; [done|]. rewrite string_app_cons. simpl.
  by rewrite IH, andb_assoc.
Qed.

End string_lemmas.

#[export] Hint Rewrite strip_prefix_app take_app consumed_app : eff.

(** ** The matcher finds matches of the language, and all of them *)

Section matcher_lemmas.
Import Re.
Context {A : Type}.
Implicit Types (k : string → option A) (s p : string).

Lemma rep_greedy_sound cls min s k a :
  rep_greedy cls min s k = Some a →
  ∃ p s', s = p +:+ s' ∧ all_in cls p = true ∧ min ≤ String.length p ∧
          k s' = Some a.
Proof.
  revert min. induction s as [|c s IH]; intros min; simpl.
  - case_decide; [|done]. intros Hk. exists "", "". by subst min.
  - assert ((if decide (min = 0) then k (String c s) else None) = Some a →
            ∃ p s', String c s = p +:+ s' ∧ all_in cls p = true ∧
                    min ≤ String.length p ∧ k s' = Some a) as Hstop.
    { case_decide; [|done]. intros Hk. exists "", (String c s). by subst min. }
    destruct (cls c) eqn:Hc; [|done].
    destruct (rep_greedy cls (pred min) s k) as [b|] eqn:Hr; [|done].
    intros [= ->]. destruct (IH _ Hr) as (p & s' & -> & Hp & Hm & Hk).
    exists (String c p), s'. simpl. rewrite Hc, Hp. repeat split; [lia|done].
Qed.

Lemma rep_greedy_complete cls min p s' k :
  all_in cls p = true → min ≤ String.length p → is_Some (k s') →
  is_Some (rep_greedy cls min (p +:+ s') k).
Proof.
  revert min. induction p as [|c p IH]; intros min Hp Hm Hk; simpl in Hp, Hm.
  - assert (min = 0) as -> by lia.
    rewrite string_app_nil_l. destruct s' as [|c s']; simpl; [done|].
    destruct (cls c); [|done]. by destruct (rep_greedy _ _ _ _).
  - apply andb_true_iff in Hp as [Hc Hp]. rewrite string_app_cons. simpl.
    rewrite Hc. destruct (IH (pred min) Hp ltac:(lia) Hk) as [b ->]. done.
Qed.

Lemma rep_lazy_sound cls min s k a :
  rep_lazy cls min s k = Some a →
  ∃ p s', s = p +:+ s' ∧ all_in cls p = true ∧ min ≤ String.length p ∧
          k s' = Some a.
Proof.
  revert min. induction s as [|c s IH]; intros min; simpl.
  - case_decide; [|done]. subst min. destruct (k "") eqn:Hk; [|done].
    intros [= ->]. by exists "", "".
  - destruct (if decide (min = 0) then k (String c s) else None) eqn:Hstop.
    + intros [= ->]. case_decide; [|done]. subst min.
      by exists "", (String c s).
    + destruct (cls c) eqn:Hc; [|done]. intros Hr.
      destruct (IH _ Hr) as (p & s' & -> & Hp & Hm & Hk).
      exists (String c p), s'. simpl. rewrite Hc, Hp.
      repeat split; [lia|done].
Qed.

Lemma rep_lazy_complete cls min p s' k :
  all_in cls p = true → min ≤ String.length p → is_Some (k s') →
  is_Some (rep_lazy cls min (p +:+ s') k).
Proof.
  revert min. induction p as [|c p IH]; intros min Hp Hm Hk; simpl in Hp, Hm.
  - assert (min = 0) as -> by lia. rewrite string_app_nil_l.
    destruct Hk as [b Hk]. destruct s'; simpl; by rewrite Hk.
  - apply andb_true_iff in Hp as [Hc Hp]. rewrite string_app_cons. simpl.
    destruct (if decide (min = 0) then _ else None); [done|].
    rewrite Hc. by apply IH; [|lia|].
Qed.

End matcher_lemmas.

Section run_lemmas.
Import Re.
Context {A : Type}.
Implicit Types (k : string → Caps → option A) (s p : string).

Lemma run_sound r s caps k a :
  run r s caps k = Some a →
  ∃ p s' c, s = p +:+ s' ∧ matches r p c ∧ k s' (caps ++ c) = Some a.
Proof.
  revert s caps k.
  induction r as [l|cls min [|]|r IH|r1 IH1 r2 IH2|name r IH|cls];
    intros s caps k; simpl.
  - destruct (strip_prefix l s) as [s'|] eqn:Hl; [|done].
    apply strip_prefix_spec in Hl as ->. intros Hk.
    exists l, s', []. rewrite app_nil_r. eauto using matches.
  - intros (p & s' & -> & Hp & Hm & Hk)%rep_greedy_sound.
    exists p, s', []. rewrite app_nil_r. eauto using matches.
  - intros (p & s' & -> & Hp & Hm & Hk)%rep_lazy_sound.
    exists p, s', []. rewrite app_nil_r. eauto using matches.
  - destruct (run r s caps k) as [b|] eqn:Hr.
    + intros [= ->]. destruct (IH _ _ _ Hr) as (p & s' & c & -> & Hp & Hk).
      exists p, s', c. eauto using matches.
    + intros Hk. exists "", s, []. rewrite app_nil_r. eauto using matches.
  - intros (p1 & s1 & c1 & -> & Hp1 &
            (p2 & s2 & c2 & -> & Hp2 & Hk)%IH2)%IH1.
    exists (p1 +:+ p2), s2, (c1 ++ c2). rewrite string_app_assoc, app_assoc.
    eauto using matches.
  - intros (p & s' & c & -> & Hp & Hk)%IH.
    exists p, s', (c ++ [(name, p)]).
    rewrite consumed_app, <- app_assoc in Hk. eauto using matches.
  - destruct s as [|ch s']; [done|]. destruct (cls ch) eqn:Hc; [|done].
    intros Hk. exists (String ch ""), s', []. rewrite app_nil_r.
    eauto using matches.
Qed.

Lemma run_complete r p c s' caps k :
  matches r p c → (∀ caps', is_Some (k s' caps')) →
  is_Some (run r (p +:+ s') caps k).
Proof.
  intros Hm. revert s' caps k.
  induction Hm as [l|cls min [|] p Hp Hmin|r|r p c _ IH
                   |r1 r2 p1 p2 c1 c2 _ IH1 _ IH2|name r p c _ IH|cls ch Hc];
    intros s' caps k Hk; simpl.
  - by rewrite strip_prefix_app.
  - by apply rep_greedy_complete.
  - by apply rep_lazy_complete.
  - rewrite string_app_nil_l. by destruct (run r s' caps k).
  - by destruct (IH s' caps k Hk) as [b ->].
  - rewrite string_app_assoc. apply IH1. intros caps'. by apply IH2.
  - apply IH. intros caps'. apply Hk.
  - by rewrite Hc.
Qed.

End run_lemmas.

(** ** Theorems: exec *)

Section exec_theorems.
Import Re.

Lemma match_here_sound r s s' caps :
  match_here r s = Some (s', caps) →
  ∃ p, s = p +:+ s' ∧ matches r p caps.
Proof.
  intros (p & s1 & c & -> & Hp & [= <- <-])%run_sound. eauto.
Qed.

Lemma match_here_complete r p c s' :
  matches r p c → is_Some (match_here r (p +:+ s')).
Proof. intros Hp. by eapply run_complete. Qed.

Lemma match_here_consumed r s s' caps :
  match_here r s = Some (s', caps) →
  s = consumed s s' +:+ s' ∧ matches r (consumed s s') caps.
Proof. intros (p & -> & Hp)%match_here_sound. by rewrite consumed_app. Qed.

Lemma search_sound r s i m :
  search r s i = Some m →
  ∃ pre, s = pre +:+ matched m +:+ rest m ∧
         index m = i + String.length pre ∧
         matches r (matched m) (groups m).
Proof.
  revert i. induction s as [|c s IH]; intros i; simpl;
    destruct (match_here r _) as [[s' caps]|] eqn:Hh; try done.
  1,2: intros [= <-]; apply match_here_consumed in Hh as [Hs Hp];
       exists ""; simpl; rewrite string_app_nil_l;
       (split; [done|split; [lia|done]]).
  intros (pre & -> & Hi & Hp)%IH. exists (String c pre).
  split; [done|]. split; [simpl; lia|done].
Qed.

Lemma search_complete r pre p c post i :
  matches r p c →
  ∃ m, search r (pre +:+ p +:+ post) i = Some m ∧
       index m ≤ i + String.length pre.
Proof.
  intros Hp. revert i. induction pre as [|a pre IH]; intros i.
  - rewrite string_app_nil_l.
    destruct (match_here_complete r p c post Hp) as [[s' caps] Hh].
    exists {| index := i; matched := consumed (p +:+ post) s';
              groups := caps; rest := s' |}.
    split; [|simpl; lia]. destruct (p +:+ post); simpl; by rewrite Hh.
  - rewrite string_app_cons. simpl.
    destruct (match_here r _) as [[s' caps]|].
    + eexists. split; [done|]. simpl. lia.
    + destruct (IH (S i)) as (m & -> & Hi). exists m. split; [done|lia].
Qed.

(** Soundness of [exec].  What [exec] returns is a match of the
    language of the pattern, at the position it reports: the string is
    the text before the match, the match, and the rest, and the groups
    are the parts of the match the named groups of the pattern took. *)
Theorem exec_sound r s m :
  exec r s = Some m →
  s = take (index m) s +:+ matched m +:+ rest m ∧
  matches r (matched m) (groups m).
Proof.
  intros (pre & Hs & Hi & Hp)%search_sound. split; [|done].
  rewrite Hi. simpl. rewrite Hs at 2. by rewrite take_app.
Qed.

(** [exec] decides the language and finds the leftmost match:
    it fails exactly when no part of the string is in the language of
    the pattern, and no match of the language starts before the one it
    returns. *)
Theorem exec_complete r s :
  (exec r s = None ↔
     ∀ pre p c post, s = pre +:+ p +:+ post → ¬ matches r p c) ∧
  (∀ m pre p c post, exec r s = Some m → s = pre +:+ p +:+ post →
     matches r p c → index m ≤ String.length pre).
Proof.
  split; [split|].
  - intros Hn pre p c post -> Hp.
    destruct (search_complete r pre p c post 0 Hp) as (m & Hm & _).
    unfold exec in Hn. congruence.
  - intros Hno. destruct (exec r s) as [m|] eqn:Hm; [|done].
    apply search_sound in Hm as (pre & Hs & _ & Hp).
    by destruct (Hno _ _ (groups m) _ Hs).
  - intros m pre p c post Hm -> Hp.
    destruct (search_complete r pre p c post 0 Hp) as (m' & Hm' & Hi).
    unfold exec in Hm. by simplify_eq.
Qed.

End exec_theorems.

(** ** Theorems: the global replace *)

Section replace_theorems.
Import Re.

Lemma exec_length r s m :
  exec r s = Some m →
  String.length s =
    index m + String.length (matched m) + String.length (rest m).
Proof.
  intros (pre & Hs & Hi & _)%search_sound. rewrite Hs at 1.
  rewrite !string_app_length. simpl in Hi. lia.
Qed.

Lemma matched_nonempty (p : string) : p ≠ "" → 0 < String.length p.
Proof. destruct p; [done|simpl; lia]. Qed.

(** Termination of the global replace.  The loop makes at most one
    search per character of the string and one more: with more fuel than
    the string has characters it returns, and the result does not depend
    on how much more. *)
Theorem replace_loop_terminates r tmpl s fuel :
  String.length s < fuel →
  ∃ t, replace_loop fuel r tmpl s = Some t ∧
       ∀ fuel', String.length s < fuel' → replace_loop fuel' r tmpl s = Some t.
Proof.
  revert s. induction fuel as [|fuel IH]; intros s Hf; [lia|]. simpl.
  destruct (exec r s) as [m|] eqn:Hm.
  - pose proof (exec_length _ _ _ Hm) as Hl.
    case_decide as He; [destruct (rest m) as [|c s'] eqn:Hr|].
    + eexists. split; [done|]. intros [|f] ?; [lia|]. simpl.
      by rewrite Hm, decide_True, Hr.
    + simpl in Hl. destruct (IH s' ltac:(lia)) as (t & -> & Ht).
      eexists. split; [done|]. intros [|f] ?; [lia|]. simpl.
      rewrite Hm, decide_True, Hr by done. by rewrite Ht by lia.
    + apply matched_nonempty in He as Hpos.
      destruct (IH (rest m) ltac:(lia)) as (t & -> & Ht).
      eexists. split; [done|]. intros [|f] ?; [lia|]. simpl.
      rewrite Hm, decide_False by done. by rewrite Ht by lia.
  - eexists. split; [done|]. intros [|f] ?; [lia|]. simpl. by rewrite Hm.
Qed.

(** The equation of [replace_all]. *)
Lemma replace_all_unfold r tmpl s :
  replace_all r tmpl s =
  match exec r s with
  | None => s
  | Some m =>
      take (index m) s +:+ expand tmpl m +:+
      (if decide (matched m = "")
       then match rest m with
            | EmptyString => ""
            | String c s' => String c (replace_all r tmpl s')
            end
       else replace_all r tmpl (rest m))
  end.
Proof.
  unfold replace_all at 1. simpl.
  destruct (exec r s) as [m|] eqn:Hm; [|done].
  pose proof (exec_length _ _ _ Hm) as Hl.
  case_decide as He; [destruct (rest m) as [|c s'] eqn:Hr|].
  - simpl. by rewrite string_app_nil_r.
  - simpl in Hl.
    destruct (replace_loop_terminates r tmpl s' (String.length s)
                ltac:(lia)) as (t & -> & Ht).
    unfold replace_all. rewrite Ht by lia. simpl.
    by rewrite string_app_assoc.
  - apply matched_nonempty in He as Hpos.
    destruct (replace_loop_terminates r tmpl (rest m) (String.length s)
                ltac:(lia)) as (t & -> & Ht).
    unfold replace_all. rewrite Ht by lia. simpl.
    by rewrite string_app_assoc.
Qed.

(** A string without a match is left as it is. *)
Lemma replace_all_no_match r tmpl s :
  exec r s = None → replace_all r tmpl s = s.
Proof. intros Hn. by rewrite replace_all_unfold, Hn. Qed.

Lemma replace_first_no_match r tmpl s :
  exec r s = None → replace_first r tmpl s = s.
Proof. unfold replace_first. by intros ->. Qed.

End replace_theorems.

(** ** Reading a match *)

Section group_lemmas.
Import Re.

(** The value of a group is what its last capture took. *)
Lemma group_last name v caps m :
  groups m = caps ++ [(name, v)] → group name m = Some v.
Proof.
  unfold group. intros ->. rewrite reverse_snoc.
  by rewrite filter_cons_True.
Qed.

Lemma group_nil name m : groups m = [] → group name m = None.
Proof. unfold group. by intros ->. Qed.

Lemma length_pos_nonempty (p : string) : 1 ≤ String.length p → p ≠ "".
Proof. destruct p; simpl; [lia|done]. Qed.

End group_lemmas.

(** ** Theorems: anchored patterns *)

Section anchor_theorems.
Import Re.

(** Without [$] the anchored matcher is the plain one. *)
Lemma match_at_false r s : match_at false r s = match_here r s.
Proof. reflexivity. Qed.

Lemma search_at_false r s i : search_at false r s i = search r s i.
Proof. revert i. induction s as [|c s IH]; intros i; simpl; by rewrite ?IH. Qed.

Lemma exec_with_plain r s :
  exec_with {| at_start := false; at_end := false |} r s = exec r s.
Proof. apply search_at_false. Qed.

Lemma accept_Some e s' caps x :
  accept e s' caps = Some x → x = (s', caps) ∧ (e = true → s' = "").
Proof.
  unfold accept. destruct e; simpl; [case_bool_decide|]; by intros [= <-].
Qed.

Lemma accept_is_Some e s' caps : (e = true → s' = "") → is_Some (accept e s' caps).
Proof.
  unfold accept. destruct e; simpl; [|by eauto].
  intros ->; [|done]. by eauto.
Qed.

Lemma match_at_sound e r s s' caps :
  match_at e r s = Some (s', caps) →
  s = consumed s s' +:+ s' ∧ matches r (consumed s s') caps ∧
  (e = true → s' = "").
Proof.
  intros (p & s1 & c & -> & Hp & [[= <- <-] He]%accept_Some)%run_sound.
  by rewrite consumed_app.
Qed.

Lemma match_at_complete e r p c s' :
  matches r p c → (e = true → s' = "") → is_Some (match_at e r (p +:+ s')).
Proof.
  intros Hp He. eapply run_complete; [done|].
  intros caps'. by apply accept_is_Some.
Qed.

Lemma search_at_sound e r s i m :
  search_at e r s i = Some m →
  ∃ pre, s = pre +:+ matched m +:+ rest m ∧
         index m = i + String.length pre ∧
         matches r (matched m) (groups m) ∧
         (e = true → rest m = "").
Proof.
  revert i. induction s as [|c s IH]; intros i; simpl;
    destruct (match_at e r _) as [[s' caps]|] eqn:Hh; try done.
  1,2: intros [= <-]; apply match_at_sound in Hh as (Hs & Hp & He);
       exists ""; simpl; rewrite string_app_nil_l;
       (split; [done|split; [lia|done]]).
  intros (pre & -> & Hi & Hp)%IH. exists (String c pre).
  split; [done|]. split; [simpl; lia|done].
Qed.

Lemma search_at_complete e r pre p c post i :
  matches r p c → (e = true → post = "") →
  ∃ m, search_at e r (pre +:+ p +:+ post) i = Some m ∧
       index m ≤ i + String.length pre.
Proof.
  intros Hp He. revert i. induction pre as [|a pre IH]; intros i.
  - rewrite string_app_nil_l.
    destruct (match_at_complete e r p c post Hp He) as [[s' caps] Hh].
    exists {| index := i; matched := consumed (p +:+ post) s';
              groups := caps; rest := s' |}.
    split; [|simpl; lia]. destruct (p +:+ post); simpl; by rewrite Hh.
  - rewrite string_app_cons. simpl.
    destruct (match_at e r _) as [[s' caps]|].
    + eexists. split; [done|]. simpl. lia.
    + destruct (IH (S i)) as (m & -> & Hi). exists m. split; [done|lia].
Qed.

(** Soundness of the anchored [exec]: what it returns is a match of the
    language of the pattern at the position it reports, at the first
    character under [^] and up to the last under [$]. *)
Theorem exec_with_sound a r s m :
  exec_with a r s = Some m →
  s = take (index m) s +:+ matched m +:+ rest m ∧
  matches r (matched m) (groups m) ∧
  (at_start a = true → index m = 0) ∧
  (at_end a = true → rest m = "").
Proof.
  unfold exec_with. destruct (at_start a).
  - destruct (match_at _ r s) as [[s' caps]|] eqn:Hh; [|done].
    intros [= <-]. apply match_at_sound in Hh as (Hs & Hp & He).
    simpl. rewrite ?take_0, ?string_app_nil_l. by repeat split.
  - intros (pre & Hs & Hi & Hp & He)%search_at_sound.
    repeat split; [|done..]. rewrite Hi. simpl. rewrite Hs at 2.
    by rewrite take_app.
Qed.

(** Completeness of the anchored [exec]: it finds a match whenever a part
    of the string is in the language of the pattern, at the start of the
    string under [^] and at its end under [$]. *)
Theorem exec_with_complete a r pre p c post :
  matches r p c →
  (at_start a = true → pre = "") → (at_end a = true → post = "") →
  is_Some (exec_with a r (pre +:+ p +:+ post)).
Proof.
  intros Hp Hs He. unfold exec_with. destruct (at_start a).
  - rewrite Hs, string_app_nil_l by done.
    by destruct (match_at_complete (at_end a) r p c post Hp He) as [[s' caps] ->].
  - destruct (search_at_complete (at_end a) r pre p c post 0 Hp He)
      as (m & -> & _). by eauto.
Qed.

Lemma replace_with_no_match a r tmpl s :
  exec_with a r s = None → replace_with a r tmpl s = s.
Proof. unfold replace_with. by intros ->. Qed.

(** The replacement of an anchored pattern changes what lies between the
    text before the match and the text after it. *)
Lemma replace_with_match a r tmpl s m :
  exec_with a r s = Some m →
  replace_with a r tmpl s = take (index m) s +:+ expand tmpl m +:+ rest m.
Proof. unfold replace_with. by intros ->. Qed.

(** The language of a literal under the [i] flag: the strings that are
    the literal up to the case of its letters. *)
Lemma same_letter_refl a : same_letter a a = true.
Proof. unfold same_letter. apply N.eqb_refl. Qed.

Lemma Lit_i_self l : matches (Lit_i l) l [].
Proof.
  induction l as [|a l IH]; simpl; [constructor|].
  apply (matches_Seq _ _ (String a "") l [] []); [|done].
  constructor. apply same_letter_refl.
Qed.

Lemma Lit_i_length l p c :
  matches (Lit_i l) p c → String.length p = String.length l ∧ c = [].
Proof.
  revert p c. induction l as [|a l IH]; intros p c Hm; simpl in Hm.
  - by inversion Hm.
  - inversion Hm as [| | | |r1 r2 p1 p2 c1 c2 H1 H2| |]; subst.
    inversion H1; subst. apply IH in H2 as [Hl ->]. simpl. auto.
Qed.

End anchor_theorems.

(** [invert_matches] takes the hypotheses that a string is in the language
    of a sequence, a group, a literal or a repetition apart. *)
Ltac invert_matches :=
  repeat match goal with
  | H : Re.matches (Re.Seq _ _) _ _ |- _ => inversion H; subst; clear H
  | H : Re.matches (Re.Group _ _) _ _ |- _ => inversion H; subst; clear H
  | H : Re.matches (Re.Lit _) _ _ |- _ => inversion H; subst; clear H
  | H : Re.matches (Re.Rep _ _ _) _ _ |- _ => inversion H; subst; clear H
  | H : Re.matches (Re.Chr _) _ _ |- _ => inversion H; subst; clear H
  end.
