(* ===== verification/Markdown.v ===== *)
(** * Markdown: the pull-request body as CodeCommit renders it

    [massageMarkdown] of [index.ts] rewrites the body Renovate composes
    for a pull request: the hint about the rebase checkbox, the HTML tags
    CodeCommit does not render, the rebase-check paragraph, the links to
    other pull requests and the hidden debug comment.  It is a chain of
    six [String.prototype.replace] calls; each pattern is a value of the
    regular-expression fragment of [Regex], each call is [Re.replace_first]
    or, for a pattern with the [g] flag, [Re.replace_all]. *)

From S2P Require Import Prelude JsValue Regex.
Import Re.

(** ** The patterns and their replacements *)

(** ['you tick the rebase/retry checkbox'] *)
Definition rebase_hint : string := "you tick the rebase/retry checkbox".

(** ['rename PR to start with "rebase!"'] *)
Definition rebase_hint_codecommit : string :=
  "rename PR to start with " +:+ Js.DQ +:+ "rebase!" +:+ Js.DQ.

(** [/<\/?summary>/g] *)
Definition summary_tag : re :=
  Seq (Lit "<") (Seq (Opt (Lit "/")) (Lit "summary>")).

(** [/<\/?details>/g] *)
Definition details_tag : re :=
  Seq (Lit "<") (Seq (Opt (Lit "/")) (Lit "details>")).

(** [`\n---\n\n.*?<!-- rebase-check -->.*?\n`] *)
Definition rebase_check : re :=
  Seq (Lit (Js.LF +:+ "---" +:+ Js.LF +:+ Js.LF))
    (Seq (Rep dot 0 false)
       (Seq (Lit "<!-- rebase-check -->")
          (Seq (Rep dot 0 false) (Lit Js.LF)))).

(** [/\]\(\.\.\/pull\//g] *)
Definition pull_link : re := Lit "](../pull/".

(** ['](../../pull-requests/'] *)
Definition pull_requests_link : string := "](../../pull-requests/".

(** [/(?<hiddenComment><!--renovate-debug:.*?-->)/] *)
Definition hidden_comment : re :=
  Group "hiddenComment"
    (Seq (Lit "<!--renovate-debug:") (Seq (Rep dot 0 false) (Lit "-->"))).

(** ['[//]: # ($<hiddenComment>)'] *)
Definition hidden_comment_link : list piece :=
  [Text "[//]: # ("; Ref "hiddenComment"; Text ")"].

(** ** The function *)

(** The first five replacements: the rebase hint, the tags, the
    rebase-check paragraph and the links. *)
Definition massage_html (input : string) : string :=
  let s1 := replace_first (Lit rebase_hint) [Text rebase_hint_codecommit] input in
  let s2 := replace_all summary_tag [Text "**"] s1 in
  let s3 := replace_all details_tag [] s2 in
  let s4 := replace_first rebase_check [] s3 in
  replace_all pull_link [Text pull_requests_link] s4.

Definition massageMarkdown (input : string) : string :=
  replace_first hidden_comment hidden_comment_link (massage_html input).

(** ** The body of the unit test *)

Definition test_markdown : string :=
  "<details><summary>foo</summary>bar</details>text<details>" +:+ Js.LF +:+
  "<!--renovate-debug:hiddenmessage123-->".

Definition test_massaged : string :=
  "**foo**bartext" +:+ Js.LF +:+
  "[//]: # (<!--renovate-debug:hiddenmessage123-->)".

(** ** Lemmas *)

Lemma hidden_comment_matches p c :
  matches hidden_comment p c →
  ∃ x, p = "<!--renovate-debug:" +:+ x +:+ "-->" ∧
       c = [("hiddenComment", p)] ∧ all_in dot x = true.
Proof. unfold hidden_comment. intros Hm. invert_matches. by eexists. Qed.

Lemma massage_html_plain input :
  exec (Lit rebase_hint) input = None →
  exec summary_tag input = None →
  exec details_tag input = None →
  exec rebase_check input = None →
  exec pull_link input = None →
  massage_html input = input.
Proof.
  intros H1 H2 H3 H4 H5. unfold massage_html.
  rewrite (replace_first_no_match _ _ _ H1), (replace_all_no_match _ _ _ H2),
    (replace_all_no_match _ _ _ H3), (replace_first_no_match _ _ _ H4).
  by apply replace_all_no_match.
Qed.

(** ** Theorems *)

(** The body of the unit test: the tags go, the summary is set in
    bold and the debug comment becomes a link reference definition. *)
Example massageMarkdown_test : massageMarkdown test_markdown = test_massaged.
Proof. vm_compute. reflexivity. Qed.

(** A body in which none of the six patterns occurs is returned as
    it is. *)
Theorem massageMarkdown_plain input :
  exec (Lit rebase_hint) input = None →
  exec summary_tag input = None →
  exec details_tag input = None →
  exec rebase_check input = None →
  exec pull_link input = None →
  exec hidden_comment input = None →
  massageMarkdown input = input.
Proof.
  intros H1 H2 H3 H4 H5 H6. unfold massageMarkdown.
  rewrite massage_html_plain by done. by apply replace_first_no_match.
Qed.


(** The first debug comment of the body, which runs from its marker
    to the first [-->] on the same line, is kept word for word inside a
    link reference definition; the text before and after it is that of
    the body after the other replacements. *)
Theorem massageMarkdown_hides_comment input m :
  exec hidden_comment (massage_html input) = Some m →
  ∃ x, matched m = "<!--renovate-debug:" +:+ x +:+ "-->" ∧
       all_in dot x = true ∧
       massageMarkdown input =
         take (index m) (massage_html input) +:+
         "[//]: # (" +:+ matched m +:+ ")" +:+ rest m.
Proof.
  intros Hm. unfold massageMarkdown, replace_first. rewrite Hm.
  apply exec_sound in Hm as [_ (x & Hx & Hc & Ha)%hidden_comment_matches].
  exists x. split; [done|]. split; [done|].
  unfold hidden_comment_link, expand. simpl.
  rewrite (group_last "hiddenComment" (matched m) [] m Hc). simpl.
  by rewrite !string_app_assoc.
Qed.

(** The debug comment is still in the result, so that massaging a
    massaged body wraps it once more. *)
Example massageMarkdown_twice :
  massageMarkdown (massageMarkdown test_markdown) =
  "**foo**bartext" +:+ Js.LF +:+
  "[//]: # ([//]: # (<!--renovate-debug:hiddenmessage123-->))".
Proof. vm_compute. reflexivity. Qed.

(** The tags are removed in one pass from left to right: a tag that
    the removal of another one puts together stays in the result. *)
Example massageMarkdown_leaves_tag :
  massageMarkdown "<det<details>ails>open</details>" = "<details>open".
Proof. vm_compute. reflexivity. Qed.

Lemma massageMarkdown_plain_witness :
  massageMarkdown "Update dependency lodash to v4" =
  "Update dependency lodash to v4".
Proof. by apply massageMarkdown_plain. Defined.

Lemma massageMarkdown_hides_comment_witness :
  ∃ x, "<!--renovate-debug:hiddenmessage123-->" =
         "<!--renovate-debug:" +:+ x +:+ "-->" ∧
       all_in dot x = true ∧
       massageMarkdown test_markdown =
         take 15 (massage_html test_markdown) +:+
         "[//]: # (" +:+ "<!--renovate-debug:hiddenmessage123-->" +:+ ")" +:+ "".
Proof.
  exact (massageMarkdown_hides_comment test_markdown
           {| index := 15; matched := "<!--renovate-debug:hiddenmessage123-->";
              groups := [("hiddenComment",
                          "<!--renovate-debug:hiddenmessage123-->")];
              rest := "" |} eq_refl).
Defined.
