(* ===== verification/Effect.v ===== *)
(** * The effect monad of the handlers

    Every exported function of the adapter is an [async] function: it runs
    sequentially, reads and writes module state, awaits calls that either
    resolve or reject, and may catch a rejection.  A handler is therefore a
    function from the state to an outcome and the next state.  A rejected
    promise and a thrown exception are the same thing to an [await], so
    both are [Throw].  State changes made before a throw persist, as they
    do in the source.

    The file defines the monad, its notation (scope [eff_scope]), the
    [for ... of] loop with [break] and [continue], pointwise equivalence of
    computations with its [Proper] instances, and the equations that run a
    computation one step. *)

From S2P Require Import Prelude.

(** ** Exceptions and outcomes *)

(** What a handler can throw: a [TypeError] of the language (a property
    read on [undefined]), the rejection of a call to a collaborator, which
    carries its message, an [Error] the adapter constructs itself, or a
    [RangeError] of the language (the ISO text of an invalid date). *)
Inductive exn : Type :=
| TypeError
| RemoteError (message : string)
| Error (message : string)
| RangeError.

#[export] Instance exn_eq_dec : EqDecision exn.
Proof. solve_decision. Defined.

Inductive outcome (A : Type) : Type :=
| Ok (a : A)
| Throw (e : exn).

Arguments Ok {A} a.
Arguments Throw {A} e.

Definition is_Ok {A} (o : outcome A) : bool :=
  match o with Ok _ => true | Throw _ => false end.

(** Control after one iteration of a loop body: go on, or [break]. *)
Inductive ctl (B : Type) : Type :=
| Continue (b : B)
| Break (b : B).

Arguments Continue {B} b.
Arguments Break {B} b.

(** ** The monad *)

Definition M (S A : Type) : Type := S → outcome A * S.

Section monad.
Context {S : Type}.

Definition ret {A} (a : A) : M S A := λ s, (Ok a, s).

Definition throw {A} (e : exn) : M S A := λ s, (Throw e, s).

Definition bind {A B} (c : M S A) (k : A → M S B) : M S B :=
  λ s, match c s with
       | (Ok a, s') => k a s'
       | (Throw e, s') => (Throw e, s')
       end.

(** [try { c } catch (err) { h err }] *)
Definition try_catch {A} (c : M S A) (h : exn → M S A) : M S A :=
  λ s, match c s with
       | (Ok a, s') => (Ok a, s')
       | (Throw e, s') => h e s'
       end.

(** The outcome of [c] as a value: what a [try] block whose [catch]
    returns from the function needs. *)
Definition attempt {A} (c : M S A) : M S (outcome A) :=
  λ s, let '(r, s') := c s in (Ok r, s').

Definition get : M S S := λ s, (Ok s, s).

Definition gets {A} (f : S → A) : M S A := λ s, (Ok (f s), s).

Definition modify (f : S → S) : M S unit := λ s, (Ok tt, f s).

(** [o.p] where [o] may be [undefined]: reading a property of [undefined]
    throws a [TypeError]. *)
Definition deref {A} (o : option A) : M S A :=
  match o with
  | Some a => ret a
  | None => throw TypeError
  end.

(** [for (const x of l) { body }] with local variables [b]; the body says
    whether the loop goes on or breaks. *)
Fixpoint for_of {A B} (l : list A) (body : A → B → M S (ctl B)) (b : B)
  : M S B :=
  match l with
  | [] => ret b
  | x :: l' =>
      bind (body x b) (λ r,
        match r with
        | Continue b' => for_of l' body b'
        | Break b' => ret b'
        end)
  end.

(** Pointwise equality of computations. *)
Definition eqM {A} (c1 c2 : M S A) : Prop := ∀ s, c1 s = c2 s.

(** A computation that no exception escapes. *)
Definition never_throws {A} (c : M S A) : Prop :=
  ∀ s, ∃ a s', c s = (Ok a, s').

(** A computation that leaves the state as it found it. *)
Definition read_only {A} (c : M S A) : Prop :=
  ∀ s, (c s).2 = s.

(** A computation that takes every state to one related to it by [Q],
    whether it returns or throws. *)
Definition respects {A} (Q : relation S) (c : M S A) : Prop :=
  ∀ s, Q s (c s).2.

End monad.

Declare Scope eff_scope.
Delimit Scope eff_scope with eff.
Bind Scope eff_scope with M.

Notation "x <- c ;; k" := (bind c (λ x, k))
  (at level 100, c at next level, right associativity) : eff_scope.
Notation "c ;; k" := (bind c (λ _, k))
  (at level 100, right associativity) : eff_scope.
Notation "'try' c 'catch' h" := (try_catch c h)
  (at level 100, c at next level, right associativity) : eff_scope.
Infix "≡ₘ" := eqM (at level 70, no associativity) : eff_scope.

#[global] Open Scope eff_scope.

(** ** Equations *)

Section laws.
Context {S : Type}.
Implicit Types s : S.

Lemma bind_ret_l {A B} (a : A) (k : A → M S B) s : bind (ret a) k s = k a s.
Proof. reflexivity. Qed.

Lemma bind_throw {A B} (e : exn) (k : A → M S B) s :
  bind (throw e) k s = (Throw e, s).
Proof. reflexivity. Qed.

Lemma bind_ret_r {A} (c : M S A) s : bind c ret s = c s.
Proof. unfold bind. by destruct (c s) as [[]]. Qed.

Lemma bind_assoc {A B C} (c : M S A) (k : A → M S B) (h : B → M S C) s :
  bind (bind c k) h s = bind c (λ a, bind (k a) h) s.
Proof. unfold bind. by destruct (c s) as [[]]. Qed.

Lemma bind_Ok {A B} (c : M S A) (k : A → M S B) s a s' :
  c s = (Ok a, s') → bind c k s = k a s'.
Proof. unfold bind. by intros ->. Qed.

Lemma bind_Throw {A B} (c : M S A) (k : A → M S B) s e s' :
  c s = (Throw e, s') → bind c k s = (Throw e, s').
Proof. unfold bind. by intros ->. Qed.

Lemma bind_inv_Ok {A B} (c : M S A) (k : A → M S B) s b s2 :
  bind c k s = (Ok b, s2) → ∃ a s1, c s = (Ok a, s1) ∧ k a s1 = (Ok b, s2).
Proof. unfold bind. destruct (c s) as [[a|e] s1]; [eauto|done]. Qed.

Lemma bind_inv_Throw {A B} (c : M S A) (k : A → M S B) s e s2 :
  bind c k s = (Throw e, s2) →
  c s = (Throw e, s2) ∨ ∃ a s1, c s = (Ok a, s1) ∧ k a s1 = (Throw e, s2).
Proof. unfold bind. destruct (c s) as [[a|e'] s1]; [eauto|]. intros [= -> ->]. eauto. Qed.

Lemma try_catch_Ok {A} (c : M S A) h s a s' :
  c s = (Ok a, s') → try_catch c h s = (Ok a, s').
Proof. unfold try_catch. by intros ->. Qed.

Lemma try_catch_Throw {A} (c : M S A) h s e s' :
  c s = (Throw e, s') → try_catch c h s = h e s'.
Proof. unfold try_catch. by intros ->. Qed.

Lemma try_catch_ret {A} (a : A) (h : exn → M S A) s :
  try_catch (ret a) h s = (Ok a, s).
Proof. reflexivity. Qed.

Lemma try_catch_throw {A} (e : exn) (h : exn → M S A) s :
  try_catch (throw e) h s = h e s.
Proof. reflexivity. Qed.

Lemma attempt_run {A} (c : M S A) s : attempt c s = (Ok (c s).1, (c s).2).
Proof. unfold attempt. by destruct (c s). Qed.

Lemma bind_attempt {A B} (c : M S A) (k : outcome A → M S B) s :
  bind (attempt c) k s = k (c s).1 (c s).2.
Proof. unfold bind, attempt. by destruct (c s). Qed.

Lemma attempt_try_catch {A} (c : M S A) (h : exn → M S A) s :
  try_catch c h s =
  bind (attempt c) (λ r, match r with Ok a => ret a | Throw e => h e end) s.
Proof. unfold try_catch, bind, attempt. by destruct (c s) as [[]]. Qed.

Lemma never_throws_attempt {A} (c : M S A) : never_throws (attempt c).
Proof. intros s. rewrite attempt_run. by eexists _, _. Qed.

Lemma deref_Some {A} (a : A) s : deref (Some a) s = (Ok a, s).
Proof. reflexivity. Qed.

Lemma deref_None {A} s : deref (@None A) s = (Throw TypeError, s).
Proof. reflexivity. Qed.

Lemma for_of_nil {A B} (body : A → B → M S (ctl B)) b s :
  for_of [] body b s = (Ok b, s).
Proof. reflexivity. Qed.

Lemma for_of_cons {A B} x l (body : A → B → M S (ctl B)) b s :
  for_of (x :: l) body b s =
  bind (body x b) (λ r, match r with
                        | Continue b' => for_of l body b'
                        | Break b' => ret b'
                        end) s.
Proof. reflexivity. Qed.

(** The invariant rule of the loop: a relation between the part of the
    list already visited, the locals and the state that holds at the start
    and is kept by each iteration that returns holds when the loop
    returns.  On [break] the rest of the list is not visited. *)
Lemma for_of_invariant {A B} (I : list A → B → S → Prop)
    (body : A → B → M S (ctl B)) l b s b' s' :
  I [] b s →
  (∀ done x b s b1 s1, I done b s →
     body x b s = (Ok (Continue b1), s1) → I (done ++ [x]) b1 s1) →
  (∀ done x b s b1 s1, I done b s →
     body x b s = (Ok (Break b1), s1) → I (done ++ [x]) b1 s1) →
  for_of l body b s = (Ok b', s') →
  ∃ done rest, l = done ++ rest ∧ I done b' s'.
Proof.
  intros H0 Hc Hb. cut (∀ done b s, I done b s →
    for_of l body b s = (Ok b', s') →
    ∃ done' rest, done ++ l = done' ++ rest ∧ I done' b' s').
  { intros Hcut Hrun. apply (Hcut [] b s H0 Hrun). }
  clear H0 b s. induction l as [|x l IH]; intros done b s HI; simpl.
  - intros [= <- <-]. by exists done, [].
  - intros (r & s1 & Hr & Hk)%bind_inv_Ok. destruct r as [b1|b1].
    + destruct (IH (done ++ [x]) b1 s1) as (d & rest & Hd & HId); eauto.
      exists d, rest. by rewrite <-Hd, <-app_assoc.
    + injection Hk as <- <-. exists (done ++ [x]), l.
      split; [by rewrite <-app_assoc|eauto].
Qed.

(** The same rule for a body that never breaks: the invariant holds of the
    whole list. *)
Lemma for_of_invariant_nobreak {A B} (I : list A → B → S → Prop)
    (body : A → B → M S (ctl B)) l b s b' s' :
  I [] b s →
  (∀ done x b s r s1, I done b s → body x b s = (Ok r, s1) →
     ∃ b1, r = Continue b1 ∧ I (done ++ [x]) b1 s1) →
  for_of l body b s = (Ok b', s') →
  I l b' s'.
Proof.
  intros H0 Hc. cut (∀ done b s, I done b s →
    for_of l body b s = (Ok b', s') → I (done ++ l) b' s').
  { intros Hcut Hrun. apply (Hcut [] b s H0 Hrun). }
  clear H0 b s. induction l as [|x l IH]; intros done b s HI; simpl.
  - intros [= <- <-]. by rewrite app_nil_r.
  - intros (r & s1 & Hr & Hk)%bind_inv_Ok.
    destruct (Hc _ _ _ _ _ _ HI Hr) as (b1 & -> & HI1).
    rewrite (assoc_L _ done [x] l : done ++ x :: l = (done ++ [x]) ++ l).
    by apply (IH _ b1 s1).
Qed.

(** A loop over [l1 ++ l2] whose body never breaks on [l1] runs [l1] to its
    end and goes on with [l2]. *)
Lemma for_of_app_Continue {A B} l1 l2 (body : A → B → M S (ctl B)) b s b1 s1 :
  (∀ x b s, x ∈ l1 → ∃ b' s', body x b s = (Ok (Continue b'), s')) →
  for_of l1 body b s = (Ok b1, s1) →
  for_of (l1 ++ l2) body b s = for_of l2 body b1 s1.
Proof.
  intros Hc. revert b s.
  induction l1 as [|x l1 IH]; intros b s; simpl; [by intros [= -> ->]|].
  destruct (Hc x b s ltac:(left)) as (b' & s' & Hb).
  rewrite !(bind_Ok _ _ _ _ _ Hb). apply IH.
  intros y ? ? ?. apply Hc. by right.
Qed.

(** *** Exceptions that cannot escape *)

Lemma never_throws_ret {A} (a : A) : never_throws (S:=S) (ret a).
Proof. intros s. by eexists _, _. Qed.

Lemma never_throws_bind {A B} (c : M S A) (k : A → M S B) :
  never_throws c → (∀ a, never_throws (k a)) → never_throws (bind c k).
Proof.
  intros Hc Hk s. destruct (Hc s) as (a & s' & Hs).
  rewrite (bind_Ok _ _ _ _ _ Hs). apply Hk.
Qed.

Lemma never_throws_try_catch {A} (c : M S A) (h : exn → M S A) :
  (∀ e, never_throws (h e)) → never_throws (try_catch c h).
Proof.
  intros Hh s. unfold try_catch.
  destruct (c s) as [[a|e] s']; [by eexists _, _|apply Hh].
Qed.

Lemma never_throws_gets {A} (f : S → A) : never_throws (gets f).
Proof. intros s. by eexists _, _. Qed.

Lemma never_throws_modify (f : S → S) : never_throws (modify f).
Proof. intros s. by eexists _, _. Qed.

(** *** Relations every step respects

    A preorder of the states that the steps of a computation respect is
    respected by the computation: the rules of sequencing, [try], the
    loop and the rest, proved once for every such relation. *)

Section respects.
Context (Q : relation S) `{!PreOrder Q}.

Lemma respects_read_only {A} (c : M S A) : read_only c → respects Q c.
Proof. intros Hc s. by rewrite Hc. Qed.

Lemma respects_ret {A} (a : A) : respects Q (ret a).
Proof. by apply respects_read_only. Qed.

Lemma respects_throw {A} e : respects Q (throw e : M S A).
Proof. by apply respects_read_only. Qed.

Lemma respects_gets {A} (f : S → A) : respects Q (gets f).
Proof. by apply respects_read_only. Qed.

Lemma respects_deref {A} (o : option A) : respects Q (deref o).
Proof. apply respects_read_only. by destruct o. Qed.

Lemma respects_bind {A B} (c : M S A) (k : A → M S B) :
  respects Q c → (∀ a, respects Q (k a)) → respects Q (bind c k).
Proof.
  intros Hc Hk s. unfold bind. specialize (Hc s).
  destruct (c s) as [[a|e] s1]; simpl in *; [|done].
  by etrans; [|apply Hk].
Qed.

Lemma respects_try_catch {A} (c : M S A) (h : exn → M S A) :
  respects Q c → (∀ e, respects Q (h e)) → respects Q (try_catch c h).
Proof.
  intros Hc Hh s. unfold try_catch. specialize (Hc s).
  destruct (c s) as [[a|e] s1]; simpl in *; [done|].
  by etrans; [|apply Hh].
Qed.

Lemma respects_attempt {A} (c : M S A) : respects Q c → respects Q (attempt c).
Proof. intros Hc s. rewrite attempt_run. apply Hc. Qed.

Lemma respects_for_of {A B} (l : list A) (body : A → B → M S (ctl B)) b :
  (∀ x b, respects Q (body x b)) → respects Q (for_of l body b).
Proof.
  intros Hb. revert b. induction l as [|x l IH]; intros b; simpl.
  - apply respects_ret.
  - apply respects_bind; [apply Hb|].
    intros [b'|b']; [apply IH|apply respects_ret].
Qed.

End respects.

(** *** Pointwise equivalence *)

#[export] Instance eqM_equivalence {A} : Equivalence (@eqM S A).
Proof.
  split; [by intros ??|by intros ????|].
  intros c1 c2 c3 H12 H23 s. by rewrite H12.
Qed.

#[export] Instance bind_proper {A B} :
  Proper (eqM ==> pointwise_relation A eqM ==> eqM) (@bind S A B).
Proof.
  intros c1 c2 Hc k1 k2 Hk s. unfold bind. rewrite Hc.
  destruct (c2 s) as [[a|e] s']; [apply Hk|done].
Qed.

#[export] Instance try_catch_proper {A} :
  Proper (eqM ==> pointwise_relation exn eqM ==> eqM) (@try_catch S A).
Proof.
  intros c1 c2 Hc h1 h2 Hh s. unfold try_catch. rewrite Hc.
  destruct (c2 s) as [[a|e] s']; [done|apply Hh].
Qed.

Lemma eqM_bind_ret_l {A B} (a : A) (k : A → M S B) : bind (ret a) k ≡ₘ k a.
Proof. by intros s. Qed.

Lemma eqM_bind_ret_r {A} (c : M S A) : bind c ret ≡ₘ c.
Proof. intros s. apply bind_ret_r. Qed.

Lemma eqM_bind_assoc {A B C} (c : M S A) (k : A → M S B) (h : B → M S C) :
  bind (bind c k) h ≡ₘ bind c (λ a, bind (k a) h).
Proof. intros s. apply bind_assoc. Qed.

(** A [try] around a computation that cannot throw does nothing. *)
Lemma eqM_try_never_throws {A} (c : M S A) h :
  never_throws c → try_catch c h ≡ₘ c.
Proof.
  intros Hc s. destruct (Hc s) as (a & s' & Hs).
  by rewrite (try_catch_Ok _ _ _ _ _ Hs).
Qed.

End laws.

#[export] Hint Rewrite @bind_ret_l @bind_throw @try_catch_ret @try_catch_throw
  @deref_Some @deref_None @for_of_nil : eff.

#[export] Hint Resolve never_throws_ret never_throws_bind
  never_throws_try_catch never_throws_gets never_throws_modify
  never_throws_attempt : adapter.

Create HintDb respects.

#[export] Hint Resolve respects_ret respects_throw respects_gets
  respects_deref : respects.

(** [respects_step] takes a [respects] goal apart along the structure of
    the computation; [solve_respects] does so down to the steps that
    change the state, which the hints of the database [respects]
    settle. *)
Ltac respects_step :=
  match goal with
  | |- ∀ _, _ => intro
  | |- respects _ (bind _ _) => apply respects_bind; [apply _|..]
  | |- respects _ (try_catch _ _) => apply respects_try_catch; [apply _|..]
  | |- respects _ (for_of _ _ _) => apply respects_for_of; [apply _|..]
  | |- respects _ (attempt _) => apply respects_attempt
  | |- respects _ (match ?x with _ => _ end) => destruct x
  | |- respects _ (if ?b then _ else _) => destruct b
  end.

Ltac solve_respects :=
  repeat first
    [ respects_step | solve [eauto with respects typeclass_instances] ].

(** [eff_step H] rewrites with the run [H : c s = (r, s')] of the first
    computation of a sequence or of a [try] block. *)
Ltac eff_step H :=
  first [ rewrite (bind_Ok _ _ _ _ _ H)
        | rewrite (bind_Throw _ _ _ _ _ H)
        | rewrite (try_catch_Ok _ _ _ _ _ H)
        | rewrite (try_catch_Throw _ _ _ _ _ H) ].

(** [eff_simpl] runs the pure steps at the head of the goal. *)
Ltac eff_simpl := autorewrite with eff; cbn beta iota.
