(* ===== verification/Sdk.v ===== *)
(** * The collaborators of the adapter

    [index.ts] reaches the service through the functions of
    [./codecommit-client], and cleans and shortens text with [sanitize] and
    [smartTruncate].  None of these is a source file of this repository:
    the adapter is verified against their interface.

    - The records are the response shapes of [@aws-sdk/client-codecommit]
      restricted to the fields [index.ts] reads.  Every field the SDK
      declares optional is an [option]; a response the code guards with
      [?.] or a truthiness test is itself optional.
    - [Call] names one call to the client with its arguments; the trace of
      a run is a list of them.
    - [Client R] is what a backend with state [R] provides: one operation
      per client function, each returning an outcome and the next state.
      A function whose result the adapter reads is given an optional
      result, because an SDK call can resolve to [undefined]; the adapter
      then reads it with [?.] or throws a [TypeError], as the code does.
    - [Utils] provides the two text utilities. *)

From S2P Require Import Prelude JsValue Effect.

(** ** Response shapes *)

Record MergeMetadata : Type := {
  isMerged : option bool;
}.

Record PullRequestTarget : Type := {
  repositoryName : option string;
  sourceReference : option string;
  destinationReference : option string;
  mergeMetadata : option MergeMetadata;
}.

Record PullRequest : Type := {
  pullRequestId : option string;
  title : option string;
  pullRequestStatus : option string;
  revisionId : option string;
  pullRequestTargets : option (list PullRequestTarget);
}.

(** [PullRequestStatusEnum] *)
Definition OPEN : string := "OPEN".
Definition CLOSED : string := "CLOSED".

(** [GetPullRequestOutput], [CreatePullRequestOutput] and
    [UpdatePullRequestStatusOutput] have the same single field. *)
Record GetPullRequestOutput : Type := {
  pullRequest : option PullRequest;
}.

Record ListPullRequestsOutput : Type := {
  pullRequestIds : option (list string);
}.

Record RepositoryMetadata : Type := {
  md_defaultBranch : option string;
  md_repositoryId : option string;
}.

Record GetRepositoryOutput : Type := {
  repositoryMetadata : option RepositoryMetadata;
}.

Record RepositoryNameIdPair : Type := {
  pair_repositoryName : option string;
}.

Record ListRepositoriesOutput : Type := {
  repositories : option (list RepositoryNameIdPair);
}.

Record Comment : Type := {
  commentId : option string;
  content : option string;
}.

Record CommentsForPullRequest : Type := {
  comments : option (list Comment);
}.

Record GetCommentsForPullRequestOutput : Type := {
  commentsForPullRequestData : option (list CommentsForPullRequest);
}.

Record PullRequestSourceReferenceUpdatedEventMetadata : Type := {
  beforeCommitId : option string;
  afterCommitId : option string;
}.

Record PullRequestEvent : Type := {
  pullRequestSourceReferenceUpdatedEventMetadata :
    option PullRequestSourceReferenceUpdatedEventMetadata;
}.

Record DescribePullRequestEventsOutput : Type := {
  pullRequestEvents : option (list PullRequestEvent);
}.

Record CreatePullRequestApprovalRuleOutput : Type := {
  approvalRule : option string;
}.

Record GetFileOutput : Type := {
  fileContent : string;
}.

#[export] Instance MergeMetadata_eq_dec : EqDecision MergeMetadata.
Proof. solve_decision. Defined.
#[export] Instance PullRequestTarget_eq_dec : EqDecision PullRequestTarget.
Proof. solve_decision. Defined.
#[export] Instance PullRequest_eq_dec : EqDecision PullRequest.
Proof. solve_decision. Defined.
#[export] Instance Comment_eq_dec : EqDecision Comment.
Proof. solve_decision. Defined.
#[export] Instance CommentsForPullRequest_eq_dec :
  EqDecision CommentsForPullRequest.
Proof. solve_decision. Defined.

(** [Credentials] of [@aws-sdk/types], with the fields [initPlatform]
    fills. *)
Record Credentials : Type := {
  accessKeyId : string;
  secretAccessKey : string;
  sessionToken : option string;
}.

#[export] Instance Credentials_eq_dec : EqDecision Credentials.
Proof. solve_decision. Defined.

(** [GetUserCommandOutput] of [@aws-sdk/client-iam]. *)
Record IamUser : Type := {
  Arn : option string;
}.

Record GetUserCommandOutput : Type := {
  User : option IamUser;
}.

(** ** Calls *)

(** One call to a collaborator, with the arguments the adapter passes:
    the functions of [codecommit-client], the [GetUserCommand] sent to
    the IAM client and [initRepo] of [util/git].  An argument the adapter
    reads from a field that may be [undefined] is optional. *)
Inductive Call : Type :=
| BuildCodeCommitClient (region : string) (credentials : Credentials)
| GetUser
| GitInitRepo (url : string)
| GetRepositoryInfo (repository : string)
| ListPullRequests (repository userArn : option string)
| GetPr (prId : string)
| ListRepositories
| GetFile (repository : option string) (fileName : string)
    (branchOrTag : option string)
| CreatePr (title : string) (description : string)
    (sourceBranch targetBranch : string) (repository : option string)
| UpdatePrDescription (prId : string) (description : string)
| UpdatePrTitle (prId : string) (title : string)
| UpdatePrStatus (prId : string) (status : string)
| SquashMerge (repositoryName sourceReference destinationReference : option string)
    (commitMessage : option string)
| FastForwardMerge (repositoryName sourceReference destinationReference : option string)
| CreatePrApprovalRule (prId : string) (approvalRuleContent : string)
| GetPrComments (repository : option string) (prId : string)
| GetPrEvents (prId : string)
| CreatePrComment (prId : string) (repository : option string)
    (body : string) (beforeCommitId afterCommitId : string)
| UpdateComment (commentId : string) (body : string)
| DeleteComment (commentId : string).

#[export] Instance Call_eq_dec : EqDecision Call.
Proof. solve_decision. Defined.

(** The calls that change what the service stores. *)
Definition is_mutation (c : Call) : bool :=
  match c with
  | CreatePr _ _ _ _ _ | UpdatePrDescription _ _ | UpdatePrTitle _ _
  | UpdatePrStatus _ _ | SquashMerge _ _ _ _ | FastForwardMerge _ _ _
  | CreatePrApprovalRule _ _ | CreatePrComment _ _ _ _ _
  | UpdateComment _ _ | DeleteComment _ => true
  | _ => false
  end.

Definition is_merge_call (c : Call) : bool :=
  match c with
  | SquashMerge _ _ _ _ | FastForwardMerge _ _ _ => true
  | _ => false
  end.

Definition is_create_comment (c : Call) : bool :=
  match c with CreatePrComment _ _ _ _ _ => true | _ => false end.

Definition is_update_comment (c : Call) : bool :=
  match c with UpdateComment _ _ => true | _ => false end.

Definition is_delete_comment (c : Call) : bool :=
  match c with DeleteComment _ => true | _ => false end.

(** ** The client interface *)

(** A backend with state [R].  Each operation answers from the state,
    resolves or rejects, and leaves the next state. *)
Class Client (R : Type) : Type := {
  cl_getRepositoryInfo :
    string → M R (option GetRepositoryOutput);
  cl_listPullRequests :
    option string → option string → M R (option ListPullRequestsOutput);
  cl_getPr : string → M R (option GetPullRequestOutput);
  cl_listRepositories : M R (option ListRepositoriesOutput);
  cl_getFile :
    option string → string → option string → M R (option GetFileOutput);
  cl_createPr :
    string → string → string → string → option string →
    M R (option GetPullRequestOutput);
  cl_updatePrDescription : string → string → M R unit;
  cl_updatePrTitle : string → string → M R unit;
  cl_updatePrStatus : string → string → M R (option GetPullRequestOutput);
  cl_squashMerge :
    option string → option string → option string → option string →
    M R unit;
  cl_fastForwardMerge :
    option string → option string → option string → M R unit;
  cl_createPrApprovalRule :
    string → string → M R (option CreatePullRequestApprovalRuleOutput);
  cl_getPrComments :
    option string → string → M R (option GetCommentsForPullRequestOutput);
  cl_getPrEvents : string → M R (option DescribePullRequestEventsOutput);
  cl_createPrComment :
    string → option string → string → string → string → M R unit;
  cl_updateComment : string → string → M R unit;
  cl_deleteComment : string → M R unit;
}.

(** ** Text utilities *)

(** [sanitize] of [util/sanitize] and [smartTruncate] of [utils/pr-body]. *)
Class Utils : Type := {
  sanitize : string → string;
  smartTruncate : string → nat → string;
}.

(** What the adapter relies on: truncation respects its bound. *)
Class UtilsLaws `{Utils} : Prop := {
  smartTruncate_length s n : String.length (smartTruncate s n) ≤ n;
}.

(** [getNewBranchName] of [platform/util]: the branch name in the
    [refs/heads/] namespace. *)
Definition getNewBranchName (branchName : string) : string :=
  if Js.startsWith branchName "refs/heads/" then branchName
  else "refs/heads/" +:+ branchName.

Lemma getNewBranchName_prefixed (b : string) :
  Js.startsWith (getNewBranchName b) "refs/heads/" = true.
Proof.
  unfold getNewBranchName. destruct (Js.startsWith b _) eqn:E; [done|].
  apply startsWith_app.
Qed.

Lemma getNewBranchName_idemp (b : string) :
  getNewBranchName (getNewBranchName b) = getNewBranchName b.
Proof.
  unfold getNewBranchName at 1. by rewrite getNewBranchName_prefixed.
Qed.
