(* ===== verification/Mock.v ===== *)
(** * A scripted backend

    The unit tests of the adapter ([index.spec.ts]) replace the SDK client
    by a mock and script it per command: [.on(Cmd).resolvesOnce(r)] and
    [.rejectsOnce(e)] queue one behaviour, [.resolves(r)] sets the
    behaviour that holds once the queue is empty, and a command nobody
    scripted resolves to [undefined].  [Mock] is that mock, and the
    [Client] instance on it is the client module in front of it.

    The instance lets every scenario of the development run by
    computation: a scenario builds a [Mock], runs a handler from it and
    compares the outcome, the trace and the log with what the test
    expects.

    Of the client functions only [getPr] handles a rejection itself: it
    resolves to [undefined] instead (the test "returns null in case input
    is null" rejects the SDK command and expects [getPr] of the adapter,
    which has no [try], to return [null]). *)

From S2P Require Import Prelude JsValue Effect Sdk.

(** The SDK commands the client sends. *)
Inductive Cmd : Type :=
| GetRepositoryCommand
| ListPullRequestsCommand
| GetPullRequestCommand
| ListRepositoriesCommand
| GetFileCommand
| CreatePullRequestCommand
| UpdatePullRequestDescriptionCommand
| UpdatePullRequestTitleCommand
| UpdatePullRequestStatusCommand
| MergeBranchesBySquashCommand
| MergeBranchesByFastForwardCommand
| CreatePullRequestApprovalRuleCommand
| GetCommentsForPullRequestCommand
| DescribePullRequestEventsCommand
| PostCommentForPullRequestCommand
| UpdateCommentCommand
| DeleteCommentContentCommand.

#[export] Instance Cmd_eq_dec : EqDecision Cmd.
Proof. solve_decision. Defined.

(** What a scripted command resolves to. *)
Inductive Reply : Type :=
| RUndefined
| RRepository (o : GetRepositoryOutput)
| RPrIds (o : ListPullRequestsOutput)
| RPullRequest (o : GetPullRequestOutput)
| RRepositories (o : ListRepositoriesOutput)
| RFile (o : GetFileOutput)
| RApprovalRule (o : CreatePullRequestApprovalRuleOutput)
| RComments (o : GetCommentsForPullRequestOutput)
| REvents (o : DescribePullRequestEventsOutput).

(** [once]: the queued behaviours, oldest first; [always]: the standing
    behaviour of a command, latest first. *)
Record Mock : Type := {
  once : list (Cmd * outcome Reply);
  always : list (Cmd * outcome Reply);
}.

Definition mock_empty : Mock := {| once := []; always := [] |}.

(** [.on(c).resolvesOnce(r)] *)
Definition resolvesOnce (c : Cmd) (r : Reply) (m : Mock) : Mock :=
  {| once := once m ++ [(c, Ok r)]; always := always m |}.

(** [.on(c).rejectsOnce(new Error(msg))] *)
Definition rejectsOnce (c : Cmd) (msg : string) (m : Mock) : Mock :=
  {| once := once m ++ [(c, Throw (RemoteError msg))]; always := always m |}.

(** [.on(c).resolves(r)] *)
Definition resolves (c : Cmd) (r : Reply) (m : Mock) : Mock :=
  {| once := once m; always := (c, Ok r) :: always m |}.

(** The first queued behaviour of [c], and the queue without it. *)
Fixpoint take_once (c : Cmd) (q : list (Cmd * outcome Reply))
  : option (outcome Reply * list (Cmd * outcome Reply)) :=
  match q with
  | [] => None
  | (c', r) :: q' =>
      if decide (c = c') then Some (r, q')
      else match take_once c q' with
           | Some (r', rest) => Some (r', (c', r) :: rest)
           | None => None
           end
  end.

Fixpoint standing (c : Cmd) (l : list (Cmd * outcome Reply))
  : option (outcome Reply) :=
  match l with
  | [] => None
  | (c', r) :: l' => if decide (c = c') then Some r else standing c l'
  end.

(** [codeCommitClient.send(new c(...))] *)
Definition send (c : Cmd) : M Mock Reply :=
  λ m, match take_once c (once m) with
       | Some (r, rest) => (r, {| once := rest; always := always m |})
       | None => (default (Ok RUndefined) (standing c (always m)), m)
       end.

(** Reading a reply at the type a client function returns: a reply of
    another shape has none of the fields the adapter reads. *)
Definition as_repository (r : Reply) : option GetRepositoryOutput :=
  match r with
  | RRepository o => Some o
  | RUndefined => None
  | _ => Some {| repositoryMetadata := None |}
  end.

Definition as_prIds (r : Reply) : option ListPullRequestsOutput :=
  match r with
  | RPrIds o => Some o
  | RUndefined => None
  | _ => Some {| pullRequestIds := None |}
  end.

Definition as_pullRequest (r : Reply) : option GetPullRequestOutput :=
  match r with
  | RPullRequest o => Some o
  | RUndefined => None
  | _ => Some {| pullRequest := None |}
  end.

Definition as_repositories (r : Reply) : option ListRepositoriesOutput :=
  match r with
  | RRepositories o => Some o
  | RUndefined => None
  | _ => Some {| repositories := None |}
  end.

Definition as_file (r : Reply) : option GetFileOutput :=
  match r with
  | RFile o => Some o
  | _ => None
  end.

Definition as_approvalRule (r : Reply)
  : option CreatePullRequestApprovalRuleOutput :=
  match r with
  | RApprovalRule o => Some o
  | RUndefined => None
  | _ => Some {| approvalRule := None |}
  end.

Definition as_comments (r : Reply) : option GetCommentsForPullRequestOutput :=
  match r with
  | RComments o => Some o
  | RUndefined => None
  | _ => Some {| commentsForPullRequestData := None |}
  end.

Definition as_events (r : Reply) : option DescribePullRequestEventsOutput :=
  match r with
  | REvents o => Some o
  | RUndefined => None
  | _ => Some {| pullRequestEvents := None |}
  end.

(** A client function that sends one command and returns what it gets. *)
Definition forward {A} (c : Cmd) (f : Reply → A) : M Mock A :=
  r <- send c ;; ret (f r).

(** [getPr] of the client: a rejection is logged and [undefined] returned. *)
Definition mock_getPr : M Mock (option GetPullRequestOutput) :=
  r <- attempt (send GetPullRequestCommand) ;;
  match r with
  | Ok r => ret (as_pullRequest r)
  | Throw _ => ret None
  end.

#[export] Instance mock_client : Client Mock := {|
  cl_getRepositoryInfo _ := forward GetRepositoryCommand as_repository;
  cl_listPullRequests _ _ := forward ListPullRequestsCommand as_prIds;
  cl_getPr _ := mock_getPr;
  cl_listRepositories := forward ListRepositoriesCommand as_repositories;
  cl_getFile _ _ _ := forward GetFileCommand as_file;
  cl_createPr _ _ _ _ _ := forward CreatePullRequestCommand as_pullRequest;
  cl_updatePrDescription _ _ :=
    forward UpdatePullRequestDescriptionCommand (λ _, tt);
  cl_updatePrTitle _ _ := forward UpdatePullRequestTitleCommand (λ _, tt);
  cl_updatePrStatus _ _ :=
    forward UpdatePullRequestStatusCommand as_pullRequest;
  cl_squashMerge _ _ _ _ := forward MergeBranchesBySquashCommand (λ _, tt);
  cl_fastForwardMerge _ _ _ :=
    forward MergeBranchesByFastForwardCommand (λ _, tt);
  cl_createPrApprovalRule _ _ :=
    forward CreatePullRequestApprovalRuleCommand as_approvalRule;
  cl_getPrComments _ _ := forward GetCommentsForPullRequestCommand as_comments;
  cl_getPrEvents _ := forward DescribePullRequestEventsCommand as_events;
  cl_createPrComment _ _ _ _ _ :=
    forward PostCommentForPullRequestCommand (λ _, tt);
  cl_updateComment _ _ := forward UpdateCommentCommand (λ _, tt);
  cl_deleteComment _ := forward DeleteCommentContentCommand (λ _, tt);
|}.

(** The same client with a [getPr] that lets a rejection through, as every
    other client function does.  It is not an instance: a scenario names
    it. *)
Definition strict_client : Client Mock := {|
  cl_getRepositoryInfo _ := forward GetRepositoryCommand as_repository;
  cl_listPullRequests _ _ := forward ListPullRequestsCommand as_prIds;
  cl_getPr _ := forward GetPullRequestCommand as_pullRequest;
  cl_listRepositories := forward ListRepositoriesCommand as_repositories;
  cl_getFile _ _ _ := forward GetFileCommand as_file;
  cl_createPr _ _ _ _ _ := forward CreatePullRequestCommand as_pullRequest;
  cl_updatePrDescription _ _ :=
    forward UpdatePullRequestDescriptionCommand (λ _, tt);
  cl_updatePrTitle _ _ := forward UpdatePullRequestTitleCommand (λ _, tt);
  cl_updatePrStatus _ _ :=
    forward UpdatePullRequestStatusCommand as_pullRequest;
  cl_squashMerge _ _ _ _ := forward MergeBranchesBySquashCommand (λ _, tt);
  cl_fastForwardMerge _ _ _ :=
    forward MergeBranchesByFastForwardCommand (λ _, tt);
  cl_createPrApprovalRule _ _ :=
    forward CreatePullRequestApprovalRuleCommand as_approvalRule;
  cl_getPrComments _ _ := forward GetCommentsForPullRequestCommand as_comments;
  cl_getPrEvents _ := forward DescribePullRequestEventsCommand as_events;
  cl_createPrComment _ _ _ _ _ :=
    forward PostCommentForPullRequestCommand (λ _, tt);
  cl_updateComment _ _ := forward UpdateCommentCommand (λ _, tt);
  cl_deleteComment _ := forward DeleteCommentContentCommand (λ _, tt);
|}.

(** The text utilities of the scenarios: nothing to redact, and
    truncation to the first [n] characters. *)
#[export] Instance plain_utils : Utils := {|
  sanitize s := s;
  smartTruncate s n := String.substring 0 n s;
|}.

(** ** Lemmas *)

Lemma take_once_length c q r rest :
  take_once c q = Some (r, rest) → length q = S (length rest).
Proof.
  revert rest. induction q as [|[c' r'] q IH]; intros rest; simpl; [done|].
  case_decide; [by intros [= <- <-]|].
  destruct (take_once c q) as [[r2 rest2]|]; [|done].
  intros [= <- <-]. simpl. by rewrite (IH rest2).
Qed.

(** A scripted behaviour is used at most once: [send] never lengthens the
    queue. *)
Lemma send_once_length c m : length (once (send c m).2) ≤ length (once m).
Proof.
  unfold send. destruct (take_once c (once m)) as [[r rest]|] eqn:E; [|done].
  apply take_once_length in E. simpl. lia.
Qed.

(** The client's [getPr] never rejects, whatever the script says. *)
Lemma mock_getPr_never_throws : never_throws mock_getPr.
Proof.
  intros m. unfold mock_getPr. rewrite bind_attempt.
  destruct (send GetPullRequestCommand m).1; by eexists _, _.
Qed.

Lemma substring_length_le (s : string) (n : nat) :
  String.length (String.substring 0 n s) ≤ n.
Proof.
  revert s. induction n as [|n IH]; intros [|c s]; simpl; try lia.
  specialize (IH s). lia.
Qed.

#[export] Instance plain_utils_laws : UtilsLaws.
Proof. split. intros s n. apply substring_length_le. Qed.
