(* ===== verification/Session.v ===== *)
(** * Session context and the world of a run

    [index.ts] keeps its state in the module-level object [config]
    ([interface Config], lines 40-49).  A run of a handler also changes the
    backend and, in this model, appends every client call to a trace, so
    that "exactly one create call" and "no remote call" are statements
    about the trace, and records the messages given to the logger, which
    the unit tests of the repository observe.  Together they are the
    [World].

    The file also holds the platform types the handlers return ([Pr],
    [PrState]) and the wrappers through which the handlers call the client:
    each wrapper records the call and runs the backend's operation. *)

From S2P Require Import Prelude JsValue Effect Sdk.

(** ** Platform types *)

(** [PrState] of [types]: the states of a pull request and the two filters
    [findPr] accepts. *)
Inductive PrState : Type :=
| Merged
| Open
| Closed
| All
| NotOpen.

#[export] Instance PrState_eq_dec : EqDecision PrState.
Proof. solve_decision. Defined.

(** The string value of each member of the enumeration. *)
Definition PrState_value (s : PrState) : string :=
  match s with
  | Merged => "merged"
  | Open => "open"
  | Closed => "closed"
  | All => "all"
  | NotOpen => "!open"
  end.

(** [MergeStrategy] of [config/types]. *)
Inductive MergeStrategy : Type :=
| StrategyAuto
| StrategyFastForward
| StrategyMergeCommit
| StrategyRebase
| StrategySquash.

#[export] Instance MergeStrategy_eq_dec : EqDecision MergeStrategy.
Proof. solve_decision. Defined.

(** The pull request as the adapter hands it to the orchestrator.  The
    branch and title fields are copied from optional fields of the
    response without a check, so they can be [undefined] at run time. *)
Module Pr.
Record t : Type := mk {
  number : Js.number;
  sourceBranch : option string;
  targetBranch : option string;
  title : option string;
  state : PrState;
  sha : option string;
  sourceRepo : option string;
}.
End Pr.

#[export] Instance Pr_eq_dec : EqDecision Pr.t.
Proof. solve_decision. Defined.

(** ** The session context *)

Record Config : Type := {
  repository : option string;
  defaultBranch : option string;
  region : option string;
  prList : option (list Pr.t);
  credentials : option Credentials;
  userArn : option string;
}.

(** [export const config: Config = {}] *)
Definition config_empty : Config :=
  {| repository := None; defaultBranch := None; region := None;
     prList := None; credentials := None; userArn := None |}.

Definition set_prList (l : option (list Pr.t)) (c : Config) : Config :=
  {| repository := repository c; defaultBranch := defaultBranch c;
     region := region c; prList := l; credentials := credentials c;
     userArn := userArn c |}.

Definition set_repository (r : option string) (c : Config) : Config :=
  {| repository := r; defaultBranch := defaultBranch c;
     region := region c; prList := prList c; credentials := credentials c;
     userArn := userArn c |}.

Definition set_defaultBranch (b : option string) (c : Config) : Config :=
  {| repository := repository c; defaultBranch := b;
     region := region c; prList := prList c; credentials := credentials c;
     userArn := userArn c |}.

Definition set_region (r : option string) (c : Config) : Config :=
  {| repository := repository c; defaultBranch := defaultBranch c;
     region := r; prList := prList c; credentials := credentials c;
     userArn := userArn c |}.

Definition set_credentials (k : option Credentials) (c : Config) : Config :=
  {| repository := repository c; defaultBranch := defaultBranch c;
     region := region c; prList := prList c; credentials := k;
     userArn := userArn c |}.

Definition set_userArn (a : option string) (c : Config) : Config :=
  {| repository := repository c; defaultBranch := defaultBranch c;
     region := region c; prList := prList c; credentials := credentials c;
     userArn := a |}.

(** ** The world *)

(** The levels of the logger the adapter uses. *)
Inductive Level : Type := LTrace | LDebug | LInfo | LWarn | LError.

#[export] Instance Level_eq_dec : EqDecision Level.
Proof. solve_decision. Defined.

Record World (R : Type) : Type := mkWorld {
  config : Config;
  remote : R;
  trace : list Call;
  logs : list (Level * string);
}.

Arguments mkWorld {R} _ _ _ _.
Arguments config {R} _.
Arguments remote {R} _.
Arguments trace {R} _.
Arguments logs {R} _.

Section world.
Context {R : Type} `{!Client R}.

Definition H (A : Type) : Type := M (World R) A.

(** [config.f] *)
Definition read_config {A} (f : Config → A) : H A :=
  gets (λ w, f (config w)).

(** [config.f = v] *)
Definition write_config (f : Config → Config) : H unit :=
  modify (λ w, mkWorld (f (config w)) (remote w) (trace w) (logs w)).

(** [logger.level(..., msg)]: the message is recorded, the metadata
    object is not. *)
Definition log (l : Level) (msg : string) : H unit :=
  modify (λ w, mkWorld (config w) (remote w) (trace w) (logs w ++ [(l, msg)])).

(** [await client.op(args)]: the call is recorded, the backend runs. *)
Definition invoke {A} (c : Call) (op : M R A) : H A :=
  λ w, let '(r, rm) := op (remote w) in
       (r, mkWorld (config w) rm (trace w ++ [c]) (logs w)).

Definition client_getRepositoryInfo (repository : string) :=
  invoke (GetRepositoryInfo repository) (cl_getRepositoryInfo repository).

Definition client_listPullRequests (repository userArn : option string) :=
  invoke (ListPullRequests repository userArn)
    (cl_listPullRequests repository userArn).

Definition client_getPr (prId : string) :=
  invoke (GetPr prId) (cl_getPr prId).

Definition client_listRepositories :=
  invoke ListRepositories cl_listRepositories.

Definition client_getFile (repo : option string) (file : string)
    (branchOrTag : option string) :=
  invoke (GetFile repo file branchOrTag) (cl_getFile repo file branchOrTag).

Definition client_createPr (title description sourceBranch targetBranch : string)
    (repository : option string) :=
  invoke (CreatePr title description sourceBranch targetBranch repository)
    (cl_createPr title description sourceBranch targetBranch repository).

Definition client_updatePrDescription (prId description : string) :=
  invoke (UpdatePrDescription prId description)
    (cl_updatePrDescription prId description).

Definition client_updatePrTitle (prId title : string) :=
  invoke (UpdatePrTitle prId title) (cl_updatePrTitle prId title).

Definition client_updatePrStatus (prId status : string) :=
  invoke (UpdatePrStatus prId status) (cl_updatePrStatus prId status).

Definition client_squashMerge (repo src dst msg : option string) :=
  invoke (SquashMerge repo src dst msg) (cl_squashMerge repo src dst msg).

Definition client_fastForwardMerge (repo src dst : option string) :=
  invoke (FastForwardMerge repo src dst) (cl_fastForwardMerge repo src dst).

Definition client_createPrApprovalRule (prId rule : string) :=
  invoke (CreatePrApprovalRule prId rule) (cl_createPrApprovalRule prId rule).

Definition client_getPrComments (repository : option string) (prId : string) :=
  invoke (GetPrComments repository prId) (cl_getPrComments repository prId).

Definition client_getPrEvents (prId : string) :=
  invoke (GetPrEvents prId) (cl_getPrEvents prId).

Definition client_createPrComment (prId : string) (repository : option string)
    (body beforeCommitId afterCommitId : string) :=
  invoke (CreatePrComment prId repository body beforeCommitId afterCommitId)
    (cl_createPrComment prId repository body beforeCommitId afterCommitId).

Definition client_updateComment (commentId body : string) :=
  invoke (UpdateComment commentId body) (cl_updateComment commentId body).

Definition client_deleteComment (commentId : string) :=
  invoke (DeleteComment commentId) (cl_deleteComment commentId).

(** ** Observations of a run *)

(** The calls a computation adds to the trace when run from [w]. *)
Definition calls_of {A} (c : H A) (w : World R) : list Call :=
  drop (length (trace w)) (trace (c w).2).

(** The relations of worlds the observations below are about: the trace
    is extended, by calls that satisfy [P]; a property of [config] that
    held holds; [config] is as it was.  Each is a preorder. *)
Definition extended : relation (World R) :=
  λ w w', ∃ cs, trace w' = trace w ++ cs.

Definition extended_by (P : Call → Prop) : relation (World R) :=
  λ w w', ∃ cs, trace w' = trace w ++ cs ∧ Forall P cs.

Definition config_keeps (I : Config → Prop) : relation (World R) :=
  λ w w', I (config w) → I (config w').

Definition same_config : relation (World R) :=
  λ w w', config w' = config w.

(** The log has grown: what was logged is logged, in its order. *)
Definition log_extended : relation (World R) :=
  λ w w', logs w `prefix_of` logs w'.

(** A computation only ever extends the trace. *)
Definition extends_trace {A} (c : H A) : Prop := respects extended c.

(** Every call a computation adds to the trace satisfies [P]. *)
Definition calls_satisfy {A} (P : Call → Prop) (c : H A) : Prop :=
  respects (extended_by P) c.

(** A handler keeps a property of [config] that holds when it starts. *)
Definition config_inv {A} (I : Config → Prop) (c : H A) : Prop :=
  respects (config_keeps I) c.

(** A computation leaves the session context alone. *)
Definition keeps_config {A} (c : H A) : Prop := respects same_config c.

End world.

Arguments H R A : clear implicits.

(** ** Lemmas on the world *)

Section world_lemmas.
Context {R : Type} `{!Client R}.
Implicit Types w : World R.

Lemma invoke_run {A} (c : Call) (op : M R A) w :
  invoke c op w =
  ((op (remote w)).1,
   mkWorld (config w) (op (remote w)).2 (trace w ++ [c]) (logs w)).
Proof. unfold invoke. by destruct (op (remote w)). Qed.

Lemma invoke_trace {A} (c : Call) (op : M R A) w :
  trace (invoke c op w).2 = trace w ++ [c].
Proof. by rewrite invoke_run. Qed.

Lemma invoke_config {A} (c : Call) (op : M R A) w :
  config (invoke c op w).2 = config w.
Proof. by rewrite invoke_run. Qed.

Lemma invoke_Ok {A} (c : Call) (op : M R A) w a rm :
  op (remote w) = (Ok a, rm) →
  invoke c op w = (Ok a, mkWorld (config w) rm (trace w ++ [c]) (logs w)).
Proof. unfold invoke. by intros ->. Qed.

Lemma invoke_Throw {A} (c : Call) (op : M R A) w e rm :
  op (remote w) = (Throw e, rm) →
  invoke c op w = (Throw e, mkWorld (config w) rm (trace w ++ [c]) (logs w)).
Proof. unfold invoke. by intros ->. Qed.

(** One call followed by its continuation. *)
Lemma bind_invoke {A B} (c : Call) (op : M R A) (k : A → H R B) w :
  bind (invoke c op) k w =
  match op (remote w) with
  | (Ok a, rm) => k a (mkWorld (config w) rm (trace w ++ [c]) (logs w))
  | (Throw e, rm) =>
      (Throw e, mkWorld (config w) rm (trace w ++ [c]) (logs w))
  end.
Proof. unfold bind, invoke. by destruct (op (remote w)) as [[]]. Qed.

Lemma attempt_invoke {A} (c : Call) (op : M R A) w :
  attempt (invoke c op) w =
  (Ok (op (remote w)).1,
   mkWorld (config w) (op (remote w)).2 (trace w ++ [c]) (logs w)).
Proof. unfold attempt, invoke. by destruct (op (remote w)). Qed.

Lemma read_config_run {A} (f : Config → A) w :
  read_config f w = (Ok (f (config w)), w).
Proof. reflexivity. Qed.

Lemma write_config_run (f : Config → Config) w :
  write_config f w =
  (Ok tt, mkWorld (f (config w)) (remote w) (trace w) (logs w)).
Proof. reflexivity. Qed.

Lemma log_run l msg w :
  log l msg w =
  (Ok tt, mkWorld (config w) (remote w) (trace w) (logs w ++ [(l, msg)])).
Proof. reflexivity. Qed.

Lemma bind_log {B} l msg (k : unit → H R B) w :
  bind (log l msg) k w =
  k tt (mkWorld (config w) (remote w) (trace w) (logs w ++ [(l, msg)])).
Proof. reflexivity. Qed.

Lemma bind_read_config {A B} (f : Config → A) (k : A → H R B) w :
  bind (read_config f) k w = k (f (config w)) w.
Proof. reflexivity. Qed.

Lemma bind_write_config {B} f (k : unit → H R B) w :
  bind (write_config f) k w =
  k tt (mkWorld (f (config w)) (remote w) (trace w) (logs w)).
Proof. reflexivity. Qed.

Lemma calls_of_run {A} (c : H R A) w cs :
  trace (c w).2 = trace w ++ cs → calls_of c w = cs.
Proof. unfold calls_of. intros ->. by rewrite drop_app_length. Qed.

Lemma calls_of_invoke {A} (c : Call) (op : M R A) w :
  calls_of (invoke c op) w = [c].
Proof. apply calls_of_run, invoke_trace. Qed.

(** *** The relations are preorders *)

#[export] Instance extended_by_preorder P : PreOrder (extended_by (R:=R) P).
Proof.
  split; [intros w; exists []; by rewrite app_nil_r|].
  intros w1 w2 w3 (cs1 & H1 & HP1) (cs2 & H2 & HP2). exists (cs1 ++ cs2).
  split; [by rewrite H2, H1, app_assoc|by apply Forall_app].
Qed.

#[export] Instance extended_preorder : PreOrder (extended (R:=R)).
Proof.
  split; [intros w; exists []; by rewrite app_nil_r|].
  intros w1 w2 w3 [cs1 H1] [cs2 H2]. exists (cs1 ++ cs2).
  by rewrite H2, H1, app_assoc.
Qed.

#[export] Instance config_keeps_preorder I : PreOrder (config_keeps (R:=R) I).
Proof. unfold config_keeps. split; [by intros w|]. intros w1 w2 w3. auto. Qed.

#[export] Instance same_config_preorder : PreOrder (same_config (R:=R)).
Proof.
  unfold same_config. split; [by intros w|]. intros w1 w2 w3. congruence.
Qed.

#[export] Instance log_extended_preorder : PreOrder (log_extended (R:=R)).
Proof.
  unfold log_extended. split; [by intros w|].
  intros w1 w2 w3 H1 H2. by etrans.
Qed.

(** *** The steps that keep the log, and the one that adds to it *)

Lemma log_extended_log l msg : respects log_extended (log l msg : H R unit).
Proof. intros w. unfold log_extended. simpl. by apply prefix_app_r. Qed.

(** A step that leaves the log as it is. *)
Lemma log_extended_quiet {A} (c : H R A) :
  (∀ w, logs (c w).2 = logs w) → respects log_extended c.
Proof. intros Hc w. unfold log_extended. by rewrite Hc. Qed.

Lemma log_extended_invoke {A} c (op : M R A) :
  respects log_extended (invoke c op).
Proof. apply log_extended_quiet. intros w. by rewrite invoke_run. Qed.

Lemma log_extended_write_config f :
  respects log_extended (write_config f : H R unit).
Proof. by apply log_extended_quiet. Qed.

(** *** Trace extension composes *)

Lemma extends_trace_ret {A} (a : A) : extends_trace (ret a : H R A).
Proof. apply respects_ret, _. Qed.

Lemma extends_trace_throw {A} e : extends_trace (throw e : H R A).
Proof. apply respects_throw, _. Qed.

Lemma extends_trace_invoke {A} c (op : M R A) : extends_trace (invoke c op).
Proof. intros w. exists [c]. apply invoke_trace. Qed.

Lemma extends_trace_read_config {A} (f : Config → A) :
  extends_trace (read_config f : H R A).
Proof. apply respects_gets, _. Qed.

Lemma extends_trace_write_config f :
  extends_trace (write_config f : H R unit).
Proof. intros w. exists []. by rewrite app_nil_r. Qed.

Lemma extends_trace_log l msg : extends_trace (log l msg : H R unit).
Proof. intros w. exists []. by rewrite app_nil_r. Qed.

Lemma extends_trace_attempt {A} (c : H R A) :
  extends_trace c → extends_trace (attempt c).
Proof. apply respects_attempt. Qed.

Lemma extends_trace_bind {A B} (c : H R A) (k : A → H R B) :
  extends_trace c → (∀ a, extends_trace (k a)) → extends_trace (bind c k).
Proof. apply respects_bind, _. Qed.

Lemma extends_trace_try_catch {A} (c : H R A) (h : exn → H R A) :
  extends_trace c → (∀ e, extends_trace (h e)) → extends_trace (try_catch c h).
Proof. apply respects_try_catch, _. Qed.

Lemma extends_trace_deref {A} (o : option A) : extends_trace (deref o : H R A).
Proof. apply respects_deref, _. Qed.

Lemma extends_trace_for_of {A B} (l : list A) (body : A → B → H R (ctl B)) b :
  (∀ x b, extends_trace (body x b)) → extends_trace (for_of l body b).
Proof. apply respects_for_of, _. Qed.

(** *** The session context is kept *)

Lemma keeps_config_ret {A} (a : A) : keeps_config (ret a : H R A).
Proof. by intros w. Qed.

Lemma keeps_config_throw {A} e : keeps_config (throw e : H R A).
Proof. by intros w. Qed.

Lemma keeps_config_invoke {A} c (op : M R A) : keeps_config (invoke c op).
Proof. intros w. apply invoke_config. Qed.

Lemma keeps_config_read_config {A} (f : Config → A) :
  keeps_config (read_config f : H R A).
Proof. by intros w. Qed.

Lemma keeps_config_log l msg : keeps_config (log l msg : H R unit).
Proof. by intros w. Qed.

Lemma keeps_config_attempt {A} (c : H R A) :
  keeps_config c → keeps_config (attempt c).
Proof. apply respects_attempt. Qed.

Lemma never_throws_log l msg : never_throws (log l msg : H R unit).
Proof. intros w. by eexists _, _. Qed.

Lemma never_throws_read_config {A} (f : Config → A) :
  never_throws (read_config f : H R A).
Proof. intros w. by eexists _, _. Qed.

Lemma never_throws_write_config f : never_throws (write_config f : H R unit).
Proof. intros w. by eexists _, _. Qed.

Lemma keeps_config_bind {A B} (c : H R A) (k : A → H R B) :
  keeps_config c → (∀ a, keeps_config (k a)) → keeps_config (bind c k).
Proof. apply respects_bind, _. Qed.

Lemma keeps_config_try_catch {A} (c : H R A) (h : exn → H R A) :
  keeps_config c → (∀ e, keeps_config (h e)) → keeps_config (try_catch c h).
Proof. apply respects_try_catch, _. Qed.

Lemma keeps_config_deref {A} (o : option A) : keeps_config (deref o : H R A).
Proof. apply respects_deref, _. Qed.

Lemma keeps_config_for_of {A B} (l : list A) (body : A → B → H R (ctl B)) b :
  (∀ x b, keeps_config (body x b)) → keeps_config (for_of l body b).
Proof. apply respects_for_of, _. Qed.

(** *** Every call of a run satisfies a predicate *)

Lemma calls_satisfy_pure {A} P (c : H R A) :
  (∀ w, trace (c w).2 = trace w) → calls_satisfy P c.
Proof. intros Hc w. exists []. by rewrite app_nil_r. Qed.

Lemma calls_satisfy_ret {A} P (a : A) : calls_satisfy P (ret a : H R A).
Proof. apply respects_ret, _. Qed.

Lemma calls_satisfy_throw {A} P e : calls_satisfy P (throw e : H R A).
Proof. apply respects_throw, _. Qed.

Lemma calls_satisfy_read_config {A} P (f : Config → A) :
  calls_satisfy P (read_config f : H R A).
Proof. apply respects_gets, _. Qed.

Lemma calls_satisfy_write_config P f :
  calls_satisfy P (write_config f : H R unit).
Proof. by apply calls_satisfy_pure. Qed.

Lemma calls_satisfy_log P l msg : calls_satisfy P (log l msg : H R unit).
Proof. by apply calls_satisfy_pure. Qed.

Lemma calls_satisfy_deref {A} P (o : option A) :
  calls_satisfy P (deref o : H R A).
Proof. apply respects_deref, _. Qed.

Lemma calls_satisfy_invoke {A} (P : Call → Prop) c (op : M R A) :
  P c → calls_satisfy P (invoke c op).
Proof. intros Hc w. exists [c]. split; [apply invoke_trace|by constructor]. Qed.

Lemma calls_satisfy_attempt {A} P (c : H R A) :
  calls_satisfy P c → calls_satisfy P (attempt c).
Proof. apply respects_attempt. Qed.

Lemma calls_satisfy_bind {A B} P (c : H R A) (k : A → H R B) :
  calls_satisfy P c → (∀ a, calls_satisfy P (k a)) →
  calls_satisfy P (bind c k).
Proof. apply respects_bind, _. Qed.

Lemma calls_satisfy_try_catch {A} P (c : H R A) (h : exn → H R A) :
  calls_satisfy P c → (∀ e, calls_satisfy P (h e)) →
  calls_satisfy P (try_catch c h).
Proof. apply respects_try_catch, _. Qed.

Lemma calls_satisfy_for_of {A B} P (l : list A)
    (body : A → B → H R (ctl B)) b :
  (∀ x b, calls_satisfy P (body x b)) → calls_satisfy P (for_of l body b).
Proof. apply respects_for_of, _. Qed.

(** What [calls_satisfy] says of the calls of one run. *)
Lemma calls_satisfy_Forall {A} P (c : H R A) w :
  calls_satisfy P c → Forall P (calls_of c w).
Proof. intros Hc. destruct (Hc w) as (cs & Ht & HP). by rewrite (calls_of_run _ _ _ Ht). Qed.

Lemma calls_satisfy_elem {A} P (c : H R A) w x :
  calls_satisfy P c → x ∈ calls_of c w → P x.
Proof.
  intros Hc Hx. pose proof (calls_satisfy_Forall P c w Hc) as HF.
  by eapply Forall_forall in HF.
Qed.

Lemma calls_satisfy_extends {A} P (c : H R A) :
  calls_satisfy P c → extends_trace c.
Proof. intros Hc w. destruct (Hc w) as (cs & Ht & _). by exists cs. Qed.

(** *** A run keeps a property of the session context *)

Lemma config_inv_keeps {A} I (c : H R A) : keeps_config c → config_inv I c.
Proof. intros Hc w. unfold config_keeps. by rewrite (Hc w). Qed.

Lemma config_inv_write_config I f :
  (∀ cfg, I cfg → I (f cfg)) → config_inv I (write_config f : H R unit).
Proof. intros Hf w. exact (Hf _). Qed.

Lemma config_inv_bind {A B} I (c : H R A) (k : A → H R B) :
  config_inv I c → (∀ a, config_inv I (k a)) → config_inv I (bind c k).
Proof. apply respects_bind, _. Qed.

Lemma config_inv_try_catch {A} I (c : H R A) (h : exn → H R A) :
  config_inv I c → (∀ e, config_inv I (h e)) → config_inv I (try_catch c h).
Proof. apply respects_try_catch, _. Qed.

Lemma config_inv_attempt {A} I (c : H R A) :
  config_inv I c → config_inv I (attempt c).
Proof. apply respects_attempt. Qed.

Lemma config_inv_for_of {A B} I (l : list A) (body : A → B → H R (ctl B)) b :
  (∀ x b, config_inv I (body x b)) → config_inv I (for_of l body b).
Proof. apply respects_for_of, _. Qed.

End world_lemmas.

#[export] Hint Rewrite @read_config_run @write_config_run @log_run
  @bind_log @bind_read_config @bind_write_config @bind_invoke
  @attempt_invoke @bind_attempt @invoke_run : eff.

(** [eff_run] runs a handler symbolically up to the next call whose
    outcome is not known, or to its end. *)
Ltac eff_run :=
  repeat (autorewrite with eff;
          cbn [config remote trace logs mbind option_bind default fst snd]).

#[export] Hint Resolve log_extended_log log_extended_invoke
  log_extended_write_config : respects.

#[export] Hint Resolve extends_trace_ret extends_trace_throw
  extends_trace_invoke extends_trace_read_config extends_trace_write_config
  extends_trace_bind extends_trace_try_catch extends_trace_deref
  extends_trace_for_of extends_trace_log extends_trace_attempt : adapter.

#[export] Hint Resolve keeps_config_ret keeps_config_throw
  keeps_config_invoke keeps_config_read_config keeps_config_bind
  keeps_config_try_catch keeps_config_deref keeps_config_for_of
  keeps_config_log keeps_config_attempt never_throws_log
  never_throws_read_config never_throws_write_config : adapter.

#[export] Hint Resolve calls_satisfy_ret calls_satisfy_throw
  calls_satisfy_read_config calls_satisfy_write_config calls_satisfy_log
  calls_satisfy_deref : adapter.

(** [solve_config_inv] reduces a [config_inv] goal of a handler to its
    assignments to [config]: every other step keeps [config]. *)
Ltac solve_config_inv :=
  repeat first
    [ match goal with |- ∀ _, _ => intro end
    | apply config_inv_bind | apply config_inv_try_catch
    | apply config_inv_for_of | apply config_inv_attempt
    | solve [apply config_inv_keeps; eauto with adapter]
    | match goal with
      | |- config_inv _ (match ?x with _ => _ end) => destruct x
      | |- config_inv _ (if ?b then _ else _) => destruct b
      end ].

(** [solve_effect] proves [extends_trace], [keeps_config] and
    [never_throws] goals of a handler by unfolding it along its structure. *)
Ltac solve_effect :=
  repeat first
    [ progress intros
    | solve [eauto with adapter]
    | apply extends_trace_bind | apply extends_trace_try_catch
    | apply extends_trace_for_of
    | apply extends_trace_attempt
    | apply keeps_config_bind | apply keeps_config_try_catch
    | apply keeps_config_for_of | apply keeps_config_attempt
    | apply calls_satisfy_bind | apply calls_satisfy_try_catch
    | apply calls_satisfy_for_of | apply calls_satisfy_attempt
    | apply calls_satisfy_invoke
    | apply never_throws_bind | apply never_throws_try_catch
    | match goal with
      | |- context [match ?x with _ => _ end] => destruct x
      | |- context [if ?b then _ else _] => destruct b
      end ].
