(* ===== verification/Host.v ===== *)
(** * Host: the process around the adapter

    [initPlatform] and [initRepo] of [index.ts] and the functions of
    [iam-client.ts] reach beyond the CodeCommit client: they read the
    environment of the process, keep an IAM client in a module variable,
    send it a command, build the CodeCommit client and initialise the
    local clone.  This file holds what they share.

    - [Env] is the part of [process.env] that is read.
    - [Host R] is the state outside [config]: the environment, the
      variable [iam] of [iam-client.ts] and the backend [R] behind the
      collaborators.  A world whose remote part is a [Host R] is the state
      the initialisation handlers run in; the other handlers run in it
      unchanged, through [host_client].
    - [Services R] is what the collaborators that are not source files of
      this repository provide.
    - [zoom] runs an operation on a part of a state; [zoom_client] lifts a
      client along it.
    - [Stub] is the backend of the unit tests: the scripted CodeCommit
      mock, the standing answer of the IAM mock and the behaviour given
      to the spy on [git.initRepo]. *)

From S2P Require Import Prelude JsValue Effect Sdk Mock Session.

(** ** The environment and the IAM client *)

Record Env : Type := {
  AWS_ACCESS_KEY_ID : option string;
  AWS_SECRET_ACCESS_KEY : option string;
  AWS_REGION : option string;
  AWS_SESSION_TOKEN : option string;
}.

Definition env_empty : Env :=
  {| AWS_ACCESS_KEY_ID := None; AWS_SECRET_ACCESS_KEY := None;
     AWS_REGION := None; AWS_SESSION_TOKEN := None |}.

(** The configuration an [IAMClient] is constructed with. *)
Record IAMClient : Type := {
  iam_region : string;
  iam_credentials : Credentials;
}.

#[export] Instance IAMClient_eq_dec : EqDecision IAMClient.
Proof. solve_decision. Defined.

Record Host (R : Type) : Type := mkHost {
  env : Env;
  iam : option IAMClient;
  backend : R;
}.

Arguments mkHost {R} _ _ _.
Arguments env {R} _.
Arguments iam {R} _.
Arguments backend {R} _.

(** ** The collaborators of the initialisation *)

(** [iam.send(new GetUserCommand({}))], [buildCodeCommitClient] and
    [getCodeCommitUrl] of [codecommit-client], [initRepo] of [util/git]
    and [repoFingerprint] of [platform/util].  [getCodeCommitUrl] reads
    fields of the credentials it is given, so it can throw. *)
Class Services (R : Type) : Type := {
  iam_send_GetUser : IAMClient → M R (option GetUserCommandOutput);
  cl_buildCodeCommitClient : string → Credentials → M R unit;
  cl_getCodeCommitUrl :
    option string → string → option Credentials → outcome string;
  git_initRepo : string → M R unit;
  util_repoFingerprint : string → option string → string;
}.

(** ** Running on a part of the state *)

Section zoom.
Context {S R : Type} (get : S → R) (set : R → S → S).

Definition zoom {A} (op : M R A) : M S A :=
  λ s, let '(r, b) := op (get s) in (r, set b s).

Definition zoom_client `{!Client R} : Client S := {|
  cl_getRepositoryInfo r := zoom (cl_getRepositoryInfo r);
  cl_listPullRequests r u := zoom (cl_listPullRequests r u);
  cl_getPr i := zoom (cl_getPr i);
  cl_listRepositories := zoom cl_listRepositories;
  cl_getFile r f b := zoom (cl_getFile r f b);
  cl_createPr t d s b r := zoom (cl_createPr t d s b r);
  cl_updatePrDescription i d := zoom (cl_updatePrDescription i d);
  cl_updatePrTitle i t := zoom (cl_updatePrTitle i t);
  cl_updatePrStatus i s := zoom (cl_updatePrStatus i s);
  cl_squashMerge r s d m := zoom (cl_squashMerge r s d m);
  cl_fastForwardMerge r s d := zoom (cl_fastForwardMerge r s d);
  cl_createPrApprovalRule i c := zoom (cl_createPrApprovalRule i c);
  cl_getPrComments r i := zoom (cl_getPrComments r i);
  cl_getPrEvents i := zoom (cl_getPrEvents i);
  cl_createPrComment i r b x y := zoom (cl_createPrComment i r b x y);
  cl_updateComment i b := zoom (cl_updateComment i b);
  cl_deleteComment i := zoom (cl_deleteComment i);
|}.

Definition zoom_services `{!Services R} : Services S := {|
  iam_send_GetUser c := zoom (iam_send_GetUser c);
  cl_buildCodeCommitClient r c := zoom (cl_buildCodeCommitClient r c);
  cl_getCodeCommitUrl := cl_getCodeCommitUrl;
  git_initRepo u := zoom (git_initRepo u);
  util_repoFingerprint := util_repoFingerprint;
|}.

End zoom.

(** ** The host as a backend *)

Section host.
Context {R : Type}.

Definition set_backend (b : R) (h : Host R) : Host R :=
  mkHost (env h) (iam h) b.

(** [iam = c] *)
Definition set_iam (c : option IAMClient) (h : Host R) : Host R :=
  mkHost (env h) c (backend h).

#[export] Instance host_client `{!Client R} : Client (Host R) :=
  zoom_client backend set_backend.

#[export] Instance host_services `{!Services R} : Services (Host R) :=
  zoom_services backend set_backend.

(** A read of the state outside [config]. *)
Definition read_host {A} (f : Host R → A) : H (Host R) A :=
  gets (λ w, f (remote w)).

(** An assignment to it. *)
Definition write_host (f : Host R → Host R) : H (Host R) unit :=
  modify (λ w, mkWorld (config w) (f (remote w)) (trace w) (logs w)).

(** The world after a call that left the host in [h]. *)
Definition after_call (c : Call) (h : Host R) (w : World (Host R))
  : World (Host R) :=
  mkWorld (config w) h (trace w ++ [c]) (logs w).

(** The result of a synchronous call that can throw. *)
Definition resolve {S A} (o : outcome A) : M S A :=
  match o with
  | Ok a => ret a
  | Throw e => throw e
  end.

Context `{!Services R}.

(** [await iam.send(cmd)] *)
Definition iam_send (c : IAMClient) : H (Host R) (option GetUserCommandOutput) :=
  invoke GetUser (iam_send_GetUser c).

(** [client.buildCodeCommitClient(region, credentials)] *)
Definition client_buildCodeCommitClient (region : string)
    (credentials : Credentials) : H (Host R) unit :=
  invoke (BuildCodeCommitClient region credentials)
    (cl_buildCodeCommitClient region credentials).

(** [await git.initRepo({ url })] *)
Definition git_init (url : string) : H (Host R) unit :=
  invoke (GitInitRepo url) (git_initRepo url).

End host.

(** ** The backend of the unit tests *)

(** [iamClient.on(GetUserCommand).resolves(...)] or [.rejects(...)],
    [jest.spyOn(git, 'initRepo')] and [mockClient(CodeCommitClient)]. *)
Record Stub : Type := {
  stub_getUser : outcome (option GetUserCommandOutput);
  stub_git : outcome unit;
  stub_mock : Mock;
}.

Definition set_stub_mock (m : Mock) (s : Stub) : Stub :=
  {| stub_getUser := stub_getUser s; stub_git := stub_git s; stub_mock := m |}.

#[export] Instance stub_client : Client Stub :=
  zoom_client stub_mock set_stub_mock.

(** The URL and the fingerprint of the stub keep their arguments apart,
    which is all a run observes of them. *)
#[export] Instance stub_services : Services Stub := {|
  iam_send_GetUser _ := λ s, (stub_getUser s, s);
  cl_buildCodeCommitClient _ _ := ret tt;
  cl_getCodeCommitUrl region repository credentials :=
    match credentials with
    | Some c =>
        Ok ("https://" +:+ accessKeyId c +:+ "@git-codecommit." +:+
            default "undefined" region +:+ ".amazonaws.com/v1/repos/" +:+
            repository)
    | None => Throw TypeError
    end;
  git_initRepo _ := λ s, (stub_git s, s);
  util_repoFingerprint repositoryId endpoint :=
    default "undefined" endpoint +:+ "::" +:+ repositoryId;
|}.

(** ** Lemmas *)

Section host_lemmas.
Context {R : Type}.

Lemma zoom_run {S A} (get : S → R) set (op : M R A) s :
  zoom get set op s = ((op (get s)).1, set (op (get s)).2 s).
Proof. unfold zoom. by destruct (op (get s)). Qed.

Lemma read_host_run {A} (f : Host R → A) w :
  read_host f w = (Ok (f (remote w)), w).
Proof. reflexivity. Qed.

Lemma write_host_run (f : Host R → Host R) w :
  write_host f w =
  (Ok tt, mkWorld (config w) (f (remote w)) (trace w) (logs w)).
Proof. reflexivity. Qed.

Lemma bind_read_host {A B} (f : Host R → A) (k : A → H (Host R) B) w :
  bind (read_host f) k w = k (f (remote w)) w.
Proof. reflexivity. Qed.

Lemma bind_write_host {B} f (k : unit → H (Host R) B) w :
  bind (write_host f) k w =
  k tt (mkWorld (config w) (f (remote w)) (trace w) (logs w)).
Proof. reflexivity. Qed.

Lemma resolve_Ok {S A} (a : A) : resolve (S:=S) (Ok a) = ret a.
Proof. reflexivity. Qed.

Lemma resolve_Throw {S A} e : resolve (S:=S) (A:=A) (Throw e) = throw e.
Proof. reflexivity. Qed.

Lemma extends_trace_read_host {A} (f : Host R → A) :
  extends_trace (read_host f).
Proof. intros w. exists []. by rewrite app_nil_r. Qed.

Lemma extends_trace_write_host (f : Host R → Host R) :
  extends_trace (write_host f).
Proof. intros w. exists []. by rewrite app_nil_r. Qed.

Lemma extends_trace_resolve {A} (o : outcome A) :
  extends_trace (resolve o : H (Host R) A).
Proof. destruct o; intros w; exists []; by rewrite app_nil_r. Qed.

Lemma keeps_config_read_host {A} (f : Host R → A) :
  keeps_config (read_host f).
Proof. by intros w. Qed.

Lemma keeps_config_write_host (f : Host R → Host R) :
  keeps_config (write_host f).
Proof. by intros w. Qed.

Lemma keeps_config_resolve {A} (o : outcome A) :
  keeps_config (resolve o : H (Host R) A).
Proof. by destruct o; intros w. Qed.

Lemma calls_satisfy_read_host {A} P (f : Host R → A) :
  calls_satisfy P (read_host f).
Proof. by apply calls_satisfy_pure. Qed.

Lemma calls_satisfy_write_host P (f : Host R → Host R) :
  calls_satisfy P (write_host f).
Proof. by apply calls_satisfy_pure. Qed.

Lemma calls_satisfy_resolve {A} P (o : outcome A) :
  calls_satisfy P (resolve o : H (Host R) A).
Proof. destruct o; by apply calls_satisfy_pure. Qed.

End host_lemmas.

#[export] Hint Rewrite @read_host_run @write_host_run @bind_read_host
  @bind_write_host @resolve_Ok @resolve_Throw : eff.

#[export] Hint Resolve extends_trace_read_host extends_trace_write_host
  extends_trace_resolve keeps_config_read_host keeps_config_write_host
  keeps_config_resolve
  calls_satisfy_read_host calls_satisfy_write_host calls_satisfy_resolve
  : adapter.
