(* ===== verification/Iam.v ===== *)
(** * Iam: the IAM client and the identity of the user

    [iam-client.ts]: the module variable [iam], which [initIamClient]
    fills once, and [getUserArn], which asks the IAM service who the
    caller is and, when the service refuses, recovers the ARN from the
    message of the refusal. *)

From S2P Require Import Prelude JsValue Regex Effect Sdk Mock Session Host.
Import Re.

(** ** The pattern *)

(** [/User:\s*(?<arn>[^ ]+).*/] *)
Definition userRe : re :=
  Seq (Lit "User:")
    (Seq (Rep space 0 true)
       (Seq (Group "arn" (Rep not_blank 1 true)) (Rep dot 0 true))).

(** [err.message].  The message of a [TypeError] is the engine's; all
    that matters of it is that it does not name a user. *)
Definition err_message (e : exn) : string :=
  match e with
  | TypeError => "Cannot read properties of undefined"
  | RemoteError m | Error m => m
  | RangeError => "Invalid time value"
  end.

(** ** The functions *)

Section iam.
Context {R : Type} `{!Services R}.

Definition initIamClient (region : string) (credentials : Credentials)
  : H (Host R) IAMClient :=
  cur <- read_host iam ;;
  match cur with
  | None =>
      let c := {| iam_region := region; iam_credentials := credentials |} in
      write_host (set_iam (Some c)) ;;
      ret c
  | Some c => ret c
  end.

(** What the [catch] block of [getUserArn] does with the error. *)
Definition recover_arn (err : exn) : H (Host R) (option string) :=
  let res := exec userRe (err_message err) ≫= group "arn" in
  if Js.truthy res then ret res else throw err.

Definition getUserArn : H (Host R) string :=
  res <-
    (try (c <- read_host iam ;;
          c <- deref c ;;
          userRes <- iam_send c ;;
          userRes <- deref userRes ;;
          ret (User userRes ≫= Arn))
     catch recover_arn) ;;
  ret (default "" res).

End iam.

(** ** Scenarios of the unit tests *)

(** [{ User: { Arn: 'aws:arn:example:123456' } }] *)
Definition test_user : GetUserCommandOutput :=
  {| User := Some {| Arn := Some "aws:arn:example:123456" |} |}.

Definition test_credentials : Credentials :=
  {| accessKeyId := "accessKeyId"; secretAccessKey := "SecretAccessKey";
     sessionToken := None |}.

Definition test_iam : IAMClient :=
  {| iam_region := "eu-central-1"; iam_credentials := test_credentials |}.

Definition stub_resolving (m : Mock) : Stub :=
  {| stub_getUser := Ok (Some test_user); stub_git := Ok tt; stub_mock := m |}.

(** The message of the refusal of [iam:GetUser]. *)
Definition access_denied : string :=
  "User: arn:aws:iam::123456:user/renovate is not authorized to perform: iam:GetUser".

Definition stub_refusing (msg : string) : Stub :=
  {| stub_getUser := Throw (RemoteError msg); stub_git := Ok tt;
     stub_mock := mock_empty |}.

Definition host_world (e : Env) (i : option IAMClient) (s : Stub)
  : World (Host Stub) :=
  mkWorld config_empty (mkHost e i s) [] [].

Definition fresh_iam_world : World (Host Stub) :=
  host_world env_empty None (stub_resolving mock_empty).

(** ** Lemmas *)

Section iam_lemmas.
Context {R : Type} `{!Services R}.
Implicit Types (w : World (Host R)).

(** The language of [userRe]: the marker, white space, the ARN, the rest
    of the line; the group is the ARN. *)
Lemma userRe_matches p c :
  matches userRe p c →
  ∃ sp arn tail, p = "User:" +:+ sp +:+ arn +:+ tail ∧ c = [("arn", arn)] ∧
                 all_in space sp = true ∧ all_in not_blank arn = true ∧
                 arn ≠ "" ∧ all_in dot tail = true.
Proof.
  unfold userRe. intros Hm. invert_matches.
  eexists _, _, _. repeat split; try done.
  by apply length_pos_nonempty.
Qed.

Lemma userRe_exec s m :
  exec userRe s = Some m →
  ∃ pre sp arn tail, s = pre +:+ "User:" +:+ sp +:+ arn +:+ tail ∧
    group "arn" m = Some arn ∧
    all_in space sp = true ∧ arn ≠ "" ∧ all_in not_blank arn = true.
Proof.
  intros [Hs (sp & arn & tail & Hp & Hc & ? & ? & ? & _)%userRe_matches]%exec_sound.
  exists (take (index m) s), sp, arn, (tail +:+ rest m).
  split; [|by rewrite (group_last "arn" arn [] m Hc)].
  rewrite Hs at 1. rewrite Hp. by rewrite !string_app_assoc.
Qed.

Lemma userRe_no_match s :
  exec userRe s = None →
  ∀ pre sp arn post,
    all_in space sp = true → arn ≠ "" → all_in not_blank arn = true →
    s ≠ pre +:+ "User:" +:+ sp +:+ arn +:+ post.
Proof.
  intros Hn pre sp arn post Hsp Ha Hb Hs.
  destruct (exec_complete userRe s) as [[Hno _] _].
  apply (Hno Hn pre ("User:" +:+ sp +:+ arn +:+ "")
           ([] ++ [] ++ ([] ++ [("arn", arn)]) ++ []) post).
  - by rewrite Hs, !string_app_assoc.
  - unfold userRe. repeat constructor; try done; simpl; try lia.
    destruct arn; [done|simpl; lia].
Qed.

(** [initIamClient] constructs the IAM client when the variable is empty
    and returns the client the variable holds otherwise, whatever region
    and credentials it is given. *)
Lemma initIamClient_run region credentials w :
  initIamClient region credentials w =
  let c := default {| iam_region := region; iam_credentials := credentials |}
             (iam (remote w)) in
  (Ok c, mkWorld (config w) (set_iam (Some c) (remote w)) (trace w) (logs w)).
Proof. by destruct w as [cfg [e [i|] b] t l]. Qed.

Lemma recover_arn_run err w :
  recover_arn err w =
  match exec userRe (err_message err) with
  | Some m => (Ok (group "arn" m), w)
  | None => (Throw err, w)
  end.
Proof.
  unfold recover_arn. destruct (exec userRe _) as [m|] eqn:Hm; [|done].
  apply exec_sound in Hm as [_ (sp & arn & tail & _ & Hc & _ & _ & Ha & _)%userRe_matches].
  simpl. rewrite (group_last "arn" arn [] m Hc). by destruct arn.
Qed.

Lemma getUserArn_run w :
  getUserArn w =
  match iam (remote w) with
  | None => bind (recover_arn TypeError) (λ res, ret (default "" res)) w
  | Some c =>
      let w' := (iam_send c w).2 in
      match (iam_send c w).1 with
      | Ok (Some out) => (Ok (default "" (User out ≫= Arn)), w')
      | Ok None => bind (recover_arn TypeError) (λ res, ret (default "" res)) w'
      | Throw e => bind (recover_arn e) (λ res, ret (default "" res)) w'
      end
  end.
Proof.
  unfold getUserArn, bind at 1, try_catch. rewrite bind_read_host.
  destruct (iam (remote w)) as [c|]; [|done].
  cbn [deref]. rewrite bind_ret_l. unfold bind at 1.
  destruct (iam_send c w) as [[[out|]|e] w']; done.
Qed.

End iam_lemmas.

Section iam_theorems.
Context {R : Type} `{!Services R}.
Implicit Types (w : World (Host R)).

(** The first client stays: a second initialisation with another
    region or other credentials leaves the client of the first in the
    variable, and that client is the one [getUserArn] sends to. *)
Theorem initIamClient_keeps_first r1 k1 r2 k2 w :
  iam (remote w) = None →
  (initIamClient r1 k1 ;; initIamClient r2 k2) w =
  (Ok {| iam_region := r1; iam_credentials := k1 |},
   (initIamClient r1 k1 w).2).
Proof.
  intros Hi. unfold bind. rewrite !initIamClient_run, Hi. simpl.
  by rewrite initIamClient_run.
Qed.

(** When the service answers, [getUserArn] sends one command and
    returns the ARN of the answer, or the empty string when the answer
    names no user or no ARN. *)
Theorem getUserArn_resolved w c out h' :
  iam (remote w) = Some c →
  iam_send_GetUser c (remote w) = (Ok (Some out), h') →
  getUserArn w =
  (Ok (default "" (User out ≫= Arn)), after_call GetUser h' w).
Proof.
  intros Hi Hs. rewrite getUserArn_run, Hi. unfold iam_send.
  by rewrite (invoke_Ok _ _ _ _ _ Hs).
Qed.

(** C38: when the service refuses, [getUserArn] has sent one command and
    either returns the ARN the message of the refusal gives after
    [User:], which is not empty and has no blank, or throws the refusal
    itself, and then the message has no such part. *)
Theorem getUserArn_rejected w c e h' :
  iam (remote w) = Some c →
  iam_send_GetUser c (remote w) = (Throw e, h') →
  (∃ arn pre sp tail,
      getUserArn w = (Ok arn, after_call GetUser h' w) ∧
      err_message e = pre +:+ "User:" +:+ sp +:+ arn +:+ tail ∧
      all_in space sp = true ∧ arn ≠ "" ∧ all_in not_blank arn = true) ∨
  (getUserArn w = (Throw e, after_call GetUser h' w) ∧
   ∀ pre sp arn post,
     all_in space sp = true → arn ≠ "" → all_in not_blank arn = true →
     err_message e ≠ pre +:+ "User:" +:+ sp +:+ arn +:+ post).
Proof.
  intros Hi Hs. rewrite getUserArn_run, Hi. unfold iam_send.
  rewrite (invoke_Throw _ _ _ _ _ Hs). cbn [fst snd]. unfold bind.
  rewrite recover_arn_run.
  destruct (exec userRe (err_message e)) as [m|] eqn:Hm; [left|right].
  - destruct (userRe_exec _ _ Hm) as (pre & sp & arn & tail & He & Hg & ?).
    exists arn, pre, sp, tail. by rewrite Hg.
  - split; [done|]. by apply userRe_no_match.
Qed.

End iam_theorems.

(** The refusal of [iam:GetUser] still tells who the user is. *)
Lemma getUserArn_resolved_witness :
  getUserArn (host_world env_empty (Some test_iam) (stub_resolving mock_empty))
  = (Ok "aws:arn:example:123456",
     after_call GetUser (mkHost env_empty (Some test_iam)
                           (stub_resolving mock_empty))
       (host_world env_empty (Some test_iam) (stub_resolving mock_empty))).
Proof. by apply (getUserArn_resolved _ test_iam test_user). Defined.

Lemma getUserArn_rejected_witness :
  let w := host_world env_empty (Some test_iam) (stub_refusing access_denied) in
  (∃ arn pre sp tail,
      getUserArn w = (Ok arn, after_call GetUser (remote w) w) ∧
      access_denied = pre +:+ "User:" +:+ sp +:+ arn +:+ tail ∧
      all_in space sp = true ∧ arn ≠ "" ∧ all_in not_blank arn = true) ∨
  (getUserArn w = (Throw (RemoteError access_denied),
                   after_call GetUser (remote w) w) ∧
   ∀ pre sp arn post,
     all_in space sp = true → arn ≠ "" → all_in not_blank arn = true →
     access_denied ≠ pre +:+ "User:" +:+ sp +:+ arn +:+ post).
Proof.
  exact (getUserArn_rejected
           (host_world env_empty (Some test_iam) (stub_refusing access_denied))
           test_iam (RemoteError access_denied) _ eq_refl eq_refl).
Defined.

Lemma initIamClient_keeps_first_witness :
  (initIamClient "eu-central-1" test_credentials ;;
   initIamClient "us-east-1" test_credentials)
    (fresh_iam_world : World (Host Stub)) =
  (Ok test_iam, (initIamClient "eu-central-1" test_credentials
                   fresh_iam_world).2).
Proof. by apply initIamClient_keeps_first. Defined.

(** The run of the permission case of the comment above [getUserArn]. *)
Example getUserArn_access_denied :
  (getUserArn (host_world env_empty (Some test_iam)
                 (stub_refusing access_denied))).1 =
  Ok "arn:aws:iam::123456:user/renovate".
Proof. vm_compute. reflexivity. Qed.
