(* ===== verification/Directory.v ===== *)
(** * The pull-request directory

    [getPrList], [findPr], [getBranchPr], [getPr] and [getRepos] of
    [src/lib/modules/platform/codecommit/index.ts] (lines 152-296), with
    the translation of a raw pull request into the platform's [Pr].

    [getPrList] is the only writer of the cache slot [config.prList]; the
    other functions read the directory through it or go to the service
    directly.  The theorems show the derived-state rule of [getPr], that a
    populated cache is returned without a call and stays what it is, in
    what order and with what identifiers the service is asked, that
    [findPr] returns the first entry that passes its filters and never
    throws, and where the code differs from what its description says. *)

From S2P Require Import Prelude JsValue Effect Sdk Session Mock.

Section directory.
Context {R : Type} `{!Client R}.

(** ** Translation *)

(** [prInfo.pullRequestStatus === PullRequestStatusEnum.OPEN ? PrState.Open
    : PrState.Closed] *)
Definition status_to_state (status : option string) : PrState :=
  if Js.strict_eq status (Some OPEN) then Open else Closed.

(** [prInfo.pullRequestTargets![0]]: the assertion [!] does nothing at run
    time, so an absent array or an empty one makes the next property read
    throw. *)
Definition first_target (prInfo : PullRequest) : H R PullRequestTarget :=
  targets <- deref (pullRequestTargets prInfo) ;;
  deref (targets !! 0%nat).

(** The object literal of [getPrList]: no merge metadata, no [sha]. *)
Definition listed_pr (prId : string) (prInfo : PullRequest) : H R Pr.t :=
  t <- first_target prInfo ;;
  ret {| Pr.targetBranch := destinationReference t;
         Pr.sourceBranch := sourceReference t;
         Pr.state := status_to_state (pullRequestStatus prInfo);
         Pr.number := Js.parseInt prId;
         Pr.title := title prInfo;
         Pr.sha := None;
         Pr.sourceRepo := None |}.

(** The two-level rule of [getPr]: merge metadata first, raw status next. *)
Definition derived_state (t : PullRequestTarget) (status : option string)
  : PrState :=
  if Js.truthy_bool (mergeMetadata t ≫= isMerged) then Merged
  else status_to_state status.

(** ** getPrList *)

(** One iteration of [for (const prId of prIds)]. *)
Definition getPrList_body (prId : string) (fetchedPrs : list Pr.t)
  : H R (ctl (list Pr.t)) :=
  prRes <- client_getPr prId ;;
  match prRes ≫= pullRequest with
  | None => ret (Continue fetchedPrs)
  | Some prInfo =>
      pr <- listed_pr prId prInfo ;;
      ret (Continue (fetchedPrs ++ [pr]))
  end.

Definition getPrList : H R (list Pr.t) :=
  log LDebug "getPrList()" ;;
  cached <- read_config prList ;;
  match cached with
  | Some l => ret l
  | None =>
      repo <- read_config repository ;;
      arn <- read_config userArn ;;
      listPrsResponse <- client_listPullRequests repo arn ;;
      if bool_decide (is_Some listPrsResponse ∧
                      listPrsResponse ≫= pullRequestIds = None)
      then ret []
      else
        let prIds := default [] (listPrsResponse ≫= pullRequestIds) in
        fetchedPrs <- for_of prIds getPrList_body [] ;;
        write_config (set_prList (Some fetchedPrs)) ;;
        log LDebug "Retrieved Pull Requests" ;;
        ret fetchedPrs
  end.

(** ** findPr *)

(** What the [switch (state)] of [findPr] keeps.  Every state other than
    [All] and [NotOpen] takes the [default] branch, which keeps the open
    entries. *)
Definition state_passes (state : PrState) (item : Pr.t) : Prop :=
  match state with
  | All => True
  | NotOpen => Pr.state item ≠ Open
  | _ => Pr.state item = Open
  end.

#[export] Instance state_passes_dec state item :
  Decision (state_passes state item).
Proof. destruct state; simpl; apply _. Defined.

(** What an entry must satisfy to pass the three filters of [findPr]. *)
Definition findPr_match (branchName : string) (prTitle : option string)
    (state : PrState) (item : Pr.t) : Prop :=
  Pr.sourceBranch item = Some (getNewBranchName branchName) ∧
  (Js.truthy prTitle = true → Pr.title item = prTitle) ∧
  state_passes state item.

#[export] Instance findPr_match_dec b t st item :
  Decision (findPr_match b t st item).
Proof. unfold findPr_match. apply _. Defined.

(** The filters, in the order the code applies them. *)
Definition findPr_filter (branchName : string) (prTitle : option string)
    (state : PrState) (prs : list Pr.t) : list Pr.t :=
  let refsHeadBranchName := getNewBranchName branchName in
  let by_branch :=
    filter (λ item, Pr.sourceBranch item = Some refsHeadBranchName) prs in
  let by_title :=
    if Js.truthy prTitle
    then filter (λ item, Pr.title item = prTitle) by_branch
    else by_branch in
  match state with
  | All => by_title
  | NotOpen => filter (λ item, Pr.state item ≠ Open) by_title
  | _ => filter (λ item, Pr.state item = Open) by_title
  end.

(** [state] is optional and defaults to [PrState.All]. *)
Definition findPr (branchName : string) (prTitle : option string)
    (state : option PrState) : H R (option Pr.t) :=
  prsFiltered <-
    (try (prs <- getPrList ;;
          ret (findPr_filter branchName prTitle (default All state) prs))
     catch (λ _, log LError "findPr error" ;; ret [])) ;;
  ret (head prsFiltered).

(** ** getPr and getBranchPr *)

Definition getPr (pullRequestId : Js.number) : H R (option Pr.t) :=
  log LDebug ("getPr(" +:+ Js.toString pullRequestId +:+ ")") ;;
  prRes <- client_getPr (Js.toString pullRequestId) ;;
  match prRes ≫= pullRequest with
  | None => ret None
  | Some prInfo =>
      t <- first_target prInfo ;;
      ret (Some {| Pr.sourceBranch := sourceReference t;
                   Pr.state := derived_state t (pullRequestStatus prInfo);
                   Pr.number := pullRequestId;
                   Pr.title := title prInfo;
                   Pr.targetBranch := destinationReference t;
                   Pr.sha := revisionId prInfo;
                   Pr.sourceRepo := None |})
  end.

Definition getBranchPr (branchName : string) : H R (option Pr.t) :=
  log LDebug ("getBranchPr(" +:+ branchName +:+ ")") ;;
  existingPr <- findPr branchName None (Some Open) ;;
  match existingPr with
  | Some pr => getPr (Pr.number pr)
  | None => ret None
  end.

(** ** getRepos *)

(** The loop of [getRepos]: the names that are present and not empty. *)
Definition repo_names (repoNames : list RepositoryNameIdPair) : list string :=
  omap (λ repo, if Js.truthy (pair_repositoryName repo)
                then pair_repositoryName repo else None) repoNames.

Definition getRepos : H R (list string) :=
  log LDebug "Autodiscovering AWS CodeCommit repositories" ;;
  reposRes <- attempt client_listRepositories ;;
  match reposRes with
  | Throw _ => log LError "Could not retrieve repositories" ;; ret []
  | Ok reposRes =>
      ret (repo_names (default [] (reposRes ≫= repositories)))
  end.

(** What [getPrList] can put in the directory for the identifier [prId]. *)
Definition listed_ok (prId : string) (pr : Pr.t) : Prop :=
  (Pr.state pr = Open ∨ Pr.state pr = Closed) ∧ Pr.sha pr = None ∧
  Pr.number pr = Js.parseInt prId.

End directory.

(** ** Scenarios of the unit tests

    The fixtures of [index.spec.ts]: the state [beforeEach] leaves behind
    and the responses the tests script. *)

(** [beforeEach]: the platform is initialised, then the cache slot and the
    repository are cleared and a fresh mock is installed. *)
Definition test_config : Config :=
  {| repository := None; defaultBranch := None;
     region := Some "eu-central-1"; prList := None;
     credentials := Some {| accessKeyId := "accessKeyId";
                            secretAccessKey := "SecretAccessKey";
                            sessionToken := None |};
     userArn := Some "aws:arn:example:123456" |}.

Definition test_world (m : Mock) : World Mock := mkWorld test_config m [] [].

Definition test_target (merged : option bool) : PullRequestTarget :=
  {| repositoryName := None;
     sourceReference := Some "refs/heads/sourceBranch";
     destinationReference := Some "refs/heads/targetBranch";
     mergeMetadata := (λ b, {| isMerged := Some b |}) <$> merged |}.

(** [prRes] of the tests, with the status and the merge flag they vary. *)
Definition test_prInfo (status : string) (merged : option bool) : PullRequest :=
  {| pullRequestId := None; title := Some "someTitle";
     pullRequestStatus := Some status; revisionId := None;
     pullRequestTargets := Some [test_target merged] |}.

Definition test_prRes (status : string) (merged : option bool)
  : GetPullRequestOutput :=
  {| pullRequest := Some (test_prInfo status merged) |}.

(** The test "gets merged pr". *)
Definition mock_merged_pr : Mock :=
  resolvesOnce GetPullRequestCommand (RPullRequest (test_prRes "OPEN" (Some true)))
    mock_empty.

(** The listing the tests of [findPr] and [getPrList] script: one
    identifier and its pull request. *)
Definition mock_listing (status : string) : Mock :=
  resolvesOnce GetPullRequestCommand (RPullRequest (test_prRes status None))
    (resolvesOnce ListPullRequestsCommand
       (RPrIds {| pullRequestIds := Some ["1"] |}) mock_empty).

(** The entry these listings produce. *)
Definition test_pr (state : PrState) : Pr.t :=
  {| Pr.number := Js.Num 1;
     Pr.sourceBranch := Some "refs/heads/sourceBranch";
     Pr.targetBranch := Some "refs/heads/targetBranch";
     Pr.title := Some "someTitle"; Pr.state := state;
     Pr.sha := None; Pr.sourceRepo := None |}.

(** A listing of one pull request that the service reports as closed and
    merged. *)
Definition mock_listing_merged : Mock :=
  resolvesOnce GetPullRequestCommand
    (RPullRequest (test_prRes "CLOSED" (Some true)))
    (resolvesOnce ListPullRequestsCommand
       (RPrIds {| pullRequestIds := Some ["1"] |}) mock_empty).

(** A listing response without an identifier list. *)
Definition mock_no_ids : Mock :=
  resolvesOnce ListPullRequestsCommand (RPrIds {| pullRequestIds := None |})
    mock_empty.

(** A pull request without targets. *)
Definition mock_no_targets : Mock :=
  resolvesOnce GetPullRequestCommand
    (RPullRequest {| pullRequest := Some
       {| pullRequestId := Some "1"; title := Some "someTitle";
          pullRequestStatus := Some "OPEN"; revisionId := None;
          pullRequestTargets := Some [] |} |})
    mock_empty.

(** The test "returns null in case input is null". *)
Definition mock_bad_creds : Mock :=
  rejectsOnce GetPullRequestCommand "bad creds" mock_empty.

(** The test "codecommit find PR for branch": the pull request is the
    standing answer, so the second fetch finds it too. *)
Definition mock_branch_pr : Mock :=
  resolves GetPullRequestCommand (RPullRequest (test_prRes "OPEN" None))
    (resolvesOnce ListPullRequestsCommand
       (RPrIds {| pullRequestIds := Some ["1"] |}) mock_empty).

(** ** Theorems: translation and the single fetch *)

Section directory_theorems.
Context {R : Type} `{!Client R}.
Implicit Types w : World R.

Lemma status_to_state_cases s :
  status_to_state s = Open ∨ status_to_state s = Closed.
Proof. unfold status_to_state. destruct (Js.strict_eq _ _); auto. Qed.

Lemma status_to_state_open s : status_to_state s = Open ↔ s = Some OPEN.
Proof.
  unfold status_to_state. destruct (Js.strict_eq _ _) eqn:E.
  - by apply strict_eq_true in E.
  - apply strict_eq_false in E. split; [done|by intros ->].
Qed.

Lemma derived_state_merged t status :
  mergeMetadata t ≫= isMerged = Some true → derived_state t status = Merged.
Proof. unfold derived_state. by intros ->. Qed.

Lemma derived_state_unmerged t status :
  mergeMetadata t ≫= isMerged ≠ Some true →
  derived_state t status = status_to_state status.
Proof.
  unfold derived_state. by destruct (mergeMetadata t ≫= isMerged) as [[]|].
Qed.

Lemma first_target_run prInfo t rest w :
  pullRequestTargets prInfo = Some (t :: rest) →
  first_target prInfo w = (Ok t, w).
Proof. unfold first_target. by intros ->. Qed.

Lemma first_target_throws prInfo w :
  pullRequestTargets prInfo = None ∨ pullRequestTargets prInfo = Some [] →
  first_target prInfo w = (Throw TypeError, w).
Proof. unfold first_target. by intros [-> | ->]. Qed.

(** The world after [getPr n] has made its call. *)
Definition getPr_world (n : Js.number) (rm : R) w : World R :=
  mkWorld (config w) rm (trace w ++ [GetPr (Js.toString n)])
    (logs w ++ [(LDebug, "getPr(" +:+ Js.toString n +:+ ")")]).

(** [getPr] on a response that carries a pull request with a target. *)
Lemma getPr_run n w prInfo t rest rm :
  cl_getPr (Js.toString n) (remote w)
    = (Ok (Some {| pullRequest := Some prInfo |}), rm) →
  pullRequestTargets prInfo = Some (t :: rest) →
  getPr n w =
  (Ok (Some {| Pr.sourceBranch := sourceReference t;
               Pr.state := derived_state t (pullRequestStatus prInfo);
               Pr.number := n;
               Pr.title := title prInfo;
               Pr.targetBranch := destinationReference t;
               Pr.sha := revisionId prInfo;
               Pr.sourceRepo := None |}),
   getPr_world n rm w).
Proof.
  intros Hcall Ht. unfold getPr, client_getPr. eff_run. rewrite Hcall.
  simpl. by rewrite (bind_Ok _ _ _ _ _ (first_target_run _ _ _ _ Ht)).
Qed.

(** C1: derived-state precedence.  When the merge metadata of the first
    target of the fetched pull request says [isMerged = true], [getPr]
    returns it with state [Merged], whatever the raw status field holds
    ([OPEN], [CLOSED], anything else, or nothing). *)
Theorem getPr_merged_precedence n w prInfo t rest rm :
  cl_getPr (Js.toString n) (remote w)
    = (Ok (Some {| pullRequest := Some prInfo |}), rm) →
  pullRequestTargets prInfo = Some (t :: rest) →
  mergeMetadata t ≫= isMerged = Some true →
  ∃ pr, getPr n w = (Ok (Some pr), getPr_world n rm w) ∧
        Pr.state pr = Merged ∧ Pr.number pr = n.
Proof.
  intros Hcall Ht Hm. rewrite (getPr_run _ _ _ _ _ _ Hcall Ht).
  eexists. split; [done|]. simpl. by rewrite derived_state_merged.
Qed.

(** Without the merge flag the state follows the raw status alone:
    [Open] exactly when the status is the string [OPEN], [Closed] for every
    other value or none. *)
Theorem getPr_unmerged_state n w prInfo t rest rm :
  cl_getPr (Js.toString n) (remote w)
    = (Ok (Some {| pullRequest := Some prInfo |}), rm) →
  pullRequestTargets prInfo = Some (t :: rest) →
  mergeMetadata t ≫= isMerged ≠ Some true →
  ∃ pr, getPr n w = (Ok (Some pr), getPr_world n rm w) ∧
        (Pr.state pr = Open ↔ pullRequestStatus prInfo = Some OPEN) ∧
        (Pr.state pr = Closed ↔ pullRequestStatus prInfo ≠ Some OPEN) ∧
        Pr.sha pr = revisionId prInfo.
Proof.
  intros Hcall Ht Hm. rewrite (getPr_run _ _ _ _ _ _ Hcall Ht).
  eexists. split; [done|]. simpl. rewrite derived_state_unmerged by done.
  rewrite <-status_to_state_open.
  destruct (status_to_state_cases (pullRequestStatus prInfo)) as [-> | ->];
    naive_solver.
Qed.

(** [getPr] answers "absent" when the client resolves to nothing or
    to a response without a pull request; it makes exactly one call and
    does not touch the session context. *)
Theorem getPr_absent n w prRes rm :
  cl_getPr (Js.toString n) (remote w) = (Ok prRes, rm) →
  prRes ≫= pullRequest = None →
  getPr n w = (Ok None, getPr_world n rm w).
Proof.
  intros Hcall Hn. unfold getPr, client_getPr. eff_run. rewrite Hcall.
  eff_run. by rewrite Hn.
Qed.

(** [getPr] has no [try]: when the client's [getPr] rejects, the
    rejection reaches the caller of [getPr]. *)
Theorem getPr_rejection_propagates n w e rm :
  cl_getPr (Js.toString n) (remote w) = (Throw e, rm) →
  getPr n w = (Throw e, getPr_world n rm w).
Proof.
  intros Hcall. unfold getPr, client_getPr. eff_run. by rewrite Hcall.
Qed.

(** A fetched pull request whose target list is missing or empty
    makes [getPr] throw a [TypeError]: the read of [pullRequestTargets[0]]
    is not guarded. *)
Theorem getPr_no_target_throws n w prInfo rm :
  cl_getPr (Js.toString n) (remote w)
    = (Ok (Some {| pullRequest := Some prInfo |}), rm) →
  pullRequestTargets prInfo = None ∨ pullRequestTargets prInfo = Some [] →
  getPr n w = (Throw TypeError, getPr_world n rm w).
Proof.
  intros Hcall Ht. unfold getPr, client_getPr. eff_run. rewrite Hcall.
  simpl. by rewrite (bind_Throw _ _ _ _ _ (first_target_throws _ _ Ht)).
Qed.

End directory_theorems.

Lemma getPr_merged_precedence_witness :
  ∃ pr, getPr (Js.Num 1) (test_world mock_merged_pr)
        = (Ok (Some pr), getPr_world (Js.Num 1) mock_empty (test_world mock_merged_pr)) ∧
        Pr.state pr = Merged ∧ Pr.number pr = Js.Num 1.
Proof.
  apply (getPr_merged_precedence (Js.Num 1) (test_world mock_merged_pr)
           (test_prInfo "OPEN" (Some true)) (test_target (Some true)) []);
    reflexivity.
Defined.

(** ** Theorems: the cached listing *)

Section listing_theorems.
Context {R : Type} `{!Client R}.
Implicit Types w : World R.

(** The world after [getPrList] has logged its entry. *)
Definition logged (l : Level) (msg : string) w : World R :=
  mkWorld (config w) (remote w) (trace w) (logs w ++ [(l, msg)]).

Lemma getPrList_hit w l :
  prList (config w) = Some l →
  getPrList w = (Ok l, logged LDebug "getPrList()" w).
Proof. intros Hc. unfold getPrList. eff_run. by rewrite Hc. Qed.

Lemma listed_pr_inv prId prInfo w pr w' :
  listed_pr prId prInfo w = (Ok pr, w') → w' = w ∧ listed_ok prId pr.
Proof.
  unfold listed_pr, first_target.
  destruct (pullRequestTargets prInfo) as [[|t rest]|]; [done| |done].
  intros [= <- <-]. repeat split; try done. apply status_to_state_cases.
Qed.

(** One iteration asks for one pull request and keeps the context. *)
Lemma getPrList_body_inv prId b w r w1 :
  getPrList_body prId b w = (Ok r, w1) →
  trace w1 = trace w ++ [GetPr prId] ∧ config w1 = config w ∧
  (r = Continue b ∨ ∃ pr, r = Continue (b ++ [pr]) ∧ listed_ok prId pr).
Proof.
  unfold getPrList_body, client_getPr. eff_run.
  destruct (cl_getPr prId (remote w)) as [[prRes|e] rm]; [|done].
  destruct (prRes ≫= pullRequest) as [prInfo|]; [|intros [= <- <-]; auto].
  intros (pr & w2 & [-> Hok]%listed_pr_inv & [= <- <-])%bind_inv_Ok.
  repeat split; try done. right. eauto.
Qed.

(** The loop of [getPrList]: one [GetPr] per identifier, in order; every
    entry comes from one of the identifiers. *)
Lemma getPrList_loop_inv prIds w fetched w1 :
  for_of prIds getPrList_body [] w = (Ok fetched, w1) →
  trace w1 = trace w ++ (GetPr <$> prIds) ∧ config w1 = config w ∧
  Forall (λ pr, ∃ prId, prId ∈ prIds ∧ listed_ok prId pr) fetched ∧
  length fetched ≤ length prIds.
Proof.
  apply (for_of_invariant_nobreak (λ done b s,
    trace s = trace w ++ (GetPr <$> done) ∧ config s = config w ∧
    Forall (λ pr, ∃ prId, prId ∈ done ∧ listed_ok prId pr) b ∧
    length b ≤ length done)).
  { by rewrite app_nil_r. }
  intros done x b s r s1 (Ht & Hc & Hf & Hl) (Ht1 & Hc1 & Hr)%getPrList_body_inv.
  assert (Forall (λ pr, ∃ prId, prId ∈ done ++ [x] ∧ listed_ok prId pr) b).
  { eapply Forall_impl; [done|]. intros pr (i & ? & ?). exists i.
    split; [apply elem_of_app; by left|done]. }
  rewrite fmap_app, app_assoc, <-Ht, length_app. simpl.
  destruct Hr as [->|(pr & -> & Hok)]; eexists; (split; [done|]).
  - repeat split; [congruence..|done|lia].
  - repeat split; [congruence..| |rewrite length_app; simpl; lia].
    apply Forall_app. split; [done|]. constructor; [|done].
    exists x. split; [apply elem_of_app; right; by left|done].
Qed.

(** What a run of [getPrList] that found the cache empty did. *)
Lemma getPrList_miss_inv w l w1 :
  prList (config w) = None →
  getPrList w = (Ok l, w1) →
  ∃ resp rm, cl_listPullRequests (repository (config w)) (userArn (config w))
               (remote w) = (Ok resp, rm) ∧
    ((is_Some resp ∧ resp ≫= pullRequestIds = None ∧ l = [] ∧
      config w1 = config w ∧
      trace w1 = trace w ++ [ListPullRequests (repository (config w))
                                              (userArn (config w))]) ∨
     (config w1 = set_prList (Some l) (config w) ∧
      trace w1 = trace w ++
        ListPullRequests (repository (config w)) (userArn (config w)) ::
        (GetPr <$> default [] (resp ≫= pullRequestIds)) ∧
      Forall (λ pr, ∃ prId, prId ∈ default [] (resp ≫= pullRequestIds) ∧
                            listed_ok prId pr) l)).
Proof.
  intros Hc. unfold getPrList, client_listPullRequests. eff_run. rewrite Hc.
  eff_run.
  destruct (cl_listPullRequests _ _ _) as [[resp|e] rm]; [|by intros ?].
  intros Hrun. exists resp, rm. split; [done|].
  case_bool_decide.
  - injection Hrun as <- <-. left. by destruct_and!.
  - apply bind_inv_Ok in Hrun
      as (f & w2 & (Ht & Hcf & Hf & _)%getPrList_loop_inv & Hk).
    revert Hk. eff_run. intros [= <- <-]. right. simpl in *.
    by rewrite Hcf, Ht, <-app_assoc.
Qed.

(** A populated cache is returned as it is: no call is made, the
    backend and the session context are not touched.  Only the log
    grows. *)
Theorem getPrList_cached w l :
  prList (config w) = Some l →
  let '(r, w1) := getPrList w in
  r = Ok l ∧ trace w1 = trace w ∧ remote w1 = remote w ∧
  config w1 = config w.
Proof. intros Hc. by rewrite (getPrList_hit _ _ Hc). Qed.

(** C2: Cache stability.  Once a call of [getPrList] has returned [l] and
    left the cache populated, every later call in the session returns [l]
    and makes no call, whatever has happened to the backend, the trace or
    the log in between. *)
Theorem getPrList_stable w l w1 rm tr lg :
  getPrList w = (Ok l, w1) →
  is_Some (prList (config w1)) →
  let w2 := mkWorld (config w1) rm tr lg in
  (getPrList w2).1 = Ok l ∧ trace (getPrList w2).2 = tr ∧
  remote (getPrList w2).2 = rm.
Proof.
  intros Hrun Hs. assert (prList (config w1) = Some l) as Hl.
  { destruct (prList (config w)) as [l0|] eqn:Hc.
    - rewrite (getPrList_hit _ _ Hc) in Hrun. by injection Hrun as <- <-.
    - destruct (getPrList_miss_inv _ _ _ Hc Hrun)
        as (? & ? & _ & [(_ & _ & _ & Hcf & _)|(-> & _)]); [|done].
      rewrite Hcf, Hc in Hs. by destruct Hs. }
  intros w2. by rewrite (getPrList_hit w2 l Hl).
Qed.

(** A listing that succeeds with the cache empty asks the service for
    the identifiers once and then for each pull request, one at a time and
    in the order of the identifiers, and stores what it returns in the
    cache. *)
Theorem getPrList_fetches_in_order w l w1 ids rm :
  prList (config w) = None →
  cl_listPullRequests (repository (config w)) (userArn (config w)) (remote w)
    = (Ok (Some {| pullRequestIds := Some ids |}), rm) →
  getPrList w = (Ok l, w1) →
  trace w1 = trace w ++
    ListPullRequests (repository (config w)) (userArn (config w)) ::
    (GetPr <$> ids) ∧
  prList (config w1) = Some l.
Proof.
  intros Hc Hcall Hrun.
  destruct (getPrList_miss_inv _ _ _ Hc Hrun)
    as (resp & rm' & Hcall' & [(_ & Hn & _)|(-> & Ht & _)]);
    rewrite Hcall in Hcall'; injection Hcall' as <- <-; done.
Qed.

(** The directory never holds a merged pull request.  Every entry a
    listing produces is [Open] or [Closed] and has no [sha]: the listing
    does not read the merge metadata that [getPr] reads. *)
Theorem getPrList_never_merged w l w1 :
  prList (config w) = None →
  getPrList w = (Ok l, w1) →
  Forall (λ pr, Pr.state pr ≠ Merged ∧ Pr.sha pr = None) l.
Proof.
  intros Hc Hrun.
  destruct (getPrList_miss_inv _ _ _ Hc Hrun)
    as (resp & rm & _ & [(_ & _ & -> & _)|(_ & _ & Hf)]); [done|].
  eapply Forall_impl; [done|].
  intros pr (prId & _ & [Hs|Hs] & Hsha & _); by rewrite Hs.
Qed.

(** A response that has no identifier list makes [getPrList] return
    the empty list without storing it: the next call asks again. *)
Theorem getPrList_early_return_not_cached w resp rm :
  prList (config w) = None →
  cl_listPullRequests (repository (config w)) (userArn (config w)) (remote w)
    = (Ok (Some resp), rm) →
  pullRequestIds resp = None →
  ∃ w1, getPrList w = (Ok [], w1) ∧ prList (config w1) = None.
Proof.
  intros Hc Hcall Hn. unfold getPrList, client_listPullRequests. eff_run.
  rewrite Hc. eff_run. rewrite Hcall. simpl.
  rewrite bool_decide_true by (by split; [eexists|]). eauto.
Qed.

End listing_theorems.

(** ** Theorems: lookup *)

Section lookup_theorems.
Context {R : Type} `{!Client R}.
Implicit Types w : World R.

(** The three filters are one filter by [findPr_match]. *)
Lemma findPr_filter_match b t st (l : list Pr.t) :
  findPr_filter b t st l = filter (findPr_match b t st) l.
Proof.
  assert (Js.truthy t = true ∨ Js.truthy t = false) as [Et|Et]
    by (destruct (Js.truthy t); auto);
    unfold findPr_filter; rewrite Et; destruct st;
    rewrite ?list_filter_filter; apply list_filter_iff; intros x;
    unfold findPr_match; rewrite Et; simpl; intuition congruence.
Qed.

(** Asking for a concrete state is asking for [Open]. *)
Lemma findPr_filter_default b t st (l : list Pr.t) :
  st ≠ All → st ≠ NotOpen →
  findPr_filter b t st l = findPr_filter b t Open l.
Proof. by destruct st. Qed.

Lemma findPr_run_Ok b t st w l w1 :
  getPrList w = (Ok l, w1) →
  findPr b t st w = (Ok (head (findPr_filter b t (default All st) l)), w1).
Proof.
  intros Hrun. unfold findPr.
  rewrite (bind_Ok _ _ w (findPr_filter b t (default All st) l) w1); [done|].
  apply try_catch_Ok. by rewrite (bind_Ok _ _ _ _ _ Hrun).
Qed.

Lemma findPr_run_Throw b t st w e w1 :
  getPrList w = (Throw e, w1) →
  findPr b t st w = (Ok None, logged LError "findPr error" w1).
Proof.
  intros Hrun. unfold findPr.
  rewrite (bind_Ok _ _ w [] (logged LError "findPr error" w1)); [done|].
  rewrite (try_catch_Throw _ _ _ e w1); [done|].
  by rewrite (bind_Throw _ _ _ _ _ Hrun).
Qed.

(** [findPr] never throws: a listing that fails is logged and the
    answer is "absent". *)
Theorem findPr_never_throws b t st : never_throws (findPr (R:=R) b t st).
Proof.
  intros w. destruct (getPrList w) as [[l|e] w1] eqn:Hrun.
  - rewrite (findPr_run_Ok _ _ _ _ _ _ Hrun). eauto.
  - rewrite (findPr_run_Throw _ _ _ _ _ _ Hrun). eauto.
Qed.

(** [findPr] returns the first entry of the directory, in listing
    order, whose source branch is the [refs/heads/] form of the branch
    name, whose title is the requested one when a title is given, and
    whose state passes the state filter; no entry before it does. *)
Theorem findPr_first_match b t st w l w1 pr :
  getPrList w = (Ok l, w1) →
  (findPr b t st w).1 = Ok (Some pr) →
  ∃ l1 l2, l = l1 ++ pr :: l2 ∧
    findPr_match b t (default All st) pr ∧
    Forall (λ x, ¬ findPr_match b t (default All st) x) l1.
Proof.
  intros Hrun. rewrite (findPr_run_Ok _ _ _ _ _ _ Hrun), findPr_filter_match.
  intros [= Hh]. destruct (head_filter_Some _ _ _ Hh) as (l1 & l2 & -> & Hn).
  exists l1, l2. split; [done|]. split; [|done].
  by apply head_filter_In in Hh as [_ ?].
Qed.

(** [findPr] answers "absent" exactly when no entry of the directory
    passes the filters. *)
Theorem findPr_absent_iff b t st w l w1 :
  getPrList w = (Ok l, w1) →
  (findPr b t st w).1 = Ok None ↔
  Forall (λ x, ¬ findPr_match b t (default All st) x) l.
Proof.
  intros Hrun. rewrite (findPr_run_Ok _ _ _ _ _ _ Hrun), findPr_filter_match.
  rewrite <-head_filter_nil_iff. simpl. split; [by intros [= ->]|by intros ->].
Qed.

(** C40: The [default] branch of the state switch.  A caller that asks
    [findPr] for [Closed] or [Merged] pull requests gets an open one or
    nothing: the state of whatever [findPr] returns is [Open]. *)
Theorem findPr_concrete_state_is_open b t st w pr :
  st = Closed ∨ st = Merged ∨ st = Open →
  (findPr b t (Some st) w).1 = Ok (Some pr) →
  Pr.state pr = Open.
Proof.
  intros Hst. destruct (getPrList w) as [[l|e] w1] eqn:Hrun.
  - rewrite (findPr_run_Ok _ _ _ _ _ _ Hrun), findPr_filter_match.
    intros [= [_ (_ & _ & Hp)]%head_filter_In]. simpl in Hp.
    by destruct Hst as [->|[->| ->]].
  - by rewrite (findPr_run_Throw _ _ _ _ _ _ Hrun).
Qed.

(** [getBranchPr] looks the branch up among the open entries and fetches
    the entry found again, by its number. *)
Lemma getBranchPr_run b w l w1 :
  getPrList (logged LDebug ("getBranchPr(" +:+ b +:+ ")") w) = (Ok l, w1) →
  getBranchPr b w =
  match head (findPr_filter b None Open l) with
  | Some pr => getPr (Pr.number pr) w1
  | None => (Ok None, w1)
  end.
Proof.
  intros Hrun. unfold getBranchPr. eff_run.
  rewrite (bind_Ok _ _ _ _ _ (findPr_run_Ok _ _ _ _ _ _ Hrun)).
  by destruct (head _).
Qed.

Lemma first_target_pure prInfo w : ∃ r, first_target prInfo w = (r, w).
Proof.
  unfold first_target. destruct (pullRequestTargets prInfo) as [[|??]|]; eauto.
Qed.

(** Whatever it returns, [getPr] makes one call and keeps the context. *)
Lemma getPr_effect n w :
  trace (getPr n w).2 = trace w ++ [GetPr (Js.toString n)] ∧
  config (getPr n w).2 = config w.
Proof.
  unfold getPr, client_getPr. eff_run.
  destruct (cl_getPr _ _) as [[prRes|e] rm]; [|done].
  destruct (prRes ≫= pullRequest) as [prInfo|]; [|done].
  destruct (first_target_pure prInfo
    (mkWorld (config w) rm (trace w ++ [GetPr (Js.toString n)])
       (logs w ++ [(LDebug, "getPr(" +:+ Js.toString n +:+ ")")])))
    as [[t|e] E]; by eff_step E.
Qed.

(** Identifiers survive the directory.  An entry that the listing
    built from the identifier [`${n}`] is fetched again by [getBranchPr]
    under the same identifier: [Number.parseInt] and the template literal
    are inverse on the identifiers the service issues. *)
Theorem getBranchPr_same_identifier b w l w1 pr n :
  getPrList (logged LDebug ("getBranchPr(" +:+ b +:+ ")") w) = (Ok l, w1) →
  head (findPr_filter b None Open l) = Some pr →
  listed_ok (Js.toString n) pr →
  getBranchPr b w = getPr n w1 ∧
  trace (getBranchPr b w).2 = trace w1 ++ [GetPr (Js.toString n)].
Proof.
  intros Hrun Hh (_ & _ & Hn). rewrite parseInt_toString in Hn.
  rewrite (getBranchPr_run _ _ _ _ Hrun), Hh, Hn. split; [done|].
  apply getPr_effect.
Qed.

(** *** getRepos *)

Lemma repo_names_spec (l : list RepositoryNameIdPair) (x : string) :
  x ∈ repo_names l ↔
  ∃ repo, repo ∈ l ∧ pair_repositoryName repo = Some x ∧ x ≠ "".
Proof.
  unfold repo_names. rewrite list_elem_of_omap.
  split; intros (repo & Hin & Hx); exists repo; (split; [done|]).
  - destruct (pair_repositoryName repo) as [[|c s]|]; simplify_eq/=. done.
  - destruct Hx as [-> Hne]. by destruct x.
Qed.

(** Repository discovery is best effort.  [getRepos] never throws;
    when the listing rejects it returns the empty list, and otherwise the
    names that are present and not empty, in the order of the response. *)
Theorem getRepos_best_effort w :
  ∃ names w1, getRepos w = (Ok names, w1) ∧
    trace w1 = trace w ++ [ListRepositories] ∧ config w1 = config w ∧
    match (cl_listRepositories (remote w)).1 with
    | Throw _ => names = []
    | Ok resp => names = repo_names (default [] (resp ≫= repositories))
    end.
Proof.
  unfold getRepos, client_listRepositories. eff_run.
  destruct (cl_listRepositories (remote w)) as [[resp|e] rm]; simpl;
    eexists _, _; (split; [reflexivity|done]).
Qed.

End lookup_theorems.

(** ** The theorems at the scenarios of the unit tests *)

Lemma getPr_unmerged_state_witness :
  ∃ pr, getPr (Js.Num 1) (test_world (mock_listing "CLOSED"))
        = (Ok (Some pr),
           getPr_world (Js.Num 1)
             (resolvesOnce ListPullRequestsCommand
                (RPrIds {| pullRequestIds := Some ["1"] |}) mock_empty)
             (test_world (mock_listing "CLOSED"))) ∧
        (Pr.state pr = Open ↔ Some "CLOSED" = Some OPEN) ∧
        (Pr.state pr = Closed ↔ Some "CLOSED" ≠ Some OPEN) ∧
        Pr.sha pr = None.
Proof.
  apply (getPr_unmerged_state (Js.Num 1) (test_world (mock_listing "CLOSED"))
           (test_prInfo "CLOSED" None) (test_target None) []);
    [reflexivity..|done].
Defined.

Lemma getPr_absent_witness :
  getPr (Js.Num 1) (test_world mock_bad_creds)
  = (Ok None, getPr_world (Js.Num 1) mock_empty (test_world mock_bad_creds)).
Proof. by apply (getPr_absent _ _ None). Defined.

Lemma getPr_rejection_propagates_witness :
  @getPr Mock strict_client (Js.Num 1) (test_world mock_bad_creds)
  = (Throw (RemoteError "bad creds"),
     getPr_world (Js.Num 1) mock_empty (test_world mock_bad_creds)).
Proof. by apply (@getPr_rejection_propagates Mock strict_client). Defined.

Lemma getPr_no_target_throws_witness :
  getPr (Js.Num 1) (test_world mock_no_targets)
  = (Throw TypeError,
     getPr_world (Js.Num 1) mock_empty (test_world mock_no_targets)).
Proof.
  eapply (getPr_no_target_throws (Js.Num 1) (test_world mock_no_targets));
    [reflexivity|by right].
Defined.

(** The listing of the test "gets PR list by author", and the world it
    leaves. *)
Definition listed_world : World Mock :=
  (getPrList (test_world (mock_listing "OPEN"))).2.

Lemma getPrList_stable_witness :
  let w2 := mkWorld (config listed_world) (mock_listing "CLOSED") [] [] in
  (getPrList w2).1 = Ok [test_pr Open] ∧ trace (getPrList w2).2 = [] ∧
  remote (getPrList w2).2 = mock_listing "CLOSED".
Proof.
  apply (getPrList_stable (test_world (mock_listing "OPEN")) [test_pr Open]
           listed_world); [reflexivity|by eexists].
Defined.

Lemma getPrList_fetches_in_order_witness :
  trace listed_world
    = [] ++ ListPullRequests None (Some "aws:arn:example:123456") ::
        (GetPr <$> ["1"]) ∧
  prList (config listed_world) = Some [test_pr Open].
Proof.
  eapply (getPrList_fetches_in_order (test_world (mock_listing "OPEN")));
    vm_compute; reflexivity.
Defined.

Lemma getPrList_never_merged_witness :
  Forall (λ pr, Pr.state pr ≠ Merged ∧ Pr.sha pr = None) [test_pr Closed].
Proof.
  eapply (getPrList_never_merged (test_world mock_listing_merged));
    vm_compute; reflexivity.
Defined.

Lemma getPrList_early_return_not_cached_witness :
  ∃ w1, getPrList (test_world mock_no_ids) = (Ok [], w1) ∧
        prList (config w1) = None.
Proof.
  eapply (getPrList_early_return_not_cached (test_world mock_no_ids));
    reflexivity.
Defined.

Lemma findPr_first_match_witness :
  ∃ l1 l2, [test_pr Open] = l1 ++ test_pr Open :: l2 ∧
    findPr_match "sourceBranch" (Some "someTitle") Open (test_pr Open) ∧
    Forall (λ x, ¬ findPr_match "sourceBranch" (Some "someTitle") Open x) l1.
Proof.
  eapply (findPr_first_match "sourceBranch" (Some "someTitle") (Some Open)
            (test_world (mock_listing "OPEN"))); vm_compute; reflexivity.
Defined.

Lemma findPr_absent_iff_witness :
  (findPr "branch_without_pr" None (Some Open)
     (test_world (mock_listing "OPEN"))).1 = Ok None ↔
  Forall (λ x, ¬ findPr_match "branch_without_pr" None Open x) [test_pr Open].
Proof.
  eapply (findPr_absent_iff "branch_without_pr" None (Some Open)
            (test_world (mock_listing "OPEN"))); vm_compute; reflexivity.
Defined.

(** Asked for closed pull requests, [findPr] returns the open one. *)
Lemma findPr_concrete_state_is_open_witness :
  (findPr "sourceBranch" None (Some Closed)
     (test_world (mock_listing "OPEN"))).1 = Ok (Some (test_pr Open)) ∧
  Pr.state (test_pr Open) = Open.
Proof.
  split; [reflexivity|].
  eapply (findPr_concrete_state_is_open "sourceBranch" None Closed
            (test_world (mock_listing "OPEN"))); [by left|reflexivity].
Defined.

Lemma getBranchPr_same_identifier_witness :
  let w1 := (getPrList (logged LDebug "getBranchPr(sourceBranch)"
                          (test_world mock_branch_pr))).2 in
  getBranchPr "sourceBranch" (test_world mock_branch_pr)
    = getPr (Js.Num 1) w1 ∧
  trace (getBranchPr "sourceBranch" (test_world mock_branch_pr)).2
    = trace w1 ++ [GetPr "1"].
Proof.
  eapply (getBranchPr_same_identifier "sourceBranch"
            (test_world mock_branch_pr) [test_pr Open] _ (test_pr Open)
            (Js.Num 1)); [vm_compute; reflexivity..|].
  repeat split; by left.
Defined.

Lemma getPrList_cached_witness :
  let '(r, w1) := getPrList listed_world in
  r = Ok [test_pr Open] ∧ trace w1 = trace listed_world ∧
  remote w1 = remote listed_world ∧ config w1 = config listed_world.
Proof. by apply (getPrList_cached listed_world [test_pr Open]). Defined.
