(* ===== verification/Init.v ===== *)
(** * Init: the platform and the repository of a session

    [initPlatform] and [initRepo] of [index.ts].  [initPlatform] resolves
    the access key, the secret and the region from its parameters, the
    environment and the endpoint, stores them in [config], has the IAM
    client tell who the user is and builds the CodeCommit client.
    [initRepo] stores the repository name, asks the service for the
    repository, initialises the local clone and stores the default
    branch.  Both throw when they cannot go on; these are the only
    handlers of the adapter whose failures are meant to stop the run. *)

From S2P Require Import Prelude JsValue Regex Effect Sdk Mock Session Host Iam.
From S2P Require Import Directory.
Import Re.

(** ** Parameters and results *)

Module PlatformParams.
Record t : Type := mk {
  endpoint : option string;
  username : option string;
  password : option string;
}.
End PlatformParams.

Module PlatformResult.
Record t : Type := mk {
  endpoint : string;
}.
End PlatformResult.

Module RepoParams.
Record t : Type := mk {
  repository : string;
  endpoint : option string;
}.
End RepoParams.

Module RepoResult.
Record t : Type := mk {
  repoFingerprint : string;
  defaultBranch : string;
  isFork : bool;
}.
End RepoResult.

(** The messages of [constants/error-messages]. *)
Definition PLATFORM_BAD_CREDENTIALS : string := "bad-credentials".
Definition REPOSITORY_EMPTY : string := "empty".
Definition REPOSITORY_NOT_FOUND : string := "not-found".

(** ** The region of an endpoint *)

(** [/.*codecommit\.(?<region>.+)\.amazonaws\.com/] *)
Definition regionReg : re :=
  Seq (Rep dot 0 true)
    (Seq (Lit "codecommit.")
       (Seq (Group "region" (Rep dot 1 true)) (Lit ".amazonaws.com"))).

(** [regionReg.exec(endpoint)?.groups?.region] *)
Definition parse_region (endpoint : string) : option string :=
  exec regionReg endpoint ≫= group "region".

(** [`https://git-codecommit.${region}.amazonaws.com/`] *)
Definition default_endpoint (region : string) : string :=
  "https://git-codecommit." +:+ region +:+ ".amazonaws.com/".

(** The number of full stops of a string: a region name has none. *)
Fixpoint dots (s : string) : nat :=
  match s with
  | EmptyString => 0
  | String c s' => (if decide (c = "."%char) then 1 else 0) + dots s'
  end.

Definition region_warning : string :=
  "Can't parse region, make sure your endpoint is correct".

Definition init_error : string :=
  "Init: You must configure a AWS user(accessKeyId), password(secretAccessKey) and endpoint/AWS_REGION".

(** The region [initPlatform] works with: from the endpoint when there
    is one and from the environment otherwise. *)
Definition region_of (endpoint : option string) (e : Env) : option string :=
  match Js.truthy_val endpoint with
  | Some ep => parse_region ep
  | None => AWS_REGION e
  end.

(** What [initPlatform] resolves before it touches anything: the access
    key and the secret from the parameters or else the environment, and
    the region. *)
Definition session_of (p : PlatformParams.t) (e : Env)
  : option (string * string * string) :=
  accessKeyId ← Js.truthy_val
    (if Js.truthy (PlatformParams.username p) then PlatformParams.username p
     else AWS_ACCESS_KEY_ID e) ;
  secretAccessKey ← Js.truthy_val
    (if Js.truthy (PlatformParams.password p) then PlatformParams.password p
     else AWS_SECRET_ACCESS_KEY e) ;
  region ← Js.truthy_val (region_of (PlatformParams.endpoint p) e) ;
  Some (accessKeyId, secretAccessKey, region).

(** ** The handlers *)

Section init.
Context {R : Type} `{!Client R, !Services R}.

(** The region, from the endpoint when there is one and from the
    environment otherwise. *)
Definition resolve_region (endpoint : option string)
  : H (Host R) (option string) :=
  match Js.truthy_val endpoint with
  | Some e =>
      let region := parse_region e in
      (if Js.truthy region then ret tt else log LWarn region_warning) ;;
      ret region
  | None => read_host (λ h, AWS_REGION (env h))
  end.

(** What [initPlatform] does once the three values are resolved. *)
Definition initPlatform_connect (endpoint : option string)
    (e : Env) (accessKeyId secretAccessKey region : string)
  : H (Host R) PlatformResult.t :=
  write_config (set_region (Some region)) ;;
  let credentials :=
    {| accessKeyId := accessKeyId; secretAccessKey := secretAccessKey;
       sessionToken := AWS_SESSION_TOKEN e |} in
  write_config (set_credentials (Some credentials)) ;;
  initIamClient region credentials ;;
  arn <- getUserArn ;;
  write_config (set_userArn (Some arn)) ;;
  client_buildCodeCommitClient region credentials ;;
  ret {| PlatformResult.endpoint := default (default_endpoint region) endpoint |}.

Definition initPlatform (p : PlatformParams.t) : H (Host R) PlatformResult.t :=
  let endpoint := PlatformParams.endpoint p in
  e <- read_host env ;;
  let accessKeyId :=
    if Js.truthy (PlatformParams.username p) then PlatformParams.username p
    else AWS_ACCESS_KEY_ID e in
  let secretAccessKey :=
    if Js.truthy (PlatformParams.password p) then PlatformParams.password p
    else AWS_SECRET_ACCESS_KEY e in
  region <- resolve_region endpoint ;;
  match Js.truthy_val accessKeyId, Js.truthy_val secretAccessKey,
        Js.truthy_val region with
  | Some accessKeyId, Some secretAccessKey, Some region =>
      initPlatform_connect endpoint e accessKeyId secretAccessKey region
  | _, _, _ => throw (Error init_error)
  end.

(** The checks of [initRepo] on what the service said of the repository,
    and its result. *)
Definition initRepo_finish (repository : string) (endpoint : option string)
    (repo : option GetRepositoryOutput) : H (Host R) RepoResult.t :=
  match repo ≫= repositoryMetadata with
  | None =>
      log LError "Could not find repository" ;;
      throw (Error REPOSITORY_NOT_FOUND)
  | Some metadata =>
      log LDebug "Repository details" ;;
      match Js.truthy_val (md_defaultBranch metadata),
            Js.truthy_val (md_repositoryId metadata) with
      | Some defaultBranch, Some repositoryId =>
          write_config (set_defaultBranch (Some defaultBranch)) ;;
          log LDebug (repository +:+ " default branch = " +:+ defaultBranch) ;;
          ret {| RepoResult.repoFingerprint :=
                   util_repoFingerprint repositoryId endpoint;
                 RepoResult.defaultBranch := defaultBranch;
                 RepoResult.isFork := false |}
      | _, _ =>
          log LDebug "Repo is empty" ;;
          throw (Error REPOSITORY_EMPTY)
      end
  end.

Definition initRepo (p : RepoParams.t) : H (Host R) RepoResult.t :=
  let repository := RepoParams.repository p in
  log LDebug ("initRepo(" +:+ Js.DQ +:+ repository +:+ Js.DQ +:+ ")") ;;
  write_config (set_repository (Some repository)) ;;
  repo <-
    (try client_getRepositoryInfo repository
     catch (λ _, log LError "Could not find repository" ;;
                 throw (Error REPOSITORY_NOT_FOUND))) ;;
  region <- read_config region ;;
  credentials <- read_config credentials ;;
  url <- resolve (cl_getCodeCommitUrl region repository credentials) ;;
  (try git_init url
   catch (λ _, log LDebug "Failed to git init" ;;
               throw (Error PLATFORM_BAD_CREDENTIALS))) ;;
  initRepo_finish repository (RepoParams.endpoint p) repo.

(** The world of [initRepo] once the repository name is stored. *)
Definition repo_started (repository : string) (w : World (Host R))
  : World (Host R) :=
  mkWorld (set_repository (Some repository) (config w)) (remote w) (trace w)
    (logs w ++ [(LDebug, "initRepo(" +:+ Js.DQ +:+ repository +:+ Js.DQ +:+ ")")]).

(** The world after the service was asked for the repository and the
    clone was initialised from [url]. *)
Definition repo_cloned (repository url : string) (h : Host R)
    (w : World (Host R)) : World (Host R) :=
  mkWorld (set_repository (Some repository) (config w)) h
    (trace w ++ [GetRepositoryInfo repository; GitInitRepo url])
    (logs (repo_started repository w)).

End init.

(** ** Scenarios of the unit tests *)

(** The parameters of the [beforeEach] block. *)
Definition test_platform : PlatformParams.t :=
  {| PlatformParams.endpoint :=
       Some "https://git-codecommit.eu-central-1.amazonaws.com/";
     PlatformParams.username := Some "accessKeyId";
     PlatformParams.password := Some "SecretAccessKey" |}.

Definition no_params : PlatformParams.t :=
  {| PlatformParams.endpoint := None; PlatformParams.username := None;
     PlatformParams.password := None |}.

Definition custom_endpoint : PlatformParams.t :=
  {| PlatformParams.endpoint := Some "endpoint";
     PlatformParams.username := Some "abc";
     PlatformParams.password := Some "123" |}.

Definition region_endpoint : PlatformParams.t :=
  {| PlatformParams.endpoint :=
       Some "https://git-codecommit.REGION.amazonaws.com/";
     PlatformParams.username := Some "abc";
     PlatformParams.password := Some "123" |}.

Definition env_params : PlatformParams.t :=
  {| PlatformParams.endpoint := None; PlatformParams.username := Some "abc";
     PlatformParams.password := Some "123" |}.

Definition env_region : Env :=
  {| AWS_ACCESS_KEY_ID := None; AWS_SECRET_ACCESS_KEY := None;
     AWS_REGION := Some "REGION"; AWS_SESSION_TOKEN := None |}.

Definition fresh_world (e : Env) : World (Host Stub) :=
  host_world e None (stub_resolving mock_empty).

(** The world the tests of [initRepo] start in: the platform is
    initialised, the repository is not. *)
Definition init_config : Config :=
  set_userArn (Some "aws:arn:example:123456")
    (set_credentials (Some test_credentials)
       (set_region (Some "eu-central-1") config_empty)).

Definition repo_world (git : outcome unit) (m : Mock) : World (Host Stub) :=
  mkWorld init_config
    (mkHost env_empty (Some test_iam)
       {| stub_getUser := Ok (Some test_user); stub_git := git;
          stub_mock := m |}) [] [].

Definition test_repo : RepoParams.t :=
  {| RepoParams.repository := "repositoryName"; RepoParams.endpoint := None |}.

(** [resolvesOnce({ repositoryMetadata: { defaultBranch: 'main',
    repositoryId: 'id' } })] *)
Definition mock_repo_main : Mock :=
  resolvesOnce GetRepositoryCommand
    (RRepository {| repositoryMetadata :=
       Some {| md_defaultBranch := Some "main";
               md_repositoryId := Some "id" |} |}) mock_empty.

(** [resolvesOnce({})] and [resolvesOnce({ repo: {} })]: an object
    without the field [repositoryMetadata]. *)
Definition mock_repo_no_metadata : Mock :=
  resolvesOnce GetRepositoryCommand
    (RRepository {| repositoryMetadata := None |}) mock_empty.

(** [resolvesOnce()] *)
Definition mock_repo_undefined : Mock :=
  resolvesOnce GetRepositoryCommand RUndefined mock_empty.

(** A repository without a default branch. *)
Definition mock_repo_empty : Mock :=
  resolvesOnce GetRepositoryCommand
    (RRepository {| repositoryMetadata :=
       Some {| md_defaultBranch := None; md_repositoryId := Some "id" |} |})
    mock_empty.

(** A session that has listed the pull requests of one repository and
    moves to another. *)
Definition listed_session : World (Host Stub) :=
  mkWorld (set_prList (Some [test_pr Open]) init_config)
    (mkHost env_empty (Some test_iam) (stub_resolving mock_repo_main)) [] [].

(** [rejectsOnce(new Error('Could not find repository'))] *)
Definition mock_repo_rejects : Mock :=
  rejectsOnce GetRepositoryCommand "Could not find repository" mock_empty.


(** ** Lemmas: strings and the region *)

Section region_lemmas.

Lemma dots_app (s t : string) : dots (s +:+ t) = dots s + dots t.
Proof.
  induction s as [|c s IH]; [by rewrite string_app_nil_l|].
  rewrite string_app_cons. simpl. rewrite IH. lia.
Qed.

(** Two ways of cutting a string at its first full stop agree. *)
Lemma first_dot (a a' b b' : string) :
  dots a = 0 → dots a' = 0 →
  a +:+ String "." b = a' +:+ String "." b' → a = a' ∧ b = b'.
Proof.
  revert a'. induction a as [|c a IH]; intros [|c' a'] Hd Hd' He;
    rewrite ?string_app_nil_l, ?string_app_cons in He; simpl in Hd, Hd'.
  - by injection He as ->.
  - injection He as <- _. by rewrite decide_True in Hd'.
  - injection He as -> _. by rewrite decide_True in Hd.
  - injection He as -> He. destruct (IH a') as [-> ->]; [lia..|done|done].
Qed.

Lemma regionReg_matches p c :
  matches regionReg p c →
  ∃ pre r, p = pre +:+ "codecommit." +:+ r +:+ ".amazonaws.com" ∧
           c = [("region", r)] ∧ r ≠ "" ∧ all_in dot r = true.
Proof.
  unfold regionReg. intros Hm. invert_matches.
  eexists _, _. repeat split; try done. by apply length_pos_nonempty.
Qed.

Lemma parse_region_exec e m :
  exec regionReg e = Some m →
  ∃ pre r post, e = pre +:+ "codecommit." +:+ r +:+ ".amazonaws.com" +:+ post ∧
                parse_region e = Some r ∧ r ≠ "" ∧ all_in dot r = true.
Proof.
  intros Hm. unfold parse_region. rewrite Hm.
  apply exec_sound in Hm as [Hs (pre & r & Hp & Hc & ? & ?)%regionReg_matches].
  exists (take (index m) e +:+ pre), r, (rest m).
  split; [|by rewrite <- (group_last "region" r [] m Hc)].
  rewrite Hs at 1. rewrite Hp. by rewrite !string_app_assoc.
Qed.

Lemma parse_region_is_Some pre r post :
  r ≠ "" → all_in dot r = true → all_in dot pre = true →
  is_Some (parse_region
             (pre +:+ "codecommit." +:+ r +:+ ".amazonaws.com" +:+ post)).
Proof.
  intros Hr Hd Hpre.
  destruct (exec regionReg (pre +:+ "codecommit." +:+ r +:+ ".amazonaws.com"
                            +:+ post)) as [m|] eqn:Hm.
  - destruct (parse_region_exec _ _ Hm) as (? & r' & ? & _ & -> & _). by exists r'.
  - destruct (exec_complete regionReg
                (pre +:+ "codecommit." +:+ r +:+ ".amazonaws.com" +:+ post))
      as [[Hno _] _].
    destruct (Hno Hm "" (pre +:+ "codecommit." +:+ r +:+ ".amazonaws.com")
                ([] ++ [] ++ ([] ++ [("region", r)]) ++ []) post).
    + by rewrite string_app_nil_l, !string_app_assoc.
    + unfold regionReg. repeat constructor; try done; simpl; try lia.
      destruct r; [done|simpl; lia].
Qed.

(** The region [initPlatform] reads off an endpoint is the text between
    [codecommit.] and [.amazonaws.com] somewhere in the endpoint; it is
    not empty and has no line break. *)
Lemma parse_region_sound e r :
  parse_region e = Some r →
  ∃ pre post, e = pre +:+ "codecommit." +:+ r +:+ ".amazonaws.com" +:+ post ∧
              r ≠ "" ∧ all_in dot r = true.
Proof.
  intros Hr. destruct (exec regionReg e) as [m|] eqn:Hm.
  - destruct (parse_region_exec _ _ Hm) as (pre & r' & post & ? & Hr' & ?).
    exists pre, post. by simplify_eq.
  - unfold parse_region in Hr. by rewrite Hm in Hr.
Qed.

(** C24: the scan of the endpoint against [regionReg] is the search for
    a region: it finds one exactly when the endpoint has a part
    [codecommit.], a region that is not empty and has no line break, and
    [.amazonaws.com]; the region it returns is such a part. *)
Theorem parse_region_spec e :
  (∀ r, parse_region e = Some r →
        ∃ pre post,
          e = pre +:+ "codecommit." +:+ r +:+ ".amazonaws.com" +:+ post ∧
          r ≠ "" ∧ all_in dot r = true) ∧
  (parse_region e = None ↔
   ∀ pre r post, r ≠ "" → all_in dot r = true →
     e ≠ pre +:+ "codecommit." +:+ r +:+ ".amazonaws.com" +:+ post).
Proof.
  split; [apply parse_region_sound|]. split.
  - intros Hn pre r post Hr Ha ->.
    destruct (exec_complete regionReg
                (pre +:+ "codecommit." +:+ r +:+ ".amazonaws.com" +:+ post))
      as [[Hno _] _].
    destruct (exec regionReg _) as [m|] eqn:Hm.
    { destruct (parse_region_exec _ _ Hm) as (? & ? & ? & _ & ? & _). congruence. }
    apply (Hno eq_refl pre ("codecommit." +:+ r +:+ ".amazonaws.com")
             ([] ++ [] ++ ([] ++ [("region", r)]) ++ []) post).
    + by rewrite !string_app_assoc.
    + apply (matches_Seq _ _ "" ("codecommit." +:+ r +:+ ".amazonaws.com")
               [] ([] ++ ([] ++ [("region", r)]) ++ [])); [by constructor|].
      repeat constructor; try done. destruct r; [done|simpl; lia].
  - intros Hno. destruct (parse_region e) as [r|] eqn:Hr; [|done].
    apply parse_region_sound in Hr as (pre & post & He & ? & ?).
    by destruct (Hno pre r post).
Qed.

(** The endpoint [initPlatform] returns for a region, when it was
    given none, is an endpoint it reads the same region off. *)
Theorem parse_region_default r :
  r ≠ "" → dots r = 0 → all_in dot r = true →
  parse_region (default_endpoint r) = Some r.
Proof.
  intros Hr Hd Ha.
  destruct (parse_region_is_Some "https://git-" r "/" Hr Ha eq_refl)
    as [r' Hr'].
  change (parse_region (default_endpoint r) = Some r') in Hr'. rewrite Hr'.
  apply parse_region_sound in Hr' as (pre & post & He & _ & _).
  assert (dots (default_endpoint r) = 3) as Hn.
  { unfold default_endpoint. rewrite !dots_app, Hd. done. }
  rewrite He, !dots_app in Hn. simpl in Hn.
  assert ("https://git-codecommit" +:+ String "." (r +:+ ".amazonaws.com/") =
          (pre +:+ "codecommit") +:+
            String "." (r' +:+ ".amazonaws.com" +:+ post)) as He1.
  { rewrite string_app_assoc. exact He. }
  apply first_dot in He1 as [_ He2]; [|done|rewrite dots_app; simpl; lia].
  assert (r +:+ String "." "amazonaws.com/" =
          r' +:+ String "." ("amazonaws.com" +:+ post)) as He3 by exact He2.
  apply first_dot in He3 as [-> _]; [done|done|lia].
Qed.

End region_lemmas.

(** ** Lemmas: the handlers *)

Section init_lemmas.
Context {R : Type} `{!Client R, !Services R}.
Implicit Types (w : World (Host R)).

Lemma resolve_region_run endpoint w :
  resolve_region endpoint w =
  (Ok (region_of endpoint (env (remote w))),
   if Js.truthy endpoint && negb (Js.truthy (parse_region (default "" endpoint)))
   then mkWorld (config w) (remote w) (trace w)
          (logs w ++ [(LWarn, region_warning)])
   else w).
Proof.
  unfold resolve_region, region_of, Js.truthy_val.
  destruct (Js.truthy endpoint) eqn:Ht; [|done].
  destruct endpoint as [ep|]; [|done]. simpl.
  by destruct (Js.truthy (parse_region ep)).
Qed.

Lemma resolve_region_truthy endpoint w r :
  Js.truthy_val (region_of endpoint (env (remote w))) = Some r →
  resolve_region endpoint w = (Ok (Some r), w).
Proof.
  intros Hr. rewrite resolve_region_run.
  apply truthy_val_Some in Hr as [Hr Ht]. rewrite Hr. f_equal.
  destruct endpoint as [[|c ep]|]; try done.
  unfold region_of in Hr. simpl in *. rewrite Hr. by destruct r.
Qed.

Lemma initPlatform_run p w :
  initPlatform p w =
  match session_of p (env (remote w)) with
  | Some (a, s, r) =>
      initPlatform_connect (PlatformParams.endpoint p) (env (remote w)) a s r w
  | None =>
      (Throw (Error init_error), (resolve_region (PlatformParams.endpoint p) w).2)
  end.
Proof.
  unfold initPlatform, session_of. rewrite bind_read_host.
  unfold bind at 1.
  destruct (Js.truthy_val (region_of _ _)) as [r|] eqn:Hr.
  - rewrite (resolve_region_truthy _ _ _ Hr).
    apply truthy_val_Some in Hr as [_ Ht].
    assert (Js.truthy_val (Some r) = Some r) as -> by by apply truthy_val_Some.
    by repeat (destruct (Js.truthy_val _); simpl).
  - rewrite resolve_region_run. cbn [fst snd]. rewrite Hr.
    by repeat (destruct (Js.truthy_val _); simpl).
Qed.

End init_lemmas.

Section init_theorems.
Context {R : Type} `{!Client R, !Services R}.
Implicit Types (w : World (Host R)).

(** When the access key, the secret or the region cannot be
    resolved, [initPlatform] throws its configuration error; it has
    called no collaborator and changed neither the session context nor
    the host. *)
Theorem initPlatform_unconfigured p w :
  session_of p (env (remote w)) = None →
  ∃ w', initPlatform p w = (Throw (Error init_error), w') ∧
        config w' = config w ∧ remote w' = remote w ∧ trace w' = trace w.
Proof.
  intros Hs. rewrite initPlatform_run, Hs. eexists. split; [done|].
  rewrite resolve_region_run. by destruct (_ && _).
Qed.

(** An endpoint the region cannot be read off stops [initPlatform],
    with a warning, whatever the environment holds: the region of the
    environment is used only when there is no endpoint. *)
Theorem initPlatform_custom_endpoint p w ep :
  Js.truthy_val (PlatformParams.endpoint p) = Some ep →
  parse_region ep = None →
  initPlatform p w =
  (Throw (Error init_error),
   mkWorld (config w) (remote w) (trace w)
     (logs w ++ [(LWarn, region_warning)])).
Proof.
  intros [He Hne]%truthy_val_Some Hr.
  assert (session_of p (env (remote w)) = None) as Hs.
  { unfold session_of, region_of. rewrite He.
    assert (Js.truthy_val (Some ep) = Some ep) as -> by by apply truthy_val_Some.
    rewrite Hr.
    destruct (Js.truthy_val (if Js.truthy (PlatformParams.username p)
                             then _ else _)); [simpl|done].
    by destruct (Js.truthy_val (if Js.truthy (PlatformParams.password p)
                                then _ else _)). }
  rewrite initPlatform_run, Hs, resolve_region_run, He. simpl.
  rewrite Hr. by destruct ep.
Qed.

(** C35: with the three values resolved, an IAM service that answers and
    a client that builds, [initPlatform] stores the region, the
    credentials and the ARN of the user in the session context, sends
    one command to the IAM client, builds the CodeCommit client, and
    returns the endpoint it was given or else the default endpoint of
    the region. *)
Theorem initPlatform_connected p w a s r out h1 h2 :
  let creds := {| accessKeyId := a; secretAccessKey := s;
                  sessionToken := AWS_SESSION_TOKEN (env (remote w)) |} in
  let c := default {| iam_region := r; iam_credentials := creds |}
             (iam (remote w)) in
  session_of p (env (remote w)) = Some (a, s, r) →
  iam_send_GetUser c (set_iam (Some c) (remote w)) = (Ok (Some out), h1) →
  cl_buildCodeCommitClient r creds h1 = (Ok tt, h2) →
  initPlatform p w =
  (Ok {| PlatformResult.endpoint :=
           default (default_endpoint r) (PlatformParams.endpoint p) |},
   mkWorld
     (set_userArn (Some (default "" (User out ≫= Arn)))
        (set_credentials (Some creds) (set_region (Some r) (config w))))
     h2 (trace w ++ [GetUser; BuildCodeCommitClient r creds]) (logs w)).
Proof.
  intros creds c Hs Hu Hb. rewrite initPlatform_run, Hs.
  unfold initPlatform_connect. rewrite !bind_write_config.
  cbn [config remote trace logs]. unfold bind at 1.
  rewrite initIamClient_run. cbn [config remote trace logs]. fold creds c.
  unfold bind at 1. rewrite getUserArn_run. cbn [config remote trace logs iam set_iam].
  unfold iam_send. erewrite invoke_Ok by exact Hu. cbn [fst snd].
  rewrite bind_write_config. cbn [config remote trace logs].
  unfold client_buildCodeCommitClient. rewrite bind_invoke.
  cbn [config remote trace logs]. rewrite Hb. by rewrite <- app_assoc.
Qed.

End init_theorems.

(** ** Lemmas: initRepo *)

Section initRepo_lemmas.
Context {R : Type} `{!Client R, !Services R}.
Implicit Types (w : World (Host R)).

(** [initRepo] up to the checks on the answer of the service. *)
Lemma initRepo_run p w :
  let repository := RepoParams.repository p in
  let w0 := repo_started repository w in
  initRepo p w =
  match cl_getRepositoryInfo repository (remote w) with
  | (Throw _, h1) =>
      (Throw (Error REPOSITORY_NOT_FOUND),
       logged LError "Could not find repository"
         (after_call (GetRepositoryInfo repository) h1 w0))
  | (Ok repo, h1) =>
      match cl_getCodeCommitUrl (region (config w)) repository
              (credentials (config w)) with
      | Throw e => (Throw e, after_call (GetRepositoryInfo repository) h1 w0)
      | Ok url =>
          match git_initRepo url h1 with
          | (Throw _, h2) =>
              (Throw (Error PLATFORM_BAD_CREDENTIALS),
               logged LDebug "Failed to git init"
                 (repo_cloned repository url h2 w))
          | (Ok _, h2) =>
              initRepo_finish repository (RepoParams.endpoint p) repo
                (repo_cloned repository url h2 w)
          end
      end
  end.
Proof.
  intros repository w0. unfold initRepo. fold repository.
  rewrite bind_log, bind_write_config. cbn [config remote trace logs].
  unfold bind at 1, try_catch, client_getRepositoryInfo. rewrite invoke_run.
  cbn [config remote trace logs].
  destruct (cl_getRepositoryInfo repository (remote w)) as [[repo|e] h1];
    cbn [fst snd]; [|done].
  rewrite !bind_read_config. cbn [config].
  destruct (cl_getCodeCommitUrl _ _ _) as [url|e]; [|done].
  rewrite resolve_Ok, bind_ret_l. unfold bind at 1, try_catch, git_init.
  rewrite invoke_run. cbn [config remote trace logs].
  destruct (git_initRepo url h1) as [[[]|e] h2]; cbn [fst snd];
    unfold repo_cloned; by rewrite <- app_assoc.
Qed.

Lemma initRepo_finish_config_inv I repository endpoint repo :
  (∀ b cfg, I cfg → I (set_defaultBranch (Some b) cfg)) →
  config_inv I (initRepo_finish repository endpoint repo).
Proof.
  intros Hb. unfold initRepo_finish. solve_config_inv.
  apply config_inv_write_config; auto.
Qed.

(** [initRepo] keeps every property of the session context that
    assignments to the repository name and the default branch keep. *)
Lemma initRepo_config_inv I p :
  (∀ r cfg, I cfg → I (set_repository (Some r) cfg)) →
  (∀ b cfg, I cfg → I (set_defaultBranch (Some b) cfg)) →
  config_inv I (initRepo p).
Proof.
  intros Hr Hb. unfold initRepo, git_init, client_getRepositoryInfo.
  solve_config_inv; try (apply config_inv_write_config; auto).
  by apply initRepo_finish_config_inv.
Qed.

(** [initPlatform] keeps every property of the session context that
    assignments to the region, the credentials and the ARN keep. *)
Lemma initPlatform_config_inv I p :
  (∀ r cfg, I cfg → I (set_region (Some r) cfg)) →
  (∀ k cfg, I cfg → I (set_credentials (Some k) cfg)) →
  (∀ a cfg, I cfg → I (set_userArn (Some a) cfg)) →
  config_inv I (initPlatform p).
Proof.
  intros Hr Hk Ha.
  unfold initPlatform, initPlatform_connect, resolve_region, initIamClient,
    getUserArn, recover_arn, iam_send, client_buildCodeCommitClient.
  solve_config_inv; apply config_inv_write_config; auto.
Qed.

End initRepo_lemmas.

Section initRepo_theorems.
Context {R : Type} `{!Client R, !Services R}.
Implicit Types (w : World (Host R)).

(** When the service rejects the request for the repository,
    [initRepo] throws [REPOSITORY_NOT_FOUND]; the repository name is
    stored, the clone is not touched. *)
Theorem initRepo_repository_rejected p w e h1 :
  let repository := RepoParams.repository p in
  cl_getRepositoryInfo repository (remote w) = (Throw e, h1) →
  initRepo p w =
  (Throw (Error REPOSITORY_NOT_FOUND),
   logged LError "Could not find repository"
     (after_call (GetRepositoryInfo repository) h1 (repo_started repository w))).
Proof. intros repository Hr. rewrite initRepo_run. fold repository. by rewrite Hr. Qed.

(** When the clone cannot be initialised, [initRepo] throws
    [PLATFORM_BAD_CREDENTIALS], whatever the service said of the
    repository. *)
Theorem initRepo_clone_failed p w repo h1 url e h2 :
  let repository := RepoParams.repository p in
  cl_getRepositoryInfo repository (remote w) = (Ok repo, h1) →
  cl_getCodeCommitUrl (region (config w)) repository (credentials (config w))
    = Ok url →
  git_initRepo url h1 = (Throw e, h2) →
  initRepo p w =
  (Throw (Error PLATFORM_BAD_CREDENTIALS),
   logged LDebug "Failed to git init" (repo_cloned repository url h2 w)).
Proof.
  intros repository Hr Hu Hg. rewrite initRepo_run. fold repository.
  by rewrite Hr, Hu, Hg.
Qed.

(** An answer without [repositoryMetadata] makes [initRepo] throw
    [REPOSITORY_NOT_FOUND], and only after the clone was initialised. *)
Theorem initRepo_no_metadata p w repo h1 url h2 :
  let repository := RepoParams.repository p in
  cl_getRepositoryInfo repository (remote w) = (Ok repo, h1) →
  cl_getCodeCommitUrl (region (config w)) repository (credentials (config w))
    = Ok url →
  git_initRepo url h1 = (Ok tt, h2) →
  repo ≫= repositoryMetadata = None →
  initRepo p w =
  (Throw (Error REPOSITORY_NOT_FOUND),
   logged LError "Could not find repository" (repo_cloned repository url h2 w)).
Proof.
  intros repository Hr Hu Hg Hm. rewrite initRepo_run. fold repository.
  rewrite Hr, Hu, Hg. unfold initRepo_finish. by rewrite Hm.
Qed.

(** Metadata without a default branch or without an identifier
    makes [initRepo] throw [REPOSITORY_EMPTY]; the default branch of the
    session context is not assigned. *)
Theorem initRepo_empty p w repo h1 url h2 md :
  let repository := RepoParams.repository p in
  cl_getRepositoryInfo repository (remote w) = (Ok repo, h1) →
  cl_getCodeCommitUrl (region (config w)) repository (credentials (config w))
    = Ok url →
  git_initRepo url h1 = (Ok tt, h2) →
  repo ≫= repositoryMetadata = Some md →
  Js.truthy (md_defaultBranch md) && Js.truthy (md_repositoryId md) = false →
  initRepo p w =
  (Throw (Error REPOSITORY_EMPTY),
   logged LDebug "Repo is empty"
     (logged LDebug "Repository details" (repo_cloned repository url h2 w))).
Proof.
  intros repository Hr Hu Hg Hm He. rewrite initRepo_run. fold repository.
  rewrite Hr, Hu, Hg. unfold initRepo_finish, Js.truthy_val. rewrite Hm.
  rewrite bind_log.
  destruct (Js.truthy (md_defaultBranch md)), (Js.truthy (md_repositoryId md));
    try done; by destruct (md_defaultBranch md), (md_repositoryId md).
Qed.

(** C34: with a repository that has a default branch and an identifier
    and a clone that initialises, [initRepo] stores the repository name
    and the default branch and returns the fingerprint, the default
    branch and [isFork: false]; it has asked the service once and
    initialised the clone once. *)
Theorem initRepo_ready p w repo h1 url h2 md b i :
  let repository := RepoParams.repository p in
  cl_getRepositoryInfo repository (remote w) = (Ok repo, h1) →
  cl_getCodeCommitUrl (region (config w)) repository (credentials (config w))
    = Ok url →
  git_initRepo url h1 = (Ok tt, h2) →
  repo ≫= repositoryMetadata = Some md →
  Js.truthy_val (md_defaultBranch md) = Some b →
  Js.truthy_val (md_repositoryId md) = Some i →
  initRepo p w =
  (Ok {| RepoResult.repoFingerprint :=
           util_repoFingerprint i (RepoParams.endpoint p);
         RepoResult.defaultBranch := b; RepoResult.isFork := false |},
   mkWorld
     (set_defaultBranch (Some b) (set_repository (Some repository) (config w)))
     h2 (trace w ++ [GetRepositoryInfo repository; GitInitRepo url])
     (logs (repo_started repository w) ++
      [(LDebug, "Repository details");
       (LDebug, repository +:+ " default branch = " +:+ b)])).
Proof.
  intros repository Hr Hu Hg Hm Hb Hi. rewrite initRepo_run. fold repository.
  rewrite Hr, Hu, Hg. unfold initRepo_finish. rewrite Hm, Hb, Hi.
  rewrite bind_log, bind_write_config, bind_log. cbn [config remote trace logs].
  unfold ret, logged, repo_cloned. cbn [config remote trace logs].
  by rewrite <- !app_assoc.
Qed.

(** What [initRepo] throws is one of its three errors, or what
    [getCodeCommitUrl] threw. *)
Theorem initRepo_throws p w e :
  (initRepo p w).1 = Throw e →
  e ∈ [Error REPOSITORY_NOT_FOUND; Error PLATFORM_BAD_CREDENTIALS;
       Error REPOSITORY_EMPTY] ∨
  cl_getCodeCommitUrl (region (config w)) (RepoParams.repository p)
    (credentials (config w)) = Throw e.
Proof.
  rewrite initRepo_run. cbv zeta.
  destruct (cl_getRepositoryInfo _ _) as [[repo|e1] h1];
    [|intros [= <-]; left; rewrite !elem_of_cons; auto].
  destruct (cl_getCodeCommitUrl _ _ _) as [url|e1]; [|intros [= <-]; by right].
  destruct (git_initRepo url h1) as [[[]|e1] h2];
    [|intros [= <-]; left; rewrite !elem_of_cons; auto].
  unfold initRepo_finish.
  destruct (repo ≫= repositoryMetadata) as [md|];
    [|intros [= <-]; left; rewrite !elem_of_cons; auto].
  rewrite bind_log.
  destruct (Js.truthy_val (md_defaultBranch md)),
    (Js.truthy_val (md_repositoryId md)); try done;
    intros [= <-]; left; rewrite !elem_of_cons; auto.
Qed.

(** [initRepo] leaves the cached list of pull requests as it is:
    a session that moves to another repository keeps the list of the
    repository it comes from. *)
Theorem initRepo_keeps_cache p w :
  prList (config (initRepo p w).2) = prList (config w).
Proof.
  by apply (initRepo_config_inv (λ cfg, prList cfg = prList (config w))).
Qed.

(** C37: after [initRepo] has succeeded in a session whose cache is
    populated, [getPrList] returns the cached list and asks the service
    nothing: the pull requests it reports are those of the session
    before. *)
Theorem getPrList_after_initRepo p w l res w1 :
  prList (config w) = Some l →
  initRepo p w = (Ok res, w1) →
  getPrList w1 = (Ok l, logged LDebug "getPrList()" w1).
Proof.
  intros Hl Hi. apply getPrList_hit.
  rewrite <- Hl, <- (initRepo_config_inv (λ cfg, prList cfg = prList (config w)) p) with (s := w);
    by rewrite ?Hi.
Qed.

End initRepo_theorems.

(** ** The scenarios of the unit tests *)

(** "should throw if no username/password" *)
Lemma initPlatform_unconfigured_witness :
  ∃ w', initPlatform no_params (fresh_world env_empty) =
          (Throw (Error init_error), w') ∧
        config w' = config (fresh_world env_empty) ∧
        remote w' = remote (fresh_world env_empty) ∧
        trace w' = trace (fresh_world env_empty).
Proof.
  by apply (initPlatform_unconfigured no_params (fresh_world env_empty)).
Defined.

(** "should show warning message if custom endpoint", with a region in
    the environment. *)
Lemma initPlatform_custom_endpoint_witness :
  initPlatform custom_endpoint (fresh_world env_region) =
  (Throw (Error init_error),
   mkWorld config_empty (remote (fresh_world env_region)) []
     [(LWarn, region_warning)]).
Proof.
  by apply (initPlatform_custom_endpoint custom_endpoint
              (fresh_world env_region) "endpoint").
Defined.

(** The call of [beforeEach]. *)
Lemma initPlatform_connected_witness :
  initPlatform test_platform (fresh_world env_empty) =
  (Ok {| PlatformResult.endpoint :=
           "https://git-codecommit.eu-central-1.amazonaws.com/" |},
   mkWorld init_config
     (mkHost env_empty (Some test_iam) (stub_resolving mock_empty))
     [GetUser; BuildCodeCommitClient "eu-central-1" test_credentials] []).
Proof.
  eapply (initPlatform_connected test_platform (fresh_world env_empty)
            "accessKeyId" "SecretAccessKey" "eu-central-1" test_user);
    reflexivity.
Defined.

(** "should init with env vars" *)
Example initPlatform_env_region :
  (initPlatform env_params (fresh_world env_region)).1 =
  Ok {| PlatformResult.endpoint :=
          "https://git-codecommit.REGION.amazonaws.com/" |}.
Proof. vm_compute. reflexivity. Qed.

(** An empty endpoint is no endpoint for the region, which then
    comes from the environment, and is the endpoint of the result: the
    result of [initPlatform] names no host. *)
Example initPlatform_empty_endpoint :
  (initPlatform
     {| PlatformParams.endpoint := Some ""; PlatformParams.username := Some "abc";
        PlatformParams.password := Some "123" |}
     (fresh_world env_region)).1 =
  Ok {| PlatformResult.endpoint := "" |}.
Proof. vm_compute. reflexivity. Qed.

Lemma parse_region_sound_witness :
  ∃ pre post,
    "https://git-codecommit.eu-central-1.amazonaws.com/" =
      pre +:+ "codecommit." +:+ "eu-central-1" +:+ ".amazonaws.com" +:+ post ∧
    "eu-central-1" ≠ "" ∧ all_in dot "eu-central-1" = true.
Proof. apply parse_region_sound. vm_compute. reflexivity. Defined.

Lemma parse_region_default_witness :
  parse_region (default_endpoint "eu-central-1") = Some "eu-central-1".
Proof. by apply parse_region_default. Defined.

(** "fails on getRepositoryInfo" *)
Lemma initRepo_repository_rejected_witness :
  (initRepo test_repo (repo_world (Ok tt) mock_repo_rejects)).1 =
  Throw (Error REPOSITORY_NOT_FOUND).
Proof.
  by erewrite (initRepo_repository_rejected test_repo
                 (repo_world (Ok tt) mock_repo_rejects)).
Defined.

(** "fails to git.initRepo" *)
Lemma initRepo_clone_failed_witness :
  (initRepo test_repo
     (repo_world (Throw (Error "any error")) mock_repo_no_metadata)).1 =
  Throw (Error PLATFORM_BAD_CREDENTIALS).
Proof.
  by erewrite (initRepo_clone_failed test_repo
                 (repo_world (Throw (Error "any error")) mock_repo_no_metadata)).
Defined.

(** "getRepositoryInfo returns bad results 2": the answer [{ repo: {} }]
    has no [repositoryMetadata]. *)
Lemma initRepo_no_metadata_witness :
  (initRepo test_repo (repo_world (Ok tt) mock_repo_no_metadata)).1 =
  Throw (Error REPOSITORY_NOT_FOUND).
Proof.
  by erewrite (initRepo_no_metadata test_repo
                 (repo_world (Ok tt) mock_repo_no_metadata)).
Defined.

Lemma initRepo_empty_witness :
  (initRepo test_repo (repo_world (Ok tt) mock_repo_empty)).1 =
  Throw (Error REPOSITORY_EMPTY).
Proof.
  by erewrite (initRepo_empty test_repo (repo_world (Ok tt) mock_repo_empty)).
Defined.

(** "initiates repo successfully" *)
Lemma initRepo_ready_witness :
  (initRepo test_repo (repo_world (Ok tt) mock_repo_main)).1 =
  Ok {| RepoResult.repoFingerprint := "undefined::id";
        RepoResult.defaultBranch := "main"; RepoResult.isFork := false |}.
Proof.
  by erewrite (initRepo_ready test_repo (repo_world (Ok tt) mock_repo_main)).
Defined.

Lemma initRepo_throws_witness :
  Error REPOSITORY_NOT_FOUND ∈
    [Error REPOSITORY_NOT_FOUND; Error PLATFORM_BAD_CREDENTIALS;
     Error REPOSITORY_EMPTY] ∨
  cl_getCodeCommitUrl (Some "eu-central-1") "repositoryName"
    (Some test_credentials) = Throw (Error REPOSITORY_NOT_FOUND).
Proof.
  apply (initRepo_throws test_repo (repo_world (Ok tt) mock_repo_rejects)).
  vm_compute. reflexivity.
Defined.

Lemma getPrList_after_initRepo_witness :
  (getPrList (initRepo test_repo listed_session).2).1 = Ok [test_pr Open].
Proof.
  by erewrite (getPrList_after_initRepo test_repo listed_session [test_pr Open]).
Defined.
