(* ===== verification/Comments.v ===== *)
(** * The comment reconciler

    [ensureComment] and [ensureCommentRemoval] of
    [src/lib/modules/platform/codecommit/index.ts] (lines 577-715).

    [ensureComment] keeps one comment per topic on a pull request: it
    reads the comment threads, looks at the first comment of each thread
    for one that carries the topic header (or, without a topic, the exact
    body), and creates, updates or leaves.  [ensureCommentRemoval] deletes
    the first comment, in any position of any thread, that matches a
    topic or a content.

    [reconcile] is the three-outcome decision the reconciler promises;
    the theorems show that [ensureComment] implements it on well-formed
    responses, which calls each outcome makes, that a second run after a
    create finds the comment and makes no call but the read, and what
    happens on the malformed responses the code does not guard. *)

From S2P Require Import Prelude JsValue Effect Sdk Session Mock.

(** The key of a removal: [EnsureCommentRemovalConfig] is a union of a
    record with a topic and a record with a content. *)
Inductive RemovalKey : Type :=
| ByTopic (topic : string)
| ByContent (content : string).

(** What the reconciler decides for one topic. *)
Inductive Action : Type :=
| Create
| Update (commentId : string)
| NoOp.

#[export] Instance Action_eq_dec : EqDecision Action.
Proof. solve_decision. Defined.

Section comments.
Context {R : Type} `{!Client R} `{!Utils}.

(** ** ensureComment *)

(** [topic ? `### ${topic}\n\n` : ''] *)
Definition comment_header (topic : option string) : string :=
  match Js.truthy_val topic with
  | Some t => "### " +:+ t +:+ Js.LF +:+ Js.LF
  | None => ""
  end.

(** [`${header}${sanitize(content)}`] *)
Definition comment_body (topic : option string) (content : string) : string :=
  comment_header topic +:+ sanitize content.

(** The condition under which the loop of [ensureComment] selects a
    thread, on the content of its first comment. *)
Definition root_matches (topic : option string) (body : string)
    (firstCommentContent : option string) : bool :=
  (Js.truthy topic &&
     Js.opt_startsWith firstCommentContent (comment_header topic))
  || (negb (Js.truthy topic) && Js.strict_eq firstCommentContent (Some body)).

(** One iteration of [for (const commentObj of ...)] in [ensureComment];
    the locals are [commentId] and [commentNeedsUpdating]. *)
Definition ensureComment_body (topic : option string) (body : string)
    (commentObj : CommentsForPullRequest) (locals : option string * bool)
  : H R (ctl (option string * bool)) :=
  match comments commentObj with
  | None => ret (Continue locals)
  | Some cs =>
      first <- deref (cs !! 0%nat) ;;
      let firstCommentContent := content first in
      if root_matches topic body firstCommentContent
      then ret (Break (commentId first,
                       negb (Js.strict_eq firstCommentContent (Some body))))
      else ret (Continue locals)
  end.

(** The branch of [ensureComment] that creates the comment: the first
    event of the pull request gives the two commits the comment is
    anchored to. *)
Definition create_comment (number : Js.number) (topic : option string)
    (body : string) : H R bool :=
  prEvent <- client_getPrEvents (Js.toString number) ;;
  match prEvent ≫= pullRequestEvents with
  | None => ret false
  | Some events =>
      first <- deref (events !! 0%nat) ;;
      let event := pullRequestSourceReferenceUpdatedEventMetadata first in
      match Js.truthy_val (event ≫= beforeCommitId),
            Js.truthy_val (event ≫= afterCommitId) with
      | Some before, Some after =>
          repo <- read_config repository ;;
          client_createPrComment (Js.toString number) repo body before after ;;
          log LInfo "Comment added" ;;
          ret true
      | _, _ => ret false
      end
  end.

Definition ensureComment (number : Js.number) (topic : option string)
    (content : string) : H R bool :=
  log LDebug ("ensureComment(" +:+ Js.toString number +:+ ", " +:+
              default "null" topic +:+ ", content)") ;;
  let body := comment_body topic content in
  repo <- read_config repository ;;
  prCommentsResponse <-
    attempt (client_getPrComments repo (Js.toString number)) ;;
  match prCommentsResponse with
  | Throw _ => log LDebug "Unable to retrieve pr comments" ;; ret false
  | Ok prCommentsResponse =>
      match prCommentsResponse ≫= commentsForPullRequestData with
      | None => ret false
      | Some threads =>
          locals <- for_of threads (ensureComment_body topic body)
                      (None, false) ;;
          match Js.truthy_val locals.1 with
          | None => create_comment number topic body
          | Some commentId =>
              if locals.2
              then client_updateComment commentId body ;;
                   log LDebug "Comment updated" ;;
                   ret true
              else log LDebug "Comment is already update-to-date" ;;
                   ret true
          end
      end
  end.

(** ** ensureCommentRemoval *)

(** [removeConfig.type === 'by-topic' ? removeConfig.topic :
    removeConfig.content] *)
Definition removal_key (key : RemovalKey) : string :=
  match key with ByTopic topic => topic | ByContent content => content end.

(** The condition of the inner loop, on one comment. *)
Definition removal_matches (key : RemovalKey) (comment : Comment) : bool :=
  match key with
  | ByTopic topic =>
      Js.opt_startsWith (content comment)
        ("### " +:+ topic +:+ Js.LF +:+ Js.LF)
  | ByContent c => Js.strict_eq (Some c) (Js.trim <$> content comment)
  end.

(** One iteration of the inner loop [for (const comment of
    commentObj.comments)]; the local is [commentIdToRemove]. *)
Definition removal_inner (key : RemovalKey) (comment : Comment)
    (commentIdToRemove : option string) : H R (ctl (option string)) :=
  if removal_matches key comment
  then ret (Break (commentId comment))
  else ret (Continue commentIdToRemove).

(** One iteration of the outer loop. *)
Definition removal_body (key : RemovalKey) (prNo : Js.number)
    (commentObj : CommentsForPullRequest) (commentIdToRemove : option string)
  : H R (ctl (option string)) :=
  match comments commentObj with
  | None => ret (Continue commentIdToRemove)
  | Some cs =>
      commentIdToRemove <- for_of cs (removal_inner key) commentIdToRemove ;;
      match Js.truthy_val commentIdToRemove with
      | Some id =>
          client_deleteComment id ;;
          log LDebug ("comment " +:+ Js.DQ +:+ removal_key key +:+ Js.DQ +:+
                      " in PR #" +:+ Js.toString prNo +:+ " was removed") ;;
          ret (Break commentIdToRemove)
      | None => ret (Continue commentIdToRemove)
      end
  end.

Definition ensureCommentRemoval (key : RemovalKey) (prNo : Js.number)
  : H R unit :=
  log LDebug ("Ensuring comment " +:+ Js.DQ +:+ removal_key key +:+ Js.DQ +:+
              " in #" +:+ Js.toString prNo +:+ " is removed") ;;
  repo <- read_config repository ;;
  prCommentsResponse <-
    attempt (client_getPrComments repo (Js.toString prNo)) ;;
  match prCommentsResponse with
  | Throw _ => log LDebug "Unable to retrieve pr comments" ;; ret tt
  | Ok prCommentsResponse =>
      match prCommentsResponse ≫= commentsForPullRequestData with
      | None => ret tt
      | Some threads =>
          for_of threads (removal_body key prNo) None ;;
          ret tt
      end
  end.

(** ** What the reconciler promises *)

(** The first comment of a thread, when the thread has comments. *)
Definition thread_root (th : CommentsForPullRequest) : option Comment :=
  comments th ≫= head.

(** The thread [ensureComment] selects: the first, in listing order, whose
    first comment matches. *)
Definition selected_root (topic : option string) (body : string)
    (threads : list CommentsForPullRequest) : option Comment :=
  head (filter (λ c, root_matches topic body (content c) = true)
          (omap thread_root threads)).

(** Create, update or leave. *)
Definition reconcile (topic : option string) (body : string)
    (threads : list CommentsForPullRequest) : Action :=
  match selected_root topic body threads with
  | None => Create
  | Some c =>
      match Js.truthy_val (commentId c) with
      | None => Create
      | Some id =>
          if Js.strict_eq (content c) (Some body) then NoOp else Update id
      end
  end.

(** A response the SDK documents: a thread that has a comment array has a
    comment in it, and every comment has an identifier. *)
Definition well_formed_thread (th : CommentsForPullRequest) : Prop :=
  match comments th with
  | None => True
  | Some cs => cs ≠ [] ∧ Forall (λ c, Js.truthy (commentId c) = true) cs
  end.

(** The comment [ensureCommentRemoval] deletes: the first, over all
    comments of all threads in order, that matches, provided the first
    match of its thread has an identifier. *)
Definition thread_removal (key : RemovalKey) (th : CommentsForPullRequest)
  : option string :=
  comments th ≫= λ cs,
    head (filter (λ c, removal_matches key c = true) cs) ≫= λ c,
      Js.truthy_val (commentId c).

Definition removal_target (key : RemovalKey)
    (threads : list CommentsForPullRequest) : option string :=
  head (omap (thread_removal key) threads).

(** What [ensureComment] does once it has decided. *)
Definition act (number : Js.number) (topic : option string) (body : string)
    (a : Action) : H R bool :=
  match a with
  | Create => create_comment number topic body
  | Update commentId =>
      client_updateComment commentId body ;;
      log LDebug "Comment updated" ;;
      ret true
  | NoOp => log LDebug "Comment is already update-to-date" ;; ret true
  end.

(** The world in which [ensureComment] and [ensureCommentRemoval] run
    their loop: the entry is logged and the comments have been read. *)
Definition comments_read (msg : string) (prId : string) (rm : R)
    (w : World R) : World R :=
  mkWorld (config w) rm
    (trace w ++ [GetPrComments (repository (config w)) prId])
    (logs w ++ [(LDebug, msg)]).

Definition ensureComment_msg (number : Js.number) (topic : option string)
  : string :=
  "ensureComment(" +:+ Js.toString number +:+ ", " +:+
  default "null" topic +:+ ", content)".

End comments.

(** ** Scenarios of the unit tests *)

(** A thread with one comment. *)
Definition thread_of (id content : string) : CommentsForPullRequest :=
  {| comments := Some [{| commentId := Some id; content := Some content |}] |}.

Definition comments_response (threads : list CommentsForPullRequest)
  : Reply :=
  RComments {| commentsForPullRequestData := Some threads |}.

(** [eventsRes] of "adds comment if missing". *)
Definition test_events : Reply :=
  REvents {| pullRequestEvents := Some
    [{| pullRequestSourceReferenceUpdatedEventMetadata := Some
          {| beforeCommitId := Some "beforeCid";
             afterCommitId := Some "afterCid" |} |}] |}.

Definition comment_world (m : Mock) : World Mock :=
  mkWorld config_empty m [] [].

(** The arguments the tests pass, and the body they expect. *)
Definition test_subject : option string := Some "some-subject".
Definition test_content : string := "my comment content".
Definition test_body : string := comment_body test_subject test_content.

(** "adds comment if missing" *)
Definition mock_add_comment : Mock :=
  resolvesOnce PostCommentForPullRequestCommand RUndefined
    (resolvesOnce DescribePullRequestEventsCommand test_events
       (resolvesOnce GetCommentsForPullRequestCommand
          (comments_response [thread_of "1" "my comment content"])
          mock_empty)).

(** "updates comment if different content" *)
Definition mock_update_comment : Mock :=
  resolvesOnce GetCommentsForPullRequestCommand
    (comments_response
       [thread_of "1" ("### some-subject" +:+ Js.LF +:+ Js.LF +:+
                       " - my comment content")])
    mock_empty.

(** "does nothing if comment exists and is the same" *)
Definition mock_same_comment : Mock :=
  resolvesOnce GetCommentsForPullRequestCommand
    (comments_response
       [thread_of "1" ("### some-subject" +:+ Js.LF +:+ Js.LF +:+
                       "my comment content")])
    mock_empty.

(** "throws an exception in case of api failed connection" *)
Definition mock_comments_fail : Mock :=
  rejectsOnce GetCommentsForPullRequestCommand "some error" mock_empty.

(** A pull request without comments and without events. *)
Definition mock_no_events : Mock :=
  resolvesOnce DescribePullRequestEventsCommand
    (REvents {| pullRequestEvents := Some [] |})
    (resolvesOnce GetCommentsForPullRequestCommand (comments_response [])
       mock_empty).

(** A thread whose comment array is empty. *)
Definition mock_empty_thread : Mock :=
  resolvesOnce GetCommentsForPullRequestCommand
    (comments_response [{| comments := Some [] |}]) mock_empty.

(** "deletes comment by topic if found" *)
Definition mock_delete_by_topic : Mock :=
  resolvesOnce DeleteCommentContentCommand RUndefined mock_same_comment.

(** A thread whose reply, not its first comment, carries the topic. *)
Definition mock_reply_has_topic : Mock :=
  resolvesOnce GetCommentsForPullRequestCommand
    (comments_response
       [{| comments := Some
             [{| commentId := Some "1"; content := Some "a question" |};
              {| commentId := Some "2";
                 content := Some ("### some-subject" +:+ Js.LF +:+ Js.LF +:+
                                  "an answer") |}] |}])
    mock_empty.

(** ** Theorems: the decision *)

Section reconcile_theorems.
Context `{!Utils}.

Lemma comment_header_topic (t : string) :
  t ≠ "" → comment_header (Some t) = "### " +:+ t +:+ Js.LF +:+ Js.LF.
Proof. by destruct t. Qed.

Lemma comment_header_no_topic topic :
  Js.truthy topic = false → comment_header topic = "".
Proof. unfold comment_header, Js.truthy_val. by intros ->. Qed.

(** The composed body matches its own topic. *)
Lemma root_matches_body topic content :
  root_matches topic (comment_body topic content)
    (Some (comment_body topic content)) = true.
Proof.
  unfold root_matches. destruct (Js.truthy topic); simpl.
  - unfold comment_body. by rewrite startsWith_app.
  - by rewrite strict_eq_refl.
Qed.

Lemma selected_root_cons topic body th ths :
  selected_root topic body (th :: ths) =
  match thread_root th with
  | Some c => if root_matches topic body (content c) then Some c
              else selected_root topic body ths
  | None => selected_root topic body ths
  end.
Proof.
  unfold selected_root. simpl. destruct (thread_root th) as [c|]; [|done].
  rewrite filter_cons. case_decide as Hm; [by rewrite Hm|].
  by apply not_true_is_false in Hm as ->.
Qed.

Lemma selected_root_app_None topic body ths1 ths2 :
  selected_root topic body ths1 = None →
  selected_root topic body (ths1 ++ ths2) = selected_root topic body ths2.
Proof.
  induction ths1 as [|th ths1 IH]; [done|]. simpl.
  rewrite !selected_root_cons. destruct (thread_root th) as [c|]; [|done].
  by destruct (root_matches _ _ _).
Qed.

Lemma selected_root_In topic body ths c :
  selected_root topic body ths = Some c →
  ∃ th cs, th ∈ ths ∧ comments th = Some (c :: cs) ∧
           root_matches topic body (content c) = true.
Proof.
  induction ths as [|th ths IH]; [done|]. rewrite selected_root_cons.
  destruct (thread_root th) as [c'|] eqn:Hr.
  - destruct (root_matches _ _ (content c')) eqn:Hm.
    + intros [= ->]. unfold thread_root in Hr.
      destruct (comments th) as [[|? cs]|] eqn:Hc; simplify_eq/=.
      exists th, cs. split; [left|done].
    + intros (th' & cs & ? & ?)%IH. exists th', cs. split; [by right|done].
  - intros (th' & cs & ? & ?)%IH. exists th', cs. split; [by right|done].
Qed.

(** On well-formed responses the reconciler creates only when no thread
    matches. *)
Lemma reconcile_Create_wf topic body ths :
  Forall well_formed_thread ths →
  reconcile topic body ths = Create → selected_root topic body ths = None.
Proof.
  intros Hwf. unfold reconcile.
  destruct (selected_root topic body ths) as [c|] eqn:Hs; [|done].
  destruct (selected_root_In _ _ _ _ Hs) as (th & cs & Hin & Hc & _).
  rewrite Forall_forall in Hwf. specialize (Hwf th Hin).
  unfold well_formed_thread in Hwf. rewrite Hc in Hwf.
  destruct Hwf as [_ [Hid _]%Forall_cons]. unfold Js.truthy_val.
  rewrite Hid. destruct (commentId c); [|done]. by destruct (Js.strict_eq _ _).
Qed.

(** Comment idempotence, as a property of the decision.  When the
    reconciler has decided to create the comment for a topic and content,
    and the service then lists the old threads followed by a thread whose
    first comment has an identifier and the composed body, the
    reconciler decides to leave it. *)
Theorem reconcile_after_create topic content ths id :
  Forall well_formed_thread ths →
  reconcile topic (comment_body topic content) ths = Create →
  id ≠ "" →
  reconcile topic (comment_body topic content)
    (ths ++ [thread_of id (comment_body topic content)]) = NoOp.
Proof.
  intros Hwf Hc%reconcile_Create_wf Hid; [|done]. unfold reconcile.
  rewrite (selected_root_app_None _ _ _ _ Hc), selected_root_cons. simpl.
  rewrite root_matches_body. simpl. destruct id; [done|]. simpl.
  by rewrite strict_eq_refl.
Qed.

(** An update settles the topic: once the first comment of the
    thread that was selected holds the composed body, the reconciler
    leaves it. *)
Theorem reconcile_after_update topic content ths1 ths2 id :
  selected_root topic (comment_body topic content) ths1 = None →
  id ≠ "" →
  reconcile topic (comment_body topic content)
    (ths1 ++ thread_of id (comment_body topic content) :: ths2) = NoOp.
Proof.
  intros Hn Hid. unfold reconcile.
  rewrite (selected_root_app_None _ _ _ _ Hn), selected_root_cons. simpl.
  rewrite root_matches_body. simpl. destruct id; [done|]. simpl.
  by rewrite strict_eq_refl.
Qed.

End reconcile_theorems.

(** ** Theorems: ensureComment *)

Section ensureComment_theorems.
Context {R : Type} `{!Client R} `{!Utils}.
Implicit Types w : World R.

(** One iteration, by the shape of the thread. *)
Lemma ensureComment_body_run topic body th loc w :
  ensureComment_body topic body th loc w =
  match comments th with
  | None => (Ok (Continue loc), w)
  | Some [] => (Throw TypeError, w)
  | Some (c :: _) =>
      (Ok (if root_matches topic body (content c)
           then Break (commentId c,
                       negb (Js.strict_eq (content c) (Some body)))
           else Continue loc), w)
  end.
Proof.
  unfold ensureComment_body.
  destruct (comments th) as [[|c cs]|]; try reflexivity.
  simpl. rewrite bind_ret_l. by destruct (root_matches topic body (content c)).
Qed.

(** The loop of [ensureComment] on a response in which no thread has an
    empty comment array: it is pure and returns the identifier of the
    selected comment and whether its content differs. *)
Lemma ensureComment_loop topic body ths loc w :
  Forall (λ th, comments th ≠ Some []) ths →
  for_of ths (ensureComment_body topic body) loc w =
  (Ok (from_option
         (λ c, (commentId c, negb (Js.strict_eq (content c) (Some body))))
         loc (selected_root topic body ths)), w).
Proof.
  induction 1 as [|th ths Hne _ IH]; [done|].
  rewrite for_of_cons, selected_root_cons. unfold bind at 1.
  rewrite ensureComment_body_run. unfold thread_root.
  destruct (comments th) as [[|c cs]|]; [done|simpl|done].
  by destruct (root_matches topic body (content c)).
Qed.

(** A thread that is not selected leaves the locals as they are. *)
Lemma ensureComment_body_skip topic body th loc w :
  comments th ≠ Some [] →
  selected_root topic body [th] = None →
  ensureComment_body topic body th loc w = (Ok (Continue loc), w).
Proof.
  intros Hne. rewrite selected_root_cons, ensureComment_body_run.
  unfold thread_root.
  destruct (comments th) as [[|c cs]|]; [done|simpl|done].
  by destruct (root_matches topic body (content c)).
Qed.

Lemma selected_root_None_elem topic body ths th :
  selected_root topic body ths = None → th ∈ ths →
  selected_root topic body [th] = None.
Proof.
  intros Hs Hin. induction ths as [|y l IH]; [by apply elem_of_nil in Hin|].
  rewrite selected_root_cons in Hs. apply elem_of_cons in Hin as [->|Hin].
  - rewrite selected_root_cons. destruct (thread_root y) as [c|]; [|done].
    by destruct (root_matches _ _ _).
  - apply IH; [|done]. destruct (thread_root y) as [c|]; [|done].
    by destruct (root_matches _ _ _).
Qed.

(** [ensureComment] on a response without an empty comment array: the
    entry is logged, the comments are read, and the action of the decision
    runs. *)
Lemma ensureComment_act number topic text w ths rm :
  cl_getPrComments (repository (config w)) (Js.toString number) (remote w)
    = (Ok (Some {| commentsForPullRequestData := Some ths |}), rm) →
  Forall (λ th, comments th ≠ Some []) ths →
  ensureComment number topic text w =
  act number topic (comment_body topic text)
    (reconcile topic (comment_body topic text) ths)
    (comments_read (ensureComment_msg number topic) (Js.toString number) rm w).
Proof.
  intros Hcall Hne. unfold ensureComment, client_getPrComments. eff_run.
  rewrite Hcall. simpl.
  rewrite (bind_Ok _ _ _ _ _ (ensureComment_loop _ _ _ _ _ Hne)).
  unfold reconcile.
  destruct (selected_root _ _ ths) as [c|]; simpl; [|done].
  destruct (Js.truthy_val (commentId c)); simpl; [|done].
  by destruct (Js.strict_eq (content c) _).
Qed.

(** C3: refinement.  On a response in which no thread has an empty
    comment array, [ensureComment] is: log the entry, read the comments,
    decide by [reconcile], act. *)
Theorem ensureComment_refines number topic text w ths rm :
  cl_getPrComments (repository (config w)) (Js.toString number) (remote w)
    = (Ok (Some {| commentsForPullRequestData := Some ths |}), rm) →
  Forall (λ th, comments th ≠ Some []) ths →
  ensureComment number topic text w =
  act number topic (comment_body topic text)
    (reconcile topic (comment_body topic text) ths)
    (comments_read (ensureComment_msg number topic) (Js.toString number) rm w).
Proof.
  apply ensureComment_act.
Qed.

(** What each action does to the trace. *)
Lemma act_Update_run number topic body id w :
  trace (act number topic body (Update id) w).2
    = trace w ++ [UpdateComment id body] ∧
  ((act number topic body (Update id) w).1 = Ok true ∨
   ∃ e, (cl_updateComment id body (remote w)).1 = Throw e ∧
        (act number topic body (Update id) w).1 = Throw e).
Proof.
  unfold act, client_updateComment. eff_run.
  destruct (cl_updateComment id body (remote w)) as [[[]|e] rm]; simpl; eauto.
Qed.

Lemma act_NoOp_run number topic body w :
  act number topic body NoOp w =
  (Ok true, mkWorld (config w) (remote w) (trace w)
              (logs w ++ [(LDebug, "Comment is already update-to-date")])).
Proof. reflexivity. Qed.

(** The update path.  A thread whose first comment carries the topic
    but not the composed body gets exactly one update call, with the
    identifier of that comment and the composed body, and no create
    call. *)
Theorem ensureComment_update_path number topic text w ths rm id :
  cl_getPrComments (repository (config w)) (Js.toString number) (remote w)
    = (Ok (Some {| commentsForPullRequestData := Some ths |}), rm) →
  Forall (λ th, comments th ≠ Some []) ths →
  reconcile topic (comment_body topic text) ths = Update id →
  calls_of (ensureComment number topic text) w =
  [GetPrComments (repository (config w)) (Js.toString number);
   UpdateComment id (comment_body topic text)].
Proof.
  intros Hcall Hne Hd. apply calls_of_run.
  rewrite (ensureComment_act _ _ _ _ _ _ Hcall Hne), Hd.
  destruct (act_Update_run number topic (comment_body topic text) id
    (comments_read (ensureComment_msg number topic) (Js.toString number) rm w))
    as [-> _].
  simpl. by rewrite <-app_assoc.
Qed.

(** The second run.  When the comment of the topic is there with the
    composed body, [ensureComment] returns [true] and its only call is the
    read of the comments: no create, no update. *)
Theorem ensureComment_noop_path number topic text w ths rm :
  cl_getPrComments (repository (config w)) (Js.toString number) (remote w)
    = (Ok (Some {| commentsForPullRequestData := Some ths |}), rm) →
  Forall (λ th, comments th ≠ Some []) ths →
  reconcile topic (comment_body topic text) ths = NoOp →
  (ensureComment number topic text w).1 = Ok true ∧
  calls_of (ensureComment number topic text) w =
  [GetPrComments (repository (config w)) (Js.toString number)].
Proof.
  intros Hcall Hne Hd.
  rewrite (calls_of_run _ _
    [GetPrComments (repository (config w)) (Js.toString number)]);
    by rewrite (ensureComment_act _ _ _ _ _ _ Hcall Hne), Hd.
Qed.

(** The create branch on a response whose first event carries both
    commits. *)
Lemma create_comment_run number topic body w evs ev before after rm rest :
  cl_getPrEvents (Js.toString number) (remote w)
    = (Ok (Some {| pullRequestEvents := Some (ev :: rest) |}), rm) →
  pullRequestSourceReferenceUpdatedEventMetadata ev = Some evs →
  Js.truthy_val (beforeCommitId evs) = Some before →
  Js.truthy_val (afterCommitId evs) = Some after →
  trace (create_comment number topic body w).2 =
    trace w ++ [GetPrEvents (Js.toString number);
                CreatePrComment (Js.toString number) (repository (config w))
                  body before after] ∧
  ((create_comment number topic body w).1 = Ok true ∨
   ∃ e, (create_comment number topic body w).1 = Throw e).
Proof.
  intros Hcall Hev Hb Ha. unfold create_comment, client_getPrEvents,
    client_createPrComment. eff_run. rewrite Hcall. simpl.
  rewrite bind_ret_l, Hev. simpl. rewrite Hb, Ha. eff_run.
  destruct (cl_createPrComment _ _ _ _ _ _) as [[[]|e] rm']; simpl;
    rewrite <-app_assoc; eauto.
Qed.

(** The create path.  When no thread matches, [ensureComment] reads
    the events of the pull request and creates the comment with the
    composed body, anchored to the two commits of the first event: one
    create call, no update call.  The body is the header and the sanitized
    content: it is not truncated. *)
Theorem ensureComment_create_path
    number topic text w ths rm evs ev before after rm1 rest :
  cl_getPrComments (repository (config w)) (Js.toString number) (remote w)
    = (Ok (Some {| commentsForPullRequestData := Some ths |}), rm) →
  Forall (λ th, comments th ≠ Some []) ths →
  reconcile topic (comment_body topic text) ths = Create →
  cl_getPrEvents (Js.toString number) rm
    = (Ok (Some {| pullRequestEvents := Some (ev :: rest) |}), rm1) →
  pullRequestSourceReferenceUpdatedEventMetadata ev = Some evs →
  Js.truthy_val (beforeCommitId evs) = Some before →
  Js.truthy_val (afterCommitId evs) = Some after →
  calls_of (ensureComment number topic text) w =
  [GetPrComments (repository (config w)) (Js.toString number);
   GetPrEvents (Js.toString number);
   CreatePrComment (Js.toString number) (repository (config w))
     (comment_header topic +:+ sanitize text) before after].
Proof.
  intros Hcall Hne Hd Hev Hm Hb Ha. apply calls_of_run.
  rewrite (ensureComment_act _ _ _ _ _ _ Hcall Hne), Hd.
  destruct (create_comment_run number topic (comment_body topic text)
    (comments_read (ensureComment_msg number topic) (Js.toString number) rm w)
    evs ev before after rm1 rest Hev Hm Hb Ha) as [Ht _].
  unfold act. rewrite Ht. simpl. by rewrite <-app_assoc.
Qed.

(** A failure to read the comments ends the operation: it returns
    [false] and makes no other call. *)
Theorem ensureComment_retrieval_failure number topic text w e rm :
  cl_getPrComments (repository (config w)) (Js.toString number) (remote w)
    = (Throw e, rm) →
  (ensureComment number topic text w).1 = Ok false ∧
  calls_of (ensureComment number topic text) w =
  [GetPrComments (repository (config w)) (Js.toString number)].
Proof.
  intros Hcall.
  rewrite (calls_of_run _ _
    [GetPrComments (repository (config w)) (Js.toString number)]);
    unfold ensureComment, client_getPrComments; eff_run; by rewrite Hcall.
Qed.

(** A pull request with an empty event list.  When the comment has
    to be created and the service lists no event, [ensureComment] throws
    a [TypeError]: the read of [pullRequestEvents[0]] is not guarded. *)
Theorem ensureComment_no_event_throws number topic text w ths rm rm1 :
  cl_getPrComments (repository (config w)) (Js.toString number) (remote w)
    = (Ok (Some {| commentsForPullRequestData := Some ths |}), rm) →
  Forall (λ th, comments th ≠ Some []) ths →
  reconcile topic (comment_body topic text) ths = Create →
  cl_getPrEvents (Js.toString number) rm
    = (Ok (Some {| pullRequestEvents := Some [] |}), rm1) →
  (ensureComment number topic text w).1 = Throw TypeError.
Proof.
  intros Hcall Hne Hd Hev.
  rewrite (ensureComment_act _ _ _ _ _ _ Hcall Hne), Hd.
  unfold act, create_comment, client_getPrEvents, comments_read. eff_run.
  by rewrite Hev.
Qed.

(** A thread with an empty comment array.  [ensureComment] throws a
    [TypeError] when it reaches such a thread before it has selected one:
    the read of [comments[0]] is not guarded. *)
Theorem ensureComment_empty_thread_throws number topic text w ths1 th ths2 rm :
  cl_getPrComments (repository (config w)) (Js.toString number) (remote w)
    = (Ok (Some {| commentsForPullRequestData := Some (ths1 ++ th :: ths2) |}),
       rm) →
  Forall (λ th, comments th ≠ Some []) ths1 →
  selected_root topic (comment_body topic text) ths1 = None →
  comments th = Some [] →
  (ensureComment number topic text w).1 = Throw TypeError.
Proof.
  intros Hcall Hne Hs Hth. unfold ensureComment, client_getPrComments.
  eff_run. rewrite Hcall. simpl.
  erewrite bind_Throw; [done|].
  erewrite for_of_app_Continue; [| |by apply ensureComment_loop].
  - rewrite for_of_cons. erewrite bind_Throw; [done|].
    by rewrite ensureComment_body_run, Hth.
  - intros x b s Hx. eexists _, _. apply ensureComment_body_skip.
    + by eapply Forall_forall in Hne.
    + by eapply selected_root_None_elem.
Qed.

End ensureComment_theorems.

(** ** Theorems: ensureCommentRemoval *)

Section removal_theorems.
Context {R : Type} `{!Client R} `{!Utils}.
Implicit Types w : World R.

(** The inner loop is pure: it returns the identifier of the first
    comment of the thread that matches, or the local as it was. *)
Lemma removal_inner_loop key cs loc w :
  for_of cs (removal_inner key) loc w =
  (Ok (from_option commentId loc
         (head (filter (λ c, removal_matches key c = true) cs))), w).
Proof.
  induction cs as [|c cs IH]; [done|].
  rewrite for_of_cons, filter_cons. unfold bind at 1, removal_inner at 1.
  destruct (removal_matches key c) eqn:E; simpl; [done|apply IH].
Qed.

Lemma removal_target_cons key th ths :
  removal_target key (th :: ths) =
  match thread_removal key th with
  | Some id => Some id
  | None => removal_target key ths
  end.
Proof. unfold removal_target. simpl. by destruct (thread_removal key th). Qed.

(** A thread with nothing to remove: the outer loop goes on, with a local
    that is still falsy, and the world is as it was. *)
Lemma removal_body_skip key prNo th loc w :
  Js.truthy_val loc = None → thread_removal key th = None →
  ∃ loc', removal_body key prNo th loc w = (Ok (Continue loc'), w) ∧
          Js.truthy_val loc' = None.
Proof.
  intros Hloc Hth. unfold removal_body, thread_removal in *.
  destruct (comments th) as [cs|]; simpl in *; [|by eauto].
  erewrite bind_Ok by apply removal_inner_loop.
  destruct (head _) as [c|]; simpl in *; rewrite ?Hth, ?Hloc; eauto.
Qed.

(** A thread with a comment to remove: one delete call, and the loop
    breaks unless the call is rejected. *)
Lemma removal_body_hit key prNo th loc w id :
  thread_removal key th = Some id →
  trace (removal_body key prNo th loc w).2 = trace w ++ [DeleteComment id] ∧
  ((removal_body key prNo th loc w).1 = Ok (Break (Some id)) ∨
   ∃ e, (removal_body key prNo th loc w).1 = Throw e).
Proof.
  intros Hth. unfold removal_body, thread_removal in *.
  destruct (comments th) as [cs|]; simpl in *; [|done].
  erewrite bind_Ok by apply removal_inner_loop.
  destruct (head _) as [c|]; simpl in *; [|done]. rewrite Hth.
  apply truthy_val_Some in Hth as [-> _].
  unfold client_deleteComment. eff_run.
  destruct (cl_deleteComment id (remote w)) as [[[]|e] rm]; simpl; eauto.
Qed.

Lemma removal_loop_None key prNo ths loc w :
  Js.truthy_val loc = None → removal_target key ths = None →
  ∃ loc', for_of ths (removal_body key prNo) loc w = (Ok loc', w).
Proof.
  revert loc. induction ths as [|th ths IH]; intros loc Hloc; [by eauto|].
  rewrite removal_target_cons, for_of_cons.
  destruct (thread_removal key th) eqn:Hth; [done|]. intros Ht.
  destruct (removal_body_skip key prNo th loc w Hloc Hth) as (loc' & Hr & Hl).
  rewrite (bind_Ok _ _ _ _ _ Hr). by apply IH.
Qed.

Lemma removal_loop_Some key prNo ths loc w id :
  Js.truthy_val loc = None → removal_target key ths = Some id →
  trace (for_of ths (removal_body key prNo) loc w).2
    = trace w ++ [DeleteComment id].
Proof.
  revert loc. induction ths as [|th ths IH]; intros loc Hloc; [done|].
  rewrite removal_target_cons, for_of_cons.
  destruct (thread_removal key th) as [id'|] eqn:Hth.
  - intros [= ->].
    destruct (removal_body_hit key prNo th loc w id Hth) as [Ht Hr].
    unfold bind. destruct (removal_body _ _ _ _ _) as [[r|e] w'];
      simpl in *; [|done].
    by destruct Hr as [[= ->]|[? [=]]].
  - intros Ht.
    destruct (removal_body_skip key prNo th loc w Hloc Hth) as (loc' & Hr & Hl).
    rewrite (bind_Ok _ _ _ _ _ Hr). by apply IH.
Qed.

(** The calls of a removal.  [ensureCommentRemoval] reads the
    comments and then makes at most one call: the delete of the comment
    [removal_target] names.  When the read fails, when the response has no
    data, or when no comment matches, it makes no second call. *)
Theorem ensureCommentRemoval_calls key prNo w :
  calls_of (ensureCommentRemoval key prNo) w =
  GetPrComments (repository (config w)) (Js.toString prNo) ::
  match (cl_getPrComments (repository (config w)) (Js.toString prNo)
           (remote w)).1 with
  | Ok r =>
      match r ≫= commentsForPullRequestData with
      | Some ths => DeleteComment <$> option_list (removal_target key ths)
      | None => []
      end
  | Throw _ => []
  end.
Proof.
  apply calls_of_run. unfold ensureCommentRemoval, client_getPrComments.
  eff_run.
  destruct (cl_getPrComments _ _ _) as [[r|e] rm]; simpl; [|done].
  destruct (r ≫= commentsForPullRequestData) as [ths|]; simpl; [|done].
  destruct (removal_target key ths) as [id|] eqn:Ht.
  - match goal with |- context [bind (for_of _ _ _) _ ?W] =>
      pose proof (removal_loop_Some key prNo ths None W id eq_refl Ht) as Hl
    end.
    unfold bind. destruct (for_of _ _ _ _) as [[]]; simpl in *;
      by rewrite Hl, <-app_assoc.
  - match goal with |- context [bind (for_of _ _ _) _ ?W] =>
      destruct (removal_loop_None key prNo ths None W eq_refl Ht) as [? Hl]
    end.
    by rewrite (bind_Ok _ _ _ _ _ Hl).
Qed.

(** A removal never throws unless the delete call is rejected: on a
    response with nothing to remove it returns, leaving the backend as
    the read left it. *)
Theorem ensureCommentRemoval_nothing_to_remove key prNo w ths rm :
  cl_getPrComments (repository (config w)) (Js.toString prNo) (remote w)
    = (Ok (Some {| commentsForPullRequestData := Some ths |}), rm) →
  removal_target key ths = None →
  (ensureCommentRemoval key prNo w).1 = Ok tt ∧
  remote (ensureCommentRemoval key prNo w).2 = rm.
Proof.
  intros Hcall Ht. unfold ensureCommentRemoval, client_getPrComments.
  eff_run. rewrite Hcall. simpl.
  match goal with |- context [bind (for_of _ _ _) _ ?W] =>
    destruct (removal_loop_None key prNo ths None W eq_refl Ht) as [? Hl]
  end.
  by rewrite (bind_Ok _ _ _ _ _ Hl).
Qed.

(** The removal looks at every comment of a thread, not only the
    first: a reply that matches is deleted. *)
Theorem removal_target_reply key c1 c2 cs ths id :
  removal_matches key c1 = false →
  removal_matches key c2 = true →
  Js.truthy_val (commentId c2) = Some id →
  removal_target key ({| comments := Some (c1 :: c2 :: cs) |} :: ths)
    = Some id.
Proof.
  intros H1 H2 Hid. rewrite removal_target_cons. unfold thread_removal.
  simpl. rewrite !filter_cons, decide_False, decide_True by congruence.
  simpl. by rewrite Hid.
Qed.

End removal_theorems.

(** ** The scenarios, run *)

Lemma reconcile_after_create_witness :
  reconcile test_subject (comment_body test_subject test_content)
    ([thread_of "1" "my comment content"] ++ [thread_of "2" test_body]) = NoOp.
Proof.
  apply (reconcile_after_create test_subject test_content
           [thread_of "1" "my comment content"] "2");
    [repeat constructor; done|reflexivity|done].
Defined.

Lemma reconcile_after_update_witness :
  reconcile test_subject (comment_body test_subject test_content)
    ([thread_of "0" "another comment"] ++ thread_of "1" test_body :: []) = NoOp.
Proof.
  by apply (reconcile_after_update test_subject test_content
              [thread_of "0" "another comment"] [] "1").
Defined.

Lemma ensureComment_refines_witness :
  ensureComment (Js.Num 42) test_subject test_content (comment_world mock_update_comment) =
  act (Js.Num 42) test_subject test_body (Update "1")
    (comments_read (ensureComment_msg (Js.Num 42) test_subject) "42" mock_empty
       (comment_world mock_update_comment)).
Proof.
  refine (ensureComment_refines (Js.Num 42) test_subject test_content
            (comment_world mock_update_comment)
            [thread_of "1" ("### some-subject" +:+ Js.LF +:+ Js.LF +:+
                            " - my comment content")] mock_empty _ _);
    [reflexivity|repeat constructor; done].
Defined.

Lemma ensureComment_update_path_witness :
  calls_of (ensureComment (Js.Num 42) test_subject test_content)
    (comment_world mock_update_comment) =
  [GetPrComments None "42"; UpdateComment "1" test_body].
Proof.
  eapply (ensureComment_update_path (Js.Num 42) test_subject test_content
            (comment_world mock_update_comment));
    [reflexivity|repeat constructor; done|reflexivity].
Defined.

Lemma ensureComment_noop_path_witness :
  (ensureComment (Js.Num 42) test_subject test_content
     (comment_world mock_same_comment)).1 = Ok true ∧
  calls_of (ensureComment (Js.Num 42) test_subject test_content)
    (comment_world mock_same_comment) = [GetPrComments None "42"].
Proof.
  eapply (ensureComment_noop_path (Js.Num 42) test_subject test_content
            (comment_world mock_same_comment));
    [reflexivity|repeat constructor; done|reflexivity].
Defined.

Lemma ensureComment_create_path_witness :
  calls_of (ensureComment (Js.Num 42) test_subject test_content)
    (comment_world mock_add_comment) =
  [GetPrComments None "42"; GetPrEvents "42";
   CreatePrComment "42" None test_body "beforeCid" "afterCid"].
Proof.
  eapply (ensureComment_create_path (Js.Num 42) test_subject test_content
            (comment_world mock_add_comment));
    first [reflexivity|repeat constructor; done].
Defined.

Lemma ensureComment_retrieval_failure_witness :
  (ensureComment (Js.Num 42) test_subject test_content
     (comment_world mock_comments_fail)).1 = Ok false ∧
  calls_of (ensureComment (Js.Num 42) test_subject test_content)
    (comment_world mock_comments_fail) = [GetPrComments None "42"].
Proof.
  by eapply (ensureComment_retrieval_failure (Js.Num 42) test_subject test_content
               (comment_world mock_comments_fail)).
Defined.

Lemma ensureComment_no_event_throws_witness :
  (ensureComment (Js.Num 42) test_subject test_content
     (comment_world mock_no_events)).1 = Throw TypeError.
Proof.
  eapply (ensureComment_no_event_throws (Js.Num 42) test_subject test_content
            (comment_world mock_no_events));
    first [reflexivity|repeat constructor; done].
Defined.

Lemma ensureComment_empty_thread_throws_witness :
  (ensureComment (Js.Num 42) test_subject test_content
     (comment_world mock_empty_thread)).1 = Throw TypeError.
Proof.
  eapply (ensureComment_empty_thread_throws (Js.Num 42) test_subject test_content
            (comment_world mock_empty_thread) []);
    first [reflexivity|repeat constructor; done].
Defined.

Lemma ensureCommentRemoval_nothing_to_remove_witness :
  (ensureCommentRemoval (ByTopic "another-subject") (Js.Num 42)
     (comment_world mock_same_comment)).1 = Ok tt ∧
  remote (ensureCommentRemoval (ByTopic "another-subject") (Js.Num 42)
            (comment_world mock_same_comment)).2 = mock_empty.
Proof.
  by eapply (ensureCommentRemoval_nothing_to_remove
               (ByTopic "another-subject") (Js.Num 42)
               (comment_world mock_same_comment)).
Defined.

Lemma removal_target_reply_witness :
  removal_target (ByTopic "some-subject")
    [{| comments := Some
          [{| commentId := Some "1"; content := Some "a question" |};
           {| commentId := Some "2";
              content := Some ("### some-subject" +:+ Js.LF +:+ Js.LF +:+
                               "an answer") |}] |}] = Some "2".
Proof. by apply removal_target_reply. Defined.

(** "deletes comment by topic if found": the read, then the delete of
    comment 1. *)
Example removal_by_topic_run :
  calls_of (ensureCommentRemoval (ByTopic "some-subject") (Js.Num 42))
    (comment_world mock_delete_by_topic)
  = [GetPrComments None "42"; DeleteComment "1"].
Proof. by rewrite ensureCommentRemoval_calls. Qed.

(** "adds comment if missing", then the same request against a listing
    that holds the comment just created: the second run makes no create
    call. *)
Example ensureComment_twice_run :
  let w1 := (ensureComment (Js.Num 42) test_subject test_content
               (comment_world mock_add_comment)).2 in
  let m2 := resolvesOnce GetCommentsForPullRequestCommand
              (comments_response
                 [thread_of "1" "my comment content"; thread_of "2" test_body])
              (remote w1) in
  let w2 := mkWorld (config w1) m2 (trace w1) (logs w1) in
  (ensureComment (Js.Num 42) test_subject test_content w2).1 = Ok true ∧
  filter (λ c, is_create_comment c = true)
    (trace (ensureComment (Js.Num 42) test_subject test_content w2).2)
  = [CreatePrComment "42" None test_body "beforeCid" "afterCid"].
Proof. by vm_compute. Qed.
