(* ===== verification/Merge.v ===== *)
(** * Creating, updating and merging pull requests

    [createPr], [updatePr], [mergePr] and [addReviewers] of
    [src/lib/modules/platform/codecommit/index.ts] (lines 342-500).

    [mergePr] is the merge dispatcher: it reads the pull request, refuses
    the strategies the service does not have, sends the merge call of the
    strategy inside a [try], and on success closes the pull request in a
    second [try].  The early [return false] of the first [try] block is
    the [Some false] that [mergePr_dispatch] returns; [None] is the end of
    the block.

    The theorems give the calls each strategy makes and the value
    returned on every branch, show that a failure after the read of the
    pull request never escapes, and that none of the four operations
    touches the session context: the cached listing is as it was. *)

From S2P Require Import Prelude JsValue Effect Sdk Session Mock Directory.

Section merge.
Context {R : Type} `{!Client R} `{!Utils}.

(** ** createPr *)

(** The size the description is cut to. *)
Definition description_limit : nat := N.to_nat 10239.

Definition createPr (sourceBranch targetBranch title body : string)
  : H R Pr.t :=
  let description := smartTruncate (sanitize body) description_limit in
  repo <- read_config repository ;;
  prCreateRes <- client_createPr title (sanitize description)
                   sourceBranch targetBranch repo ;;
  prCreateRes <- deref prCreateRes ;;
  match Js.truthy_val (pullRequest prCreateRes ≫= Sdk.title),
        Js.truthy_val (pullRequest prCreateRes ≫= pullRequestId) with
  | Some prTitle, Some prId =>
      sourceRepo <- read_config repository ;;
      ret {| Pr.number := Js.parseInt prId;
             Pr.state := Open;
             Pr.title := Some prTitle;
             Pr.sourceBranch := Some sourceBranch;
             Pr.targetBranch := Some targetBranch;
             Pr.sha := None;
             Pr.sourceRepo := sourceRepo |}
  | _, _ => throw (Error "Could not create pr, missing PR info")
  end.

(** ** updatePr *)

(** [state === PrState.Closed ? CLOSED : OPEN] *)
Definition prStatusInput (state : option PrState) : string :=
  if decide (state = Some Closed) then CLOSED else OPEN.

Definition updatePr (prNo : Js.number) (title : string)
    (body : option string) (state : option PrState) : H R unit :=
  log LDebug ("updatePr(" +:+ Js.toString prNo +:+ ", " +:+ title +:+
              ", body)") ;;
  match Js.truthy_val body with
  | Some body =>
      client_updatePrDescription (Js.toString prNo)
        (smartTruncate (sanitize body) description_limit)
  | None => ret tt
  end ;;
  (if Js.truthy (Some title)
   then client_updatePrTitle (Js.toString prNo) title
   else ret tt) ;;
  _ <- attempt (client_updatePrStatus (Js.toString prNo)
                  (prStatusInput state)) ;;
  ret tt.

(** ** mergePr *)

(** The first [try] block: the merge call of the strategy.  [None]: the
    block ran to its end; [Some b]: it returned [b]. *)
Definition mergePr_dispatch (strategy : option MergeStrategy)
    (targets : list PullRequestTarget) (pReq : option PullRequest)
  : H R (option bool) :=
  match strategy with
  | Some StrategyAuto | Some StrategySquash =>
      target <- deref (targets !! 0%nat) ;;
      client_squashMerge (repositoryName target) (sourceReference target)
        (destinationReference target) (pReq ≫= Sdk.title) ;;
      ret None
  | Some StrategyFastForward =>
      target <- deref (targets !! 0%nat) ;;
      client_fastForwardMerge (repositoryName target)
        (sourceReference target) (destinationReference target) ;;
      ret None
  | _ =>
      log LDebug "unsupported strategy" ;;
      ret (Some false)
  end.

(** The second [try] block: the pull request is set to closed. *)
Definition mergePr_close (prNo : Js.number) : H R bool :=
  response <- client_updatePrStatus (Js.toString prNo) CLOSED ;;
  response <- deref response ;;
  let isClosed :=
    Js.strict_eq (pullRequest response ≫= pullRequestStatus) (Some CLOSED) in
  (if negb isClosed then log LWarn "Expected PR to have status"
   else ret tt) ;;
  ret true.

(** What follows the first [try]: its [catch], the value it returned, or
    the second [try] with its [catch]. *)
Definition mergePr_finish (prNo : Js.number) (merged : outcome (option bool))
  : H R bool :=
  match merged with
  | Throw _ =>
      log LDebug "PR merge error" ;;
      log LInfo "PR automerge failed" ;;
      ret false
  | Ok (Some result) => ret result
  | Ok None =>
      log LTrace ("Updating PR " +:+ Js.toString prNo +:+ " to status " +:+
                  CLOSED) ;;
      closed <- attempt (mergePr_close prNo) ;;
      match closed with
      | Ok result => ret result
      | Throw _ =>
          log LDebug "Failed to set the PR as Closed." ;;
          ret false
      end
  end.

Definition mergePr (branchName : option string) (prNo : Js.number)
    (strategy : option MergeStrategy) : H R bool :=
  log LDebug ("mergePr(" +:+ Js.toString prNo +:+ ", " +:+
              default "undefined" branchName +:+ ")") ;;
  prOut <- client_getPr (Js.toString prNo) ;;
  match prOut with
  | None => ret false
  | Some prOut =>
      let pReq := pullRequest prOut in
      match pReq ≫= pullRequestTargets with
      | None => ret false
      | Some targets =>
          if decide (strategy = Some StrategyRebase)
          then log LWarn ("CodeCommit does not support a " +:+ Js.DQ +:+
                          "rebase" +:+ Js.DQ +:+ " strategy.") ;;
               ret false
          else
            merged <- attempt (mergePr_dispatch strategy targets pReq) ;;
            mergePr_finish prNo merged
      end
  end.

(** ** addReviewers *)

(** The content of the approval rule: as many approvals as there are
    reviewers, from the pool of the reviewers. *)
Definition approvalRuleContents (reviewers : list string) : string :=
  "{" +:+ Js.DQ +:+ "Version" +:+ Js.DQ +:+ ":" +:+ Js.DQ +:+ "2018-11-08"
  +:+ Js.DQ +:+ "," +:+ Js.DQ +:+ "Statements" +:+ Js.DQ +:+ ": [{" +:+ Js.DQ
  +:+ "Type" +:+ Js.DQ +:+ ": " +:+ Js.DQ +:+ "Approvers" +:+ Js.DQ +:+ ","
  +:+ Js.DQ +:+ "NumberOfApprovalsNeeded" +:+ Js.DQ +:+ ":"
  +:+ Js.toString (Js.Num (Z.of_nat (length reviewers)))
  +:+ "," +:+ Js.DQ +:+ "ApprovalPoolMembers" +:+ Js.DQ +:+ ": "
  +:+ Js.json_stringify_strings reviewers +:+ "}]}".

Definition addReviewers (prNo : Js.number) (reviewers : list string)
  : H R unit :=
  res <- client_createPrApprovalRule (Js.toString prNo)
           (approvalRuleContents reviewers) ;;
  match res with
  | Some res =>
      log LDebug ("Approval Rule Added to PR #" +:+ Js.toString prNo +:+ ":")
  | None => ret tt
  end.

(** ** What the dispatcher promises *)

(** The merge call of a strategy on a target, when it has one. *)
Definition merge_call (strategy : option MergeStrategy)
    (target : PullRequestTarget) (title : option string) : option Call :=
  match strategy with
  | Some StrategyAuto | Some StrategySquash =>
      Some (SquashMerge (repositoryName target) (sourceReference target)
              (destinationReference target) title)
  | Some StrategyFastForward =>
      Some (FastForwardMerge (repositoryName target) (sourceReference target)
              (destinationReference target))
  | _ => None
  end.

(** The backend operation behind [merge_call]. *)
Definition merge_op (strategy : option MergeStrategy)
    (target : PullRequestTarget) (title : option string) : option (M R unit) :=
  match strategy with
  | Some StrategyAuto | Some StrategySquash =>
      Some (cl_squashMerge (repositoryName target) (sourceReference target)
              (destinationReference target) title)
  | Some StrategyFastForward =>
      Some (cl_fastForwardMerge (repositoryName target)
              (sourceReference target) (destinationReference target))
  | _ => None
  end.

(** The strategies the service has. *)
Definition supported (strategy : option MergeStrategy) : bool :=
  match strategy with
  | Some StrategyAuto | Some StrategySquash | Some StrategyFastForward => true
  | _ => false
  end.

(** The world in which [mergePr] dispatches: the entry is logged and the
    pull request has been read. *)
Definition mergePr_world (branchName : option string) (prNo : Js.number)
    (rm : R) (w : World R) : World R :=
  mkWorld (config w) rm (trace w ++ [GetPr (Js.toString prNo)])
    (logs w ++ [(LDebug, "mergePr(" +:+ Js.toString prNo +:+ ", " +:+
                          default "undefined" branchName +:+ ")")]).

End merge.

(** ** Scenarios of the unit tests *)

Definition merge_world (m : Mock) : World Mock :=
  mkWorld config_empty m [] [].

(** [prRes] of "posts PR" *)
Definition mock_create_pr : Mock :=
  resolvesOnce CreatePullRequestCommand
    (RPullRequest {| pullRequest := Some
       {| pullRequestId := Some "1"; title := Some "someTitle";
          pullRequestStatus := Some "OPEN"; revisionId := None;
          pullRequestTargets := None |} |})
    mock_empty.

(** A response to the create command without an identifier. *)
Definition mock_create_no_id : Mock :=
  resolvesOnce CreatePullRequestCommand
    (RPullRequest {| pullRequest := Some
       {| pullRequestId := None; title := Some "someTitle";
          pullRequestStatus := Some "OPEN"; revisionId := None;
          pullRequestTargets := None |} |})
    mock_empty.

(** "updates PR" and "updates PR with status closed" *)
Definition mock_update_pr : Mock :=
  resolvesOnce UpdatePullRequestStatusCommand RUndefined
    (resolvesOnce UpdatePullRequestTitleCommand RUndefined
       (resolvesOnce UpdatePullRequestDescriptionCommand RUndefined
          mock_empty)).

(** "updates PR regardless of status failure" *)
Definition mock_update_pr_status_fails : Mock :=
  rejectsOnce UpdatePullRequestStatusCommand "update status failure"
    (resolvesOnce UpdatePullRequestTitleCommand RUndefined
       (resolvesOnce UpdatePullRequestDescriptionCommand RUndefined
          mock_empty)).

(** [prRes] of the merge tests. *)
Definition merge_target : PullRequestTarget :=
  {| repositoryName := None;
     sourceReference := Some "refs/heads/sourceBranch";
     destinationReference := Some "refs/heads/targetBranch";
     mergeMetadata := None |}.

Definition merge_prRes (targets : list PullRequestTarget) : Reply :=
  RPullRequest {| pullRequest := Some
    {| pullRequestId := None; title := Some "someTitle";
       pullRequestStatus := Some "OPEN"; revisionId := None;
       pullRequestTargets := Some targets |} |}.

Definition updateStatusRes (status : string) : Reply :=
  RPullRequest {| pullRequest := Some
    {| pullRequestId := None; title := None;
       pullRequestStatus := Some status; revisionId := None;
       pullRequestTargets := None |} |}.

(** "posts Merge with auto", "with squash" and "with fast-forward": the
    three tests script the same mock. *)
Definition mock_merge : Mock :=
  resolvesOnce UpdatePullRequestStatusCommand (updateStatusRes "OPEN")
    (resolvesOnce MergeBranchesBySquashCommand RUndefined
       (resolvesOnce GetPullRequestCommand (merge_prRes [merge_target])
          mock_empty)).

(** "checks that merge-commit is not supported" *)
Definition mock_merge_commit : Mock :=
  resolvesOnce GetPullRequestCommand (merge_prRes [merge_target]) mock_empty.

(** A merge the service rejects. *)
Definition mock_merge_conflict : Mock :=
  rejectsOnce MergeBranchesBySquashCommand "conflict"
    (resolvesOnce GetPullRequestCommand (merge_prRes [merge_target])
       mock_empty).

(** A pull request whose target list is empty. *)
Definition mock_merge_no_target : Mock :=
  resolvesOnce GetPullRequestCommand (merge_prRes []) mock_empty.

(** The close call is rejected after the merge. *)
Definition mock_merge_close_fails : Mock :=
  rejectsOnce UpdatePullRequestStatusCommand "cannot close"
    (resolvesOnce MergeBranchesBySquashCommand RUndefined
       (resolvesOnce GetPullRequestCommand (merge_prRes [merge_target])
          mock_empty)).

(** [res] of "checks that the function resolves" *)
Definition mock_approval_rule : Mock :=
  resolvesOnce CreatePullRequestApprovalRuleCommand
    (RApprovalRule {| approvalRule := Some "Assignees By Renovate" |})
    mock_empty.

(** ** Theorems: mergePr *)

Section merge_theorems.
Context {R : Type} `{!Client R} `{!Utils}.
Implicit Types w : World R.

(** The first [try] block on a strategy the service has and a pull
    request with a target: the merge call of the strategy, and the end of
    the block. *)
Lemma mergePr_dispatch_supported strategy t ts pReq c op w :
  merge_call strategy t (pReq ≫= Sdk.title) = Some c →
  merge_op strategy t (pReq ≫= Sdk.title) = Some op →
  mergePr_dispatch strategy (t :: ts) pReq w =
  (_ <- invoke c op ;; ret None) w.
Proof.
  destruct strategy as [[]|]; simpl; intros [= <-] [= <-]; reflexivity.
Qed.

(** The first [try] block on a strategy the service does not have: no
    call, and the block returns [false]. *)
Lemma mergePr_dispatch_unsupported strategy targets pReq w :
  supported strategy = false →
  mergePr_dispatch strategy targets pReq w =
  (Ok (Some false),
   mkWorld (config w) (remote w) (trace w)
     (logs w ++ [(LDebug, "unsupported strategy")])).
Proof. by destruct strategy as [[]|]. Qed.

(** The first [try] block on an empty target list: the read of
    [targets[0]] throws before any call. *)
Lemma mergePr_dispatch_no_target strategy pReq w :
  supported strategy = true →
  mergePr_dispatch strategy [] pReq w = (Throw TypeError, w).
Proof. by destruct strategy as [[]|]. Qed.

(** The second [try] block: one status call; [true] whenever the call
    resolves with a response, whatever status the response reports. *)
Lemma mergePr_close_run prNo w :
  trace (attempt (mergePr_close prNo) w).2
    = trace w ++ [UpdatePrStatus (Js.toString prNo) CLOSED] ∧
  (attempt (mergePr_close prNo) w).1 =
    Ok (match (cl_updatePrStatus (Js.toString prNo) CLOSED (remote w)).1 with
        | Ok (Some _) => Ok true
        | Ok None => Throw TypeError
        | Throw e => Throw e
        end).
Proof.
  rewrite attempt_run. unfold mergePr_close, client_updatePrStatus. eff_run.
  destruct (cl_updatePrStatus _ _ _) as [[[r|]|e] rm]; simpl; [|done..].
  eff_run. by destruct (negb _).
Qed.

(** [mergePr] up to the dispatch, on a pull request with targets. *)
Lemma mergePr_run_targets branchName prNo strategy w prOut targets rm :
  cl_getPr (Js.toString prNo) (remote w) = (Ok (Some prOut), rm) →
  pullRequest prOut ≫= pullRequestTargets = Some targets →
  strategy ≠ Some StrategyRebase →
  mergePr branchName prNo strategy w =
  (merged <- attempt (mergePr_dispatch strategy targets (pullRequest prOut)) ;;
   mergePr_finish prNo merged) (mergePr_world branchName prNo rm w).
Proof.
  intros Hcall Ht Hs. unfold mergePr, client_getPr.
  rewrite bind_log, bind_invoke. cbn [config remote trace logs].
  rewrite Hcall. simpl. rewrite Ht. by rewrite decide_False.
Qed.

(** What follows a first [try] block that ran to its end. *)
Lemma mergePr_finish_merged prNo w :
  trace (mergePr_finish prNo (Ok None) w).2
    = trace w ++ [UpdatePrStatus (Js.toString prNo) CLOSED] ∧
  (mergePr_finish prNo (Ok None) w).1 =
    Ok (match (cl_updatePrStatus (Js.toString prNo) CLOSED (remote w)).1 with
        | Ok (Some _) => true
        | _ => false
        end).
Proof.
  unfold mergePr_finish. rewrite bind_log, bind_attempt.
  match goal with |- context [mergePr_close prNo ?W] =>
    destruct (mergePr_close_run prNo W) as [Ht Hr]
  end.
  rewrite attempt_run in Ht, Hr. simpl in *. injection Hr as ->.
  by destruct (cl_updatePrStatus _ _ _) as [[[?|]|?] ?].
Qed.

(** An absent pull request, or one without a target field: [mergePr]
    returns [false] after the read, and makes no other call. *)
Theorem mergePr_absent branchName prNo strategy w prOut rm :
  cl_getPr (Js.toString prNo) (remote w) = (Ok prOut, rm) →
  (prOut ≫= pullRequest) ≫= pullRequestTargets = None →
  mergePr branchName prNo strategy w
  = (Ok false, mergePr_world branchName prNo rm w).
Proof.
  intros Hcall Ht. unfold mergePr, client_getPr. eff_run. rewrite Hcall.
  destruct prOut as [prOut|]; simpl in *; [|done]. by rewrite Ht.
Qed.

(** C14: a strategy the service does not have (rebase, merge-commit, or
    none): [mergePr] makes no call but the read of the pull request, and
    returns [false] unless that read is rejected. *)
Theorem mergePr_unsupported_strategy branchName prNo strategy w :
  supported strategy = false →
  calls_of (mergePr branchName prNo strategy) w = [GetPr (Js.toString prNo)] ∧
  ((mergePr branchName prNo strategy w).1 = Ok false ∨
   ∃ e, (cl_getPr (Js.toString prNo) (remote w)).1 = Throw e ∧
        (mergePr branchName prNo strategy w).1 = Throw e).
Proof.
  intros Hs.
  rewrite (calls_of_run _ _ [GetPr (Js.toString prNo)]);
    unfold mergePr, client_getPr; eff_run;
    destruct (cl_getPr _ _) as [[[prOut|]|e] rm]; simpl; eauto;
    destruct (pullRequest prOut ≫= pullRequestTargets); simpl; eauto;
    case_decide; eff_run; eauto;
    rewrite mergePr_dispatch_unsupported by done; eauto.
Qed.

(** [mergePr] up to the end of the first [try], on a strategy the
    service has and a pull request with a target. *)
Lemma mergePr_run_merge branchName prNo strategy w prOut t ts rm c op :
  cl_getPr (Js.toString prNo) (remote w) = (Ok (Some prOut), rm) →
  pullRequest prOut ≫= pullRequestTargets = Some (t :: ts) →
  merge_call strategy t (pullRequest prOut ≫= Sdk.title) = Some c →
  merge_op strategy t (pullRequest prOut ≫= Sdk.title) = Some op →
  mergePr branchName prNo strategy w =
  mergePr_finish prNo
    (match (op rm).1 with Ok _ => Ok None | Throw e => Throw e end)
    (mkWorld (config w) (op rm).2 (trace w ++ [GetPr (Js.toString prNo); c])
       (logs (mergePr_world branchName prNo rm w))).
Proof.
  intros Hcall Ht Hc Hop.
  assert (strategy ≠ Some StrategyRebase) as Hs by (by intros ->).
  rewrite (mergePr_run_targets _ _ _ _ _ _ _ Hcall Ht Hs), bind_attempt.
  rewrite (mergePr_dispatch_supported _ _ _ _ _ _ _ Hc Hop), bind_invoke.
  cbn [config remote trace logs mergePr_world]. rewrite <-app_assoc.
  by destruct (op rm) as [[[]|e] rm1].
Qed.

(** The merge call is rejected: [mergePr] returns [false] and does
    not try to close the pull request. *)
Theorem mergePr_merge_rejected
    branchName prNo strategy w prOut t ts rm c op e rm1 :
  cl_getPr (Js.toString prNo) (remote w) = (Ok (Some prOut), rm) →
  pullRequest prOut ≫= pullRequestTargets = Some (t :: ts) →
  merge_call strategy t (pullRequest prOut ≫= Sdk.title) = Some c →
  merge_op strategy t (pullRequest prOut ≫= Sdk.title) = Some op →
  op rm = (Throw e, rm1) →
  (mergePr branchName prNo strategy w).1 = Ok false ∧
  calls_of (mergePr branchName prNo strategy) w
    = [GetPr (Js.toString prNo); c].
Proof.
  intros Hcall Ht Hc Hop Hrun.
  rewrite (calls_of_run _ _ [GetPr (Js.toString prNo); c]);
    by rewrite (mergePr_run_merge _ _ _ _ _ _ _ _ _ _ Hcall Ht Hc Hop), Hrun.
Qed.

(** C19: the merge call succeeds: [mergePr] then sets the pull request to
    closed, and returns [true] when that call resolves with a response,
    whatever status the response reports, and [false] when it is
    rejected or resolves with nothing. *)
Theorem mergePr_merged branchName prNo strategy w prOut t ts rm c op rm1 :
  cl_getPr (Js.toString prNo) (remote w) = (Ok (Some prOut), rm) →
  pullRequest prOut ≫= pullRequestTargets = Some (t :: ts) →
  merge_call strategy t (pullRequest prOut ≫= Sdk.title) = Some c →
  merge_op strategy t (pullRequest prOut ≫= Sdk.title) = Some op →
  op rm = (Ok tt, rm1) →
  (mergePr branchName prNo strategy w).1 =
    Ok (match (cl_updatePrStatus (Js.toString prNo) CLOSED rm1).1 with
        | Ok (Some _) => true
        | _ => false
        end) ∧
  calls_of (mergePr branchName prNo strategy) w
    = [GetPr (Js.toString prNo); c; UpdatePrStatus (Js.toString prNo) CLOSED].
Proof.
  intros Hcall Ht Hc Hop Hrun.
  rewrite (calls_of_run _ _
    [GetPr (Js.toString prNo); c; UpdatePrStatus (Js.toString prNo) CLOSED]);
    rewrite (mergePr_run_merge _ _ _ _ _ _ _ _ _ _ Hcall Ht Hc Hop), Hrun;
    cbn [fst snd];
    match goal with |- context [mergePr_finish prNo (Ok None) ?W] =>
      destruct (mergePr_finish_merged prNo W) as [Ht2 Hr2]
    end; [done|]. rewrite Ht2. cbn [trace]. by rewrite <-app_assoc.
Qed.

(** An empty target list.  The pull request has a target field but
    no target in it: the merge fails inside the [try], and [mergePr]
    returns [false] without a merge call. *)
Theorem mergePr_no_target branchName prNo strategy w prOut rm :
  cl_getPr (Js.toString prNo) (remote w) = (Ok (Some prOut), rm) →
  pullRequest prOut ≫= pullRequestTargets = Some [] →
  strategy ≠ Some StrategyRebase →
  (mergePr branchName prNo strategy w).1 = Ok false ∧
  calls_of (mergePr branchName prNo strategy) w = [GetPr (Js.toString prNo)].
Proof.
  intros Hcall Ht Hs.
  rewrite (calls_of_run _ _ [GetPr (Js.toString prNo)]);
    rewrite (mergePr_run_targets _ _ _ _ _ _ _ Hcall Ht Hs), bind_attempt;
    (destruct (supported strategy) eqn:Hsup;
     [rewrite mergePr_dispatch_no_target by done
     |rewrite mergePr_dispatch_unsupported by done]); done.
Qed.

End merge_theorems.

(** ** Theorems: what escapes, and what the session keeps *)

Section merge_effects.
Context {R : Type} `{!Client R} `{!Utils}.
Implicit Types w : World R.

Lemma mergePr_finish_never_throws prNo merged :
  never_throws (mergePr_finish (R:=R) prNo merged).
Proof. unfold mergePr_finish. solve_effect. Qed.

(** The only exception that escapes [mergePr] is a rejection of the
    read of the pull request: a failure of the merge call, of the close
    call, or of a field read inside the [try] blocks becomes [false]. *)
Theorem mergePr_throws_only_read branchName prNo strategy w e :
  (mergePr branchName prNo strategy w).1 = Throw e →
  (cl_getPr (Js.toString prNo) (remote w)).1 = Throw e.
Proof.
  unfold mergePr, client_getPr. rewrite bind_log, bind_invoke.
  cbn [config remote trace logs].
  destruct (cl_getPr _ _) as [[[prOut|]|e'] rm]; simpl; try congruence.
  destruct (pullRequest prOut ≫= pullRequestTargets); simpl; [|done].
  case_decide; [done|]. rewrite bind_attempt.
  match goal with |- context [mergePr_finish prNo ?m ?W] =>
    destruct (mergePr_finish_never_throws prNo m W) as (b & w' & ->)
  end. done.
Qed.

Lemma createPr_keeps_config sourceBranch targetBranch title body :
  keeps_config (createPr (R:=R) sourceBranch targetBranch title body).
Proof. unfold createPr, client_createPr. solve_effect. Qed.

Lemma updatePr_keeps_config prNo title body state :
  keeps_config (updatePr (R:=R) prNo title body state).
Proof.
  unfold updatePr, client_updatePrDescription, client_updatePrTitle,
    client_updatePrStatus. solve_effect.
Qed.

Lemma mergePr_keeps_config branchName prNo strategy :
  keeps_config (mergePr (R:=R) branchName prNo strategy).
Proof.
  unfold mergePr, mergePr_finish, mergePr_dispatch, mergePr_close,
    client_getPr, client_squashMerge, client_fastForwardMerge,
    client_updatePrStatus. solve_effect.
Qed.

End merge_effects.

(** ** Theorems: createPr, updatePr, addReviewers *)

Section create_update_theorems.
Context {R : Type} `{!Client R} `{!Utils}.
Implicit Types w : World R.

(** The description [createPr] sends. *)
Lemma createPr_run sourceBranch targetBranch title body w :
  createPr sourceBranch targetBranch title body w =
  (prCreateRes <-
     client_createPr title
       (sanitize (smartTruncate (sanitize body) description_limit))
       sourceBranch targetBranch (repository (config w)) ;;
   prCreateRes <- deref prCreateRes ;;
   match Js.truthy_val (pullRequest prCreateRes ≫= Sdk.title),
         Js.truthy_val (pullRequest prCreateRes ≫= pullRequestId) with
   | Some prTitle, Some prId =>
       ret (Pr.mk (Js.parseInt prId) (Some sourceBranch) (Some targetBranch)
              (Some prTitle) Open None (repository (config w)))
   | _, _ => throw (Error "Could not create pr, missing PR info")
   end) w.
Proof.
  unfold createPr, client_createPr. rewrite bind_read_config, !bind_invoke.
  destruct (cl_createPr _ _ _ _ _ _) as [[[out|]|e] rm]; try done.
  cbn [deref]. rewrite !bind_ret_l.
  by destruct (Js.truthy_val (pullRequest out ≫= Sdk.title)),
    (Js.truthy_val (pullRequest out ≫= pullRequestId)).
Qed.

(** The run of [createPr] on a response with a title and an identifier. *)
Lemma createPr_created sourceBranch targetBranch title body w out rm t id :
  cl_createPr title
    (sanitize (smartTruncate (sanitize body) description_limit))
    sourceBranch targetBranch (repository (config w)) (remote w)
    = (Ok (Some out), rm) →
  Js.truthy_val (pullRequest out ≫= Sdk.title) = Some t →
  Js.truthy_val (pullRequest out ≫= pullRequestId) = Some id →
  createPr sourceBranch targetBranch title body w =
  (Ok (Pr.mk (Js.parseInt id) (Some sourceBranch) (Some targetBranch)
         (Some t) Open None (repository (config w))),
   mkWorld (config w) rm
     (trace w ++
      [CreatePr title
         (sanitize (smartTruncate (sanitize body) description_limit))
         sourceBranch targetBranch (repository (config w))])
     (logs w)).
Proof.
  intros Hcall Ht Hid. rewrite createPr_run. unfold client_createPr.
  rewrite bind_invoke, Hcall. cbn [deref]. by rewrite bind_ret_l, Ht, Hid.
Qed.

(** [createPr] on a response with a title and an identifier: one
    create call, with the title as given and the body sanitized, cut to
    the limit and sanitized again; the pull request returned is open,
    carries the branches of the request, the title of the response and
    the number its identifier parses to. *)
Theorem createPr_posts sourceBranch targetBranch title body w out rm t id :
  cl_createPr title
    (sanitize (smartTruncate (sanitize body) description_limit))
    sourceBranch targetBranch (repository (config w)) (remote w)
    = (Ok (Some out), rm) →
  Js.truthy_val (pullRequest out ≫= Sdk.title) = Some t →
  Js.truthy_val (pullRequest out ≫= pullRequestId) = Some id →
  createPr sourceBranch targetBranch title body w =
  (Ok (Pr.mk (Js.parseInt id) (Some sourceBranch) (Some targetBranch)
         (Some t) Open None (repository (config w))),
   mkWorld (config w) rm
     (trace w ++
      [CreatePr title
         (sanitize (smartTruncate (sanitize body) description_limit))
         sourceBranch targetBranch (repository (config w))])
     (logs w)).
Proof.
  apply createPr_created.
Qed.

(** The number of a created pull request reads back the identifier
    the service printed: for an identifier that is the decimal text of
    [n], the pull request returned has number [n]. *)
Theorem createPr_number sourceBranch targetBranch title body w pr rm t n :
  cl_createPr title
    (sanitize (smartTruncate (sanitize body) description_limit))
    sourceBranch targetBranch (repository (config w)) (remote w)
    = (Ok (Some {| pullRequest := Some pr |}), rm) →
  Js.truthy_val (Sdk.title pr) = Some t →
  pullRequestId pr = Some (Js.toString (Js.Num n)) →
  ∃ p, (createPr sourceBranch targetBranch title body w).1 = Ok p ∧
       Pr.number p = Js.Num n.
Proof.
  intros Hcall Ht Hid.
  erewrite createPr_created; [|done|done|simpl; rewrite Hid]; simpl.
  - eexists. split; [done|]. simpl. by rewrite parseInt_toString.
  - apply truthy_val_Some. split; [done|].
    intros Hs. pose proof (parseInt_toString (Js.Num n)) as Hp.
    by rewrite Hs in Hp.
Qed.

(** A response without a title or without an identifier: [createPr]
    throws, after the create call has been made. *)
Theorem createPr_missing_info sourceBranch targetBranch title body w out rm :
  cl_createPr title
    (sanitize (smartTruncate (sanitize body) description_limit))
    sourceBranch targetBranch (repository (config w)) (remote w)
    = (Ok (Some out), rm) →
  Js.truthy_val (pullRequest out ≫= Sdk.title) = None ∨
  Js.truthy_val (pullRequest out ≫= pullRequestId) = None →
  (createPr sourceBranch targetBranch title body w).1
    = Throw (Error "Could not create pr, missing PR info") ∧
  calls_of (createPr sourceBranch targetBranch title body) w
    = [CreatePr title
         (sanitize (smartTruncate (sanitize body) description_limit))
         sourceBranch targetBranch (repository (config w))].
Proof.
  intros Hcall Hm.
  rewrite (calls_of_run _ _ [CreatePr title
    (sanitize (smartTruncate (sanitize body) description_limit))
    sourceBranch targetBranch (repository (config w))]);
    rewrite createPr_run; unfold client_createPr;
    rewrite bind_invoke, Hcall; cbn [deref]; rewrite bind_ret_l;
    by destruct Hm as [-> | ->]; repeat case_match.
Qed.

(** [state === PrState.Closed ? CLOSED : OPEN]: every state but
    [Closed], and no state at all, asks for an open pull request. *)
Lemma prStatusInput_spec state :
  (prStatusInput state = CLOSED ↔ state = Some Closed) ∧
  (prStatusInput state = OPEN ↔ state ≠ Some Closed).
Proof. unfold prStatusInput. by case_decide. Qed.

(** [updatePr] with a body and a title, when the description and the
    title calls resolve: three calls in this order, the description cut
    to the limit; the status asked for is [CLOSED] only for the state
    [Closed]; the operation resolves whatever the status call does. *)
Theorem updatePr_calls prNo title body state w rm1 rm2 :
  body ≠ "" → title ≠ "" →
  cl_updatePrDescription (Js.toString prNo)
    (smartTruncate (sanitize body) description_limit) (remote w)
    = (Ok tt, rm1) →
  cl_updatePrTitle (Js.toString prNo) title rm1 = (Ok tt, rm2) →
  (updatePr prNo title (Some body) state w).1 = Ok tt ∧
  calls_of (updatePr prNo title (Some body) state) w =
  [UpdatePrDescription (Js.toString prNo)
     (smartTruncate (sanitize body) description_limit);
   UpdatePrTitle (Js.toString prNo) title;
   UpdatePrStatus (Js.toString prNo) (prStatusInput state)].
Proof.
  intros Hb Ht Hd Htitle.
  assert (Js.truthy_val (Some body) = Some body) as Eb by (by destruct body).
  assert (Js.truthy (Some title) = true) as Et by (by destruct title).
  rewrite (calls_of_run _ _
    [UpdatePrDescription (Js.toString prNo)
       (smartTruncate (sanitize body) description_limit);
     UpdatePrTitle (Js.toString prNo) title;
     UpdatePrStatus (Js.toString prNo) (prStatusInput state)]);
    unfold updatePr, client_updatePrDescription, client_updatePrTitle,
      client_updatePrStatus;
    rewrite Eb, Et, bind_log, bind_invoke; cbn [config remote trace logs];
    rewrite Hd, bind_invoke; cbn [config remote trace logs];
    rewrite Htitle, bind_attempt, invoke_run; cbn [config remote trace logs];
    by rewrite <-?app_assoc.
Qed.

(** The description [updatePr] sends respects the limit: every
    description call of a run carries at most 10239 characters. *)
Theorem updatePr_description_bounded `{!UtilsLaws}
    prNo title body state w prId description :
  UpdatePrDescription prId description
    ∈ calls_of (updatePr prNo title body state) w →
  String.length description ≤ N.to_nat 10239.
Proof.
  assert (calls_satisfy (λ c, ∀ i d, c = UpdatePrDescription i d →
            String.length d ≤ description_limit)
            (updatePr prNo title body state)) as Hsat.
  { unfold updatePr, client_updatePrDescription, client_updatePrTitle,
      client_updatePrStatus.
    solve_effect; simplify_eq; apply smartTruncate_length. }
  intros Hin. by eapply (calls_satisfy_elem _ _ _ _ Hsat Hin).
Qed.

(** [addReviewers] makes one call: an approval rule for the pull
    request that needs as many approvals as there are reviewers. *)
Theorem addReviewers_calls prNo reviewers w :
  calls_of (addReviewers prNo reviewers) w =
  [CreatePrApprovalRule (Js.toString prNo) (approvalRuleContents reviewers)].
Proof.
  apply calls_of_run. unfold addReviewers, client_createPrApprovalRule.
  rewrite bind_invoke.
  by destruct (cl_createPrApprovalRule _ _ _) as [[[?|]|?] ?].
Qed.

End create_update_theorems.

(** ** Theorems: the cached listing after a mutation *)

Section stale_listing.
Context {R : Type} `{!Client R} `{!Utils}.
Implicit Types w : World R.

(** The directory after a mutation.  [createPr], [updatePr] and
    [mergePr] leave the session context as it was, so a listing that was
    cached before is served again after them: the pull request just
    created is not in it, and the one just merged still is, as it was
    listed. *)
Theorem listing_survives_mutation w l
    sourceBranch targetBranch title body prNo prBody state branchName strategy :
  prList (config w) = Some l →
  (getPrList (createPr sourceBranch targetBranch title body w).2).1 = Ok l ∧
  (getPrList (updatePr prNo title prBody state w).2).1 = Ok l ∧
  (getPrList (mergePr branchName prNo strategy w).2).1 = Ok l.
Proof.
  intros Hl. split_and!; erewrite getPrList_hit; try done.
  - by rewrite createPr_keeps_config.
  - by rewrite updatePr_keeps_config.
  - by rewrite mergePr_keeps_config.
Qed.

(** The calls [mergePr] can make: the read of the pull request, a
    squash or a fast-forward merge, and the status update to closed.  It
    never creates, never comments, and never reopens. *)
Theorem mergePr_calls_shape branchName prNo strategy w c :
  c ∈ calls_of (mergePr branchName prNo strategy) w →
  c = GetPr (Js.toString prNo) ∨ is_merge_call c = true ∨
  c = UpdatePrStatus (Js.toString prNo) CLOSED.
Proof.
  apply (calls_satisfy_elem
    (λ c, c = GetPr (Js.toString prNo) ∨ is_merge_call c = true ∨
          c = UpdatePrStatus (Js.toString prNo) CLOSED)).
  unfold mergePr, mergePr_finish, mergePr_dispatch, mergePr_close,
    client_getPr, client_squashMerge, client_fastForwardMerge,
    client_updatePrStatus.
  solve_effect; auto.
Qed.

End stale_listing.

(** ** The scenarios, run *)

Lemma mergePr_absent_witness :
  mergePr (Some "branch") (Js.Num 1) (Some StrategyRebase)
    (merge_world mock_empty)
  = (Ok false,
     mergePr_world (Some "branch") (Js.Num 1) mock_empty
       (merge_world mock_empty)).
Proof. by apply (mergePr_absent _ _ _ _ None). Defined.

Lemma mergePr_unsupported_strategy_witness :
  calls_of (mergePr (Some "branch") (Js.Num 1) (Some StrategyMergeCommit))
    (merge_world mock_merge_commit) = [GetPr "1"] ∧
  ((mergePr (Some "branch") (Js.Num 1) (Some StrategyMergeCommit)
      (merge_world mock_merge_commit)).1 = Ok false ∨
   ∃ e, (cl_getPr "1" mock_merge_commit).1 = Throw e ∧
        (mergePr (Some "branch") (Js.Num 1) (Some StrategyMergeCommit)
           (merge_world mock_merge_commit)).1 = Throw e).
Proof.
  by apply (mergePr_unsupported_strategy (Some "branch") (Js.Num 1)
              (Some StrategyMergeCommit) (merge_world mock_merge_commit)).
Defined.

Lemma mergePr_merge_rejected_witness :
  (mergePr (Some "branch") (Js.Num 5) (Some StrategySquash)
     (merge_world mock_merge_conflict)).1 = Ok false ∧
  calls_of (mergePr (Some "branch") (Js.Num 5) (Some StrategySquash))
    (merge_world mock_merge_conflict)
  = [GetPr "5";
     SquashMerge None (Some "refs/heads/sourceBranch")
       (Some "refs/heads/targetBranch") (Some "someTitle")].
Proof.
  eapply (mergePr_merge_rejected (Some "branch") (Js.Num 5)
            (Some StrategySquash) (merge_world mock_merge_conflict));
    reflexivity.
Defined.

Lemma mergePr_merged_witness :
  (mergePr (Some "branch") (Js.Num 1) (Some StrategyAuto)
     (merge_world mock_merge)).1 = Ok true ∧
  calls_of (mergePr (Some "branch") (Js.Num 1) (Some StrategyAuto))
    (merge_world mock_merge)
  = [GetPr "1";
     SquashMerge None (Some "refs/heads/sourceBranch")
       (Some "refs/heads/targetBranch") (Some "someTitle");
     UpdatePrStatus "1" "CLOSED"].
Proof.
  refine (mergePr_merged (Some "branch") (Js.Num 1) (Some StrategyAuto)
            (merge_world mock_merge) _ merge_target [] _ _ _
            (resolvesOnce UpdatePullRequestStatusCommand
               (updateStatusRes "OPEN") mock_empty) _ _ _ _ _);
    reflexivity.
Defined.

Lemma mergePr_no_target_witness :
  (mergePr (Some "branch") (Js.Num 1) (Some StrategySquash)
     (merge_world mock_merge_no_target)).1 = Ok false ∧
  calls_of (mergePr (Some "branch") (Js.Num 1) (Some StrategySquash))
    (merge_world mock_merge_no_target) = [GetPr "1"].
Proof.
  by eapply (mergePr_no_target (Some "branch") (Js.Num 1)
               (Some StrategySquash) (merge_world mock_merge_no_target)).
Defined.

Lemma mergePr_throws_only_read_witness :
  (@cl_getPr Mock strict_client "1"
     (rejectsOnce GetPullRequestCommand "bad creds" mock_empty)).1
  = Throw (RemoteError "bad creds").
Proof.
  by apply (@mergePr_throws_only_read Mock strict_client
              (Some "branch") (Js.Num 1) (Some StrategyAuto)
              (merge_world
                 (rejectsOnce GetPullRequestCommand "bad creds" mock_empty))).
Defined.

Lemma mergePr_calls_shape_witness :
  UpdatePrStatus "1" "CLOSED" = GetPr "1" ∨
  is_merge_call (UpdatePrStatus "1" "CLOSED") = true ∨
  UpdatePrStatus "1" "CLOSED" = UpdatePrStatus "1" CLOSED.
Proof.
  apply (mergePr_calls_shape (Some "branch") (Js.Num 1) (Some StrategyAuto)
           (merge_world mock_merge)).
  vm_compute. do 2 right. left.
Defined.

Lemma createPr_posts_witness :
  createPr "sourceBranch" "targetBranch" "mytitle" "mybody"
    (merge_world mock_create_pr)
  = (Ok (Pr.mk (Js.Num 1) (Some "sourceBranch") (Some "targetBranch")
           (Some "someTitle") Open None None),
     mkWorld config_empty mock_empty
       [CreatePr "mytitle" "mybody" "sourceBranch" "targetBranch" None] []).
Proof.
  refine (createPr_posts "sourceBranch" "targetBranch" "mytitle" "mybody"
            (merge_world mock_create_pr) _ mock_empty "someTitle" "1" _ _ _);
    reflexivity.
Defined.

Lemma createPr_number_witness :
  ∃ p, (createPr "sourceBranch" "targetBranch" "mytitle" "mybody"
          (merge_world mock_create_pr)).1 = Ok p ∧
       Pr.number p = Js.Num 1.
Proof.
  eapply (createPr_number "sourceBranch" "targetBranch" "mytitle" "mybody"
            (merge_world mock_create_pr)); reflexivity.
Defined.

Lemma createPr_missing_info_witness :
  (createPr "sourceBranch" "targetBranch" "mytitle" "mybody"
     (merge_world mock_create_no_id)).1
    = Throw (Error "Could not create pr, missing PR info") ∧
  calls_of (createPr "sourceBranch" "targetBranch" "mytitle" "mybody")
    (merge_world mock_create_no_id)
    = [CreatePr "mytitle" "mybody" "sourceBranch" "targetBranch" None].
Proof.
  refine (createPr_missing_info "sourceBranch" "targetBranch" "mytitle"
            "mybody" (merge_world mock_create_no_id) _ _ _ _);
    [reflexivity|by right].
Defined.

Lemma updatePr_calls_witness :
  (updatePr (Js.Num 1) "title" (Some "body") (Some Open)
     (merge_world mock_update_pr_status_fails)).1 = Ok tt ∧
  calls_of (updatePr (Js.Num 1) "title" (Some "body") (Some Open))
    (merge_world mock_update_pr_status_fails)
  = [UpdatePrDescription "1" "body"; UpdatePrTitle "1" "title";
     UpdatePrStatus "1" "OPEN"].
Proof.
  refine (updatePr_calls (Js.Num 1) "title" "body" (Some Open)
            (merge_world mock_update_pr_status_fails) _ _ _ _ _ _);
    first [reflexivity|done].
Defined.

Lemma updatePr_description_bounded_witness :
  String.length "body" ≤ N.to_nat 10239.
Proof.
  apply (updatePr_description_bounded (Js.Num 1) "title" (Some "body")
           (Some Open) (merge_world mock_update_pr) "1" "body").
  vm_compute. left.
Defined.

Lemma listing_survives_mutation_witness :
  let w := mkWorld (set_prList (Some []) config_empty) mock_create_pr [] [] in
  (getPrList (createPr "sourceBranch" "targetBranch" "mytitle" "mybody" w).2).1
    = Ok [] ∧
  (getPrList (updatePr (Js.Num 1) "mytitle" None None w).2).1 = Ok [] ∧
  (getPrList (mergePr None (Js.Num 1) None w).2).1 = Ok [].
Proof. by apply listing_survives_mutation. Defined.

(** "checks that the function resolves": the rule content for one
    reviewer. *)
Example addReviewers_run :
  calls_of (addReviewers (Js.Num 13)
              ["arn:aws:iam::someUser:user/ReviewerUser"])
    (merge_world mock_approval_rule)
  = [CreatePrApprovalRule "13"
       ("{" +:+ Js.DQ +:+ "Version" +:+ Js.DQ +:+ ":" +:+ Js.DQ +:+
        "2018-11-08" +:+ Js.DQ +:+ "," +:+ Js.DQ +:+ "Statements" +:+ Js.DQ
        +:+ ": [{" +:+ Js.DQ +:+ "Type" +:+ Js.DQ +:+ ": " +:+ Js.DQ +:+
        "Approvers" +:+ Js.DQ +:+ "," +:+ Js.DQ +:+ "NumberOfApprovalsNeeded"
        +:+ Js.DQ +:+ ":1," +:+ Js.DQ +:+ "ApprovalPoolMembers" +:+ Js.DQ +:+
        ": [" +:+ Js.DQ +:+ "arn:aws:iam::someUser:user/ReviewerUser" +:+
        Js.DQ +:+ "]}]}")].
Proof. by rewrite addReviewers_calls. Qed.
