(* ===== verification/Capabilities.v ===== *)
(** * File access and the capabilities the service lacks

    [getRawFile] and [getJsonFile] of
    [src/lib/modules/platform/codecommit/index.ts] (lines 315-335), and
    the operations of the platform contract that CodeCommit has no
    counterpart for (lines 337-340 and 502-575): issues, labels,
    assignees, vulnerability alerts, branch status.  Each of the latter
    resolves at once to a fixed answer.

    [JSON5.parse] is a library the adapter only calls; [getJsonFile] is
    modelled over any parser.  The bytes of a file are the string they
    decode to.

    The theorems show that [getRawFile] reads the file of the repository
    of the session unless a repository is named, that [getJsonFile] is the
    parser applied to a non-empty file, and that the unsupported
    operations make no call, change nothing and never throw. *)

From S2P Require Import Prelude JsValue Effect Sdk Session Mock.

(** [BranchStatus] of [types]. *)
Inductive BranchStatus : Type :=
| green
| yellow
| red.

#[export] Instance BranchStatus_eq_dec : EqDecision BranchStatus.
Proof. solve_decision. Defined.

Section capabilities.
Context {R : Type} `{!Client R}.

(** ** File access *)

Definition getRawFile (fileName : string) (repoName branchOrTag : option string)
  : H R string :=
  repo <- read_config repository ;;
  fileRes <- client_getFile (from_option Some repo repoName) fileName
               branchOrTag ;;
  fileRes <- deref fileRes ;;
  ret (fileContent fileRes).

Section json.
Context {J : Type} (JSON5_parse : string → outcome J).

(** [raw ? JSON5.parse(raw) : null] *)
Definition getJsonFile (fileName : string) (repoName branchOrTag : option string)
  : H R (option J) :=
  raw <- getRawFile fileName repoName branchOrTag ;;
  if Js.truthy (Some raw)
  then match JSON5_parse raw with
       | Ok v => ret (Some v)
       | Throw e => throw e
       end
  else ret None.

End json.

(** ** Unsupported capabilities *)

Definition getRepoForceRebase : H R bool := ret false.

Definition addAssignees (iid : Js.number) (assignees : list string)
  : H R unit := ret tt.

Definition findIssue {Issue : Type} (title : string) : H R (option Issue) :=
  ret None.

Definition ensureIssue {EnsureIssueResult : Type} (title : string)
  : H R (option EnsureIssueResult) := ret None.

Definition getIssueList {Issue : Type} : H R (list Issue) := ret [].

Definition ensureIssueClosing (title : string) : H R unit := ret tt.

Definition deleteLabel (prNumber : Js.number) (label : string) : H R unit :=
  ret tt.

Definition getVulnerabilityAlerts {VulnerabilityAlert : Type}
  : H R (list VulnerabilityAlert) := ret [].

Definition getBranchStatus (branchName : string) : H R BranchStatus :=
  log LDebug ("getBranchStatus(" +:+ branchName +:+ ")") ;;
  log LDebug
    "returning branch status yellow, because getBranchStatus isnt supported on aws yet" ;;
  ret yellow.

Definition getBranchStatusCheck (branchName context : string)
  : H R (option BranchStatus) :=
  log LDebug ("getBranchStatusCheck(" +:+ branchName +:+ ", context=" +:+
              context +:+ ")") ;;
  log LDebug
    "returning null, because getBranchStatusCheck is not supported on aws yet" ;;
  ret None.

Definition setBranchStatus (branchName context description : string)
    (state : BranchStatus) (targetUrl : option string) : H R unit := ret tt.

(** ** What an unsupported operation promises *)

(** A computation that resolves, makes no call, and leaves the session
    context and the backend as they were. *)
Definition inert {A} (c : H R A) : Prop :=
  ∀ w, ∃ a, (c w).1 = Ok a ∧ trace (c w).2 = trace w ∧
            config (c w).2 = config w ∧ remote (c w).2 = remote w.

End capabilities.

(** ** Scenarios of the unit tests *)

(** "returns file content" *)
Definition test_file : GetFileOutput :=
  {| fileContent := "{" +:+ Js.DQ +:+ "foo" +:+ Js.DQ +:+ ":" +:+ Js.DQ +:+
                    "bar" +:+ Js.DQ +:+ "}" |}.

Definition mock_file : Mock :=
  resolvesOnce GetFileCommand (RFile test_file) mock_empty.

Definition file_world (m : Mock) : World Mock :=
  mkWorld (set_repository (Some "repoName") config_empty) m [] [].

(** ** Theorems *)

Section capability_theorems.
Context {R : Type} `{!Client R}.
Implicit Types w : World R.

Lemma getRawFile_run fileName repoName branchOrTag w :
  getRawFile fileName repoName branchOrTag w =
  (fileRes <- client_getFile
                (from_option Some (repository (config w)) repoName)
                fileName branchOrTag ;;
   fileRes <- deref fileRes ;;
   ret (fileContent fileRes)) w.
Proof. reflexivity. Qed.

(** [getRawFile] makes one call, for the file in the repository
    named or else in the repository of the session, and returns the
    content the service sends. *)
Theorem getRawFile_reads fileName repoName branchOrTag w out rm :
  cl_getFile (from_option Some (repository (config w)) repoName) fileName
    branchOrTag (remote w) = (Ok (Some out), rm) →
  getRawFile fileName repoName branchOrTag w =
  (Ok (fileContent out),
   mkWorld (config w) rm
     (trace w ++
      [GetFile (from_option Some (repository (config w)) repoName) fileName
         branchOrTag])
     (logs w)).
Proof.
  intros Hcall. rewrite getRawFile_run. unfold client_getFile.
  by rewrite bind_invoke, Hcall.
Qed.

(** [getJsonFile] is the parser applied to the content of the file;
    an empty file is [null], and is not given to the parser. *)
Theorem getJsonFile_parses {J} (parse : string → outcome J)
    fileName repoName branchOrTag w out rm :
  cl_getFile (from_option Some (repository (config w)) repoName) fileName
    branchOrTag (remote w) = (Ok (Some out), rm) →
  (getJsonFile parse fileName repoName branchOrTag w).1 =
  if decide (fileContent out = "") then Ok None
  else match parse (fileContent out) with
       | Ok v => Ok (Some v)
       | Throw e => Throw e
       end.
Proof.
  intros Hcall. unfold getJsonFile.
  rewrite (bind_Ok _ _ _ _ _ (getRawFile_reads _ _ _ _ _ _ Hcall)).
  destruct (fileContent out) as [|c s]; [done|]. simpl.
  by destruct (parse _).
Qed.

Lemma inert_ret {A} (a : A) : inert (ret a : H R A).
Proof. intros w. by exists a. Qed.

Lemma inert_log_then {A} l msg (c : H R A) :
  inert c → inert (log l msg ;; c).
Proof.
  intros Hc w. rewrite bind_log.
  destruct (Hc (mkWorld (config w) (remote w) (trace w)
                  (logs w ++ [(l, msg)]))) as (a & -> & -> & -> & ->).
  by exists a.
Qed.

(** The operations the service has no counterpart for resolve
    without a call and change neither the session context nor the
    backend; the branch status is always pending. *)
Theorem unsupported_inert iid assignees title prNumber label branchName
    context description state targetUrl :
  inert (R:=R) getRepoForceRebase ∧ inert (R:=R) (addAssignees iid assignees)
  ∧ inert (R:=R) (findIssue (Issue:=unit) title)
  ∧ inert (R:=R) (ensureIssue (EnsureIssueResult:=unit) title)
  ∧ inert (R:=R) (getIssueList (Issue:=unit))
  ∧ inert (R:=R) (ensureIssueClosing title)
  ∧ inert (R:=R) (deleteLabel prNumber label)
  ∧ inert (R:=R) (getVulnerabilityAlerts (VulnerabilityAlert:=unit))
  ∧ inert (R:=R) (getBranchStatus branchName)
  ∧ inert (R:=R) (getBranchStatusCheck branchName context)
  ∧ inert (R:=R)
      (setBranchStatus branchName context description state targetUrl)
  ∧ ∀ w, (getBranchStatus branchName w).1 = Ok yellow.
Proof.
  split_and!; try apply inert_ret; try done;
    by do 2 apply inert_log_then; apply inert_ret.
Qed.

End capability_theorems.

Lemma getRawFile_reads_witness :
  getRawFile "file.json" None None (file_world mock_file)
  = (Ok (fileContent test_file),
     mkWorld (set_repository (Some "repoName") config_empty) mock_empty
       [GetFile (Some "repoName") "file.json" None] []).
Proof.
  by apply (getRawFile_reads "file.json" None None (file_world mock_file)
              test_file mock_empty).
Defined.

Lemma getJsonFile_parses_witness :
  (getJsonFile (λ s, Ok (String.length s)) "file.json" None None
     (file_world mock_file)).1 = Ok (Some 13).
Proof.
  by apply (getJsonFile_parses (λ s, Ok (String.length s)) "file.json" None
              None (file_world mock_file) test_file mock_empty).
Defined.
