(* ===== verification/Lifecycle.v ===== *)
(** * Lifecycle: a session as a sequence of requests

    The orchestrator drives the adapter by calling its handlers one after
    the other; what one call leaves in [config] and in the backend is what
    the next one finds.  This file puts the handlers of the other files
    together: a [Request] is one call with its arguments, [serve] runs it,
    [step] is the change of the world one request makes, whether it
    returns or throws, and the worlds of a session are those [rtc step]
    reaches.  The theorems are invariants of all sessions, proved once for
    every property of [config] that the assignments of the handlers keep
    ([SessionInvariant]). *)

From stdpp Require Import relations.
From S2P Require Import Prelude JsValue Effect Sdk Mock Session Host Iam.
From S2P Require Import Directory Init Comments Merge Capabilities.

(** ** Requests *)

Inductive Request : Type :=
| ReqInitPlatform (p : PlatformParams.t)
| ReqInitRepo (p : RepoParams.t)
| ReqGetRepos
| ReqGetPrList
| ReqFindPr (branchName : string) (prTitle : option string)
    (state : option PrState)
| ReqGetBranchPr (branchName : string)
| ReqGetPr (pullRequestId : Js.number)
| ReqGetRawFile (fileName : string) (repoName branchOrTag : option string)
| ReqCreatePr (sourceBranch targetBranch title body : string)
| ReqUpdatePr (prNo : Js.number) (title : string) (body : option string)
    (state : option PrState)
| ReqMergePr (branchName : option string) (prNo : Js.number)
    (strategy : option MergeStrategy)
| ReqAddReviewers (prNo : Js.number) (reviewers : list string)
| ReqEnsureComment (number : Js.number) (topic : option string)
    (content : string)
| ReqEnsureCommentRemoval (key : RemovalKey) (prNo : Js.number).

(** The requests that only look something up. *)
Definition is_lookup (r : Request) : bool :=
  match r with
  | ReqGetRepos | ReqGetPrList | ReqFindPr _ _ _ | ReqGetBranchPr _
  | ReqGetPr _ | ReqGetRawFile _ _ _ => true
  | _ => false
  end.

(** What the directory can hold: entries that are open or closed and
    carry no commit. *)
Definition listed (l : list Pr.t) : Prop :=
  Forall (λ pr, (Pr.state pr = Open ∨ Pr.state pr = Closed) ∧
                Pr.sha pr = None) l.

Definition cache_listed (cfg : Config) : Prop :=
  ∀ l, prList cfg = Some l → listed l.

(** The session context after [initPlatform]. *)
Definition connected (cfg : Config) : Prop :=
  is_Some (region cfg) ∧ is_Some (credentials cfg) ∧ is_Some (userArn cfg).

(** A property of the session context that every assignment of the
    handlers keeps: the cache is assigned only when it is empty, and a
    list the directory can hold; the other fields are assigned values
    that are present. *)
Class SessionInvariant (I : Config → Prop) : Prop := {
  inv_prList cfg l :
    I cfg → prList cfg = None → listed l → I (set_prList (Some l) cfg);
  inv_repository cfg r : I cfg → I (set_repository (Some r) cfg);
  inv_defaultBranch cfg b : I cfg → I (set_defaultBranch (Some b) cfg);
  inv_region cfg r : I cfg → I (set_region (Some r) cfg);
  inv_credentials cfg k : I cfg → I (set_credentials (Some k) cfg);
  inv_userArn cfg a : I cfg → I (set_userArn (Some a) cfg);
}.

Section lifecycle.
Context {R : Type} `{!Client R, !Services R, !Utils}.

(** One call of the orchestrator; its result is the caller's. *)
Definition serve (r : Request) : H (Host R) unit :=
  match r with
  | ReqInitPlatform p => initPlatform p ;; ret tt
  | ReqInitRepo p => initRepo p ;; ret tt
  | ReqGetRepos => getRepos ;; ret tt
  | ReqGetPrList => getPrList ;; ret tt
  | ReqFindPr b t s => findPr b t s ;; ret tt
  | ReqGetBranchPr b => getBranchPr b ;; ret tt
  | ReqGetPr n => getPr n ;; ret tt
  | ReqGetRawFile f r b => getRawFile f r b ;; ret tt
  | ReqCreatePr s t ti b => createPr s t ti b ;; ret tt
  | ReqUpdatePr n t b s => updatePr n t b s ;; ret tt
  | ReqMergePr b n s => mergePr b n s ;; ret tt
  | ReqAddReviewers n rs => addReviewers n rs ;; ret tt
  | ReqEnsureComment n t c => ensureComment n t c ;; ret tt
  | ReqEnsureCommentRemoval k n => ensureCommentRemoval k n ;; ret tt
  end.

(** The world after one request, whether it returned or threw. *)
Inductive step : relation (World (Host R)) :=
| step_serve r w : step w (serve r w).2.

(** The world after a sequence of requests. *)
Fixpoint session (rs : list Request) (w : World (Host R)) : World (Host R) :=
  match rs with
  | [] => w
  | r :: rs => session rs (serve r w).2
  end.

(** The same for a lookup. *)
Inductive lookup_step : relation (World (Host R)) :=
| step_lookup r w : is_lookup r = true → lookup_step w (serve r w).2.

End lifecycle.

(** ** A session of the unit tests *)

(** The repository is initialised in a session that has a list, the
    list is asked for, a pull request is looked up and merged. *)
Definition test_requests : list Request :=
  [ReqInitRepo test_repo; ReqGetPrList; ReqGetPr (Js.Num 1);
   ReqMergePr (Some "branch") (Js.Num 1) (Some StrategySquash)].

Definition test_lookups : list Request :=
  [ReqGetPrList; ReqFindPr "sourceBranch" None (Some Open);
   ReqGetBranchPr "sourceBranch"; ReqGetPr (Js.Num 1); ReqGetRepos].

(** A session whose service lists one open pull request. *)
Definition lookup_session : World (Host Stub) :=
  mkWorld init_config
    (mkHost env_empty (Some test_iam) (stub_resolving (mock_listing "OPEN")))
    [] [].

(** ** Lemmas: what each handler does to the session context *)

(** [unfold_handlers] opens the handlers down to the calls. *)
Ltac unfold_handlers :=
  unfold serve, getRepos, getPr, getRawFile, createPr, updatePr, mergePr,
    mergePr_finish, mergePr_dispatch, mergePr_close, addReviewers,
    ensureComment, ensureComment_body, create_comment, ensureCommentRemoval,
    removal_body, removal_inner, listed_pr, first_target,
    client_getRepositoryInfo, client_listPullRequests, client_getPr,
    client_listRepositories, client_getFile, client_createPr,
    client_updatePrDescription, client_updatePrTitle, client_updatePrStatus,
    client_squashMerge, client_fastForwardMerge, client_createPrApprovalRule,
    client_getPrComments, client_getPrEvents, client_createPrComment,
    client_updateComment, client_deleteComment.

(** [open_requests] does so for every request, the two of the
    initialisation and the three that go through the list included. *)
Ltac open_requests :=
  unfold_handlers;
  unfold initPlatform, initPlatform_connect, resolve_region, initIamClient,
    getUserArn, recover_arn, iam_send, client_buildCodeCommitClient,
    initRepo, initRepo_finish, git_init, getBranchPr, findPr, getPrList,
    getPrList_body;
  unfold_handlers.

Section handler_lemmas.
Context {R : Type} `{!Client R, !Utils}.
Implicit Types (w : World R).

Lemma getPrList_body_keeps_config prId fetched :
  keeps_config (getPrList_body (R:=R) prId fetched).
Proof. unfold getPrList_body. unfold_handlers. solve_effect. Qed.

(** [getPrList] assigns the cache only when it is empty, and then a list
    the directory can hold. *)
Lemma getPrList_config w :
  config (getPrList w).2 = config w ∨
  ∃ l, prList (config w) = None ∧ listed l ∧
       config (getPrList w).2 = set_prList (Some l) (config w).
Proof.
  destruct (prList (config w)) as [l|] eqn:Hc.
  { left. by rewrite (getPrList_hit _ _ Hc). }
  destruct (getPrList w) as [[l|e] w1] eqn:Hrun.
  - destruct (getPrList_miss_inv _ _ _ Hc Hrun)
      as (resp & rm & _ & [(_ & _ & _ & ? & _)|(? & _ & Hf)]); [by left|].
    right. exists l. repeat split; [|done].
    eapply Forall_impl; [done|].
    by intros pr (prId & _ & Hs & Hsha & _).
  - left. revert Hrun. unfold getPrList, client_listPullRequests. eff_run.
    rewrite Hc. eff_run.
    destruct (cl_listPullRequests _ _ _) as [[resp|e'] rm]; [|by intros [= _ <-]].
    case_bool_decide; [done|].
    match goal with |- context [for_of ?l ?b ?a] =>
      pose proof (keeps_config_for_of l b a getPrList_body_keeps_config) as Hk
    end.
    unfold bind at 1.
    match goal with |- context [for_of ?l ?b ?a ?W] =>
      specialize (Hk W); destruct (for_of l b a W) as [[f|e'] w2]
    end; [done|]. intros [= _ <-]. done.
Qed.

Lemma getPrList_config_inv I `{!SessionInvariant I} :
  config_inv I (getPrList (R:=R)).
Proof.
  intros w Hw. destruct (getPrList_config w) as [->|(l & Hc & Hl & ->)]; [done|].
  by apply inv_prList.
Qed.

Lemma findPr_config_inv I `{!SessionInvariant I} branchName prTitle state :
  config_inv I (findPr (R:=R) branchName prTitle state).
Proof.
  unfold findPr. apply config_inv_bind; [|solve_config_inv].
  apply config_inv_try_catch; [|solve_config_inv].
  apply config_inv_bind; [by apply getPrList_config_inv|solve_config_inv].
Qed.

Lemma getPr_keeps_config n : keeps_config (getPr (R:=R) n).
Proof. unfold_handlers. solve_effect. Qed.

Lemma getBranchPr_config_inv I `{!SessionInvariant I} branchName :
  config_inv I (getBranchPr (R:=R) branchName).
Proof.
  unfold getBranchPr. apply config_inv_bind; [solve_config_inv|intros _].
  apply config_inv_bind; [by apply findPr_config_inv|].
  intros [pr|]; [|solve_config_inv].
  apply config_inv_keeps, getPr_keeps_config.
Qed.

Lemma getRepos_keeps_config : keeps_config (getRepos (R:=R)).
Proof. unfold_handlers. solve_effect. Qed.

Lemma getRawFile_keeps_config f r b : keeps_config (getRawFile (R:=R) f r b).
Proof. unfold_handlers. solve_effect. Qed.

Lemma addReviewers_keeps_config n rs : keeps_config (addReviewers (R:=R) n rs).
Proof. unfold_handlers. solve_effect. Qed.

Lemma ensureComment_keeps_config n t c :
  keeps_config (ensureComment (R:=R) n t c).
Proof. unfold_handlers. solve_effect. Qed.

Lemma ensureCommentRemoval_keeps_config k n :
  keeps_config (ensureCommentRemoval (R:=R) k n).
Proof. unfold_handlers. solve_effect. Qed.

End handler_lemmas.

(** ** Lemmas: one request *)

Section serve_lemmas.
Context {R : Type} `{!Client R, !Services R, !Utils}.
Implicit Types (w : World (Host R)).

Lemma serve_config_inv I `{!SessionInvariant I} r : config_inv I (serve r).
Proof.
  destruct r; unfold serve; (apply config_inv_bind; [|solve_config_inv]).
  - apply initPlatform_config_inv; intros;
      [by apply inv_region|by apply inv_credentials|by apply inv_userArn].
  - apply initRepo_config_inv; intros;
      [by apply inv_repository|by apply inv_defaultBranch].
  - apply config_inv_keeps, getRepos_keeps_config.
  - by apply getPrList_config_inv.
  - by apply findPr_config_inv.
  - by apply getBranchPr_config_inv.
  - apply config_inv_keeps, getPr_keeps_config.
  - apply config_inv_keeps, getRawFile_keeps_config.
  - apply config_inv_keeps, createPr_keeps_config.
  - apply config_inv_keeps, updatePr_keeps_config.
  - apply config_inv_keeps, mergePr_keeps_config.
  - apply config_inv_keeps, addReviewers_keeps_config.
  - apply config_inv_keeps, ensureComment_keeps_config.
  - apply config_inv_keeps, ensureCommentRemoval_keeps_config.
Qed.

(** A preorder of the worlds that every request respects relates the
    two ends of every session. *)
Lemma steps_respect (Q : relation (World (Host R))) `{!PreOrder Q} w w' :
  (∀ r, respects Q (serve r)) → rtc step w w' → Q w w'.
Proof.
  intros Hr. induction 1 as [w|w w1 w' Hs _ IH]; [reflexivity|].
  destruct Hs as [r w]. etrans; [apply Hr|exact IH].
Qed.

(** An invariant of the assignments is an invariant of the sessions. *)
Lemma session_inv I `{!SessionInvariant I} w w' :
  rtc step w w' → I (config w) → I (config w').
Proof. apply (steps_respect (config_keeps I)). by apply serve_config_inv. Qed.

Lemma serve_extends_trace r : extends_trace (serve r).
Proof. destruct r; open_requests; solve_effect. Qed.

Lemma log_extended_read_host {A} (f : Host R → A) :
  respects log_extended (read_host f).
Proof. by apply log_extended_quiet. Qed.

Lemma log_extended_write_host f :
  respects log_extended (write_host (R:=R) f).
Proof. by apply log_extended_quiet. Qed.

Lemma log_extended_resolve {A} (o : outcome A) :
  respects log_extended (resolve o : H (Host R) A).
Proof. apply log_extended_quiet. by destruct o. Qed.

Lemma serve_log_extended r : respects log_extended (serve r).
Proof.
  destruct r; open_requests;
    solve_respects;
    auto using log_extended_read_host, log_extended_write_host,
      log_extended_resolve.
Qed.

Lemma lookup_calls r :
  is_lookup r = true → calls_satisfy (λ c, is_mutation c = false) (serve r).
Proof.
  destruct r; try done; intros _; open_requests; solve_effect.
Qed.

Lemma session_reachable rs w : rtc step w (session rs w).
Proof.
  revert w. induction rs as [|r rs IH]; intros w; [done|].
  eapply rtc_l; [apply (step_serve r)|apply IH].
Qed.

Lemma session_lookups rs w :
  forallb is_lookup rs = true → rtc lookup_step w (session rs w).
Proof.
  revert w. induction rs as [|r rs IH]; intros w; [done|].
  intros [Hr Hrs]%andb_true_iff.
  eapply rtc_l; [by apply (step_lookup r)|by apply IH].
Qed.

End serve_lemmas.

(** ** The invariants *)

#[export] Instance cache_sticky_inv l :
  SessionInvariant (λ cfg, prList cfg = Some l).
Proof. split; try done. intros cfg l' Hc Hn. by rewrite Hc in Hn. Qed.

#[export] Instance cache_listed_inv : SessionInvariant cache_listed.
Proof.
  split; try done. intros cfg l _ _ Hl l' [= <-]. done.
Qed.

#[export] Instance connected_inv : SessionInvariant connected.
Proof.
  split; unfold connected; simpl; try done; intros cfg x (? & ? & ?); eauto.
Qed.

Section lifecycle_theorems.
Context {R : Type} `{!Client R, !Services R, !Utils}.
Implicit Types (w : World (Host R)).

(** C18: the cache of a session is assigned once.  Once it holds a list,
    it holds that list after any sequence of requests: no request,
    [initRepo] and [initPlatform] included, empties or replaces it. *)
Theorem cache_assigned_once w w' l :
  rtc step w w' → prList (config w) = Some l → prList (config w') = Some l.
Proof. apply (session_inv (λ cfg, prList cfg = Some l)). Qed.

(** C36: the directory never holds a merged pull request: in a session
    that starts with an empty cache, or with a cache of open and closed
    entries, every entry the cache ever holds is open or closed and
    carries no commit. *)
Theorem cache_never_merged w w' :
  rtc step w w' → cache_listed (config w) → cache_listed (config w').
Proof. apply (session_inv cache_listed). Qed.

(** A session stays connected: once the region, the credentials and
    the ARN of the user are in the session context, they are there after
    any sequence of requests. *)
Theorem session_stays_connected w w' :
  rtc step w w' → connected (config w) → connected (config w').
Proof. apply (session_inv connected). Qed.

(** The trace of a session only grows: no request drops or rewrites
    a call that was made. *)
Theorem trace_grows w w' : rtc step w w' → trace w `prefix_of` trace w'.
Proof.
  intros Hs. destruct (steps_respect extended w w' serve_extends_trace Hs)
    as [cs ->]. by apply prefix_app_r.
Qed.

(** So does its log: what a request has given to the logger stays, in
    the order it was given. *)
Theorem log_grows w w' : rtc step w w' → logs w `prefix_of` logs w'.
Proof. apply (steps_respect log_extended), serve_log_extended. Qed.

Lemma lookup_steps_calls w w' :
  rtc lookup_step w w' → extended_by (λ c, is_mutation c = false) w w'.
Proof.
  induction 1 as [w|w w1 w' Hs _ IH]; [reflexivity|].
  destruct Hs as [r w Hr]. etrans; [|exact IH]. by apply lookup_calls.
Qed.

(** Lookups do not write: a sequence of lookups adds to the trace
    only calls that leave what the service stores as it is. *)
Theorem lookups_never_write w w' :
  rtc lookup_step w w' →
  ∃ cs, trace w' = trace w ++ cs ∧ Forall (λ c, is_mutation c = false) cs.
Proof. apply lookup_steps_calls. Qed.

End lifecycle_theorems.

(** ** The session of the unit tests *)

Lemma cache_assigned_once_witness :
  prList (config (session test_requests listed_session)) = Some [test_pr Open].
Proof.
  apply (cache_assigned_once listed_session); [apply session_reachable|done].
Defined.

Lemma cache_never_merged_witness :
  cache_listed (config (session test_lookups lookup_session)).
Proof.
  apply (cache_never_merged lookup_session); [apply session_reachable|].
  by intros l.
Defined.

Lemma session_stays_connected_witness :
  connected (config (session test_requests listed_session)).
Proof.
  apply (session_stays_connected listed_session); [apply session_reachable|].
  by repeat split.
Defined.

Lemma trace_grows_witness :
  trace listed_session `prefix_of` trace (session test_requests listed_session).
Proof. apply trace_grows, session_reachable. Defined.

Lemma lookups_never_write_witness :
  ∃ cs, trace (session test_lookups lookup_session) =
          trace lookup_session ++ cs ∧
        Forall (λ c, is_mutation c = false) cs.
Proof. by apply lookups_never_write, session_lookups. Defined.

(** The calls of the lookups of the test session. *)
Example test_lookups_run :
  trace (session test_lookups lookup_session) =
  [ListPullRequests None (Some "aws:arn:example:123456"); GetPr "1";
   GetPr "1"; GetPr "1"; ListRepositories].
Proof. vm_compute. reflexivity. Qed.
