(* ===== verification/Budget.v ===== *)
(** * Budget: how many calls a request makes

    The service limits the rate of the calls it accepts, so what a
    request costs in calls matters to the caller.  Every handler but the
    listing makes a bounded number of calls whatever the service
    answers: one for a lookup or a creation, at most two for a removal
    and for each initialisation, at most three for an update, a merge
    and a comment.  The listing asks for one pull request after the
    other, as many as the service lists; once the session holds its
    list, the three handlers that use it cost nothing, or one call.

    [costs n c] says that a run of [c] adds at most [n] calls to the
    trace.  It is proved of the handlers by following their structure
    with a budget that each call lowers by one. *)

From stdpp Require Import relations.
From S2P Require Import Prelude JsValue Effect Sdk Mock Session Host Iam.
From S2P Require Import Directory Init Comments Merge Capabilities Lifecycle.

(** ** Definitions *)

(** The trace has grown by at most [n] calls. *)
Definition within {R} (n : nat) : relation (World R) :=
  λ w w', ∃ cs, trace w' = trace w ++ cs ∧ length cs ≤ n.

(** Every run of [c] adds at most [n] calls to the trace, whether it
    returns or throws. *)
Definition costs {R A} (n : nat) (c : H R A) : Prop := respects (within n) c.

(** The calls a request may make in a session that holds its list. *)
Definition budget (r : Request) : nat :=
  match r with
  | ReqGetPrList | ReqFindPr _ _ _ => 0
  | ReqGetRepos | ReqGetBranchPr _ | ReqGetPr _ | ReqGetRawFile _ _ _
  | ReqCreatePr _ _ _ _ | ReqAddReviewers _ _ => 1
  | ReqInitPlatform _ | ReqInitRepo _ | ReqEnsureCommentRemoval _ _ => 2
  | ReqUpdatePr _ _ _ _ | ReqMergePr _ _ _ | ReqEnsureComment _ _ _ => 3
  end.

(** The requests that go through the list of the session. *)
Definition uses_list (r : Request) : bool :=
  match r with
  | ReqGetPrList | ReqFindPr _ _ _ | ReqGetBranchPr _ => true
  | _ => false
  end.

(** ** Lemmas: the budget of a computation *)

Section costs.
Context {R : Type} `{!Client R}.
Implicit Types w : World R.

Lemma within_silent n w w' : trace w' = trace w → within n w w'.
Proof. intros Ht. exists []. rewrite app_nil_r. split; [done|simpl; lia]. Qed.

Lemma within_refl n w : within n w w.
Proof. by apply within_silent. Qed.

Lemma within_trans n m w1 w2 w3 :
  within n w1 w2 → within m w2 w3 → within (n + m) w1 w3.
Proof.
  intros (cs1 & H1 & Hn) (cs2 & H2 & Hm). exists (cs1 ++ cs2).
  split; [by rewrite H2, H1, app_assoc|]. rewrite length_app. lia.
Qed.

Lemma within_mono n m w w' : n ≤ m → within n w w' → within m w w'.
Proof. intros Hnm (cs & Ht & Hn). exists cs. split; [done|lia]. Qed.

#[export] Instance within_0_preorder : PreOrder (within (R:=R) 0).
Proof.
  split; [intros w; apply within_refl|].
  intros w1 w2 w3 H1 H2. apply (within_trans 0 0 _ _ _ H1 H2).
Qed.

Lemma within_0_trace w w' : within 0 w w' → trace w' = trace w.
Proof.
  intros (cs & -> & Hn). destruct cs; [by rewrite app_nil_r|simpl in Hn; lia].
Qed.

Lemma costs_mono {A} n m (c : H R A) : n ≤ m → costs n c → costs m c.
Proof. intros Hnm Hc w. by eapply within_mono. Qed.

(** A step that makes no call costs nothing. *)
Lemma costs_silent {A} n (c : H R A) :
  (∀ w, trace (c w).2 = trace w) → costs n c.
Proof. intros Hc w. by apply within_silent. Qed.

Lemma costs_ret {A} n (a : A) : costs n (ret a : H R A).
Proof. by apply costs_silent. Qed.

Lemma costs_throw {A} n e : costs n (throw e : H R A).
Proof. by apply costs_silent. Qed.

Lemma costs_deref {A} n (o : option A) : costs n (deref o : H R A).
Proof. apply costs_silent. by destruct o. Qed.

Lemma costs_read_config {A} n (f : Config → A) :
  costs n (read_config f : H R A).
Proof. by apply costs_silent. Qed.

Lemma costs_write_config n f : costs n (write_config f : H R unit).
Proof. by apply costs_silent. Qed.

Lemma costs_log n l msg : costs n (log l msg : H R unit).
Proof. by apply costs_silent. Qed.

(** A call costs one. *)
Lemma costs_invoke {A} n c (op : M R A) : costs (S n) (invoke c op).
Proof.
  intros w. exists [c]. split; [apply invoke_trace|simpl; lia].
Qed.

(** A sequence costs what its parts cost. *)
Lemma costs_bind {A B} n t (c : H R A) (k : A → H R B) :
  n ≤ t → costs n c → (∀ a, costs (t - n) (k a)) → costs t (bind c k).
Proof.
  intros Hn Hc Hk w. unfold bind. specialize (Hc w).
  destruct (c w) as [[a|e] w1]; simpl in *; [|by eapply within_mono].
  eapply within_mono; [|by eapply within_trans; [|apply Hk]]. lia.
Qed.

Lemma costs_try_catch {A} n t (c : H R A) (h : exn → H R A) :
  n ≤ t → costs n c → (∀ e, costs (t - n) (h e)) → costs t (try_catch c h).
Proof.
  intros Hn Hc Hh w. unfold try_catch. specialize (Hc w).
  destruct (c w) as [[a|e] w1]; simpl in *; [by eapply within_mono|].
  eapply within_mono; [|by eapply within_trans; [|apply Hh]]. lia.
Qed.

Lemma costs_attempt {A} n (c : H R A) : costs n c → costs n (attempt c).
Proof. apply respects_attempt. Qed.

(** A loop whose body makes no call makes none. *)
Lemma costs_for_of_silent {A B} n (l : list A) (body : A → B → H R (ctl B)) b :
  (∀ x b, costs 0 (body x b)) → costs n (for_of l body b).
Proof.
  intros Hb. apply (costs_mono 0); [lia|]. by apply respects_for_of; [apply _|].
Qed.

(** A loop that does not go on after an iteration that made a call
    costs what one iteration costs. *)
Lemma costs_for_of_once {A B} n (l : list A) (body : A → B → H R (ctl B)) b :
  (∀ x b, costs n (body x b)) →
  (∀ x b w b', (body x b w).1 = Ok (Continue b') →
               trace (body x b w).2 = trace w) →
  costs n (for_of l body b).
Proof.
  intros Hb Hgo. revert b. induction l as [|x l IH]; intros b w; simpl.
  { apply within_refl. }
  unfold bind. pose proof (Hb x b w) as Hx. pose proof (Hgo x b w) as Hc.
  destruct (body x b w) as [[[b'|b']|e] w1]; simpl in *; [|done..].
  destruct (IH b' w1) as (cs & Ht & Hn). exists cs.
  by rewrite Ht, (Hc b').
Qed.

End costs.

(** [solve_costs] follows a computation with a budget: the first part
    of a sequence gets the least budget it can be proved within, the
    rest what is left. *)
Ltac solve_costs :=
  lazymatch goal with
  | |- ∀ _, _ => intro; solve_costs
  | |- costs _ (bind _ _) => costs_seq
  | |- costs _ (try_catch _ _) => costs_seq
  | |- costs _ (attempt _) => apply costs_attempt; solve_costs
  | |- costs _ (for_of _ _ _) =>
      first [ solve [eauto with costs]
            | apply costs_for_of_silent; solve_costs ]
  | |- costs _ (invoke _ _) => apply costs_invoke
  | |- costs _ (match ?x with _ => _ end) => destruct x; solve_costs
  | |- costs _ (if ?b then _ else _) => destruct b; solve_costs
  | |- _ => solve [eauto with costs]
  end
with costs_seq :=
  first [ costs_split 0%nat | costs_split 1%nat | costs_split 2%nat
        | costs_split 3%nat ]
with costs_split n :=
  first [apply (costs_bind n) | apply (costs_try_catch n)];
    [simpl; lia|solve [solve_costs]|cbn [Nat.sub]; solve_costs].

Create HintDb costs.

#[export] Hint Resolve costs_ret costs_throw costs_deref costs_read_config
  costs_write_config costs_log : costs.

(** ** Lemmas: the host *)

Section host_costs.
Context {R : Type}.

Lemma costs_read_host {A} n (f : Host R → A) : costs n (read_host f).
Proof. by apply costs_silent. Qed.

Lemma costs_write_host n f : costs n (write_host (R:=R) f).
Proof. by apply costs_silent. Qed.

Lemma costs_resolve {A} n (o : outcome A) : costs n (resolve o : H (Host R) A).
Proof. apply costs_silent. by destruct o. Qed.

End host_costs.

#[export] Hint Resolve costs_read_host costs_write_host costs_resolve : costs.

(** ** Lemmas: the handlers *)

Section removal_costs.
Context {R : Type} `{!Client R}.

(** The loop of the removal stops at the comment it removes. *)
Lemma removal_body_costs key prNo th b :
  costs 1 (removal_body (R:=R) key prNo th b).
Proof. unfold_handlers. solve_costs. Qed.

Lemma removal_body_goes_on key prNo th b (w : World R) b' :
  (removal_body key prNo th b w).1 = Ok (Continue b') →
  trace (removal_body key prNo th b w).2 = trace w.
Proof.
  unfold removal_body. destruct (comments th) as [cs|]; [|done].
  assert (costs 0 (for_of cs (removal_inner (R:=R) key) b)) as Hs.
  { unfold removal_inner. solve_costs. }
  specialize (Hs w). apply within_0_trace in Hs.
  destruct (for_of cs _ b w) as [[o|e] w1] eqn:Hrun; simpl in Hs;
    [|by rewrite (bind_Throw _ _ _ _ _ Hrun)].
  rewrite (bind_Ok _ _ _ _ _ Hrun). destruct (Js.truthy_val o); [|by simpl].
  unfold client_deleteComment. rewrite bind_invoke.
  by destruct (cl_deleteComment _ _) as [[]].
Qed.

Lemma removal_loop_costs n key prNo ths b :
  costs (S n) (for_of ths (removal_body (R:=R) key prNo) b).
Proof.
  apply (costs_mono 1); [lia|].
  apply costs_for_of_once; [apply removal_body_costs|apply removal_body_goes_on].
Qed.

End removal_costs.

#[export] Hint Resolve removal_loop_costs : costs.

(** ** Lemmas: the handlers that use the list *)

Section list_costs.
Context {R : Type} `{!Client R, !Utils}.
Implicit Types w : World R.

Lemma getPr_costs n : costs 1 (getPr (R:=R) n).
Proof. unfold_handlers. solve_costs. Qed.

(** With the list in the session, the listing is the early return. *)
Lemma getPrList_with_list w l :
  prList (config w) = Some l → within 0 w (getPrList w).2.
Proof. intros Hc. rewrite (getPrList_hit _ _ Hc). by apply within_silent. Qed.

Lemma findPr_with_list b t st w l :
  prList (config w) = Some l → within 0 w (findPr b t st w).2.
Proof.
  intros Hc. rewrite (findPr_run_Ok _ _ _ _ _ _ (getPrList_hit _ _ Hc)).
  by apply within_silent.
Qed.

Lemma getBranchPr_with_list b w l :
  prList (config w) = Some l → within 1 w (getBranchPr b w).2.
Proof.
  intros Hc. erewrite getBranchPr_run; [|by apply getPrList_hit].
  destruct (head _) as [pr|]; [|by apply within_silent].
  eapply (within_trans 0 1); [|apply getPr_costs]. by apply within_silent.
Qed.

(** The result of a request is the caller's: dropping it costs nothing. *)
Lemma within_drop_result {A} n (c : H R A) w :
  within n w (c w).2 → within n w ((c ;; ret tt) w).2.
Proof. unfold bind. by destruct (c w) as [[]]. Qed.

End list_costs.

Section serve_costs.
Context {R : Type} `{!Client R, !Services R, !Utils}.
Implicit Types w : World (Host R).

(** One request that does not go through the list. *)
Lemma serve_costs r : uses_list r = false → costs (budget r) (serve r).
Proof.
  destruct r; try done; intros _; cbn [budget serve];
    [| | | | | | | | | |
     unfold ensureCommentRemoval, client_getPrComments; solve_costs].
  all: open_requests; solve_costs.
Qed.

(** One request of a session that holds its list. *)
Lemma serve_cached r w l :
  prList (config w) = Some l → within (budget r) w (serve r w).2.
Proof.
  intros Hc. destruct (uses_list r) eqn:Hr; [|by apply serve_costs].
  destruct r; try done; apply within_drop_result;
    eauto using getPrList_with_list, findPr_with_list, getBranchPr_with_list.
Qed.

(** ** Theorems *)

(** C13: The calls of a session are within the budgets of its requests, once
    the session holds its list: however the service answers and whether
    the requests return or throw, the trace grows by at most the sum of
    the budgets, three calls a request at most. *)
Theorem session_budget rs w l :
  prList (config w) = Some l →
  length (trace (session rs w)) ≤ length (trace w) + sum_list (budget <$> rs).
Proof.
  revert w. induction rs as [|r rs IH]; intros w Hc; [simpl; lia|].
  change (sum_list (budget <$> r :: rs))
    with (budget r + sum_list (budget <$> rs)). cbn [session].
  destruct (serve_cached r w l Hc) as (cs & Ht & Hn).
  pose proof (IH (serve r w).2
    (serve_config_inv (λ cfg, prList cfg = Some l) r w Hc)) as Hrs.
  rewrite Ht, length_app in Hrs. lia.
Qed.

(** The same of a session that never goes through the list. *)
Theorem session_budget_no_list rs w :
  forallb (λ r, negb (uses_list r)) rs = true →
  length (trace (session rs w)) ≤ length (trace w) + sum_list (budget <$> rs).
Proof.
  revert w. induction rs as [|r rs IH]; intros w; [simpl; lia|].
  change (sum_list (budget <$> r :: rs))
    with (budget r + sum_list (budget <$> rs)). cbn [session forallb].
  intros [Hr Hrs]%andb_true_iff.
  apply negb_true_iff in Hr.
  destruct (serve_costs r Hr w) as (cs & Ht & Hn).
  pose proof (IH (serve r w).2 Hrs) as Hlen.
  rewrite Ht, length_app in Hlen. lia.
Qed.

End serve_costs.

(** ** The session of the unit tests *)

Lemma session_budget_witness :
  length (trace (session test_requests listed_session)) ≤
  length (trace listed_session) + sum_list (budget <$> test_requests).
Proof.
  by apply (session_budget test_requests listed_session [test_pr Open]).
Defined.

Lemma session_budget_no_list_witness :
  length (trace (session [ReqGetPr (Js.Num 1); ReqGetRepos] lookup_session)) ≤
  length (trace lookup_session) +
  sum_list (budget <$> [ReqGetPr (Js.Num 1); ReqGetRepos]).
Proof. by apply session_budget_no_list. Defined.

(** The budget of an update is spent by an update of the body, the title
    and the state. *)
Example updatePr_spends_its_budget :
  let r := ReqUpdatePr (Js.Num 1) "title" (Some "body") (Some Closed) in
  trace (session [r] listed_session) =
  [UpdatePrDescription "1" "body"; UpdatePrTitle "1" "title";
   UpdatePrStatus "1" "CLOSED"] ∧
  budget r = 3.
Proof. by vm_compute. Qed.

(** Without its list the listing asks for every pull request the
    service names: no number of calls bounds it. *)
Example getPrList_spends_the_listing :
  length (trace (session [ReqGetPrList] lookup_session)) = 2.
Proof. by vm_compute. Qed.
