(* ===== verification/Lift.v ===== *)
(** * Lift: the handlers in a host and on the backend alone

    The orchestrator runs the handlers in a world whose backend is a
    host: the service and, beside it, the environment and the IAM client
    of the process.  The handlers other than the two of the
    initialisation reach the host through the client only, so that a
    call in a host is the call on the service of the host, and leaves
    what is beside the service alone.  [lifts] states this of a
    computation; it is proved of every handler by following the structure
    of the handler down to the calls, and carries the theorems stated on
    a backend over to the sessions. *)

From stdpp Require Import relations.
From S2P Require Import Prelude JsValue Effect Sdk Mock Session Host Iam.
From S2P Require Import Directory Init Comments Merge Capabilities Lifecycle.

(** ** Definitions *)

Section lift_defs.
Context {R : Type}.

(** The world the service of a host is in, and the world of a host
    whose service has moved on. *)
Definition down (w : World (Host R)) : World R :=
  mkWorld (config w) (backend (remote w)) (trace w) (logs w).

Definition up (h : Host R) (w : World R) : World (Host R) :=
  mkWorld (config w) (set_backend (remote w) h) (trace w) (logs w).

(** A computation in a host that is a computation on the service of
    the host. *)
Definition lifts {A} (ch : H (Host R) A) (c : H R A) : Prop :=
  ∀ w, ch w = ((c (down w)).1, up (remote w) (c (down w)).2).

End lift_defs.

(** The requests after the initialisation. *)
Definition steady (r : Request) : bool :=
  match r with
  | ReqInitPlatform _ | ReqInitRepo _ => false
  | _ => true
  end.

Section serve_on.
Context {R : Type} `{!Client R, !Utils}.

(** One call of the orchestrator on the service alone. *)
Definition serve_on (r : Request) : H R unit :=
  match r with
  | ReqInitPlatform _ | ReqInitRepo _ => ret tt
  | ReqGetRepos => getRepos ;; ret tt
  | ReqGetPrList => getPrList ;; ret tt
  | ReqFindPr b t s => findPr b t s ;; ret tt
  | ReqGetBranchPr b => getBranchPr b ;; ret tt
  | ReqGetPr n => getPr n ;; ret tt
  | ReqGetRawFile f r b => getRawFile f r b ;; ret tt
  | ReqCreatePr s t ti b => createPr s t ti b ;; ret tt
  | ReqUpdatePr n t b s => updatePr n t b s ;; ret tt
  | ReqMergePr b n s => mergePr b n s ;; ret tt
  | ReqAddReviewers n rs => addReviewers n rs ;; ret tt
  | ReqEnsureComment n t c => ensureComment n t c ;; ret tt
  | ReqEnsureCommentRemoval k n => ensureCommentRemoval k n ;; ret tt
  end.

End serve_on.

(** ** Lemmas: the two worlds *)

Section worlds.
Context {R : Type}.
Implicit Types (w : World (Host R)) (v : World R) (h : Host R).

Lemma down_up h v : down (up h v) = v.
Proof. by destruct v. Qed.

Lemma up_down w : up (remote w) (down w) = w.
Proof. by destruct w as [? [] ? ?]. Qed.

Lemma up_up h v v' : up (remote (up h v)) v' = up h v'.
Proof. done. Qed.

Lemma up_beside h v :
  env (remote (up h v)) = env h ∧ iam (remote (up h v)) = iam h.
Proof. done. Qed.

End worlds.

(** ** Lemmas: the combinators *)

Section lifts.
Context {R : Type} `{!Client R}.

Lemma lifts_same {A} (ch : H (Host R) A) (c : H R A) (r : Config → outcome A)
    (f : Config → Config) (ls : list (Level * string)) :
  (∀ w, ch w = (r (config w), mkWorld (f (config w)) (remote w) (trace w)
                                (logs w ++ ls))) →
  (∀ v, c v = (r (config v), mkWorld (f (config v)) (remote v) (trace v)
                               (logs v ++ ls))) →
  lifts ch c.
Proof.
  intros Hh Hc w. rewrite Hh, Hc. simpl. unfold up. simpl. f_equal.
  by destruct w as [? [] ? ?].
Qed.

Lemma lifts_ret {A} (a : A) : lifts (ret a : H (Host R) A) (ret a).
Proof.
  apply (lifts_same _ _ (λ _, Ok a) id []); intros [? ? ? ?]; simpl;
    by rewrite app_nil_r.
Qed.

Lemma lifts_throw {A} e : lifts (throw e : H (Host R) A) (throw e).
Proof.
  apply (lifts_same _ _ (λ _, Throw e) id []); intros [? ? ? ?]; simpl;
    by rewrite app_nil_r.
Qed.

Lemma lifts_deref {A} (o : option A) :
  lifts (deref o : H (Host R) A) (deref o).
Proof. destruct o; [apply lifts_ret|apply lifts_throw]. Qed.

Lemma lifts_read_config {A} (f : Config → A) :
  lifts (read_config f : H (Host R) A) (read_config f).
Proof.
  apply (lifts_same _ _ (λ cfg, Ok (f cfg)) id []); intros [? ? ? ?]; simpl;
    by rewrite app_nil_r.
Qed.

Lemma lifts_write_config f :
  lifts (write_config f : H (Host R) unit) (write_config f).
Proof.
  apply (lifts_same _ _ (λ _, Ok tt) f []); intros [? ? ? ?]; simpl;
    by rewrite app_nil_r.
Qed.

Lemma lifts_log l msg : lifts (log l msg : H (Host R) unit) (log l msg).
Proof. by apply (lifts_same _ _ (λ _, Ok tt) id [(l, msg)]). Qed.

(** A call of the client of the host is the call on the service. *)
Lemma lifts_invoke {A} c (op : M R A) :
  lifts (invoke c (zoom backend set_backend op)) (invoke c op).
Proof. intros w. by rewrite !invoke_run, zoom_run. Qed.

Lemma lifts_bind {A B} (ch : H (Host R) A) c (kh : A → H (Host R) B) k :
  lifts ch c → (∀ a, lifts (kh a) (k a)) → lifts (bind ch kh) (bind c k).
Proof.
  intros Hc Hk w. unfold bind. rewrite Hc.
  destruct (c (down w)) as [[a|e] v]; simpl; [|done].
  by rewrite Hk, down_up.
Qed.

Lemma lifts_try_catch {A} (ch : H (Host R) A) c hh h :
  lifts ch c → (∀ e, lifts (hh e) (h e)) →
  lifts (try_catch ch hh) (try_catch c h).
Proof.
  intros Hc Hh w. unfold try_catch. rewrite Hc.
  destruct (c (down w)) as [[a|e] v]; simpl; [done|].
  by rewrite Hh, down_up.
Qed.

Lemma lifts_attempt {A} (ch : H (Host R) A) c :
  lifts ch c → lifts (attempt ch) (attempt c).
Proof. intros Hc w. by rewrite !attempt_run, Hc. Qed.

Lemma lifts_for_of {A B} (l : list A) (bh : A → B → H (Host R) (ctl B))
    body b :
  (∀ x b, lifts (bh x b) (body x b)) → lifts (for_of l bh b) (for_of l body b).
Proof.
  intros Hb. revert b. induction l as [|x l IH]; intros b; simpl.
  - apply lifts_ret.
  - apply lifts_bind; [apply Hb|].
    intros [b'|b']; [apply IH|apply lifts_ret].
Qed.

End lifts.

Create HintDb lifts.

#[export] Hint Resolve lifts_ret lifts_throw lifts_deref lifts_read_config
  lifts_write_config lifts_log : lifts.

(** [solve_lifts] proves that a handler in a host is the handler on the
    service by following its structure down to the calls. *)
Ltac solve_lifts :=
  repeat first
    [ match goal with |- ∀ _, _ => intro end
    | match goal with
      | |- lifts (bind _ _) _ => apply lifts_bind
      | |- lifts (try_catch _ _) _ => apply lifts_try_catch
      | |- lifts (for_of _ _ _) _ => apply lifts_for_of
      | |- lifts (attempt _) _ => apply lifts_attempt
      | |- lifts (invoke _ _) _ => apply lifts_invoke
      | |- lifts (match ?x with _ => _ end) _ => destruct x
      | |- lifts (if ?b then _ else _) _ => destruct b
      end
    | solve [eauto with lifts] ].

(** ** Lemmas: what a lifted computation does *)

Section lifted.
Context {R : Type} `{!Client R}.
Implicit Types w : World (Host R).

Lemma lifts_result {A} (ch : H (Host R) A) c w :
  lifts ch c → (ch w).1 = (c (down w)).1.
Proof. by intros ->. Qed.

Lemma lifts_world {A} (ch : H (Host R) A) c w :
  lifts ch c → down (ch w).2 = (c (down w)).2.
Proof. intros ->. apply down_up. Qed.

Lemma lifts_beside {A} (ch : H (Host R) A) c w :
  lifts ch c →
  env (remote (ch w).2) = env (remote w) ∧
  iam (remote (ch w).2) = iam (remote w).
Proof. by intros ->. Qed.

Lemma lifts_calls {A} (ch : H (Host R) A) c w :
  lifts ch c → calls_of ch w = calls_of c (down w).
Proof. intros Hl. unfold calls_of. by rewrite <-(lifts_world _ _ _ Hl). Qed.

(** The service of the host after the computation. *)
Lemma lifts_backend {A} (ch : H (Host R) A) c w :
  lifts ch c → backend (remote (ch w).2) = remote (c (down w)).2.
Proof. by intros ->. Qed.

End lifted.

(** ** Lemmas: the handlers *)

Section handlers_lift.
Context {R : Type} `{!Client R, !Utils}.

Lemma getPrList_lifts : lifts (getPrList (R:=Host R)) getPrList.
Proof. unfold getPrList, getPrList_body. unfold_handlers. solve_lifts. Qed.

Lemma findPr_lifts b t s : lifts (findPr (R:=Host R) b t s) (findPr b t s).
Proof. unfold findPr. solve_lifts. apply getPrList_lifts. Qed.

Lemma getPr_lifts n : lifts (getPr (R:=Host R) n) (getPr n).
Proof. unfold_handlers. solve_lifts. Qed.

Lemma getBranchPr_lifts b : lifts (getBranchPr (R:=Host R) b) (getBranchPr b).
Proof.
  unfold getBranchPr. solve_lifts; first [apply findPr_lifts|apply getPr_lifts].
Qed.

Lemma getRepos_lifts : lifts (getRepos (R:=Host R)) getRepos.
Proof. unfold_handlers. solve_lifts. Qed.

Lemma getRawFile_lifts f r b :
  lifts (getRawFile (R:=Host R) f r b) (getRawFile f r b).
Proof. unfold_handlers. solve_lifts. Qed.

Lemma createPr_lifts s t ti b :
  lifts (createPr (R:=Host R) s t ti b) (createPr s t ti b).
Proof. unfold_handlers. solve_lifts. Qed.

Lemma updatePr_lifts n t b s :
  lifts (updatePr (R:=Host R) n t b s) (updatePr n t b s).
Proof. unfold_handlers. solve_lifts. Qed.

Lemma mergePr_lifts b n s : lifts (mergePr (R:=Host R) b n s) (mergePr b n s).
Proof. unfold_handlers. solve_lifts. Qed.

Lemma addReviewers_lifts n rs :
  lifts (addReviewers (R:=Host R) n rs) (addReviewers n rs).
Proof. unfold_handlers. solve_lifts. Qed.

Lemma ensureComment_lifts n t c :
  lifts (ensureComment (R:=Host R) n t c) (ensureComment n t c).
Proof. unfold_handlers. solve_lifts. Qed.

Lemma ensureCommentRemoval_lifts k n :
  lifts (ensureCommentRemoval (R:=Host R) k n) (ensureCommentRemoval k n).
Proof. unfold_handlers. solve_lifts. Qed.

End handlers_lift.

#[export] Hint Resolve getPrList_lifts findPr_lifts getPr_lifts
  getBranchPr_lifts getRepos_lifts getRawFile_lifts createPr_lifts
  updatePr_lifts mergePr_lifts addReviewers_lifts ensureComment_lifts
  ensureCommentRemoval_lifts : lifts.

(** ** Theorems: the requests *)

Section serve_lifts.
Context {R : Type} `{!Client R, !Services R, !Utils}.
Implicit Types w : World (Host R).

(** A request after the initialisation is the request on the service. *)
Lemma serve_lifts r : steady r = true → lifts (serve r) (serve_on r).
Proof.
  destruct r; [done..| | | | | | | | | | | |]; intros _;
    cbn [serve serve_on]; solve_lifts.
Qed.


End serve_lifts.

(** ** A request of the unit tests *)

