(* ===== verification/UnitTests.v ===== *)
(** * UnitTests: the unit tests of the adapter, on the model

    [index.spec.ts] scripts the mock of the SDK client test by test,
    calls one handler and states what it returns and what the logger was
    called with.  Each test is replayed here: its script is a [Mock], the
    state [beforeEach] leaves is the world the handler starts in, and the
    [Example] states the result and the log the test expects, and the
    calls the handler made.  The examples are named after the tests,
    [it_] and the handler first.

    One test does not pass on the sources: "getRepositoryInfo returns bad
    results 2" expects [REPOSITORY_EMPTY] where [initRepo] throws
    [REPOSITORY_NOT_FOUND]; its example states what [initRepo] does.  The
    two tests of [getJsonFile] are stated for every parser, [JSON5.parse]
    being a library. *)

From S2P Require Import Prelude JsValue Regex Markdown Effect Sdk Mock.
From S2P Require Import Session Host Iam Directory Init Comments Merge.
From S2P Require Import Capabilities.

(** ** The fixtures *)

(** [beforeEach]: the platform is initialised with the endpoint of
    eu-central-1, the cache slot and the repository are cleared, and a
    fresh mock of the client is installed. *)
Definition before_each (e : Env) (s : Stub) : World (Host Stub) :=
  mkWorld test_config (mkHost e (Some test_iam) s) [] [].

(** [jest.spyOn(git, 'initRepo')] throwing, over a client mock. *)
Definition stub_git_fails (m : Mock) : Stub :=
  {| stub_getUser := Ok (Some test_user); stub_git := Throw (Error "any error");
     stub_mock := m |}.

(** [expect(logger.logger.<level>).toHaveBeenCalledWith(..., msg)] *)
Definition called_with {R} (l : Level) (msg : string) (w : World R) : bool :=
  bool_decide ((l, msg) ∈ logs w).

(** "returns repos" and "returns empty if error" *)
Definition mock_repos : Mock :=
  resolvesOnce ListRepositoriesCommand
    (RRepositories
       {| repositories := Some [{| pair_repositoryName := Some "repoName" |}] |})
    mock_empty.

Definition mock_repos_fail : Mock :=
  rejectsOnce ListRepositoriesCommand "something" mock_empty.

(** "throws error on findPr" *)
Definition mock_listing_fails : Mock :=
  rejectsOnce ListPullRequestsCommand "failed" mock_empty.

(** "gets pr" and "gets closed pr" *)
Definition mock_pr (status : string) : Mock :=
  resolvesOnce GetPullRequestCommand (RPullRequest (test_prRes status None))
    mock_empty.

(** [content: 'some\ncontent'] *)
Definition some_content : string := "some" +:+ Js.LF +:+ "content".

(** "updates comment if different content": the test scripts the post
    command beside the comments, and leaves the update command unscripted. *)
Definition mock_update_comment_posted : Mock :=
  resolvesOnce PostCommentForPullRequestCommand RUndefined mock_update_comment.

(** "does nothing if comment exists and is the same when there is no
    topic" and "deletes comment by content if found" *)
Definition mock_plain_comment : Mock :=
  resolvesOnce GetCommentsForPullRequestCommand
    (comments_response [thread_of "1" "my comment content"]) mock_empty.

Definition mock_delete_by_content : Mock :=
  resolvesOnce DeleteCommentContentCommand RUndefined mock_plain_comment.

(** The file of "returns file content in json5 format". *)
Definition json5_data : string :=
  Js.LF +:+ "        {" +:+ Js.LF +:+ "          // json5 comment" +:+ Js.LF +:+
  "          foo: 'bar'" +:+ Js.LF +:+ "        }" +:+ Js.LF +:+ "      ".

Definition mock_json5_file : Mock :=
  resolvesOnce GetFileCommand (RFile {| fileContent := json5_data |}) mock_empty.

(** [expect(res).toMatchObject(...)] of the tests of the directory. *)
Definition created_pr : Pr.t :=
  {| Pr.number := Js.Num 1; Pr.sourceBranch := Some "sourceBranch";
     Pr.targetBranch := Some "targetBranch"; Pr.title := Some "someTitle";
     Pr.state := Open; Pr.sha := None; Pr.sourceRepo := None |}.

(** ** beforeEach and massageMarkdown *)

(** [beforeEach] leaves the session context of [test_config]. *)
Example beforeEach_config :
  set_repository None
    (set_prList None
       (config (initPlatform test_platform (fresh_world env_empty)).2)) =
  test_config.
Proof. by vm_compute. Qed.

Example it_validates_massageMarkdown_functionality :
  massageMarkdown
    ("<details><summary>foo</summary>bar</details>text<details>" +:+ Js.LF +:+
     "<!--renovate-debug:hiddenmessage123-->") =
  "**foo**bartext" +:+ Js.LF +:+
  "[//]: # (<!--renovate-debug:hiddenmessage123-->)".
Proof. by vm_compute. Qed.

(** ** initPlatform() *)

Example it_initPlatform_should_throw_if_no_username_password :
  (initPlatform no_params (before_each env_empty (stub_resolving mock_empty))).1
  = Throw (Error init_error).
Proof. by vm_compute. Qed.

Example it_initPlatform_should_show_warning_message_if_custom_endpoint :
  let r := initPlatform custom_endpoint
             (before_each env_empty (stub_resolving mock_empty)) in
  r.1 = Throw (Error init_error) ∧
  called_with LWarn "Can't parse region, make sure your endpoint is correct"
    r.2 = true.
Proof. by vm_compute. Qed.

Example it_initPlatform_should_init :
  (initPlatform region_endpoint
     (before_each env_empty (stub_resolving mock_empty))).1 =
  Ok {| PlatformResult.endpoint :=
          "https://git-codecommit.REGION.amazonaws.com/" |}.
Proof. by vm_compute. Qed.

Example it_initPlatform_should_init_with_env_vars :
  (initPlatform env_params
     (before_each env_region (stub_resolving mock_empty))).1 =
  Ok {| PlatformResult.endpoint :=
          "https://git-codecommit.REGION.amazonaws.com/" |}.
Proof. by vm_compute. Qed.

(** ** initRepos() *)

Example it_initRepo_fails_to_git_initRepo :
  (initRepo test_repo
     (before_each env_empty (stub_git_fails mock_repo_no_metadata))).1 =
  Throw (Error PLATFORM_BAD_CREDENTIALS).
Proof. by vm_compute. Qed.

Example it_initRepo_fails_on_getRepositoryInfo :
  let r := initRepo test_repo
             (before_each env_empty (stub_resolving mock_repo_rejects)) in
  r.1 = Throw (Error REPOSITORY_NOT_FOUND) ∧
  trace r.2 = [GetRepositoryInfo "repositoryName"].
Proof. by vm_compute. Qed.

Example it_initRepo_getRepositoryInfo_returns_bad_results :
  (initRepo test_repo
     (before_each env_empty (stub_resolving mock_repo_undefined))).1 =
  Throw (Error REPOSITORY_NOT_FOUND).
Proof. by vm_compute. Qed.

(** The test expects [REPOSITORY_EMPTY]: the answer [{ repo: {} }] has no
    [repositoryMetadata], and [initRepo] throws [REPOSITORY_NOT_FOUND] for
    it as for no answer. *)
Example it_initRepo_getRepositoryInfo_returns_bad_results_2 :
  let r := initRepo test_repo
             (before_each env_empty (stub_resolving mock_repo_no_metadata)) in
  r.1 = Throw (Error REPOSITORY_NOT_FOUND) ∧
  r.1 ≠ Throw (Error REPOSITORY_EMPTY).
Proof. by vm_compute. Qed.

(** The fingerprint is the hash of the repository identifier and the
    endpoint, of which the stub keeps the arguments. *)
Example it_initRepo_initiates_repo_successfully :
  let r := initRepo test_repo
             (before_each env_empty (stub_resolving mock_repo_main)) in
  r.1 = Ok {| RepoResult.repoFingerprint := util_repoFingerprint (R:=Stub) "id" None;
              RepoResult.defaultBranch := "main";
              RepoResult.isFork := false |} ∧
  repository (config r.2) = Some "repositoryName" ∧
  defaultBranch (config r.2) = Some "main".
Proof. by vm_compute. Qed.

(** ** getRepos() and getRepoForceRebase() *)

Example it_getRepos_returns_repos :
  (getRepos (test_world mock_repos)).1 = Ok ["repoName"].
Proof. by vm_compute. Qed.

Example it_getRepos_returns_empty_if_error :
  (getRepos (test_world mock_repos_fail)).1 = Ok [].
Proof. by vm_compute. Qed.

Example it_getRepoForceRebase_always_return_false :
  (getRepoForceRebase (test_world mock_empty)).1 = Ok false.
Proof. by vm_compute. Qed.

(** ** getPrList() and findPr() *)

Example it_getPrList_gets_PR_list_by_author :
  let r := getPrList (test_world (mock_listing "OPEN")) in
  r.1 = Ok [test_pr Open] ∧
  trace r.2 = [ListPullRequests None (Some "aws:arn:example:123456");
               GetPr "1"].
Proof. by vm_compute. Qed.

Example it_findPr_throws_error_on_findPr :
  let r := findPr "sourceBranch" (Some "someTitle") (Some Open)
             (test_world mock_listing_fails) in
  r.1 = Ok None ∧ called_with LError "findPr error" r.2 = true.
Proof. by vm_compute. Qed.

Example it_findPr_finds_pr :
  (findPr "sourceBranch" (Some "someTitle") (Some Open)
     (test_world (mock_listing "OPEN"))).1 = Ok (Some (test_pr Open)).
Proof. by vm_compute. Qed.

Example it_findPr_finds_any_pr_with_that_title_regardless_of_state :
  (findPr "sourceBranch" (Some "someTitle") (Some All)
     (test_world (mock_listing "OPEN"))).1 = Ok (Some (test_pr Open)).
Proof. by vm_compute. Qed.

(** The status the test scripts is the string of [PrState.NotOpen]. *)
Example it_findPr_finds_closed_merged_pr :
  (findPr "sourceBranch" (Some "someTitle") (Some NotOpen)
     (test_world (mock_listing "!open"))).1 = Ok (Some (test_pr Closed)).
Proof. by vm_compute. Qed.

Example it_findPr_finds_any_pr :
  (findPr "sourceBranch" (Some "someTitle") None
     (test_world (mock_listing "closed"))).1 = Ok (Some (test_pr Closed)).
Proof. by vm_compute. Qed.

Example it_findPr_returns_empty_list_in_case_prs_dont_exist_yet :
  (findPr "sourceBranch" (Some "someTitle") (Some Open)
     (test_world mock_empty)).1 = Ok None.
Proof. by vm_compute. Qed.

(** ** getBranchPr() and getPr() *)

Example it_getBranchPr_codecommit_find_PR_for_branch :
  let r := getBranchPr "sourceBranch" (test_world mock_branch_pr) in
  r.1 = Ok (Some (test_pr Open)) ∧
  trace r.2 = [ListPullRequests None (Some "aws:arn:example:123456");
               GetPr "1"; GetPr "1"].
Proof. by vm_compute. Qed.

Example it_getBranchPr_returns_null_if_no_PR_for_branch :
  (getBranchPr "branch_without_pr" (test_world (mock_listing "OPEN"))).1 =
  Ok None.
Proof. by vm_compute. Qed.

Example it_getPr_gets_pr :
  (getPr (Js.Num 1) (test_world (mock_pr "OPEN"))).1 = Ok (Some (test_pr Open)).
Proof. by vm_compute. Qed.

Example it_getPr_gets_closed_pr :
  (getPr (Js.Num 1) (test_world (mock_pr "CLOSED"))).1 =
  Ok (Some (test_pr Closed)).
Proof. by vm_compute. Qed.

Example it_getPr_gets_merged_pr :
  (getPr (Js.Num 1) (test_world mock_merged_pr)).1 = Ok (Some (test_pr Merged)).
Proof. by vm_compute. Qed.

Example it_getPr_returns_null_in_case_input_is_null :
  (getPr (Js.Num 1) (test_world mock_bad_creds)).1 = Ok None.
Proof. by vm_compute. Qed.

(** ** getJsonFile() and getRawFile() *)

Section json_tests.
Context {J : Type} (JSON5_parse : string → outcome J).

(** [expect(res).toEqual(data)]: what the parser makes of the file. *)
Example it_getJsonFile_returns_file_content v :
  JSON5_parse (fileContent test_file) = Ok v →
  (getJsonFile JSON5_parse "file.json" None None (test_world mock_file)).1 =
  Ok (Some v).
Proof. intros Hv. vm_compute. vm_compute in Hv. by rewrite Hv. Qed.

Example it_getJsonFile_returns_file_content_in_json5_format v :
  JSON5_parse json5_data = Ok v →
  (getJsonFile JSON5_parse "file.json" None None
     (test_world mock_json5_file)).1 = Ok (Some v).
Proof. intros Hv. vm_compute. vm_compute in Hv. by rewrite Hv. Qed.

End json_tests.

Example it_getRawFile_returns_file_content :
  (getRawFile "file.json" None None (test_world mock_file)).1 =
  Ok ("{" +:+ Js.DQ +:+ "foo" +:+ Js.DQ +:+ ":" +:+ Js.DQ +:+ "bar" +:+ Js.DQ
      +:+ "}").
Proof. by vm_compute. Qed.

Example it_getRawFile_returns_file_content_in_json5_format :
  (getRawFile "file.json" None None (test_world mock_json5_file)).1 =
  Ok json5_data.
Proof. by vm_compute. Qed.

(** ** createPr() and updatePr() *)

(** The title of the result is the title of the response, not the one
    asked for. *)
Example it_createPr_posts_PR :
  let r := createPr "sourceBranch" "targetBranch" "mytitle" "mybody"
             (test_world mock_create_pr) in
  r.1 = Ok created_pr ∧
  trace r.2 = [CreatePr "mytitle" "mybody" "sourceBranch" "targetBranch" None].
Proof. by vm_compute. Qed.

Example it_updatePr_updates_PR :
  let r := updatePr (Js.Num 1) "title" (Some "body") (Some Open)
             (test_world mock_update_pr) in
  r.1 = Ok tt ∧
  trace r.2 = [UpdatePrDescription "1" "body"; UpdatePrTitle "1" "title";
               UpdatePrStatus "1" "OPEN"].
Proof. by vm_compute. Qed.

Example it_updatePr_updates_PR_regardless_of_status_failure :
  (updatePr (Js.Num 1) "title" (Some "body") (Some Open)
     (test_world mock_update_pr_status_fails)).1 = Ok tt.
Proof. by vm_compute. Qed.

Example it_updatePr_updates_PR_with_status_closed :
  let r := updatePr (Js.Num 1) "title" (Some "body") (Some Closed)
             (test_world mock_update_pr) in
  r.1 = Ok tt ∧
  trace r.2 = [UpdatePrDescription "1" "body"; UpdatePrTitle "1" "title";
               UpdatePrStatus "1" "CLOSED"].
Proof. by vm_compute. Qed.

(** ** mergePr() *)

(** The read of the pull request is not scripted and resolves to
    nothing; the strategy is refused before anything is read of it. *)
Example it_mergePr_checks_that_rebase_is_not_supported :
  let r := mergePr (Some "branch") (Js.Num 1) (Some StrategyRebase)
             (test_world mock_empty) in
  r.1 = Ok false ∧ trace r.2 = [GetPr "1"].
Proof. by vm_compute. Qed.

(** The status call answers [OPEN] and the result is [true]. *)
Example it_mergePr_posts_Merge_with_auto :
  let r := mergePr (Some "branch") (Js.Num 1) (Some StrategyAuto)
             (test_world mock_merge) in
  r.1 = Ok true ∧
  trace r.2 = [GetPr "1";
               SquashMerge None (Some "refs/heads/sourceBranch")
                 (Some "refs/heads/targetBranch") (Some "someTitle");
               UpdatePrStatus "1" "CLOSED"].
Proof. by vm_compute. Qed.

Example it_mergePr_posts_Merge_with_squash :
  let r := mergePr (Some "branch") (Js.Num 5) (Some StrategySquash)
             (test_world mock_merge) in
  r.1 = Ok true ∧
  trace r.2 = [GetPr "5";
               SquashMerge None (Some "refs/heads/sourceBranch")
                 (Some "refs/heads/targetBranch") (Some "someTitle");
               UpdatePrStatus "5" "CLOSED"].
Proof. by vm_compute. Qed.

(** The test scripts the squash command; the fast-forward command that
    is sent is not scripted and resolves to nothing. *)
Example it_mergePr_posts_Merge_with_fast_forward :
  let r := mergePr (Some "branch") (Js.Num 1) (Some StrategyFastForward)
             (test_world mock_merge) in
  r.1 = Ok true ∧
  trace r.2 = [GetPr "1";
               FastForwardMerge None (Some "refs/heads/sourceBranch")
                 (Some "refs/heads/targetBranch");
               UpdatePrStatus "1" "CLOSED"].
Proof. by vm_compute. Qed.

Example it_mergePr_checks_that_merge_commit_is_not_supported :
  let r := mergePr (Some "branch") (Js.Num 1) (Some StrategyMergeCommit)
             (test_world mock_merge_commit) in
  r.1 = Ok false ∧ trace r.2 = [GetPr "1"].
Proof. by vm_compute. Qed.

(** ** ensureComment *)

Example it_ensureComment_adds_comment_if_missing :
  let r := ensureComment (Js.Num 42) (Some "some-subject") some_content
             (test_world mock_add_comment) in
  r.1 = Ok true ∧ called_with LInfo "Comment added" r.2 = true ∧
  trace r.2 = [GetPrComments None "42"; GetPrEvents "42";
               CreatePrComment "42" None
                 (comment_body (Some "some-subject") some_content)
                 "beforeCid" "afterCid"].
Proof. by vm_compute. Qed.

Example it_ensureComment_updates_comment_if_different_content :
  let r := ensureComment (Js.Num 42) (Some "some-subject") some_content
             (test_world mock_update_comment_posted) in
  r.1 = Ok true ∧ called_with LDebug "Comment updated" r.2 = true ∧
  trace r.2 = [GetPrComments None "42";
               UpdateComment "1"
                 (comment_body (Some "some-subject") some_content)].
Proof. by vm_compute. Qed.

Example it_ensureComment_does_nothing_if_comment_exists_and_is_the_same :
  let r := ensureComment (Js.Num 42) (Some "some-subject") "my comment content"
             (test_world mock_same_comment) in
  r.1 = Ok true ∧
  called_with LDebug "Comment is already update-to-date" r.2 = true ∧
  trace r.2 = [GetPrComments None "42"].
Proof. by vm_compute. Qed.

Example it_ensureComment_does_nothing_if_same_when_there_is_no_topic :
  let r := ensureComment (Js.Num 42) None "my comment content"
             (test_world mock_plain_comment) in
  r.1 = Ok true ∧
  called_with LDebug "Comment is already update-to-date" r.2 = true ∧
  trace r.2 = [GetPrComments None "42"].
Proof. by vm_compute. Qed.

Example it_ensureComment_throws_an_exception_in_case_of_api_failed_connection :
  let r := ensureComment (Js.Num 42) None "my comment content"
             (test_world mock_comments_fail) in
  r.1 = Ok false ∧
  called_with LDebug "Unable to retrieve pr comments" r.2 = true.
Proof. by vm_compute. Qed.

(** ** ensureCommentRemoval and addReviewers *)

Example it_ensureCommentRemoval_deletes_comment_by_topic_if_found :
  let r := ensureCommentRemoval (ByTopic "some-subject") (Js.Num 42)
             (test_world mock_delete_by_topic) in
  r.1 = Ok tt ∧
  called_with LDebug
    ("comment " +:+ Js.DQ +:+ "some-subject" +:+ Js.DQ +:+
     " in PR #42 was removed") r.2 = true ∧
  trace r.2 = [GetPrComments None "42"; DeleteComment "1"].
Proof. by vm_compute. Qed.

Example it_ensureCommentRemoval_deletes_comment_by_content_if_found :
  let r := ensureCommentRemoval (ByContent "my comment content") (Js.Num 42)
             (test_world mock_delete_by_content) in
  r.1 = Ok tt ∧
  called_with LDebug
    ("comment " +:+ Js.DQ +:+ "my comment content" +:+ Js.DQ +:+
     " in PR #42 was removed") r.2 = true ∧
  trace r.2 = [GetPrComments None "42"; DeleteComment "1"].
Proof. by vm_compute. Qed.

Example it_ensureCommentRemoval_throws_exception_in_case_failed_api_connection :
  let r := ensureCommentRemoval (ByContent "my comment content") (Js.Num 42)
             (test_world mock_comments_fail) in
  r.1 = Ok tt ∧
  called_with LDebug "Unable to retrieve pr comments" r.2 = true.
Proof. by vm_compute. Qed.

Example it_addReviewers_checks_that_the_function_resolves :
  let r := addReviewers (Js.Num 13) ["arn:aws:iam::someUser:user/ReviewerUser"]
             (test_world mock_approval_rule) in
  r.1 = Ok tt ∧
  called_with LDebug "Approval Rule Added to PR #13:" r.2 = true ∧
  trace r.2 = [CreatePrApprovalRule "13"
                 (approvalRuleContents
                    ["arn:aws:iam::someUser:user/ReviewerUser"])].
Proof. by vm_compute. Qed.
