(* ===== verification/Stats.v ===== *)
(** * Stats: the statistics and the branch summary of a repository run

    The two fragments under [src/unnamed] are two versions of one module
    of the orchestrator.  [runRenovateRepoStats] counts the pull requests
    the platform lists by state; [runBranchSummary] reports the branches
    of the repository cache and, for the dependency dashboard, a reduced
    copy of every branch.  The versions differ in how the copy is
    reduced: the first ([part_000]) copies a branch and deletes the
    fields that are not wanted, the second ([part_001]) builds an object
    of the fields that are.

    Both functions only give objects to the logger; their model returns
    these objects.  A JavaScript object is a finite map from field names
    to values, an absent key standing for [undefined]; the values are of a
    type [V] of which the code needs no more than truthiness.  A branch
    of the cache is its fields and, apart from them, its list of upgrades,
    the one field whose value is an array of objects.

    [Module V0] is the filter and the summary of [part_000], [Module V1]
    those of [part_001]; what the versions share textually is defined
    once for each.  The theorems: what the statistics count, that the
    listing of the CodeCommit adapter never counts as merged, which
    fields each filter lets through, that the two filters agree on the
    branches the types of the cache describe, and how the summary splits
    the branches. *)

From stdpp Require Import gmap.
From stdpp Require Import relations.
From S2P Require Import Prelude JsValue Effect Sdk Mock Session Host.
From S2P Require Import Directory Init Lifecycle.

(** ** Objects *)

(** The values the code tests in a condition. *)
Class Truthy (V : Type) : Type := truthy_value : V → bool.

Section objects.
Context {V : Type}.

(** [{ k1: v1, ..., kn: vn }]: a field whose value is [undefined] is
    absent. *)
Definition literal (fields : list (string * option V)) : gmap string V :=
  list_to_map (omap (λ kv, pair kv.1 <$> kv.2) fields).

(** [const { k1, ..., kn } = o] followed by [{ k1, ..., kn }]. *)
Definition project (keys : list string) (o : gmap string V) : gmap string V :=
  literal ((λ k, (k, o !! k)) <$> keys).

(** [delete o.k1; ...; delete o.kn] *)
Definition delete_all (keys : list string) (o : gmap string V) : gmap string V :=
  foldl (λ m k, delete k m) o keys.

(** [coerceArray] of [util/array] *)
Definition coerceArray {A} (input : option (list A)) : list A :=
  default [] input.

End objects.

(** ** The types of the cache and of the summary *)

Module PrStats.
Record t : Type := mk {
  total : nat;
  open : nat;
  closed : nat;
  merged : nat;
}.
End PrStats.

(** [BranchCache] and [BranchUpgradeCache] of
    [util/cache/repository/types]. *)
Module BranchCache.
Record t (V : Type) : Type := mk {
  fields : gmap string V;
  upgrades : option (list (gmap string V));
}.
Arguments mk {V} _ _.
Arguments fields {V} _.
Arguments upgrades {V} _.
End BranchCache.

Module BranchMetadata.
Record t (V : Type) : Type := mk {
  automerge : option V;
  baseBranch : option V;
  baseBranchSha : option V;
  branchName : option V;
  branchSha : option V;
  isModified : option V;
  isPristine : option V;
}.
Arguments mk {V} _ _ _ _ _ _ _.
Arguments automerge {V} _.
Arguments baseBranch {V} _.
Arguments baseBranchSha {V} _.
Arguments branchName {V} _.
Arguments branchSha {V} _.
Arguments isModified {V} _.
Arguments isPristine {V} _.
End BranchMetadata.

Module BaseBranchMetadata.
Record t (V : Type) : Type := mk {
  branchName : string;
  sha : option V;
}.
Arguments mk {V} _ _.
Arguments branchName {V} _.
Arguments sha {V} _.
End BaseBranchMetadata.

Module BranchSummary.
Record t (V : Type) : Type := mk {
  cacheModified : option bool;
  baseBranches : list (BaseBranchMetadata.t V);
  branches : list (BranchMetadata.t V);
  defaultBranch : option string;
  inactiveBranches : list (option V);
}.
Arguments mk {V} _ _ _ _ _.
Arguments cacheModified {V} _.
Arguments baseBranches {V} _.
Arguments branches {V} _.
Arguments defaultBranch {V} _.
Arguments inactiveBranches {V} _.
End BranchSummary.

(** What [getCache()] returns: the scanned base branches in the order of
    [Object.entries], and the branches. *)
Module RepoCache.
Record t (V : Type) : Type := mk {
  scan : option (list (string * gmap string V));
  branches : option (list (BranchCache.t V));
}.
Arguments mk {V} _ _.
Arguments scan {V} _.
Arguments branches {V} _.
End RepoCache.

(** The keys the two filters name. *)
Definition branch_deleted : list string :=
  ["isModified"; "automerge"; "isBehindBase"; "isConflicted"; "baseBranch";
   "baseBranchSha"; "branchFingerprint"; "pristine"; "prCache"; "sha"].

Definition upgrade_deleted : list string := ["sourceUrl"; "depType"].

Definition branch_kept : list string :=
  ["branchName"; "prNo"; "prTitle"; "result"; "prBlockedBy"].

Definition upgrade_kept : list string :=
  ["datasource"; "depName"; "displayPending"; "fixedVersion";
   "currentVersion"; "currentValue"; "newValue"; "newVersion"; "packageFile";
   "updateType"; "packageName"].

(** ** The functions both versions have *)

Section stats.
Context {V : Type} `{!Truthy V}.

(** The test that skips the onboarding pull request. *)
Definition is_onboarding (onboardingPrTitle : option string) (pr : Pr.t)
  : bool :=
  Js.strict_eq (Pr.title pr) (Some "Configure Renovate") ||
  Js.strict_eq (Pr.title pr) onboardingPrTitle.

(** One round of the loop for a pull request that is counted. *)
Definition count_pr (prStats : PrStats.t) (pr : Pr.t) : PrStats.t :=
  let total := PrStats.total prStats + 1 in
  match Pr.state pr with
  | Merged => PrStats.mk total (PrStats.open prStats) (PrStats.closed prStats)
                (PrStats.merged prStats + 1)
  | Closed => PrStats.mk total (PrStats.open prStats)
                (PrStats.closed prStats + 1) (PrStats.merged prStats)
  | Open => PrStats.mk total (PrStats.open prStats + 1)
              (PrStats.closed prStats) (PrStats.merged prStats)
  | _ => PrStats.mk total (PrStats.open prStats) (PrStats.closed prStats)
           (PrStats.merged prStats)
  end.

(** The pull requests that are counted, and those of them in a state. *)
Definition counted (onboardingPrTitle : option string) (prList : list Pr.t)
  : list Pr.t :=
  filter (λ pr, is_onboarding onboardingPrTitle pr = false) prList.

Definition in_state (s : PrState) (prList : list Pr.t) : nat :=
  length (filter (λ pr, Pr.state pr = s) prList).

(** The statistics [runRenovateRepoStats] gives to the logger. *)
Definition runRenovateRepoStats (onboardingPrTitle : option string)
    (prList : list Pr.t) : PrStats.t :=
  foldl (λ prStats pr,
           if is_onboarding onboardingPrTitle pr then prStats
           else count_pr prStats pr)
        (PrStats.mk 0 0 0 0) prList.

Definition branchCacheToMetadata (b : BranchCache.t V) : BranchMetadata.t V :=
  let o := BranchCache.fields b in
  {| BranchMetadata.automerge := o !! "automerge";
     BranchMetadata.baseBranch := o !! "baseBranch";
     BranchMetadata.baseBranchSha := o !! "baseBranchSha";
     BranchMetadata.branchName := o !! "branchName";
     BranchMetadata.branchSha := o !! "sha";
     BranchMetadata.isModified := o !! "isModified";
     BranchMetadata.isPristine := o !! "pristine" |}.

(** [if (branch.sha)] *)
Definition has_sha (b : BranchCache.t V) : bool :=
  from_option truthy_value false (BranchCache.fields b !! "sha").

(** The loop over the scanned base branches. *)
Definition base_metadata (scan : option (list (string * gmap string V)))
  : list (BaseBranchMetadata.t V) :=
  foldl (λ baseMetadata '(branchName, cached),
           baseMetadata ++ [BaseBranchMetadata.mk branchName (cached !! "sha")])
        [] (default [] scan).

(** The loop over the branches: those with a commit are described, the
    others are named. *)
Definition split_branches (branches : option (list (BranchCache.t V)))
  : list (BranchMetadata.t V) * list (option V) :=
  foldl (λ '(branchMetadata, inactiveBranches) branch,
           if has_sha branch
           then (branchMetadata ++ [branchCacheToMetadata branch],
                 inactiveBranches)
           else (branchMetadata,
                 inactiveBranches ++ [BranchCache.fields branch !! "branchName"]))
        ([], []) (default [] branches).

(** The summary and, when there are branches, their reduced copies: the
    two objects [runBranchSummary] gives to the logger. *)
Definition branch_summary
    (filterDependencyDashboardData :
       list (BranchCache.t V) → list (BranchCache.t V))
    (defaultBranch : option string) (isCacheModified : option bool)
    (cache : RepoCache.t V)
  : BranchSummary.t V * option (list (BranchCache.t V)) :=
  let branches := RepoCache.branches cache in
  let '(branchMetadata, inactiveBranches) := split_branches branches in
  let res :=
    {| BranchSummary.cacheModified := isCacheModified;
       BranchSummary.baseBranches := base_metadata (RepoCache.scan cache);
       BranchSummary.branches := branchMetadata;
       BranchSummary.defaultBranch := defaultBranch;
       BranchSummary.inactiveBranches := inactiveBranches |} in
  (res,
   match branches with
   | Some (b :: bs) => Some (filterDependencyDashboardData (b :: bs))
   | _ => None
   end).

End stats.

(** ** The first version *)

Module V0.
Section v0.
Context {V : Type} `{!Truthy V}.

Definition filter_upgrade (upgrade : gmap string V) : gmap string V :=
  delete_all upgrade_deleted upgrade.

Definition filter_branch (branch : BranchCache.t V) : BranchCache.t V :=
  {| BranchCache.fields := delete_all branch_deleted (BranchCache.fields branch);
     BranchCache.upgrades :=
       (λ us : list (gmap string V), filter_upgrade <$> us) <$>
       BranchCache.upgrades branch |}.

Definition filterDependencyDashboardData (branches : list (BranchCache.t V))
  : list (BranchCache.t V) :=
  filter_branch <$> branches.

Definition runBranchSummary :=
  branch_summary (V:=V) filterDependencyDashboardData.

End v0.
End V0.

(** ** The second version *)

Module V1.
Section v1.
Context {V : Type} `{!Truthy V}.

Definition filter_upgrade (upgrade : gmap string V) : gmap string V :=
  project upgrade_kept upgrade.

Definition filter_branch (branch : BranchCache.t V) : BranchCache.t V :=
  let upgradesFiltered :=
    foldl (λ upgradesFiltered upgrade,
             upgradesFiltered ++ [filter_upgrade upgrade])
          [] (coerceArray (BranchCache.upgrades branch)) in
  {| BranchCache.fields := project branch_kept (BranchCache.fields branch);
     BranchCache.upgrades := Some upgradesFiltered |}.

Definition filterDependencyDashboardData (branches : list (BranchCache.t V))
  : list (BranchCache.t V) :=
  foldl (λ branchesFiltered branch, branchesFiltered ++ [filter_branch branch])
        [] branches.

Definition runBranchSummary :=
  branch_summary (V:=V) filterDependencyDashboardData.

End v1.
End V1.

(** ** The objects the types describe *)

Section declared.
Context {V : Type}.

(** Every field of the object is one of [keys]. *)
Definition declared (keys : list string) (o : gmap string V) : Prop :=
  map_Forall (λ k _, k ∈ keys) o.

(** A branch with no other fields than those the two filters name, a
    list of upgrades, and the same for every upgrade. *)
Definition declared_branch (b : BranchCache.t V) : Prop :=
  declared (branch_kept ++ branch_deleted) (BranchCache.fields b) ∧
  is_Some (BranchCache.upgrades b) ∧
  Forall (declared (upgrade_kept ++ upgrade_deleted))
    (coerceArray (BranchCache.upgrades b)).

#[export] Instance declared_dec keys o : Decision (declared keys o).
Proof. unfold declared. apply _. Defined.

#[export] Instance declared_branch_dec b : Decision (declared_branch b).
Proof. unfold declared_branch. apply _. Defined.

End declared.

(** ** A cache to run on *)

Inductive Scalar : Type :=
| SNull
| SBool (b : bool)
| SNum (n : Z)
| SStr (s : string).

#[export] Instance Scalar_eq_dec : EqDecision Scalar.
Proof. solve_decision. Defined.

#[export] Instance Scalar_truthy : Truthy Scalar := λ v,
  match v with
  | SNull => false
  | SBool b => b
  | SNum n => negb (n =? 0)%Z
  | SStr s => Js.truthy (Some s)
  end.

Definition test_upgrade : gmap string Scalar :=
  {[ "depName" := SStr "lodash"; "newVersion" := SStr "4.17.21";
     "sourceUrl" := SStr "https://github.com/lodash/lodash";
     "depType" := SStr "dependencies" ]}.

Definition test_branch : BranchCache.t Scalar :=
  {| BranchCache.fields :=
       {[ "branchName" := SStr "renovate/lodash-4.x"; "prNo" := SNum 7;
          "sha" := SStr "abc"; "automerge" := SBool false;
          "baseBranch" := SStr "main" ]};
     BranchCache.upgrades := Some [test_upgrade] |}.

Definition test_inactive : BranchCache.t Scalar :=
  {| BranchCache.fields := {[ "branchName" := SStr "renovate/pending" ]};
     BranchCache.upgrades := None |}.

Definition test_cache : RepoCache.t Scalar :=
  {| RepoCache.scan := Some [("main", {[ "sha" := SStr "def" ]})];
     RepoCache.branches := Some [test_branch; test_inactive] |}.


Definition test_prs : list Pr.t :=
  [Pr.mk (Js.Num 1) (Some "refs/heads/a") (Some "refs/heads/main")
     (Some "Update dep") Open None None;
   Pr.mk (Js.Num 2) (Some "refs/heads/b") (Some "refs/heads/main")
     (Some "Configure Renovate") Open None None;
   Pr.mk (Js.Num 3) (Some "refs/heads/c") (Some "refs/heads/main")
     (Some "Pin deps") Closed None None].

(** A branch without a list of upgrades, and one whose upgrade has a
    field neither filter names. *)
Definition test_digest : BranchCache.t Scalar :=
  {| BranchCache.fields := {[ "branchName" := SStr "renovate/node-20.x" ]};
     BranchCache.upgrades :=
       Some [ {[ "depName" := SStr "node"; "newDigest" := SStr "sha256:0a1b" ]} ] |}.

(** ** Lemmas: objects *)

Section object_lemmas.
Context {V : Type}.
Implicit Types (o : gmap string V) (keys : list string).

Lemma object_cons k0 (v : option V) fields :
  literal ((k0, v) :: fields) =
  match v with
  | Some x => <[k0 := x]> (literal fields)
  | None => literal fields
  end.
Proof. by destruct v. Qed.

Lemma lookup_project keys o k :
  project keys o !! k = if decide (k ∈ keys) then o !! k else None.
Proof.
  unfold project. induction keys as [|k0 keys IH]; [done|].
  rewrite fmap_cons, object_cons.
  destruct (decide (k = k0)) as [->|Hne].
  - rewrite decide_True by apply list_elem_of_here.
    destruct (o !! k0) as [v|] eqn:Hv.
    + by rewrite lookup_insert_eq.
    + rewrite IH. by case_decide.
  - destruct (o !! k0) as [v|];
      rewrite ?lookup_insert_ne by done; rewrite IH;
      repeat case_decide; try done; set_solver.
Qed.

Lemma lookup_delete_all keys o k :
  delete_all keys o !! k = if decide (k ∈ keys) then None else o !! k.
Proof.
  unfold delete_all. revert o. induction keys as [|k0 keys IH]; intros o; [done|].
  simpl. rewrite IH. destruct (decide (k = k0)) as [->|Hne].
  - rewrite lookup_delete_eq.
    destruct (decide (k0 ∈ k0 :: keys)) as [_|[]]; [by case_decide|].
    apply list_elem_of_here.
  - rewrite lookup_delete_ne by done. repeat case_decide; try done; set_solver.
Qed.

(** On an object with no other field than those kept and those deleted,
    keeping the ones is deleting the others. *)
Lemma project_delete_all kept deleted o :
  (∀ k, k ∈ kept → k ∉ deleted) →
  declared (kept ++ deleted) o →
  project kept o = delete_all deleted o.
Proof.
  intros Hdisj Hdecl. apply map_eq. intros k.
  rewrite lookup_project, lookup_delete_all.
  destruct (o !! k) as [v|] eqn:Hv; [|by repeat case_decide].
  apply Hdecl in Hv. repeat case_decide; try done; set_solver.
Qed.

Lemma declared_project keys o : declared keys (project keys o).
Proof.
  intros k v. rewrite lookup_project. by case_decide.
Qed.

Lemma foldl_snoc_fmap {A B} (f : A → B) (l : list A) (acc : list B) :
  foldl (λ acc x, acc ++ [f x]) acc l = acc ++ (f <$> l).
Proof.
  revert acc. induction l as [|x l IH]; intros acc; simpl.
  - by rewrite app_nil_r.
  - by rewrite IH, <- app_assoc.
Qed.

End object_lemmas.

(** ** Lemmas: the filters and the loops *)

Section filter_lemmas.
Context {V : Type} `{!Truthy V}.
Implicit Types (b : BranchCache.t V).

Lemma V1_filter_branch_eq b :
  V1.filter_branch b =
  {| BranchCache.fields := project branch_kept (BranchCache.fields b);
     BranchCache.upgrades :=
       Some (project upgrade_kept <$> coerceArray (BranchCache.upgrades b)) |}.
Proof. unfold V1.filter_branch. by rewrite foldl_snoc_fmap. Qed.

Lemma V1_filter_eq (branches : list (BranchCache.t V)) :
  V1.filterDependencyDashboardData branches = V1.filter_branch <$> branches.
Proof. unfold V1.filterDependencyDashboardData. by rewrite foldl_snoc_fmap. Qed.

Lemma kept_not_deleted k : k ∈ branch_kept → k ∉ branch_deleted.
Proof. unfold branch_kept, branch_deleted. set_solver. Qed.

Lemma upgrade_kept_not_deleted k : k ∈ upgrade_kept → k ∉ upgrade_deleted.
Proof. unfold upgrade_kept, upgrade_deleted. set_solver. Qed.

Lemma filter_branch_agree b :
  declared_branch b → V0.filter_branch b = V1.filter_branch b.
Proof.
  intros (Hf & [us Hus] & Hu). rewrite V1_filter_branch_eq.
  unfold V0.filter_branch, V0.filter_upgrade. rewrite Hus in Hu |- *.
  f_equal.
  - symmetry.
    by apply (project_delete_all branch_kept branch_deleted);
      [apply kept_not_deleted|].
  - change (Some (delete_all upgrade_deleted <$> us) =
            Some (project upgrade_kept <$> us)).
    f_equal. apply Forall_fmap_ext. eapply Forall_impl; [exact Hu|].
    intros u Hd. symmetry.
    by apply (project_delete_all upgrade_kept upgrade_deleted);
      [apply upgrade_kept_not_deleted|].
Qed.

(** The loop over the branches splits them by [has_sha], in order. *)
Lemma split_branches_filter (branches : option (list (BranchCache.t V))) :
  split_branches branches =
  (branchCacheToMetadata <$> filter (λ b, has_sha b = true) (default [] branches),
   (λ b, BranchCache.fields b !! "branchName") <$>
     filter (λ b, has_sha b ≠ true) (default [] branches)).
Proof.
  unfold split_branches. generalize (default [] branches). intros l.
  enough (∀ bm ia,
    foldl (λ '(branchMetadata, inactiveBranches) branch,
             if has_sha branch
             then (branchMetadata ++ [branchCacheToMetadata branch],
                   inactiveBranches)
             else (branchMetadata,
                   inactiveBranches ++
                     [BranchCache.fields branch !! "branchName"]))
          (bm, ia) l =
    (bm ++ (branchCacheToMetadata <$> filter (λ b, has_sha b = true) l),
     ia ++ ((λ b, BranchCache.fields b !! "branchName") <$>
              filter (λ b, has_sha b ≠ true) l))) as Hgen by apply Hgen.
  induction l as [|b l IH]; intros bm ia; simpl.
  - by rewrite !app_nil_r.
  - destruct (has_sha b) eqn:Hb; rewrite IH.
    + rewrite filter_cons_True, filter_cons_False by (by rewrite ?Hb; auto).
      by rewrite fmap_cons, <- app_assoc.
    + rewrite filter_cons_False, filter_cons_True by (by rewrite ?Hb; auto).
      by rewrite fmap_cons, <- app_assoc.
Qed.

End filter_lemmas.

(** ** Lemmas: the statistics *)

Section stats_lemmas.
Implicit Types (prList : list Pr.t) (acc : PrStats.t).

Lemma runRenovateRepoStats_foldl t prList acc :
  foldl (λ prStats pr,
           if is_onboarding t pr then prStats else count_pr prStats pr)
        acc prList =
  let l := counted t prList in
  {| PrStats.total := PrStats.total acc + length l;
     PrStats.open := PrStats.open acc + in_state Open l;
     PrStats.closed := PrStats.closed acc + in_state Closed l;
     PrStats.merged := PrStats.merged acc + in_state Merged l |}.
Proof.
  revert acc. induction prList as [|pr prList IH]; intros [n o c m]; simpl.
  { unfold in_state. simpl. f_equal; lia. }
  unfold counted, in_state in *.
  destruct (is_onboarding t pr) eqn:Ho.
  - rewrite IH, (filter_cons_False _ pr) by (by rewrite Ho). done.
  - rewrite IH, (filter_cons_True _ pr) by done. unfold count_pr. simpl.
    destruct (Pr.state pr) eqn:Hs; simpl;
      repeat (first [rewrite filter_cons_True by done
                    |rewrite filter_cons_False by (rewrite Hs; done)]);
      simpl; f_equal; lia.
Qed.

(** Every pull request is in one of the five states of [PrState]. *)
Lemma in_state_total (l : list Pr.t) :
  length l = in_state Open l + in_state Closed l + in_state Merged l +
             in_state All l + in_state NotOpen l.
Proof.
  unfold in_state. induction l as [|pr l IH]; [done|]. simpl.
  destruct (Pr.state pr) eqn:Hs;
    repeat (first [rewrite filter_cons_True by done
                  |rewrite filter_cons_False by (rewrite Hs; done)]);
    simpl; lia.
Qed.

Lemma in_state_Forall s (P : Pr.t → Prop) (l : list Pr.t) :
  Forall P l → (∀ pr, P pr → Pr.state pr ≠ s) → in_state s l = 0.
Proof.
  intros Hl Hs. unfold in_state. induction Hl as [|pr l Hp _ IH]; [done|].
  rewrite filter_cons_False by (by apply Hs). done.
Qed.

Lemma counted_Forall t (P : Pr.t → Prop) (l : list Pr.t) :
  Forall P l → Forall P (counted t l).
Proof.
  intros Hl. apply Forall_forall. intros pr [_ Hpr]%list_elem_of_filter.
  by eapply Forall_forall in Hl.
Qed.

End stats_lemmas.

(** ** Theorems *)

Section stats_theorems.

(** What the statistics count: every pull request but those with
    the onboarding title is counted once in the total and once in the
    number of its state. *)
Theorem runRenovateRepoStats_counts t (prList : list Pr.t) :
  let l := counted t prList in
  runRenovateRepoStats t prList =
  {| PrStats.total := length l; PrStats.open := in_state Open l;
     PrStats.closed := in_state Closed l;
     PrStats.merged := in_state Merged l |}.
Proof. unfold runRenovateRepoStats. by rewrite runRenovateRepoStats_foldl. Qed.

(** C27: the statistics of a listing of the CodeCommit adapter: whatever
    the session has done, the pull requests its cache holds are counted
    as open or closed, never as merged, and the total is the sum of the
    two. *)
Theorem stats_of_session {R : Type} `{!Client R, !Services R, !Utils}
    (w w' : World (Host R)) t l :
  rtc step w w' → cache_listed (config w) → prList (config w') = Some l →
  let s := runRenovateRepoStats t l in
  PrStats.merged s = 0 ∧ PrStats.total s = PrStats.open s + PrStats.closed s.
Proof.
  intros Hr Hw Hl. pose proof (session_inv cache_listed _ _ Hr Hw l Hl) as Hlisted.
  unfold runRenovateRepoStats. rewrite runRenovateRepoStats_foldl. simpl.
  pose proof (counted_Forall t _ _ Hlisted) as Hc.
  rewrite (in_state_total (counted t l)).
  rewrite (in_state_Forall Merged _ _ Hc), (in_state_Forall All _ _ Hc),
    (in_state_Forall NotOpen _ _ Hc)
    by (intros pr [[Hs|Hs] _]; by rewrite Hs).
  split; lia.
Qed.

End stats_theorems.

Section filter_theorems.
Context {V : Type} `{!Truthy V}.
Implicit Types (b : BranchCache.t V).

Lemma branch_summary_fst f d m (cache : RepoCache.t V) :
  (branch_summary f d m cache).1 =
  {| BranchSummary.cacheModified := m;
     BranchSummary.baseBranches := base_metadata (RepoCache.scan cache);
     BranchSummary.branches := (split_branches (RepoCache.branches cache)).1;
     BranchSummary.defaultBranch := d;
     BranchSummary.inactiveBranches :=
       (split_branches (RepoCache.branches cache)).2 |}.
Proof. unfold branch_summary. by destruct (split_branches _). Qed.

Lemma branch_summary_snd f d m (cache : RepoCache.t V) :
  (branch_summary f d m cache).2 =
  match RepoCache.branches cache with
  | Some (b :: bs) => Some (f (b :: bs))
  | _ => None
  end.
Proof. unfold branch_summary. by destruct (split_branches _). Qed.

Lemma filter_split_length {A} (P : A → Prop) `{!∀ x, Decision (P x)}
    (l : list A) :
  length (filter P l) + length (filter (λ x, ¬ P x) l) = length l.
Proof.
  induction l as [|x l IH]; [done|].
  destruct (decide (P x)).
  - rewrite filter_cons_True, (filter_cons_False (λ x, ¬ P x)) by auto.
    simpl. lia.
  - rewrite filter_cons_False, (filter_cons_True (λ x, ¬ P x)) by auto.
    simpl. lia.
Qed.

Lemma filter_agree_Forall (branches : list (BranchCache.t V)) :
  Forall declared_branch branches →
  V0.filterDependencyDashboardData branches =
  V1.filterDependencyDashboardData branches.
Proof.
  intros Hb. rewrite V1_filter_eq. unfold V0.filterDependencyDashboardData.
  apply Forall_fmap_ext. eapply Forall_impl; [exact Hb|].
  apply filter_branch_agree.
Qed.

(** C26: the two versions of the filter agree on the branches the types
    of the cache describe: branches with a list of upgrades and no other
    field, in the branch and in its upgrades, than those one version
    keeps and the other deletes. *)
Theorem filters_agree (branches : list (BranchCache.t V)) :
  Forall declared_branch branches →
  V0.filterDependencyDashboardData branches =
  V1.filterDependencyDashboardData branches.
Proof. apply filter_agree_Forall. Qed.

(** The second version lets through the fields it names and no
    other: every branch of its result has fields among the five kept
    ones and a list of upgrades with fields among the eleven kept ones,
    whatever the cache held. *)
Theorem V1_filter_declared (branches : list (BranchCache.t V)) :
  Forall (λ b, declared branch_kept (BranchCache.fields b) ∧
               ∃ us, BranchCache.upgrades b = Some us ∧
                     Forall (declared upgrade_kept) us)
    (V1.filterDependencyDashboardData branches).
Proof.
  rewrite V1_filter_eq. apply Forall_fmap, Forall_true. intros b.
  unfold compose. rewrite V1_filter_branch_eq. split; [apply declared_project|].
  eexists. split; [done|]. apply Forall_fmap, Forall_true.
  intros u. unfold compose. apply declared_project.
Qed.

(** The first version removes the fields it names and keeps every
    other field of a branch and of its upgrades as it is; a branch
    without upgrades stays without. *)
Theorem V0_filter_lookup b k :
  BranchCache.fields (V0.filter_branch b) !! k =
    (if decide (k ∈ branch_deleted) then None else BranchCache.fields b !! k) ∧
  BranchCache.upgrades (V0.filter_branch b) =
    (λ us : list (gmap string V), delete_all upgrade_deleted <$> us) <$>
    BranchCache.upgrades b.
Proof. split; [apply lookup_delete_all|done]. Qed.

(** The summary splits the branches of the cache: those with a
    commit are described, in order, the others are named, in order, and
    every branch is in one of the two lists. *)
Theorem branch_summary_splits f d m (cache : RepoCache.t V) :
  let res := (branch_summary f d m cache).1 in
  let bs := default [] (RepoCache.branches cache) in
  BranchSummary.branches res =
    branchCacheToMetadata <$> filter (λ b, has_sha b = true) bs ∧
  BranchSummary.inactiveBranches res =
    (λ b, BranchCache.fields b !! "branchName") <$>
      filter (λ b, has_sha b ≠ true) bs ∧
  length (BranchSummary.branches res) +
    length (BranchSummary.inactiveBranches res) = length bs.
Proof.
  intros res bs. unfold res. rewrite branch_summary_fst. simpl.
  rewrite split_branches_filter. simpl. repeat split.
  rewrite !length_fmap. apply filter_split_length.
Qed.

(** The two versions of [runBranchSummary] give the logger the same
    objects on a cache whose branches the types describe. *)
Theorem summaries_agree d m (cache : RepoCache.t V) :
  Forall declared_branch (default [] (RepoCache.branches cache)) →
  V0.runBranchSummary d m cache = V1.runBranchSummary d m cache.
Proof.
  intros Hb. unfold V0.runBranchSummary, V1.runBranchSummary.
  apply injective_projections.
  - by rewrite !branch_summary_fst.
  - rewrite !branch_summary_snd.
    destruct (RepoCache.branches cache) as [[|b bs]|]; try done.
    f_equal. by apply filter_agree_Forall.
Qed.

End filter_theorems.

(** ** The caches of the examples *)

Lemma test_branch_declared : Forall declared_branch [test_branch].
Proof. by apply (bool_decide_unpack _); vm_compute. Defined.

Lemma filters_agree_witness :
  V0.filterDependencyDashboardData [test_branch] =
  V1.filterDependencyDashboardData [test_branch].
Proof. apply (filters_agree [test_branch]), test_branch_declared. Defined.

Lemma summaries_agree_witness :
  V0.runBranchSummary (Some "main") (Some false)
    (RepoCache.mk (RepoCache.scan test_cache) (Some [test_branch])) =
  V1.runBranchSummary (Some "main") (Some false)
    (RepoCache.mk (RepoCache.scan test_cache) (Some [test_branch])).
Proof. apply summaries_agree, test_branch_declared. Defined.

Lemma stats_of_session_witness :
  let s := runRenovateRepoStats (Some "Configure Renovate") [test_pr Open] in
  PrStats.merged s = 0 ∧ PrStats.total s = PrStats.open s + PrStats.closed s.
Proof.
  apply (stats_of_session listed_session
           (session test_requests listed_session));
    [apply session_reachable| |done].
  intros l [= <-]. repeat constructor.
Defined.

(** The statistics of three pull requests, one of them the onboarding
    one. *)
Example runRenovateRepoStats_test :
  runRenovateRepoStats None test_prs = PrStats.mk 2 1 1 0.
Proof. reflexivity. Qed.

(** The summary of the test cache: one branch with a commit, one
    without. *)
Example runBranchSummary_test :
  let res := (V1.runBranchSummary (Some "main") (Some true) test_cache).1 in
  BranchSummary.baseBranches res =
    [BaseBranchMetadata.mk "main" (Some (SStr "def"))] ∧
  BranchMetadata.branchName <$> BranchSummary.branches res =
    [Some (SStr "renovate/lodash-4.x")] ∧
  BranchSummary.inactiveBranches res = [Some (SStr "renovate/pending")].
Proof. by vm_compute. Qed.

(** A branch without a list of upgrades: the first version leaves it
    without, the second gives it the empty list. *)
Example filters_differ_without_upgrades :
  BranchCache.upgrades <$> V0.filterDependencyDashboardData [test_inactive] =
    [None] ∧
  BranchCache.upgrades <$> V1.filterDependencyDashboardData [test_inactive] =
    [Some []].
Proof. by vm_compute. Qed.

(** A field neither version names: the first keeps it, the second
    drops it. *)
Example filters_differ_on_undeclared :
  (λ b, (λ us : list (gmap string Scalar), (.!! "newDigest") <$> us) <$>
        BranchCache.upgrades b) <$> V0.filterDependencyDashboardData [test_digest] =
    [Some [Some (SStr "sha256:0a1b")]] ∧
  (λ b, (λ us : list (gmap string Scalar), (.!! "newDigest") <$> us) <$>
        BranchCache.upgrades b) <$> V1.filterDependencyDashboardData [test_digest] =
    [Some [None]].
Proof. by vm_compute. Qed.
