(* ===== verification/Text.v ===== *)
(** * Text: the string methods of the datasource metadata

    [String.prototype.includes], [split] and [join] on a separator of one
    character, [toLowerCase] and [replace] with a string for a pattern,
    as ECMA-262 defines them on strings whose code units are below 256.
    Nothing here is code of the repository.  The lemmas are what the
    callers need: [split] and [join] are inverse to each other, a segment
    holds no separator, and the first segments of a string joined again
    are a prefix of it. *)

From S2P Require Import Prelude JsValue Regex.

Module Str.

(** [s.includes(sub)] *)
Fixpoint includes (s sub : string) : bool :=
  Js.startsWith s sub ||
  match s with
  | String _ s' => includes s' sub
  | EmptyString => false
  end.

(** [s.split(sep)] for a separator of one character: the segments
    between its occurrences, one more than there are occurrences. *)
Fixpoint split (sep : ascii) (s : string) : list string :=
  match s with
  | EmptyString => [""]
  | String c s' =>
      if decide (c = sep) then "" :: split sep s'
      else match split sep s' with
           | seg :: segs => String c seg :: segs
           | [] => [String c ""]
           end
  end.

(** [l.join(sep)] *)
Fixpoint join (sep : ascii) (l : list string) : string :=
  match l with
  | [] => ""
  | x :: l' =>
      match l' with
      | [] => x
      | _ :: _ => x +:+ String sep (join sep l')
      end
  end.

(** The character [sep] does not occur in [s]. *)
Fixpoint free_of (sep : ascii) (s : string) : bool :=
  match s with
  | EmptyString => true
  | String c s' => negb (bool_decide (c = sep)) && free_of sep s'
  end.

(** [toLowerCase] on one code unit below 256: the letters of the basic
    alphabet and the capital letters of Latin-1. *)
Definition lower_char (c : ascii) : ascii :=
  let n := Ascii.N_of_ascii c in
  if ((65 <=? n) && (n <=? 90) ||
      (192 <=? n) && (n <=? 222) && negb (n =? 215))%N
  then Ascii.ascii_of_N (n + 32)
  else c.

Fixpoint toLowerCase (s : string) : string :=
  match s with
  | EmptyString => EmptyString
  | String c s' => String (lower_char c) (toLowerCase s')
  end.

(** [s.replace(pattern, replacement)] for a string pattern and a
    replacement without [$]: the first occurrence is replaced. *)
Definition replace (pattern replacement s : string) : string :=
  Re.replace_first (Re.Lit pattern) [Re.Text replacement] s.

End Str.

(** ** Lemmas *)

Section text_lemmas.
Import Str.

Lemma split_nonempty sep s : split sep s ≠ [].
Proof.
  destruct s as [|c s]; simpl; [done|].
  case_decide; [done|]. by destruct (split sep s).
Qed.

Lemma split_cons sep c s :
  c ≠ sep →
  ∃ seg segs, split sep s = seg :: segs ∧
              split sep (String c s) = String c seg :: segs.
Proof.
  intros Hc. simpl. rewrite decide_False by done.
  destruct (split sep s) as [|seg segs] eqn:Hs; [by apply split_nonempty in Hs|].
  eauto.
Qed.

(** Joining the segments gives the string back. *)
Lemma join_split sep s : join sep (split sep s) = s.
Proof.
  induction s as [|c s IH]; [done|].
  destruct (decide (c = sep)) as [->|Hc].
  - simpl. rewrite decide_True by done.
    destruct (split sep s) as [|seg segs] eqn:Hs;
      [by apply split_nonempty in Hs|].
    by rewrite <- IH.
  - destruct (split_cons sep c s Hc) as (seg & segs & Hs & ->).
    rewrite Hs in IH. rewrite <- IH. simpl. by destruct segs.
Qed.

(** No segment holds the separator. *)
Lemma split_free sep s : Forall (λ seg, free_of sep seg = true) (split sep s).
Proof.
  induction s as [|c s IH]; [by repeat constructor|].
  destruct (decide (c = sep)) as [->|Hc].
  - simpl. rewrite decide_True by done. by constructor.
  - destruct (split_cons sep c s Hc) as (seg & segs & Hs & ->).
    rewrite Hs in IH. apply Forall_cons in IH as [Hseg Hsegs].
    constructor; [|done]. simpl. by rewrite bool_decide_eq_false_2.
Qed.

Lemma split_free_of sep s : free_of sep s = true → split sep s = [s].
Proof.
  induction s as [|c s IH]; [done|]. simpl.
  intros [Hc%negb_true_iff%bool_decide_eq_false Hs]%andb_true_iff.
  rewrite decide_False by done. by rewrite IH.
Qed.

Lemma split_app_sep sep a b :
  free_of sep a = true → split sep (a +:+ String sep b) = a :: split sep b.
Proof.
  induction a as [|c a IH]; simpl.
  - intros _. by rewrite decide_True.
  - intros [Hc%negb_true_iff%bool_decide_eq_false Ha]%andb_true_iff.
    rewrite decide_False by done. by rewrite IH.
Qed.

(** Splitting a join of segments that hold no separator gives the
    segments back. *)
Lemma split_join sep l :
  l ≠ [] → Forall (λ seg, free_of sep seg = true) l →
  split sep (join sep l) = l.
Proof.
  induction l as [|x l IH]; [done|]. intros _ [Hx Hl]%Forall_cons.
  destruct l as [|y l]; [by apply split_free_of|].
  change (join sep (x :: y :: l)) with (x +:+ String sep (join sep (y :: l))).
  rewrite split_app_sep by done. by rewrite IH.
Qed.

Lemma join_take sep n l :
  ∃ post, join sep l = join sep (take n l) +:+ post.
Proof.
  revert n. induction l as [|x l IH]; intros n.
  { exists "". by destruct n. }
  destruct n as [|n]; [by eexists|].
  destruct l as [|y l].
  { exists "". destruct n; simpl; by rewrite string_app_nil_r. }
  destruct n as [|n]; [by exists (String sep (join sep (y :: l)))|].
  destruct (IH (S n)) as [post Hp]. exists post.
  change (join sep (x :: y :: l)) with (x +:+ String sep (join sep (y :: l))).
  rewrite Hp.
  change (take (S (S n)) (x :: y :: l)) with (x :: y :: take n l).
  change (take (S n) (y :: l)) with (y :: take n l).
  change (join sep (x :: y :: take n l))
    with (x +:+ String sep (join sep (y :: take n l))).
  by rewrite string_app_assoc.
Qed.

(** The first segments of a string, joined again, are a prefix of it. *)
Lemma join_take_prefix sep n s :
  ∃ post, s = join sep (take n (split sep s)) +:+ post.
Proof.
  destruct (join_take sep n (split sep s)) as [post Hp].
  exists post. by rewrite <- Hp, join_split.
Qed.

Lemma includes_spec s sub :
  includes s sub = true ↔ ∃ pre post, s = pre +:+ sub +:+ post.
Proof.
  split.
  - induction s as [|c s IH]; cbn [includes].
    + rewrite orb_false_r. intros (post & Hs)%startsWith_spec.
      by exists "", post.
    + intros [(post & Hs)%startsWith_spec|(pre & post & ->)%IH]%orb_true_iff.
      * by exists "", post.
      * by exists (String c pre), post.
  - intros (pre & post & ->). induction pre as [|c pre IH].
    + rewrite string_app_nil_l.
      assert (Js.startsWith (sub +:+ post) sub = true) as Hp
        by (apply startsWith_spec; eauto).
      destruct (sub +:+ post); cbn [includes]; by rewrite Hp.
    + rewrite string_app_cons. cbn [includes]. rewrite IH. apply orb_true_r.
Qed.

Lemma toLowerCase_length s : String.length (toLowerCase s) = String.length s.
Proof. induction s; simpl; congruence. Qed.

End text_lemmas.
