(* ===== verification/Metadata.v ===== *)
(** * Metadata: the links and dates of a datasource result

    [src/lib/modules/datasource/metadata.ts]: [massageUrl],
    [massageGithubUrl], [massageGitlabUrl], [normalizeDate],
    [massageTimestamps], [addMetaData], [setSourceUrlToHomepage] and
    [shouldDeleteHomepage].

    [addMetaData] changes its argument in place: it is a computation over
    the result [dep] as state, and what it has done to [dep] when a date
    makes it throw is part of its outcome.  [Date.now()] is the variable
    [now] of the section: the clock does not advance during a call.  The
    libraries the module calls are the operations of two classes: [Urls]
    ([url], [util/url], [github-url-from-git], [detectPlatform], the host
    rules and the tables of [metadata-manual]) and [Dates] ([Date] and
    luxon).  The patterns [githubPages], [gitPrefix] and the two literals
    of [massageGitlabUrl] are values of [Re.re] with their anchors. *)

From S2P Require Import Prelude JsValue Regex Effect Text.

(** ** The result of a datasource *)

(** What [normalizeDate] is given: its parameter has type [any]. *)
Inductive DateInput : Type :=
| InNumber (n : Js.number)
| InString (s : string)
| InDate (time : Js.number)
| InOther.

#[export] Instance DateInput_eq_dec : EqDecision DateInput.
Proof. solve_decision. Defined.

Module Release.
Record t : Type := mk {
  version : string;
  releaseTimestamp : option DateInput;
}.
Definition set_releaseTimestamp (ts : option DateInput) (r : t) : t :=
  mk (version r) ts.
End Release.

Module ReleaseResult.
Record t : Type := mk {
  releases : option (list Release.t);
  homepage : option string;
  sourceUrl : option string;
  changelogUrl : option string;
  dependencyUrl : option string;
}.
End ReleaseResult.

#[export] Instance Release_eq_dec : EqDecision Release.t.
Proof. solve_decision. Defined.
#[export] Instance ReleaseResult_eq_dec : EqDecision ReleaseResult.t.
Proof. solve_decision. Defined.

(** The keys of the loop that cleans the links. *)
Inductive UrlKey : Type := Homepage | SourceUrl | ChangelogUrl | DependencyUrl.

#[export] Instance UrlKey_eq_dec : EqDecision UrlKey.
Proof. solve_decision. Defined.

(** [dep[urlKey]] *)
Definition get_url (k : UrlKey) (dep : ReleaseResult.t) : option string :=
  match k with
  | Homepage => ReleaseResult.homepage dep
  | SourceUrl => ReleaseResult.sourceUrl dep
  | ChangelogUrl => ReleaseResult.changelogUrl dep
  | DependencyUrl => ReleaseResult.dependencyUrl dep
  end.

(** [dep[urlKey] = v], and [delete dep[urlKey]] for [v = None]. *)
Definition set_url (k : UrlKey) (v : option string) (dep : ReleaseResult.t)
  : ReleaseResult.t :=
  let '(ReleaseResult.mk rs h s c d) := dep in
  match k with
  | Homepage => ReleaseResult.mk rs v s c d
  | SourceUrl => ReleaseResult.mk rs h v c d
  | ChangelogUrl => ReleaseResult.mk rs h s v d
  | DependencyUrl => ReleaseResult.mk rs h s c v
  end.

(** [dep.releases[i].releaseTimestamp = ts] *)
Definition set_timestamp (i : nat) (ts : option DateInput)
    (dep : ReleaseResult.t) : ReleaseResult.t :=
  let '(ReleaseResult.mk rs h s c d) := dep in
  ReleaseResult.mk (alter (Release.set_releaseTimestamp ts) i <$> rs) h s c d.

(** ** The libraries *)

(** The result of [parseUrl]: of a [URL] the module reads the path. *)
Record ParsedUrl : Type := { pathname : string }.

Class Urls : Type := {
  (** [URL.parse(s)?.hostname] of the module [url] *)
  URL_parse_hostname : string → option string;
  (** [parseUrl], [urlPathDepth], [validateUrl] of [util/url] *)
  parseUrl : string → option ParsedUrl;
  urlPathDepth : string → Z;
  validateUrl : string → bool;
  (** [detectPlatform] of [platform/util] *)
  detectPlatform : string → option string;
  (** [parse] of [github-url-from-git] with its [extraBaseUrls] *)
  github_url_from_git : string → list string → option string;
  (** [hostRules.hosts({ hostType: 'github' })] *)
  github_hosts : list string;
  (** the tables of [metadata-manual], by datasource and package *)
  manualChangelogUrls : string → string → option string;
  manualSourceUrls : string → string → option string;
}.

Class Dates : Type := {
  (** [Date.parse]: milliseconds, or [NaN] *)
  Date_parse : string → Js.number;
  (** the ISO text of a time value *)
  iso_text : Z → string;
  (** [DateTime.fromISO(s, { zone: 'UTC' })]: its [toISO()] when it is
      valid *)
  luxon_fromISO : string → option string;
}.

(** ** The patterns *)

Definition not_dot (c : ascii) : bool := negb (bool_decide (c = "."%char)).
Definition not_slash (c : ascii) : bool := negb (bool_decide (c = "/"%char)).

(** [regEx('^https://([^.]+).github.com/([^/]+)$')]: the two dots of the
    host are not escaped. *)
Definition githubPages : Re.re :=
  Re.Seq (Re.Lit "https://")
    (Re.Seq (Re.Group "1" (Re.Rep not_dot 1 true))
       (Re.Seq (Re.Chr Re.dot)
          (Re.Seq (Re.Lit "github")
             (Re.Seq (Re.Chr Re.dot)
                (Re.Seq (Re.Lit "com/")
                   (Re.Group "2" (Re.Rep not_slash 1 true))))))).

Definition githubPages_anchors : Re.anchors :=
  {| Re.at_start := true; Re.at_end := true |}.

(** [regEx('^git:/?/?')] *)
Definition gitPrefix : Re.re :=
  Re.Seq (Re.Lit "git:") (Re.Seq (Re.Opt (Re.Lit "/")) (Re.Opt (Re.Lit "/"))).

Definition gitPrefix_anchors : Re.anchors :=
  {| Re.at_start := true; Re.at_end := false |}.

(** [regEx(/\/tree\/.*$/i)] and [regEx(/\/$/i)] *)
Definition tree_suffix : Re.re :=
  Re.Seq (Re.Lit_i "/tree/") (Re.Rep Re.dot 0 true).

Definition trailing_slash : Re.re := Re.Lit_i "/".

Definition to_end : Re.anchors :=
  {| Re.at_start := false; Re.at_end := true |}.

(** ** Links *)

(** [TimeClip]: the largest time value of a [Date]. *)
Definition max_time : Z := 8640000000000000.

(** [s.charAt(s.length - 1) === '/'], then [s.substring(0, s.length - 1)] *)
Fixpoint chop_slash (s : string) : string :=
  match s with
  | EmptyString => EmptyString
  | String c EmptyString => if decide (c = "/"%char) then EmptyString else s
  | String c s' => String c (chop_slash s')
  end.

Section metadata.
Context `{!Urls, !Dates} (now : Z).

Definition massageGithubUrl (url : string) : string :=
  let massagedUrl :=
    if Js.startsWith url "git@"
    then Str.replace "git@" "https://" (Str.replace ":" "/" url)
    else url in
  let s1 := Str.replace "http:" "https:" massagedUrl in
  let s2 := Str.replace "http+git:" "https:" s1 in
  let s3 := Str.replace "https+git:" "https:" s2 in
  let s4 := Str.replace "ssh://git@" "https://" s3 in
  let s5 := Re.replace_with gitPrefix_anchors gitPrefix [Re.Text "https://"] s4 in
  let s6 := Re.replace_with githubPages_anchors githubPages
              [Re.Text "https://github.com/"; Re.Ref "1"; Re.Text "/";
               Re.Ref "2"] s5 in
  let s7 := Str.replace "www.github.com" "github.com" s6 in
  Str.join "/" (take 5 (Str.split "/" s7)).

Definition massageGitlabUrl (url : string) : string :=
  let s1 := Str.replace "http:" "https:" url in
  let s2 := Re.replace_with gitPrefix_anchors gitPrefix [Re.Text "https://"] s1 in
  let s3 := Re.replace_with to_end tree_suffix [] s2 in
  let s4 := Re.replace_with to_end trailing_slash [] s3 in
  Str.replace ".git" "" s4.

Definition massageUrl (sourceUrl : string) : string :=
  match Js.truthy_val (URL_parse_hostname sourceUrl) with
  | None => ""
  | Some hostname =>
      if Str.includes hostname "gitlab" then massageGitlabUrl sourceUrl
      else massageGithubUrl sourceUrl
  end.

Definition shouldDeleteHomepage (sourceUrl homepage : string) : bool :=
  let massagedSourceUrl := massageUrl sourceUrl in
  if decide (massagedSourceUrl = homepage) then true
  else match parseUrl massagedSourceUrl with
       | None => false
       | Some sourceUrlParsed =>
           match parseUrl homepage with
           | None => false
           | Some homepageParsed =>
               if (urlPathDepth homepage <=? 2)%Z then true
               else bool_decide (chop_slash (pathname homepageParsed) =
                                 pathname sourceUrlParsed)
           end
       end.

(** ** Dates *)

(** [new Date(t).toISOString()], and [d.toISOString()] for a date [d] with
    time value [t]: a [RangeError] when the time value is not finite. *)
Definition toISOString {S} (time : Js.number) : M S string :=
  match time with
  | Js.Num t =>
      if (Z.abs t <=? max_time)%Z then ret (iso_text t) else throw RangeError
  | Js.NaN => throw RangeError
  end.

(** The first test of [normalizeDate] *)
Definition recent (input : Js.number) : bool :=
  match input with
  | Js.Num n => (0 <? n)%Z && (n <=? now + 24 * 60 * 60 * 1000)%Z
  | Js.NaN => false
  end.

(** [normalizeDate] on a number: a number that fails the test is neither
    a string nor a date. *)
Definition normalizeDate_number {S} (input : Js.number) : M S (option string) :=
  if recent input then s <- toISOString input ;; ret (Some s)
  else ret None.

Definition normalizeDate {S} (input : option DateInput) : M S (option string) :=
  match input with
  | Some (InNumber n) => normalizeDate_number n
  | Some (InString s) =>
      match luxon_fromISO s with
      | Some iso => ret (Some iso)
      | None => normalizeDate_number (Date_parse s)
      end
  | Some (InDate time) => s <- toISOString time ;; ret (Some s)
  | Some InOther | None => ret None
  end.

(** One round of the loop of [massageTimestamps], on the release at
    index [i]. *)
Definition massage_release (i : nat) (release : Release.t)
  : M ReleaseResult.t unit :=
  let releaseTimestamp := Release.releaseTimestamp release in
  modify (set_timestamp i None) ;;
  releaseTimestamp <- normalizeDate releaseTimestamp ;;
  if Js.truthy releaseTimestamp
  then modify (set_timestamp i (InString <$> releaseTimestamp))
  else ret tt.

Definition massageTimestamps : M ReleaseResult.t unit :=
  releases <- gets (λ dep, default [] (ReleaseResult.releases dep)) ;;
  for_of (imap pair releases)
    (λ '(i, release) _, massage_release i release ;; ret (Continue tt)) tt.

(** ** addMetaData *)

Definition setSourceUrlToHomepage : M ReleaseResult.t unit :=
  dep <- get ;;
  match Js.truthy_val (ReleaseResult.homepage dep) with
  | None => ret tt
  | Some homepage =>
      let platform := detectPlatform homepage in
      if negb (Js.strict_eq platform (Some "github")) &&
         negb (Js.strict_eq platform (Some "gitlab"))
      then ret tt
      else
        modify (set_url SourceUrl (Some homepage)) ;;
        if shouldDeleteHomepage homepage homepage
        then modify (set_url Homepage None)
        else ret tt
  end.

(** The base URLs given to [github-url-from-git] *)
Definition extraBaseUrls : list string :=
  foldl (λ acc host, acc ++ [host; "gist." +:+ host]) [] github_hosts
    ++ ["gitlab.com"].

(** [if (dep.sourceUrl) { ... }] of lines 140-155 *)
Definition massage_sourceUrl : M ReleaseResult.t unit :=
  dep <- get ;;
  match Js.truthy_val (ReleaseResult.sourceUrl dep) with
  | None => ret tt
  | Some sourceUrl =>
      let massagedUrl := massageUrl sourceUrl in
      (if decide (massagedUrl = "")
       then modify (set_url SourceUrl None)
       else modify (set_url SourceUrl
                      (match Js.truthy_val
                               (github_url_from_git massagedUrl extraBaseUrls) with
                       | Some u => Some u
                       | None => Some sourceUrl
                       end))) ;;
      dep <- get ;;
      if Js.truthy (ReleaseResult.homepage dep) &&
         Js.strict_eq (ReleaseResult.homepage dep) (ReleaseResult.sourceUrl dep)
      then modify (set_url Homepage None)
      else ret tt
  end.

Definition urlKeys : list UrlKey :=
  [Homepage; SourceUrl; ChangelogUrl; DependencyUrl].

(** One round of the loop that cleans the links. *)
Definition clean_url (urlKey : UrlKey) : M ReleaseResult.t unit :=
  dep <- get ;;
  match get_url urlKey dep with
  | Some urlVal =>
      if validateUrl (Js.trim urlVal)
      then modify (set_url urlKey (Some (Js.trim urlVal)))
      else modify (set_url urlKey None)
  | None => modify (set_url urlKey None)
  end.

(** The loop that cleans the links, lines 156-170 *)
Definition clean_urls : M ReleaseResult.t unit :=
  for_of urlKeys (λ urlKey _, clean_url urlKey ;; ret (Continue tt)) tt.

(** The links of [metadata-manual], lines 111-121 *)
Definition manual_urls (datasource packageName : string)
  : M ReleaseResult.t unit :=
  let packageNameLowercase := Str.toLowerCase packageName in
  let manualChangelogUrl :=
    manualChangelogUrls datasource packageNameLowercase in
  (if Js.truthy manualChangelogUrl
   then modify (set_url ChangelogUrl manualChangelogUrl)
   else ret tt) ;;
  let manualSourceUrl := manualSourceUrls datasource packageNameLowercase in
  if Js.truthy manualSourceUrl
  then modify (set_url SourceUrl manualSourceUrl)
  else ret tt.

(** A source link from the changelog or the homepage, lines 123-133 *)
Definition fallback_sourceUrl : M ReleaseResult.t unit :=
  dep <- get ;;
  (match Js.truthy_val (ReleaseResult.changelogUrl dep) with
   | Some changelogUrl =>
       if Js.strict_eq (detectPlatform changelogUrl) (Some "github") &&
          negb (Js.truthy (ReleaseResult.sourceUrl dep))
       then modify (set_url SourceUrl (Some changelogUrl))
       else ret tt
   | None => ret tt
   end) ;;
  dep <- get ;;
  if Js.truthy (ReleaseResult.homepage dep) &&
     negb (Js.truthy (ReleaseResult.sourceUrl dep))
  then setSourceUrlToHomepage
  else ret tt.

Definition addMetaData (datasource packageName : string)
  : M ReleaseResult.t unit :=
  massageTimestamps ;;
  manual_urls datasource packageName ;;
  fallback_sourceUrl ;;
  massage_sourceUrl ;;
  clean_urls.

(** ** What the functions compute *)

(** The timestamp [massageTimestamps] leaves in a release whose date
    [normalizeDate] accepts. *)
Definition stamp (ts : option DateInput) : option DateInput :=
  match (normalizeDate (S:=unit) ts tt).1 with
  | Ok (Some s) => if Js.truthy (Some s) then Some (InString s) else None
  | _ => None
  end.

(** The releases [massageTimestamps] leaves, as a function of the list:
    every release up to the first whose date throws has its new
    timestamp, that one has none, the others are as they were. *)
Fixpoint restamp (l : list Release.t) : outcome unit * list Release.t :=
  match l with
  | [] => (Ok tt, [])
  | r :: l' =>
      match (normalizeDate (S:=unit) (Release.releaseTimestamp r) tt).1 with
      | Ok _ =>
          let '(o, l'') := restamp l' in
          (o, Release.set_releaseTimestamp
                (stamp (Release.releaseTimestamp r)) r :: l'')
      | Throw e => (Throw e, Release.set_releaseTimestamp None r :: l')
      end
  end.

Definition set_releases (l : list Release.t) (dep : ReleaseResult.t)
  : ReleaseResult.t :=
  let '(ReleaseResult.mk rs h s c d) := dep in
  ReleaseResult.mk ((λ _, l) <$> rs) h s c d.

(** The link [clean_url] leaves. *)
Definition clean (v : option string) : option string :=
  match v with
  | Some urlVal =>
      if validateUrl (Js.trim urlVal) then Some (Js.trim urlVal) else None
  | None => None
  end.

(** A date object whose time value is not a time. *)
Definition invalid_date (input : option DateInput) : Prop :=
  ∃ time, input = Some (InDate time) ∧
          match time with
          | Js.Num t => (max_time < Z.abs t)%Z
          | Js.NaN => True
          end.

End metadata.

(** A step that returns and changes links only. *)
Definition links_only (c : M ReleaseResult.t unit) : Prop :=
  ∀ dep, ∃ dep', c dep = (Ok tt, dep') ∧
                 ReleaseResult.releases dep' = ReleaseResult.releases dep.

(** ** Libraries to run on *)

(** A host name and a path read off a link with the pattern
    [://([^/]+)]; a link is valid when it starts with [http://] or
    [https://]; the platform is read off the host name. *)
Definition host_pattern : Re.re :=
  Re.Seq (Re.Lit "://") (Re.Group "host" (Re.Rep not_slash 1 true)).

Definition test_hostname (s : string) : option string :=
  Re.exec host_pattern s ≫= Re.group "host".

Definition test_platform_of (s : string) : option string :=
  match test_hostname s with
  | Some h =>
      if Str.includes h "github" then Some "github"
      else if Str.includes h "gitlab" then Some "gitlab" else None
  | None => None
  end.

#[export] Instance test_urls : Urls := {|
  URL_parse_hostname := test_hostname;
  parseUrl s := (λ m, {| pathname := Re.rest m |}) <$> Re.exec host_pattern s;
  urlPathDepth s :=
    match Re.exec host_pattern s with
    | Some m =>
        Z.of_nat (length (filter (λ seg, seg ≠ "") (Str.split "/" (Re.rest m))))
    | None => 0%Z
    end;
  validateUrl s := Js.startsWith s "http://" || Js.startsWith s "https://";
  detectPlatform := test_platform_of;
  github_url_from_git s _ :=
    if Str.includes s "github.com" then Some s else None;
  github_hosts := ["github.example.org"];
  manualChangelogUrls ds pkg :=
    if decide (ds = "npm" ∧ pkg = "babel-preset-react-app")
    then Some "https://github.com/facebook/create-react-app/releases"
    else None;
  manualSourceUrls ds pkg :=
    if decide (ds = "orb" ∧ pkg = "cypress-io/cypress")
    then Some "https://github.com/cypress-io/circleci-orb"
    else None;
|}.

(** Dates as their time value in decimal digits; luxon accepts the
    strings that start with a digit and end in [Z]. *)
#[export] Instance test_dates : Dates := {|
  Date_parse := Js.parseInt;
  iso_text t := "T" +:+ Js.toString (Js.Num t);
  luxon_fromISO s :=
    if Js.startsWith s "20" && Str.includes s "T" then Some s else None;
|}.

Definition test_now : Z := 1700000000000.

Definition test_dep : ReleaseResult.t :=
  {| ReleaseResult.releases :=
       Some [Release.mk "1.0.0" (Some (InString "2020-01-01T00:00:00Z"));
             Release.mk "1.1.0" (Some (InNumber (Js.Num 1600000000000)));
             Release.mk "2.0.0" (Some (InString "soon"));
             Release.mk "3.0.0" None];
     ReleaseResult.homepage := Some "https://github.com/foo/bar";
     ReleaseResult.sourceUrl := Some "http://www.github.com/foo/bar/tree/main";
     ReleaseResult.changelogUrl := Some " https://github.com/foo/bar/releases ";
     ReleaseResult.dependencyUrl := Some "ftp://example.org/bar" |}.

(** The second release holds a date object without a time. *)
Definition test_dep_invalid : ReleaseResult.t :=
  {| ReleaseResult.releases :=
       Some [Release.mk "1.0.0" (Some (InString "2020-01-01T00:00:00Z"));
             Release.mk "1.1.0" (Some (InDate Js.NaN));
             Release.mk "2.0.0" (Some (InString "2021-01-01T00:00:00Z"))];
     ReleaseResult.homepage := Some "https://github.com/foo/bar";
     ReleaseResult.sourceUrl := None;
     ReleaseResult.changelogUrl := None;
     ReleaseResult.dependencyUrl := None |}.

(** ** Lemmas: the fields of a result *)

Section field_lemmas.

Lemma get_set_url k v dep : get_url k (set_url k v dep) = v.
Proof. by destruct dep, k. Qed.

Lemma get_set_url_ne k k' v dep :
  k ≠ k' → get_url k (set_url k' v dep) = get_url k dep.
Proof. by destruct dep, k, k'. Qed.

Lemma releases_set_url k v dep :
  ReleaseResult.releases (set_url k v dep) = ReleaseResult.releases dep.
Proof. by destruct dep, k. Qed.

Lemma get_url_set_timestamp k i ts dep :
  get_url k (set_timestamp i ts dep) = get_url k dep.
Proof. by destruct dep, k. Qed.

Lemma releases_set_timestamp i ts dep :
  ReleaseResult.releases (set_timestamp i ts dep) =
  alter (Release.set_releaseTimestamp ts) i <$> ReleaseResult.releases dep.
Proof. by destruct dep. Qed.

(** Two results with the same releases and the same links are equal. *)
Lemma ReleaseResult_ext dep dep' :
  ReleaseResult.releases dep = ReleaseResult.releases dep' →
  (∀ k, get_url k dep = get_url k dep') → dep = dep'.
Proof.
  destruct dep, dep'. simpl. intros -> Hk.
  pose proof (Hk Homepage). pose proof (Hk SourceUrl).
  pose proof (Hk ChangelogUrl). pose proof (Hk DependencyUrl).
  simpl in *. by subst.
Qed.

End field_lemmas.

(** ** Lemmas: links *)

Section url_lemmas.
Context `{!Urls}.

(** What [massageGithubUrl] returns are the first five segments of a
    string. *)
Lemma massageGithubUrl_join url :
  ∃ t, massageGithubUrl url = Str.join "/" (take 5 (Str.split "/" t)).
Proof. unfold massageGithubUrl. by eexists. Qed.

Lemma take_split_nonempty n sep t : take (S n) (Str.split sep t) ≠ [].
Proof.
  destruct (Str.split sep t) eqn:E; [by apply split_nonempty in E|done].
Qed.

Lemma massageUrl_no_host sourceUrl :
  Js.truthy (URL_parse_hostname sourceUrl) = false →
  massageUrl sourceUrl = "".
Proof. unfold massageUrl, Js.truthy_val. by intros ->. Qed.

End url_lemmas.

(** ** Lemmas: dates *)

Section date_lemmas.
Context `{!Dates} (now : Z).

Lemma toISOString_run {S} time (s : S) :
  toISOString time s =
  match time with
  | Js.Num t =>
      if (Z.abs t <=? max_time)%Z then (Ok (iso_text t), s)
      else (Throw RangeError, s)
  | Js.NaN => (Throw RangeError, s)
  end.
Proof. destruct time as [t|]; [|done]. simpl. by destruct (_ <=? _)%Z. Qed.

(** [normalizeDate] does not touch the state. *)
Lemma normalizeDate_state {S} input (s : S) :
  (normalizeDate now input s).2 = s.
Proof.
  destruct input as [[n|str|time|]|]; simpl; try done.
  - unfold normalizeDate_number. destruct (recent now n); [|done].
    unfold bind. rewrite toISOString_run.
    destruct n as [t|]; [destruct (_ <=? _)%Z|]; done.
  - destruct (luxon_fromISO str); [done|].
    unfold normalizeDate_number. destruct (recent now _); [|done].
    unfold bind. rewrite toISOString_run.
    destruct (Date_parse str) as [t|]; [destruct (_ <=? _)%Z|]; done.
  - unfold bind. rewrite toISOString_run.
    destruct time as [t|]; [destruct (_ <=? _)%Z|]; done.
Qed.

(** Its outcome does not depend on the state. *)
Lemma normalizeDate_outcome {S S'} input (s : S) (s' : S') :
  (normalizeDate now input s).1 = (normalizeDate now input s').1.
Proof.
  destruct input as [[n|str|time|]|]; simpl; try done.
  - unfold normalizeDate_number. destruct (recent now n); [|done].
    unfold bind. rewrite !toISOString_run.
    destruct n as [t|]; [destruct (_ <=? _)%Z|]; done.
  - destruct (luxon_fromISO str); [done|].
    unfold normalizeDate_number. destruct (recent now _); [|done].
    unfold bind. rewrite !toISOString_run.
    destruct (Date_parse str) as [t|]; [destruct (_ <=? _)%Z|]; done.
  - unfold bind. rewrite !toISOString_run.
    destruct time as [t|]; [destruct (_ <=? _)%Z|]; done.
Qed.

(** A number that passes the first test is a time value when the clock
    is one. *)
Lemma recent_in_range n :
  (now + 24 * 60 * 60 * 1000 ≤ max_time)%Z →
  recent now n = true → ∃ t, n = Js.Num t ∧ (Z.abs t <=? max_time)%Z = true.
Proof.
  intros Hnow. destruct n as [t|]; [|done]. simpl.
  intros [H0%Z.ltb_lt H1%Z.leb_le]%andb_true_iff.
  exists t. split; [done|]. apply Z.leb_le. lia.
Qed.

Lemma normalizeDate_number_Ok {S} n (s : S) :
  (now + 24 * 60 * 60 * 1000 ≤ max_time)%Z →
  ∃ r, normalizeDate_number now n s = (Ok r, s).
Proof.
  intros Hnow. unfold normalizeDate_number.
  destruct (recent now n) eqn:Hr; [|by eexists].
  destruct (recent_in_range n Hnow Hr) as (t & -> & Ht).
  unfold bind. rewrite toISOString_run, Ht. by eexists.
Qed.

End date_lemmas.

(** ** Lemmas: the loop over the releases *)

Section timestamp_lemmas.
Context `{!Dates} (now : Z).

Lemma set_timestamp_twice i a b dep :
  set_timestamp i a (set_timestamp i b dep) = set_timestamp i a dep.
Proof.
  destruct dep as [[rs|] h s c d]; simpl; [|done]. do 2 f_equal.
  rewrite list_alter_alter_eq. by apply list_alter_ext.
Qed.

Lemma set_timestamp_app i ts pre r l h s c d :
  i = length pre →
  set_timestamp i ts (ReleaseResult.mk (Some (pre ++ r :: l)) h s c d) =
  ReleaseResult.mk
    (Some ((pre ++ [Release.set_releaseTimestamp ts r]) ++ l)) h s c d.
Proof.
  intros ->. simpl. do 2 f_equal.
  rewrite <- (Nat.add_0_r (length pre)), alter_app_r.
  by rewrite <- app_assoc.
Qed.

(** One round: the timestamp is removed, the date normalised, and the
    result stored when it is a string that is not empty. *)
Lemma massage_release_run i release dep :
  massage_release now i release dep =
  match (normalizeDate (S:=unit) now (Release.releaseTimestamp release) tt).1 with
  | Ok _ =>
      (Ok tt, set_timestamp i (stamp now (Release.releaseTimestamp release)) dep)
  | Throw e => (Throw e, set_timestamp i None dep)
  end.
Proof.
  unfold massage_release, stamp, bind, modify.
  set (dep1 := set_timestamp i None dep).
  pose proof (normalizeDate_state now (Release.releaseTimestamp release) dep1) as Hs.
  pose proof (normalizeDate_outcome now (Release.releaseTimestamp release) dep1 tt) as Ho.
  destruct (normalizeDate now _ dep1) as [o dep2]. simpl in Hs, Ho. subst dep2.
  rewrite <- Ho. destruct o as [[ts|]|e]; try done.
  destruct (Js.truthy (Some ts)); [|done].
  unfold dep1. by rewrite set_timestamp_twice.
Qed.

Lemma massage_loop pre l h s c d :
  for_of (imap (λ i, pair (length pre + i)) l)
    (λ '(i, release) _, massage_release now i release ;; ret (Continue tt)) tt
    (ReleaseResult.mk (Some (pre ++ l)) h s c d) =
  ((restamp now l).1,
   ReleaseResult.mk (Some (pre ++ (restamp now l).2)) h s c d).
Proof.
  revert pre. induction l as [|r l IH]; intros pre; [done|].
  rewrite imap_cons, for_of_cons. unfold bind at 1. unfold bind at 1.
  rewrite massage_release_run. cbn [restamp].
  destruct (normalizeDate now _ tt).1 as [ts|e] eqn:Hn.
  - rewrite set_timestamp_app by lia. cbn [ret].
    rewrite (imap_ext _ (λ i, pair (length (pre ++ [Release.set_releaseTimestamp
                (stamp now (Release.releaseTimestamp r)) r]) + i)))
      by (intros; rewrite length_app; simpl; f_equal; lia).
    rewrite IH. destruct (restamp now l) as [o l'']. simpl.
    by rewrite <- app_assoc.
  - rewrite set_timestamp_app by lia. simpl. by rewrite <- app_assoc.
Qed.

End timestamp_lemmas.

(** ** Lemmas: the outcome of a date *)

Section outcome_lemmas.
Context `{!Dates} (now : Z).
Hypothesis clock : (now + 24 * 60 * 60 * 1000 ≤ max_time)%Z.

Lemma toISOString_Throw {S} time (s : S) e :
  (toISOString time s).1 = Throw e ↔
  e = RangeError ∧ invalid_date (Some (InDate time)).
Proof.
  rewrite toISOString_run. unfold invalid_date. split.
  - destruct time as [t|]; [destruct (Z.leb_spec (Z.abs t) max_time)|];
      simpl; intros [= <-]; split; try done; eexists; split; try done; lia.
  - intros [-> (t' & [= <-] & Ht)].
    destruct time as [t|]; [|done].
    destruct (Z.leb_spec (Z.abs t) max_time); [lia|done].
Qed.

Lemma normalizeDate_number_never_throws {S} n (s : S) e :
  (normalizeDate_number now n s).1 ≠ Throw e.
Proof. by destruct (normalizeDate_number_Ok now n s clock) as [r ->]. Qed.

(** [normalizeDate] throws on a date object that holds no time, and on
    nothing else. *)
Lemma normalizeDate_Throw {S} input (s : S) e :
  (normalizeDate now input s).1 = Throw e ↔
  e = RangeError ∧ invalid_date input.
Proof.
  destruct input as [[n|str|time|]|]; simpl.
  - split; [by intros ?%normalizeDate_number_never_throws|].
    by intros [_ (t & [=] & _)].
  - split; [|by intros [_ (t & [=] & _)]].
    destruct (luxon_fromISO str); [done|].
    by intros ?%normalizeDate_number_never_throws.
  - rewrite <- (toISOString_Throw time s). unfold bind.
    destruct (toISOString time s) as [[iso|e'] s']; simpl; split;
      intros [=]; by subst.
  - split; [done|by intros [_ (t & [=] & _)]].
  - split; [done|by intros [_ (t & [=] & _)]].
Qed.

(** The timestamp stored is absent or a string that is not empty. *)
Lemma stamp_shape ts :
  stamp now ts = None ∨ ∃ s, stamp now ts = Some (InString s) ∧ s ≠ "".
Proof.
  unfold stamp. destruct (normalizeDate now ts tt).1 as [[[|a s]|]|e];
    simpl; eauto.
Qed.

Lemma restamp_Ok l :
  Forall (λ r, ¬ invalid_date (Release.releaseTimestamp r)) l →
  restamp now l =
  (Ok tt, (λ r, Release.set_releaseTimestamp
                  (stamp now (Release.releaseTimestamp r)) r) <$> l).
Proof.
  induction 1 as [|r l Hr _ IH]; [done|]. simpl.
  destruct (normalizeDate now _ tt).1 as [ts|e] eqn:Hn.
  - by rewrite IH.
  - apply normalizeDate_Throw in Hn as [_ Hn]. by destruct Hr.
Qed.

Lemma restamp_Throw l e :
  (restamp now l).1 = Throw e →
  e = RangeError ∧ Exists (λ r, invalid_date (Release.releaseTimestamp r)) l.
Proof.
  induction l as [|r l IH]; [done|]. simpl.
  destruct (normalizeDate now _ tt).1 as [ts|e'] eqn:Hn.
  - destruct (restamp now l) as [o l'']. simpl in *.
    intros [-> He]%IH. split; [done|by right].
  - simpl. intros [= ->]. apply normalizeDate_Throw in Hn as [-> Hn].
    split; [done|by left].
Qed.

Lemma restamp_versions l :
  Release.version <$> (restamp now l).2 = Release.version <$> l.
Proof.
  induction l as [|r l IH]; [done|]. simpl.
  destruct (normalizeDate now _ tt).1; [|done].
  destruct (restamp now l) as [o l'']. simpl in *. by f_equal.
Qed.

End outcome_lemmas.

(** ** Lemmas: the steps of addMetaData *)

Section step_lemmas.
Context `{!Urls, !Dates} (now : Z).

Lemma links_only_ret : links_only (ret tt).
Proof. intros dep. by exists dep. Qed.

Lemma links_only_set_url k v : links_only (modify (set_url k v)).
Proof. intros dep. eexists. split; [done|]. apply releases_set_url. Qed.

Lemma links_only_bind c k :
  links_only c → links_only (k tt) → links_only (bind c k).
Proof.
  intros Hc Hk dep. destruct (Hc dep) as (dep1 & Hd1 & Hr1).
  destruct (Hk dep1) as (dep2 & Hd2 & Hr2). exists dep2.
  rewrite (bind_Ok _ _ _ _ _ Hd1). split; [done|congruence].
Qed.

Lemma links_only_get (k : ReleaseResult.t → M ReleaseResult.t unit) :
  (∀ dep, links_only (k dep)) → links_only (bind get k).
Proof. intros Hk dep. unfold bind, get. apply Hk. Qed.

End step_lemmas.

#[export] Hint Resolve links_only_ret links_only_set_url : adapter.

(** [solve_links] proves that a step changes links only, along the
    structure of the step. *)
Ltac solve_links :=
  repeat (cbv zeta; match goal with
  | |- links_only (bind get _) => apply links_only_get; intro
  | |- links_only (bind _ _) => apply links_only_bind
  | |- links_only (match ?x with _ => _ end) => destruct x
  | |- links_only (if ?b then _ else _) => destruct b
  | |- links_only _ => solve [eauto with adapter]
  end).

Section steps.
Context `{!Urls, !Dates} (now : Z).

Lemma setSourceUrlToHomepage_links : links_only setSourceUrlToHomepage.
Proof. unfold setSourceUrlToHomepage. solve_links. Qed.

Lemma manual_urls_links ds pkg : links_only (manual_urls ds pkg).
Proof. unfold manual_urls. solve_links. Qed.

Lemma fallback_sourceUrl_links : links_only fallback_sourceUrl.
Proof.
  unfold fallback_sourceUrl. pose proof setSourceUrlToHomepage_links.
  solve_links.
Qed.

Lemma massage_sourceUrl_links : links_only massage_sourceUrl.
Proof. unfold massage_sourceUrl. solve_links. Qed.

Lemma clean_url_run k dep :
  clean_url k dep = (Ok tt, set_url k (clean (get_url k dep)) dep).
Proof.
  unfold clean_url, clean, bind, get. destruct (get_url k dep) as [v|]; [|done].
  by destruct (validateUrl _).
Qed.

(** The loop that cleans the links returns, and leaves of every link
    its trimmed text when that is a valid URL and nothing otherwise. *)
Lemma clean_urls_run dep :
  ∃ dep', clean_urls dep = (Ok tt, dep') ∧
          ReleaseResult.releases dep' = ReleaseResult.releases dep ∧
          ∀ k, get_url k dep' = clean (get_url k dep).
Proof.
  unfold clean_urls, urlKeys. simpl. unfold bind at 1. unfold bind at 1.
  repeat (rewrite clean_url_run; cbn [ret]; unfold bind at 1; unfold bind at 1).
  rewrite clean_url_run. eexists. split; [done|].
  split; [by rewrite !releases_set_url|].
  intros k. destruct k;
    repeat first [rewrite get_set_url | rewrite get_set_url_ne by done]; done.
Qed.

Lemma clean_urls_links : links_only clean_urls.
Proof. intros dep. destruct (clean_urls_run dep) as (dep' & ? & ? & _). eauto. Qed.

(** What follows the timestamps returns and changes links only. *)
Lemma links_steps ds pkg :
  links_only (manual_urls ds pkg ;; fallback_sourceUrl ;;
              massage_sourceUrl ;; clean_urls).
Proof.
  apply links_only_bind; [apply manual_urls_links|].
  apply links_only_bind; [apply fallback_sourceUrl_links|].
  apply links_only_bind; [apply massage_sourceUrl_links|apply clean_urls_links].
Qed.

Lemma massageTimestamps_run dep :
  massageTimestamps now dep =
  ((restamp now (default [] (ReleaseResult.releases dep))).1,
   set_releases (restamp now (default [] (ReleaseResult.releases dep))).2 dep).
Proof.
  destruct dep as [[rs|] h s c d]; [|done].
  apply (massage_loop now [] rs).
Qed.

Lemma get_url_set_releases k l dep : get_url k (set_releases l dep) = get_url k dep.
Proof. by destruct dep, k. Qed.

End steps.

(** ** Theorems *)

Section metadata_theorems.
Context `{!Urls, !Dates} (now : Z).

Lemma restamp_Ok_shape l :
  (restamp now l).1 = Ok tt →
  Forall (λ r, Release.releaseTimestamp r = None ∨
               ∃ s, Release.releaseTimestamp r = Some (InString s) ∧ s ≠ "")
    (restamp now l).2.
Proof.
  induction l as [|r l IH]; [by constructor|]. simpl.
  destruct (normalizeDate now _ tt).1; [|done].
  destruct (restamp now l) as [o l'']. simpl in *. intros Ho.
  constructor; [apply stamp_shape|by apply IH].
Qed.

Lemma addMetaData_run ds pkg dep :
  ∃ dep1, massageTimestamps now dep =
            ((restamp now (default [] (ReleaseResult.releases dep))).1, dep1) ∧
          (∀ k, get_url k dep1 = get_url k dep) ∧
          match (restamp now (default [] (ReleaseResult.releases dep))).1 with
          | Ok _ =>
              ∃ dep0 dep',
                addMetaData now ds pkg dep = (Ok tt, dep') ∧
                ReleaseResult.releases dep' = ReleaseResult.releases dep1 ∧
                ∀ k, get_url k dep' = clean (get_url k dep0)
          | Throw e => addMetaData now ds pkg dep = (Throw e, dep1)
          end.
Proof.
  eexists. split; [apply massageTimestamps_run|].
  split; [intros k; apply get_url_set_releases|].
  destruct (restamp now _).1 as [[]|e] eqn:Hr;
    unfold addMetaData; unfold bind at 1;
    rewrite massageTimestamps_run, Hr; [|done].
  set (dep1 := set_releases _ dep).
  assert (links_only (manual_urls ds pkg ;; fallback_sourceUrl ;;
                      massage_sourceUrl)) as Hl.
  { apply links_only_bind; [apply manual_urls_links|].
    apply links_only_bind;
      [apply fallback_sourceUrl_links|apply massage_sourceUrl_links]. }
  destruct (Hl dep1) as (dep0 & Hd0 & Hr0).
  destruct (clean_urls_run dep0) as (dep' & Hd' & Hr' & Hk).
  exists dep0, dep'. split; [|split; [congruence|done]].
  revert Hd0. unfold bind.
  destruct (manual_urls ds pkg dep1) as [[[]|?] d2]; [|done].
  destruct (fallback_sourceUrl d2) as [[[]|?] d3]; [|done].
  destruct (massage_sourceUrl d3) as [[[]|?] d4]; [|done].
  by intros [= ->].
Qed.

(** The result of [massageGithubUrl] has at most five segments
    between slashes, whatever the link: the scheme, the empty segment
    after it, the host and two segments of the path. *)
Theorem massageGithubUrl_depth url :
  length (Str.split "/" (massageGithubUrl url)) ≤ 5.
Proof.
  destruct (massageGithubUrl_join url) as [t ->].
  rewrite split_join.
  - rewrite length_take. lia.
  - apply take_split_nonempty.
  - apply Forall_take, split_free.
Qed.

(** A number is a date when it is positive and at most one day ahead
    of the clock, and then the date is its ISO text; every other number
    is no date, and no number makes [normalizeDate] throw. *)
Theorem normalizeDate_number_window {S} t (s : S) :
  (now + 24 * 60 * 60 * 1000 ≤ max_time)%Z →
  normalizeDate now (Some (InNumber (Js.Num t))) s =
  (Ok (if (0 <? t)%Z && (t <=? now + 86400000)%Z
       then Some (iso_text t) else None), s).
Proof.
  intros Hnow. cbn [normalizeDate]. unfold normalizeDate_number, recent.
  change (24 * 60 * 60 * 1000)%Z with 86400000%Z in *.
  destruct ((0 <? t)%Z && (t <=? now + 86400000)%Z) eqn:Hr; [|done].
  apply andb_true_iff in Hr as [Hlo%Z.ltb_lt Hhi%Z.leb_le].
  unfold bind. rewrite toISOString_run.
  destruct (Z.leb_spec (Z.abs t) max_time); [done|lia].
Qed.

(** When [massageTimestamps] returns, every release has its version
    and either no timestamp or a string that is not empty. *)
Theorem massageTimestamps_stamps dep dep' :
  massageTimestamps now dep = (Ok tt, dep') →
  Release.version <$> default [] (ReleaseResult.releases dep') =
    Release.version <$> default [] (ReleaseResult.releases dep) ∧
  Forall (λ r, Release.releaseTimestamp r = None ∨
               ∃ s, Release.releaseTimestamp r = Some (InString s) ∧ s ≠ "")
    (default [] (ReleaseResult.releases dep')).
Proof.
  rewrite massageTimestamps_run. intros [= Ho <-].
  destruct dep as [[rs|] h s c d]; simpl in *; [|by split].
  split; [apply restamp_versions|by apply restamp_Ok_shape].
Qed.

(** C28: when [addMetaData] returns, every link of the result is a valid
    URL: the homepage, the source, the changelog and the dependency link
    are absent or accepted by [validateUrl]. *)
Theorem addMetaData_links_valid ds pkg dep dep' k v :
  addMetaData now ds pkg dep = (Ok tt, dep') →
  get_url k dep' = Some v → validateUrl v = true.
Proof.
  destruct (addMetaData_run ds pkg dep) as (dep1 & _ & _ & Hrun).
  destruct (restamp now _).1 as [[]|e];
    [destruct Hrun as (dep0 & dep2 & -> & _ & Hk)|by rewrite Hrun].
  intros [= <-]. rewrite Hk. unfold clean.
  destruct (get_url k dep0) as [u|]; [|done].
  destruct (validateUrl (Js.trim u)) eqn:Hu; [|done]. by intros [= <-].
Qed.

(** C29: [addMetaData] throws only a [RangeError], only when a release
    holds a date object without a time, and then it has changed no link:
    the result keeps the links it had and the timestamps up to that
    release are rewritten. *)
Theorem addMetaData_throws ds pkg dep dep' e :
  (now + 24 * 60 * 60 * 1000 ≤ max_time)%Z →
  addMetaData now ds pkg dep = (Throw e, dep') →
  e = RangeError ∧
  Exists (λ r, invalid_date (Release.releaseTimestamp r))
    (default [] (ReleaseResult.releases dep)) ∧
  ∀ k, get_url k dep' = get_url k dep.
Proof.
  intros Hnow. destruct (addMetaData_run ds pkg dep) as (dep1 & _ & Hk & Hrun).
  destruct (restamp now _).1 as [[]|e'] eqn:Hr.
  - destruct Hrun as (dep0 & dep2 & -> & _). done.
  - rewrite Hrun. intros [= -> ->].
    apply (restamp_Throw now Hnow) in Hr as [-> Hex]. done.
Qed.

(** C39: [addMetaData] returns when no release holds a date object
    without a time, and the releases of the result are those of the
    argument with their timestamps normalised. *)
Theorem addMetaData_returns ds pkg dep :
  (now + 24 * 60 * 60 * 1000 ≤ max_time)%Z →
  Forall (λ r, ¬ invalid_date (Release.releaseTimestamp r))
    (default [] (ReleaseResult.releases dep)) →
  ∃ dep', addMetaData now ds pkg dep = (Ok tt, dep') ∧
          ReleaseResult.releases dep' =
            (λ rs : list Release.t,
               (λ r, Release.set_releaseTimestamp
                       (stamp now (Release.releaseTimestamp r)) r) <$> rs)
            <$> ReleaseResult.releases dep.
Proof.
  intros Hnow Hv.
  destruct (addMetaData_run ds pkg dep) as (dep1 & Hm & _ & Hrun).
  rewrite massageTimestamps_run in Hm.
  rewrite (restamp_Ok now Hnow _ Hv) in Hrun, Hm. simpl in *.
  destruct Hrun as (dep0 & dep' & Hrun & Hr & _).
  exists dep'. split; [done|]. rewrite Hr. injection Hm as <-.
  by destruct dep as [[rs|] h s c d].
Qed.

End metadata_theorems.

Section pattern_theorems.

(** The pattern [githubPages] takes more than the pages of GitHub:
    its dots are not escaped, so every link [https://u?github?com/v],
    with any character but a line break for each [?], a [u] without a dot
    and a [v] without a slash, is a match. *)
Theorem githubPages_loose (u v : string) (c1 c2 : ascii) :
  u ≠ "" → Re.all_in not_dot u = true →
  v ≠ "" → Re.all_in not_slash v = true →
  Re.dot c1 = true → Re.dot c2 = true →
  ∃ m, Re.exec_with githubPages_anchors githubPages
         ("https://" +:+ u +:+ String c1 ("github" +:+ String c2 ("com/" +:+ v)))
       = Some m ∧ Re.index m = 0 ∧ Re.rest m = "".
Proof.
  intros Hu Hud Hv Hvs Hc1 Hc2.
  set (p := "https://" +:+ u +:+ String c1 ("github" +:+ String c2 ("com/" +:+ v))).
  assert (Re.matches githubPages p [("1", u); ("2", v)]) as Hm.
  { apply (Re.matches_Seq _ _ "https://" _ [] _ (Re.matches_Lit _)).
    apply (Re.matches_Seq _ _ u _ [("1", u)] [("2", v)]).
    { apply (Re.matches_Group "1" _ u []). constructor; [done|].
      destruct u; [done|simpl; lia]. }
    apply (Re.matches_Seq _ _ (String c1 "") _ [] _ (Re.matches_Chr _ _ Hc1)).
    apply (Re.matches_Seq _ _ "github" _ [] _ (Re.matches_Lit _)).
    apply (Re.matches_Seq _ _ (String c2 "") _ [] _ (Re.matches_Chr _ _ Hc2)).
    apply (Re.matches_Seq _ _ "com/" _ [] _ (Re.matches_Lit _)).
    apply (Re.matches_Group "2" _ v []). constructor; [done|].
    destruct v; [done|simpl; lia]. }
  destruct (exec_with_complete githubPages_anchors githubPages "" p _ "" Hm)
    as [m Hx]; [done..|].
  rewrite string_app_nil_l, string_app_nil_r in Hx.
  exists m. split; [done|].
  apply exec_with_sound in Hx as (_ & _ & Hi & Hr). split; auto.
Qed.

End pattern_theorems.

(** ** The results of the examples *)

Lemma test_clock : (test_now + 24 * 60 * 60 * 1000 ≤ max_time)%Z.
Proof. by vm_compute. Defined.

Lemma normalizeDate_number_window_witness :
  normalizeDate test_now (Some (InNumber (Js.Num 1600000000000))) tt =
  (Ok (Some "T1600000000000"), tt).
Proof. exact (normalizeDate_number_window test_now 1600000000000 tt test_clock). Defined.

Lemma massageTimestamps_stamps_witness :
  Release.version <$>
    default [] (ReleaseResult.releases (massageTimestamps test_now test_dep).2) =
    ["1.0.0"; "1.1.0"; "2.0.0"; "3.0.0"] ∧
  Forall (λ r, Release.releaseTimestamp r = None ∨
               ∃ s, Release.releaseTimestamp r = Some (InString s) ∧ s ≠ "")
    (default [] (ReleaseResult.releases (massageTimestamps test_now test_dep).2)).
Proof.
  apply (massageTimestamps_stamps test_now test_dep). by vm_compute.
Defined.

Lemma addMetaData_links_valid_witness :
  validateUrl "https://github.com/foo/bar" = true.
Proof.
  apply (addMetaData_links_valid test_now "npm" "left-pad" test_dep
           (addMetaData test_now "npm" "left-pad" test_dep).2 SourceUrl);
    by vm_compute.
Defined.

Lemma addMetaData_throws_witness :
  RangeError = RangeError ∧
  Exists (λ r, invalid_date (Release.releaseTimestamp r))
    (default [] (ReleaseResult.releases test_dep_invalid)) ∧
  ∀ k, get_url k (addMetaData test_now "npm" "left-pad" test_dep_invalid).2 =
       get_url k test_dep_invalid.
Proof.
  apply (addMetaData_throws test_now "npm" "left-pad"); [apply test_clock|].
  by vm_compute.
Defined.

Lemma addMetaData_returns_witness :
  ∃ dep', addMetaData test_now "npm" "left-pad" test_dep = (Ok tt, dep') ∧
          ReleaseResult.releases dep' =
            (λ rs : list Release.t,
               (λ r, Release.set_releaseTimestamp
                       (stamp test_now (Release.releaseTimestamp r)) r) <$> rs)
            <$> ReleaseResult.releases test_dep.
Proof.
  apply (addMetaData_returns test_now "npm" "left-pad" test_dep test_clock).
  repeat constructor; by intros (t & [=] & _).
Defined.

Lemma githubPages_loose_witness :
  ∃ m, Re.exec_with githubPages_anchors githubPages "https://my-github.com/repo"
       = Some m ∧ Re.index m = 0 ∧ Re.rest m = "".
Proof.
  by apply (githubPages_loose "my" "repo" "-" ".").
Defined.

(** The forms of a GitHub link. *)
Example massageGithubUrl_test :
  massageGithubUrl "git@github.com:foo/bar" = "https://github.com/foo/bar" ∧
  massageGithubUrl "git://github.com/foo/bar/tree/main/docs" =
    "https://github.com/foo/bar" ∧
  massageGithubUrl "http://www.github.com/foo/bar/" =
    "https://github.com/foo/bar" ∧
  massageGithubUrl "https://foo.github.com/bar" = "https://github.com/foo/bar".
Proof. by vm_compute. Qed.

(** A host that only resembles a page of GitHub is rewritten as one. *)
Example massageGithubUrl_loose :
  massageGithubUrl "https://my-github.com/repo" = "https://github.com/my/repo".
Proof. by vm_compute. Qed.

(** The forms of a GitLab link; the pattern of the tree has the [i]
    flag. *)
Example massageGitlabUrl_test :
  massageGitlabUrl "http://gitlab.com/foo/bar.git/tree/main/" =
    "https://gitlab.com/foo/bar" ∧
  massageGitlabUrl "https://gitlab.com/foo/bar/TREE/x" =
    "https://gitlab.com/foo/bar".
Proof. by vm_compute. Qed.

(** [.replace('.git', '')] removes the first [.git] of the link, which
    need not be its end. *)
Example massageGitlabUrl_first_git :
  massageGitlabUrl "https://gitlab.com/group/my.github.io.git" =
    "https://gitlab.com/group/myhub.io.git".
Proof. by vm_compute. Qed.

(** A run of [addMetaData]: the timestamps are normalised or removed,
    the source link is massaged, the homepage that equals it is removed,
    the changelog is trimmed and the link that is no URL is removed. *)
Example addMetaData_test :
  addMetaData test_now "npm" "left-pad" test_dep =
  (Ok tt,
   {| ReleaseResult.releases :=
        Some [Release.mk "1.0.0" (Some (InString "2020-01-01T00:00:00Z"));
              Release.mk "1.1.0" (Some (InString "T1600000000000"));
              Release.mk "2.0.0" None;
              Release.mk "3.0.0" None];
      ReleaseResult.homepage := None;
      ReleaseResult.sourceUrl := Some "https://github.com/foo/bar";
      ReleaseResult.changelogUrl := Some "https://github.com/foo/bar/releases";
      ReleaseResult.dependencyUrl := None |}).
Proof. by vm_compute. Qed.

(** A date object without a time in the second release: the first
    release is rewritten, the second has lost its timestamp, the third
    and the links are as they were. *)
Example addMetaData_invalid_date :
  addMetaData test_now "npm" "left-pad" test_dep_invalid =
  (Throw RangeError,
   {| ReleaseResult.releases :=
        Some [Release.mk "1.0.0" (Some (InString "2020-01-01T00:00:00Z"));
              Release.mk "1.1.0" None;
              Release.mk "2.0.0" (Some (InString "2021-01-01T00:00:00Z"))];
      ReleaseResult.homepage := Some "https://github.com/foo/bar";
      ReleaseResult.sourceUrl := None;
      ReleaseResult.changelogUrl := None;
      ReleaseResult.dependencyUrl := None |}).
Proof. by vm_compute. Qed.

(** The tables of [metadata-manual] take precedence over the links of
    the datasource, and the name of the package is looked up in lower
    case. *)
Example addMetaData_manual :
  ReleaseResult.sourceUrl
    (addMetaData test_now "orb" "Cypress-IO/Cypress" test_dep).2 =
  Some "https://github.com/cypress-io/circleci-orb".
Proof. by vm_compute. Qed.

(** The homepage that repeats the source link is removed before the
    links are trimmed: a homepage that differs from the source link by a
    space stays, and after the trim the two links are the same. *)
Example addMetaData_duplicate_homepage :
  let dep := {| ReleaseResult.releases := None;
                ReleaseResult.homepage := Some "https://github.com/foo/bar ";
                ReleaseResult.sourceUrl := Some "https://github.com/foo/bar";
                ReleaseResult.changelogUrl := None;
                ReleaseResult.dependencyUrl := None |} in
  let dep' := (addMetaData test_now "npm" "left-pad" dep).2 in
  ReleaseResult.homepage dep' = Some "https://github.com/foo/bar" ∧
  ReleaseResult.sourceUrl dep' = Some "https://github.com/foo/bar".
Proof. by vm_compute. Qed.
