(* ===== verification/Schema.v ===== *)
(** * Schema: the shape of a custom datasource result

    [src/lib/modules/datasource/custom/schema.ts] declares
    [ReleaseResultZodSchema] with the combinators of zod.  A schema is a
    function from a value that may be [undefined] to the parsed value, or
    to nothing when zod reports an error; the combinators of [Module Zod]
    follow the documentation of zod: [string] and [boolean] accept the
    values of their type, [optional] accepts [undefined] as well and
    [null] not, [array] and [record] parse every element, and an [object]
    reads the keys it declares and drops every other.  The input is a
    value of JSON; an object is the list of its fields, each key once.

    The theorems: which values the schema accepts, that keys it does not
    declare have no effect, that the digest of a release comes out under
    the name [newDigest], and that the schema does not accept its own
    output unchanged. *)

From S2P Require Import Prelude.

(** ** Values *)

Inductive json : Type :=
| JNull
| JBool (b : bool)
| JNum (n : Z)
| JStr (s : string)
| JArr (l : list json)
| JObj (fields : list (string * json)).

(** [o[k]]: the value of the field, [undefined] when there is none. *)
Definition field (k : string) (o : list (string * json)) : option json :=
  snd <$> head (filter (λ kv, kv.1 = k) o).

(** ** The combinators of zod *)

Module Zod.

Definition Schema (A : Type) : Type := option json → option A.

Definition string : Schema String.string := λ v,
  match v with Some (JStr s) => Some s | _ => None end.

Definition boolean : Schema bool := λ v,
  match v with Some (JBool b) => Some b | _ => None end.

Definition optional {A} (p : Schema A) : Schema (option A) := λ v,
  match v with
  | None => Some None
  | Some _ => Some <$> p v
  end.

Definition array {A} (p : Schema A) : Schema (list A) := λ v,
  match v with
  | Some (JArr l) => mapM (λ x, p (Some x)) l
  | _ => None
  end.

(** [z.record(z.string(), p)]: the keys of an object are strings. *)
Definition record {A} (p : Schema A) : Schema (list (String.string * A)) :=
  λ v,
  match v with
  | Some (JObj o) => mapM (λ kv, pair kv.1 <$> p (Some kv.2)) o
  | _ => None
  end.

(** [z.object({...})]: the fields are read off an object. *)
Definition object {A} (shape : list (String.string * json) → option A)
  : Schema A :=
  λ v, match v with
       | Some (JObj o) => shape o
       | _ => None
       end.

Definition transform {A B} (p : Schema A) (f : A → B) : Schema B :=
  λ v, f <$> p v.

End Zod.

(** ** The schema *)

(** What the inner object schema gives, lines 6-14. *)
Module ReleaseInput.
Record t : Type := mk {
  version : string;
  isDeprecated : option bool;
  releaseTimestamp : option string;
  sourceUrl : option string;
  sourceDirectory : option string;
  changelogUrl : option string;
  digest : option string;
}.
End ReleaseInput.

(** What the transformation gives, lines 15-21. *)
Module ParsedRelease.
Record t : Type := mk {
  version : string;
  isDeprecated : option bool;
  releaseTimestamp : option string;
  sourceUrl : option string;
  sourceDirectory : option string;
  changelogUrl : option string;
  digest : option string;
  newDigest : option string;
}.
End ParsedRelease.

Module ParsedResult.
Record t : Type := mk {
  releases : list ParsedRelease.t;
  tags : option (list (string * string));
  sourceUrl : option string;
  sourceDirectory : option string;
  changelogUrl : option string;
  homepage : option string;
}.
End ParsedResult.

#[export] Instance ParsedRelease_eq_dec : EqDecision ParsedRelease.t.
Proof. solve_decision. Defined.
#[export] Instance ParsedResult_eq_dec : EqDecision ParsedResult.t.
Proof. solve_decision. Defined.

Definition release_object : Zod.Schema ReleaseInput.t :=
  Zod.object (λ o,
    version ← Zod.string (field "version" o);
    isDeprecated ← Zod.optional Zod.boolean (field "isDeprecated" o);
    releaseTimestamp ← Zod.optional Zod.string (field "releaseTimestamp" o);
    sourceUrl ← Zod.optional Zod.string (field "sourceUrl" o);
    sourceDirectory ← Zod.optional Zod.string (field "sourceDirectory" o);
    changelogUrl ← Zod.optional Zod.string (field "changelogUrl" o);
    digest ← Zod.optional Zod.string (field "digest" o);
    Some (ReleaseInput.mk version isDeprecated releaseTimestamp sourceUrl
            sourceDirectory changelogUrl digest)).

(** [{ ...input, newDigest: input.digest, digest: undefined }] *)
Definition release_transform (input : ReleaseInput.t) : ParsedRelease.t :=
  {| ParsedRelease.version := ReleaseInput.version input;
     ParsedRelease.isDeprecated := ReleaseInput.isDeprecated input;
     ParsedRelease.releaseTimestamp := ReleaseInput.releaseTimestamp input;
     ParsedRelease.sourceUrl := ReleaseInput.sourceUrl input;
     ParsedRelease.sourceDirectory := ReleaseInput.sourceDirectory input;
     ParsedRelease.changelogUrl := ReleaseInput.changelogUrl input;
     ParsedRelease.digest := None;
     ParsedRelease.newDigest := ReleaseInput.digest input |}.

Definition release_schema : Zod.Schema ParsedRelease.t :=
  Zod.transform release_object release_transform.

Definition ReleaseResultZodSchema : Zod.Schema ParsedResult.t :=
  Zod.object (λ o,
    releases ← Zod.array release_schema (field "releases" o);
    tags ← Zod.optional (Zod.record Zod.string) (field "tags" o);
    sourceUrl ← Zod.optional Zod.string (field "sourceUrl" o);
    sourceDirectory ← Zod.optional Zod.string (field "sourceDirectory" o);
    changelogUrl ← Zod.optional Zod.string (field "changelogUrl" o);
    homepage ← Zod.optional Zod.string (field "homepage" o);
    Some (ParsedResult.mk releases tags sourceUrl sourceDirectory
            changelogUrl homepage)).

(** ** The values the schema describes *)

(** The field is absent or a string, absent or a boolean. *)
Definition opt_string (v : option json) : Prop :=
  v = None ∨ ∃ s, v = Some (JStr s).

Definition opt_boolean (v : option json) : Prop :=
  v = None ∨ ∃ b, v = Some (JBool b).

Definition release_keys : list string :=
  ["version"; "isDeprecated"; "releaseTimestamp"; "sourceUrl";
   "sourceDirectory"; "changelogUrl"; "digest"].

Definition is_release (j : json) : Prop :=
  ∃ o, j = JObj o ∧
       (∃ s, field "version" o = Some (JStr s)) ∧
       opt_boolean (field "isDeprecated" o) ∧
       Forall (λ k, opt_string (field k o))
         ["releaseTimestamp"; "sourceUrl"; "sourceDirectory"; "changelogUrl";
          "digest"].

(** The object a parsed release is when it is written out: a field
    whose value is [undefined] is absent. *)
Definition opt_field (k : string) (v : option string) : list (string * json) :=
  match v with Some s => [(k, JStr s)] | None => [] end.

Definition release_json (r : ParsedRelease.t) : json :=
  JObj ([("version", JStr (ParsedRelease.version r))] ++
        match ParsedRelease.isDeprecated r with
        | Some b => [("isDeprecated", JBool b)]
        | None => []
        end ++
        opt_field "releaseTimestamp" (ParsedRelease.releaseTimestamp r) ++
        opt_field "sourceUrl" (ParsedRelease.sourceUrl r) ++
        opt_field "sourceDirectory" (ParsedRelease.sourceDirectory r) ++
        opt_field "changelogUrl" (ParsedRelease.changelogUrl r) ++
        opt_field "digest" (ParsedRelease.digest r) ++
        opt_field "newDigest" (ParsedRelease.newDigest r)).

(** ** Values to run on *)

Definition test_release : json :=
  JObj [("version", JStr "1.0.0"); ("digest", JStr "sha256:0a1b");
        ("releaseTimestamp", JStr "2020-01-01"); ("extra", JNum 1)].

Definition test_result : json :=
  JObj [("releases", JArr [test_release; JObj [("version", JStr "1.1.0")]]);
        ("tags", JObj [("latest", JStr "1.1.0")]);
        ("homepage", JStr "https://example.org")].

(** ** Lemmas *)

Section schema_lemmas.

Lemma field_app_ne k k' v o :
  k ≠ k' → field k (o ++ [(k', v)]) = field k o.
Proof.
  intros Hk. unfold field. rewrite filter_app.
  rewrite (filter_cons_False _ (k', v)) by (simpl; congruence).
  by rewrite filter_nil, app_nil_r.
Qed.

Lemma optional_string_Some v :
  is_Some (Zod.optional Zod.string v) ↔ opt_string v.
Proof.
  unfold opt_string. split.
  - destruct v as [[| | |s| |]|]; intros [x Hx]; try done; eauto.
  - intros [->|[s ->]]; by eexists.
Qed.

Lemma optional_boolean_Some v :
  is_Some (Zod.optional Zod.boolean v) ↔ opt_boolean v.
Proof.
  unfold opt_boolean. split.
  - destruct v as [[|b| | | |]|]; intros [x Hx]; try done; eauto.
  - intros [->|[b ->]]; by eexists.
Qed.

Lemma string_Some v : is_Some (Zod.string v) ↔ ∃ s, v = Some (JStr s).
Proof.
  split.
  - destruct v as [[| | |s| |]|]; intros [x Hx]; try done; eauto.
  - intros [s ->]. by eexists.
Qed.

Lemma bind_is_Some {A B} (o : option A) (k : A → option B) :
  is_Some (o ≫= k) ↔ ∃ a, o = Some a ∧ is_Some (k a).
Proof.
  destruct o as [a|]; simpl.
  - split; [eauto|]. by intros (? & [= <-] & ?).
  - split; [by intros [? ?]|]. by intros (? & ? & ?).
Qed.

End schema_lemmas.

(** ** Theorems *)

Section schema_theorems.

Lemma field_insert_ne k k' v o1 o2 :
  k ≠ k' → field k (o1 ++ (k', v) :: o2) = field k (o1 ++ o2).
Proof.
  intros Hk. unfold field. rewrite !filter_app.
  by rewrite (filter_cons_False _ (k', v)) by (simpl; congruence).
Qed.

(** The equation of the inner object schema. *)
Lemma release_object_fields o :
  release_object (Some (JObj o)) =
  version ← Zod.string (field "version" o);
  isDeprecated ← Zod.optional Zod.boolean (field "isDeprecated" o);
  releaseTimestamp ← Zod.optional Zod.string (field "releaseTimestamp" o);
  sourceUrl ← Zod.optional Zod.string (field "sourceUrl" o);
  sourceDirectory ← Zod.optional Zod.string (field "sourceDirectory" o);
  changelogUrl ← Zod.optional Zod.string (field "changelogUrl" o);
  digest ← Zod.optional Zod.string (field "digest" o);
  Some (ReleaseInput.mk version isDeprecated releaseTimestamp sourceUrl
          sourceDirectory changelogUrl digest).
Proof. reflexivity. Qed.

Lemma release_object_not_object v :
  (∀ o, v ≠ Some (JObj o)) → release_object v = None.
Proof. intros Hv. destruct v as [[]|]; try done. by destruct (Hv fields). Qed.

(** C30: the values the schema of a release accepts are the objects with
    a string for a version, a boolean or nothing for [isDeprecated], and a
    string or nothing for each of the five other fields; [null] is not
    nothing. *)
Theorem release_schema_accepts (j : json) :
  is_Some (release_schema (Some j)) ↔ is_release j.
Proof.
  unfold release_schema, Zod.transform. rewrite fmap_is_Some. split.
  - destruct j as [| | | | |o]; try by intros [? ?].
    rewrite release_object_fields.
    intros (v & Hv & (d & Hd & (t & Ht & (s & Hs & (sd & Hsd &
            (c & Hc & (g & Hg & _)%bind_is_Some)%bind_is_Some)%bind_is_Some)
            %bind_is_Some)%bind_is_Some)%bind_is_Some)%bind_is_Some.
    exists o. split; [done|]. split; [by apply string_Some|].
    split; [by apply optional_boolean_Some|].
    repeat (apply Forall_cons; split; [by apply optional_string_Some|]).
    by apply Forall_nil.
  - intros (o & -> & [v Hv] & Hd%optional_boolean_Some & Hf).
    repeat match goal with
           | H : Forall _ (_ :: _) |- _ =>
               apply Forall_cons in H as [?%optional_string_Some H]
           end.
    rewrite release_object_fields, Hv. simpl.
    repeat match goal with
           | H : is_Some (Zod.optional _ _) |- _ => destruct H as [? ->]
           end.
    by eexists.
Qed.

(** What a release is parsed to: its digest is under [newDigest],
    the field [digest] holds nothing, and the version is the string of
    the input. *)
Theorem release_schema_moves_digest o r :
  release_schema (Some (JObj o)) = Some r →
  ParsedRelease.digest r = None ∧
  ParsedRelease.newDigest r =
    match field "digest" o with Some (JStr s) => Some s | _ => None end ∧
  field "version" o = Some (JStr (ParsedRelease.version r)).
Proof.
  unfold release_schema, Zod.transform. rewrite release_object_fields.
  intros (i & Hi & ->)%fmap_Some.
  repeat match type of Hi with
         | _ ≫= _ = Some _ => apply bind_Some in Hi as (? & ? & Hi)
         end.
  injection Hi as <-. simpl.
  destruct (field "version" o) as [[| | |v| |]|]; simplify_eq/=.
  destruct (field "digest" o) as [[| | |g| |]|]; by simplify_eq/=.
Qed.

(** A field the schema does not declare has no effect: an object
    with such a field, wherever it stands, is parsed as the object
    without it. *)
Theorem release_schema_strips k v o1 o2 :
  k ∉ release_keys →
  release_schema (Some (JObj (o1 ++ (k, v) :: o2))) =
  release_schema (Some (JObj (o1 ++ o2))).
Proof.
  intros Hk. unfold release_schema, Zod.transform.
  rewrite !release_object_fields.
  rewrite !(field_insert_ne _ k) by
    (intros <-; apply Hk; unfold release_keys; repeat constructor).
  done.
Qed.

(** The schema does not take its own output for what it was: a
    parsed release written out and parsed again has lost its digest,
    because [newDigest] is no field of the schema. *)
Theorem release_schema_reparse r :
  ParsedRelease.digest r = None →
  release_schema (Some (release_json r)) =
  Some {| ParsedRelease.version := ParsedRelease.version r;
          ParsedRelease.isDeprecated := ParsedRelease.isDeprecated r;
          ParsedRelease.releaseTimestamp := ParsedRelease.releaseTimestamp r;
          ParsedRelease.sourceUrl := ParsedRelease.sourceUrl r;
          ParsedRelease.sourceDirectory := ParsedRelease.sourceDirectory r;
          ParsedRelease.changelogUrl := ParsedRelease.changelogUrl r;
          ParsedRelease.digest := None;
          ParsedRelease.newDigest := None |}.
Proof.
  destruct r as [v [b|] [t|] [s|] [sd|] [c|] d [nd|]]; simpl;
    intros ->; reflexivity.
Qed.

(** The result needs its releases: an object without an array of
    releases is rejected. *)
Lemma ReleaseResultZodSchema_requires_releases o :
  (∀ l, field "releases" o ≠ Some (JArr l)) →
  ReleaseResultZodSchema (Some (JObj o)) = None.
Proof.
  intros Hr. unfold ReleaseResultZodSchema, Zod.object, Zod.array.
  destruct (field "releases" o) as [[| | | |l|]|]; try done.
  by destruct (Hr l).
Qed.

End schema_theorems.

(** ** The results of the examples *)

Lemma release_schema_moves_digest_witness :
  let r := ParsedRelease.mk "1.0.0" None (Some "2020-01-01") None None None
             None (Some "sha256:0a1b") in
  ParsedRelease.digest r = None ∧
  ParsedRelease.newDigest r = Some "sha256:0a1b" ∧
  field "version"
    [("version", JStr "1.0.0"); ("digest", JStr "sha256:0a1b");
     ("releaseTimestamp", JStr "2020-01-01"); ("extra", JNum 1)] =
  Some (JStr (ParsedRelease.version r)).
Proof.
  by apply (release_schema_moves_digest
              [("version", JStr "1.0.0"); ("digest", JStr "sha256:0a1b");
               ("releaseTimestamp", JStr "2020-01-01"); ("extra", JNum 1)]).
Defined.

Lemma release_schema_strips_witness :
  release_schema (Some test_release) =
  release_schema
    (Some (JObj [("version", JStr "1.0.0"); ("digest", JStr "sha256:0a1b");
                 ("releaseTimestamp", JStr "2020-01-01")])).
Proof.
  apply (release_schema_strips "extra" (JNum 1)
           [("version", JStr "1.0.0"); ("digest", JStr "sha256:0a1b");
            ("releaseTimestamp", JStr "2020-01-01")] []).
  by apply (bool_decide_unpack _).
Defined.

Lemma release_schema_reparse_witness :
  ParsedRelease.newDigest <$>
    (release_schema (Some test_release) ≫= λ r,
       release_schema (Some (release_json r))) = Some None.
Proof.
  change (release_schema (Some test_release))
    with (Some (ParsedRelease.mk "1.0.0" None (Some "2020-01-01") None None
                  None None (Some "sha256:0a1b"))).
  simpl mbind.
  by rewrite (release_schema_reparse
                (ParsedRelease.mk "1.0.0" None (Some "2020-01-01") None None
                   None None (Some "sha256:0a1b")) eq_refl).
Defined.

(** The result of the schema on a datasource answer. *)
Example ReleaseResultZodSchema_test :
  ReleaseResultZodSchema (Some test_result) =
  Some {| ParsedResult.releases :=
            [ParsedRelease.mk "1.0.0" None (Some "2020-01-01") None None None
               None (Some "sha256:0a1b");
             ParsedRelease.mk "1.1.0" None None None None None None None];
          ParsedResult.tags := Some [("latest", "1.1.0")];
          ParsedResult.sourceUrl := None;
          ParsedResult.sourceDirectory := None;
          ParsedResult.changelogUrl := None;
          ParsedResult.homepage := Some "https://example.org" |}.
Proof. reflexivity. Qed.

(** [null] is not [undefined]: an optional field that holds [null] is
    rejected. *)
Example release_schema_null :
  release_schema
    (Some (JObj [("version", JStr "1.0.0"); ("digest", JNull)])) = None.
Proof. reflexivity. Qed.
