(* ===== verification/Store.v ===== *)
(** * Store: a service that remembers

    The theorems of [Directory], [Comments] and [Merge] describe one call
    of an operation of the adapter on the answers of an arbitrary backend.
    This file gives the backend that closes the loop: a service that
    stores the pull requests and the comment threads, answers the reads
    from what it stores and applies the writes to it, as the
    specification describes the service.  [StoreComments] runs the
    comment reconciler on it and [StorePulls] the directory and the merge
    dispatcher.

    The store is a model of the service, not code of the repository.  It
    implements the seventeen operations of the client: the five of the
    comments, the three that list, read and create pull requests, the
    three that change the description, the title and the status of one,
    the two merges, the approval rule, and the reads of the repositories
    and of a file.  A merge marks the targets between
    its two references as merged and leaves the status of the pull
    request to the status call, the order in which [mergePr] issues the
    two.  The status call accepts one update, from open to closed, and
    rejects the others, as the comment in [updatePr] expects of the
    service.  The listing call returns the pull requests of the
    repository, whatever their status.  A call for a pull request, a
    repository or a file the store does not hold is rejected; the read of
    a pull request is the exception, the client catching the rejection
    and resolving to nothing. *)

From S2P Require Import Prelude JsValue Effect Sdk Session Mock.
From S2P Require Import Directory Comments Merge.

(** ** The service *)

(** The pull requests in the order of their creation, the threads and
    the events of every pull request, by identifier, the number of
    identifiers given out so far, the repositories by name, the files by
    repository and path, and the approval rules in the order of their
    creation, each with the pull request it belongs to. *)
Record Store : Type := mkStore {
  st_prs : list PullRequest;
  st_threads : string → list CommentsForPullRequest;
  st_events : string → option (list PullRequestEvent);
  st_next : nat;
  st_repos : list (string * RepositoryMetadata);
  st_files : option string → string → option string;
  st_rules : list (string * string);
}.

(** The identifier of the next comment. *)
Definition fresh_id (st : Store) : string := "comment-" +:+ pretty (st_next st).

(** A comment after the comment [id] has been given the content [body]. *)
Definition set_content (id : string) (body : option string) (c : Comment)
  : Comment :=
  if Js.strict_eq (commentId c) (Some id)
  then {| commentId := commentId c; content := body |}
  else c.

Definition update_thread (id : string) (body : option string)
    (th : CommentsForPullRequest) : CommentsForPullRequest :=
  {| comments := (λ cs : list Comment, set_content id body <$> cs)
                   <$> comments th |}.

(** [PostCommentForPullRequest]: a new thread after the others. *)
Definition store_create (prId body : string) (st : Store) : Store :=
  mkStore (st_prs st) (λ p, if decide (p = prId)
                then st_threads st p ++ [thread_of (fresh_id st) body]
                else st_threads st p)
    (st_events st) (S (st_next st)) (st_repos st) (st_files st) (st_rules st).

(** [UpdateComment] and [DeleteCommentContent]: the comment keeps its
    place and its identifier. *)
Definition store_update (id : string) (body : option string) (st : Store)
  : Store :=
  mkStore (st_prs st) (λ p, update_thread id body <$> st_threads st p)
    (st_events st) (st_next st) (st_repos st) (st_files st) (st_rules st).

(** [CreatePullRequest]: an open pull request between the two branches,
    with the next number for an identifier. *)
Definition new_pr (id prTitle sourceBranch targetBranch : string)
    (repo : option string) : PullRequest :=
  {| pullRequestId := Some id;
     title := Some prTitle;
     pullRequestStatus := Some OPEN;
     revisionId := None;
     pullRequestTargets :=
       Some [{| repositoryName := repo;
                sourceReference := Some (getNewBranchName sourceBranch);
                destinationReference := Some (getNewBranchName targetBranch);
                mergeMetadata := Some {| isMerged := Some false |} |}] |}.

Definition next_pr_id (st : Store) : string :=
  Js.toString (Js.Num (Z.of_nat (st_next st))).

Definition store_create_pr (prTitle sourceBranch targetBranch : string)
    (repo : option string) (st : Store) : Store :=
  mkStore (st_prs st ++
           [new_pr (next_pr_id st) prTitle sourceBranch targetBranch repo])
    (st_threads st) (st_events st) (S (st_next st)) (st_repos st)
    (st_files st) (st_rules st).

(** A change of the pull request [prId]; the others are left alone. *)
Definition alter_pr (prId : string) (f : PullRequest → PullRequest)
    (st : Store) : Store :=
  mkStore ((λ p, if decide (pullRequestId p = Some prId) then f p else p)
             <$> st_prs st)
    (st_threads st) (st_events st) (st_next st) (st_repos st) (st_files st)
    (st_rules st).

(** [UpdatePullRequestStatus] and [UpdatePullRequestTitle] *)
Definition set_status (status : string) (p : PullRequest) : PullRequest :=
  {| pullRequestId := pullRequestId p;
     title := title p;
     pullRequestStatus := Some status;
     revisionId := revisionId p;
     pullRequestTargets := pullRequestTargets p |}.

Definition set_title (prTitle : string) (p : PullRequest) : PullRequest :=
  {| pullRequestId := pullRequestId p;
     title := Some prTitle;
     pullRequestStatus := pullRequestStatus p;
     revisionId := revisionId p;
     pullRequestTargets := pullRequestTargets p |}.

(** A target between the two references of a merge, in its repository. *)
Definition merges (repo src dst : option string) (t : PullRequestTarget)
  : Prop :=
  repositoryName t = repo ∧ sourceReference t = src ∧
  destinationReference t = dst.

#[export] Instance merges_dec repo src dst t : Decision (merges repo src dst t).
Proof. unfold merges. apply _. Defined.

(** [MergeBranchesBySquash] and [MergeBranchesByFastForward]: the targets
    between the two references are merged. *)
Definition mark_merged (repo src dst : option string) (t : PullRequestTarget)
  : PullRequestTarget :=
  if decide (merges repo src dst t)
  then {| repositoryName := repositoryName t;
          sourceReference := sourceReference t;
          destinationReference := destinationReference t;
          mergeMetadata := Some {| isMerged := Some true |} |}
  else t.

Definition merge_targets (repo src dst : option string) (p : PullRequest)
  : PullRequest :=
  {| pullRequestId := pullRequestId p;
     title := title p;
     pullRequestStatus := pullRequestStatus p;
     revisionId := revisionId p;
     pullRequestTargets :=
       (λ ts : list PullRequestTarget, mark_merged repo src dst <$> ts)
         <$> pullRequestTargets p |}.

Definition store_merge (repo src dst : option string) (st : Store) : Store :=
  mkStore (merge_targets repo src dst <$> st_prs st)
    (st_threads st) (st_events st) (st_next st) (st_repos st) (st_files st)
    (st_rules st).

(** [CreatePullRequestApprovalRule]: a rule after the others. *)
Definition store_add_rule (prId rule : string) (st : Store) : Store :=
  mkStore (st_prs st) (st_threads st) (st_events st) (st_next st)
    (st_repos st) (st_files st) (st_rules st ++ [(prId, rule)]).

(** [GetRepository] *)
Definition find_repo (name : string) (st : Store) : option RepositoryMetadata :=
  snd <$> head (filter (λ r, r.1 = name) (st_repos st)).

(** [ListRepositories] *)
Definition repo_pairs (st : Store) : list RepositoryNameIdPair :=
  (λ r, {| pair_repositoryName := Some r.1 |}) <$> st_repos st.

(** [GetPullRequest] *)
Definition find_pr (prId : string) (st : Store) : option PullRequest :=
  head (filter (λ p, pullRequestId p = Some prId) (st_prs st)).

(** What the two-level rule of [getPr] makes of a pull request, and of
    the pull request the store holds under an identifier. *)
Definition pr_state (p : PullRequest) : option PrState :=
  t ← pullRequestTargets p ≫= head;
  Some (derived_state t (pullRequestStatus p)).

Definition stored_state (prId : string) (st : Store) : option PrState :=
  find_pr prId st ≫= pr_state.

(** The repository of a pull request: that of its first target. *)
Definition pr_repo (p : PullRequest) : option string :=
  (pullRequestTargets p ≫= head) ≫= repositoryName.

(** [ListPullRequests]: the identifiers of all the pull requests of a
    repository, whatever their status. *)
Definition listed_in (repo : option string) (p : PullRequest) : Prop :=
  pr_repo p = repo.

#[export] Instance listed_in_dec repo p : Decision (listed_in repo p).
Proof. unfold listed_in. apply _. Defined.

Definition listed_ids (repo : option string) (st : Store) : list string :=
  omap pullRequestId (filter (listed_in repo) (st_prs st)).

Definition no_such_pr : exn := RemoteError "PullRequestDoesNotExistException".

(** [UpdatePullRequestDescription]: the store keeps no description. *)
Definition store_update_description (prId description : string)
  : M Store unit :=
  λ st, match find_pr prId st with
        | Some _ => (Ok tt, st)
        | None => (Throw no_such_pr, st)
        end.

(** [UpdatePullRequestTitle] *)
Definition store_update_title (prId prTitle : string) : M Store unit :=
  λ st, match find_pr prId st with
        | Some _ => (Ok tt, alter_pr prId (set_title prTitle) st)
        | None => (Throw no_such_pr, st)
        end.

(** [UpdatePullRequestStatus]: the one update the service accepts is from
    open to closed; the response carries the pull request as updated. *)
Definition store_update_status (prId status : string)
  : M Store (option GetPullRequestOutput) :=
  λ st, match find_pr prId st with
        | Some p =>
            if decide (pullRequestStatus p = Some OPEN ∧ status = CLOSED)
            then (Ok (Some {| pullRequest := Some (set_status status p) |}),
                  alter_pr prId (set_status status) st)
            else (Throw (RemoteError "InvalidPullRequestStatusUpdateException"),
                  st)
        | None => (Throw no_such_pr, st)
        end.

(** [GetRepository] and [GetFile] *)
Definition store_getRepositoryInfo (name : string)
  : M Store (option GetRepositoryOutput) :=
  λ st, match find_repo name st with
        | Some md => (Ok (Some {| repositoryMetadata := Some md |}), st)
        | None =>
            (Throw (RemoteError "RepositoryDoesNotExistException"), st)
        end.

Definition store_getFile (repo : option string) (path : string)
  : M Store (option GetFileOutput) :=
  λ st, match st_files st repo path with
        | Some text => (Ok (Some {| fileContent := text |}), st)
        | None => (Throw (RemoteError "FileDoesNotExistException"), st)
        end.

(** [CreatePullRequestApprovalRule] *)
Definition store_createPrApprovalRule (prId rule : string)
  : M Store (option CreatePullRequestApprovalRuleOutput) :=
  λ st, match find_pr prId st with
        | Some _ => (Ok (Some {| approvalRule := Some rule |}),
                     store_add_rule prId rule st)
        | None => (Throw no_such_pr, st)
        end.

(** The client over the store.  [getPr] of the client catches the
    rejection of the service and resolves to [undefined], as the unit
    test "returns null in case input is null" shows of it; the other
    functions let a rejection through. *)
#[export] Instance store_client : Client Store := {|
  cl_getRepositoryInfo := store_getRepositoryInfo;
  cl_listPullRequests repo _ :=
    gets (λ st, Some {| pullRequestIds := Some (listed_ids repo st) |});
  cl_getPr prId := λ st,
    match find_pr prId st with
    | Some p => (Ok (Some {| pullRequest := Some p |}), st)
    | None => (Ok None, st)
    end;
  cl_listRepositories :=
    gets (λ st, Some {| repositories := Some (repo_pairs st) |});
  cl_getFile repo path _ := store_getFile repo path;
  cl_createPr prTitle _ sourceBranch targetBranch repo := λ st,
    (Ok (Some {| pullRequest :=
                   Some (new_pr (next_pr_id st) prTitle sourceBranch
                           targetBranch repo) |}),
     store_create_pr prTitle sourceBranch targetBranch repo st);
  cl_updatePrDescription := store_update_description;
  cl_updatePrTitle := store_update_title;
  cl_updatePrStatus := store_update_status;
  cl_squashMerge repo src dst _ := modify (store_merge repo src dst);
  cl_fastForwardMerge repo src dst := modify (store_merge repo src dst);
  cl_createPrApprovalRule := store_createPrApprovalRule;
  cl_getPrComments _ prId :=
    gets (λ st, Some {| commentsForPullRequestData :=
                          Some (st_threads st prId) |});
  cl_getPrEvents prId :=
    gets (λ st, Some {| pullRequestEvents := st_events st prId |});
  cl_createPrComment prId _ body _ _ := modify (store_create prId body);
  cl_updateComment id body := modify (store_update id (Some body));
  cl_deleteComment id := modify (store_update id None);
|}.

(** The threads of a pull request are those of a response the SDK
    documents. *)
Definition store_wf (prId : string) (st : Store) : Prop :=
  Forall well_formed_thread (st_threads st prId).

(** ** A store to run on *)

Definition test_event : PullRequestEvent :=
  {| pullRequestSourceReferenceUpdatedEventMetadata :=
       Some {| beforeCommitId := Some "beforeCommitId";
               afterCommitId := Some "afterCommitId" |} |}.

(** Pull request 42 has one thread on another topic. *)
Definition test_store : Store :=
  mkStore [new_pr "0" "Update lodash" "renovate/lodash" "main"
             (Some "repositoryName")]
    (λ p, if decide (p = "42")
                then [thread_of "comment-a" "### other topic"]
                else [])
    (λ p, if decide (p = "42") then Some [test_event] else None) 1
    [("repositoryName",
      {| md_defaultBranch := Some "main"; md_repositoryId := Some "id" |})]
    (λ repo path,
       if decide (repo = Some "repositoryName" ∧ path = "renovate.json")
       then Some "{}" else None)
    [].

Definition store_world (st : Store) : World Store :=
  mkWorld (set_repository (Some "repositoryName") config_empty) st [] [].

(** The session forgets its listing. *)
Definition reset_cache (w : World Store) : World Store :=
  mkWorld (set_prList None (config w)) (remote w) (trace w) (logs w).

(** ** Lemmas: the store *)

Section store_lemmas.
Context `{!Utils}.

Lemma fresh_id_nonempty st : fresh_id st ≠ "".
Proof. done. Qed.

Lemma thread_root_update id body th :
  thread_root (update_thread id body th) = set_content id body <$> thread_root th.
Proof. unfold thread_root. simpl. by destruct (comments th) as [[|c cs]|]. Qed.

Lemma well_formed_nonempty ths :
  Forall well_formed_thread ths → Forall (λ th, comments th ≠ Some []) ths.
Proof.
  intros Hall. eapply Forall_impl; [exact Hall|].
  intros th Hwf Hc. unfold well_formed_thread in Hwf.
  rewrite Hc in Hwf. by destruct Hwf.
Qed.

Lemma set_content_id id body c :
  commentId (set_content id body c) = commentId c.
Proof. unfold set_content. by destruct (Js.strict_eq _ _). Qed.

Lemma well_formed_update id body th :
  well_formed_thread th → well_formed_thread (update_thread id body th).
Proof.
  unfold well_formed_thread. simpl. destruct (comments th) as [cs|]; [|done].
  simpl. intros [Hne Hid]. split; [by destruct cs|].
  apply Forall_fmap. eapply Forall_impl; [exact Hid|].
  intros c. simpl. by rewrite set_content_id.
Qed.

Lemma well_formed_thread_of id body : id ≠ "" → well_formed_thread (thread_of id body).
Proof.
  intros Hid. split; [done|]. repeat constructor. simpl. by destruct id.
Qed.

(** The writes keep the threads of every pull request well formed. *)
Lemma store_create_wf p prId body st :
  store_wf p st → store_wf p (store_create prId body st).
Proof.
  unfold store_wf. simpl. intros Hwf. case_decide; [|done].
  apply Forall_app. split; [done|]. repeat constructor.
  by apply well_formed_thread_of.
Qed.

Lemma store_update_wf p id body st :
  store_wf p st → store_wf p (store_update id body st).
Proof.
  unfold store_wf. simpl. intros Hwf. apply Forall_fmap.
  eapply Forall_impl; [exact Hwf|]. intros th. apply well_formed_update.
Qed.

(** ** Lemmas: the pull requests of the store *)

(** A change that keeps the identifiers commutes with the lookup. *)
Lemma head_filter_id_fmap (f : PullRequest → PullRequest) prId l :
  (∀ p, pullRequestId (f p) = pullRequestId p) →
  head (filter (λ p, pullRequestId p = Some prId) (f <$> l)) =
  f <$> head (filter (λ p, pullRequestId p = Some prId) l).
Proof.
  intros Hf. induction l as [|p l IH]; [done|]. rewrite fmap_cons.
  rewrite !filter_cons, Hf. by case_decide.
Qed.

Lemma find_pr_alter prId f st p :
  (∀ p, pullRequestId (f p) = pullRequestId p) →
  find_pr prId st = Some p →
  find_pr prId (alter_pr prId f st) = Some (f p).
Proof.
  intros Hf Hp. unfold find_pr, alter_pr in *. simpl.
  rewrite head_filter_id_fmap; [|intros q; by case_decide].
  rewrite Hp. simpl. apply head_Some_elem_of, list_elem_of_filter in Hp.
  destruct Hp as [Hid _]. by rewrite decide_True.
Qed.

Lemma find_pr_alter_ne prId prId' f st :
  (∀ p, pullRequestId (f p) = pullRequestId p) →
  prId ≠ prId' →
  find_pr prId (alter_pr prId' f st) = find_pr prId st.
Proof.
  intros Hf Hne. unfold find_pr, alter_pr. simpl.
  rewrite head_filter_id_fmap; [|intros q; by case_decide].
  destruct (head _) as [p|] eqn:Hp; [|done]. simpl.
  apply head_Some_elem_of, list_elem_of_filter in Hp.
  destruct Hp as [Hid _]. rewrite decide_False; [done|]. congruence.
Qed.

Lemma find_pr_merge prId repo src dst st :
  find_pr prId (store_merge repo src dst st) =
  merge_targets repo src dst <$> find_pr prId st.
Proof. unfold find_pr, store_merge. simpl. by apply head_filter_id_fmap. Qed.

Lemma store_getPr prId st p :
  find_pr prId st = Some p →
  cl_getPr prId st = (Ok (Some {| pullRequest := Some p |}), st).
Proof. intros Hp. simpl. by rewrite Hp. Qed.

Lemma store_getPr_absent prId st :
  find_pr prId st = None → cl_getPr prId st = (Ok None, st).
Proof. intros Hp. simpl. by rewrite Hp. Qed.

(** The first target of a pull request merged between its own
    references is merged. *)
Lemma merge_targets_first p t ts :
  pullRequestTargets p = Some (t :: ts) →
  ∃ t', pullRequestTargets
          (merge_targets (repositoryName t) (sourceReference t)
             (destinationReference t) p) =
          Some (t' :: (mark_merged (repositoryName t) (sourceReference t)
                         (destinationReference t) <$> ts)) ∧
        mergeMetadata t' = Some {| isMerged := Some true |} ∧
        sourceReference t' = sourceReference t ∧
        destinationReference t' = destinationReference t.
Proof.
  intros Ht. eexists. unfold merge_targets. simpl. rewrite Ht. simpl.
  split; [done|]. unfold mark_merged. by rewrite decide_True.
Qed.

(** A status call keeps the targets. *)
Lemma set_status_targets status p :
  pullRequestTargets (set_status status p) = pullRequestTargets p.
Proof. done. Qed.

End store_lemmas.
