(* ===== verification/StoreComments.v ===== *)
(** * StoreComments: the comment reconciler on the store

    The theorems of [Comments] describe one call of [ensureComment] on
    the answers of an arbitrary backend.  On the service of [Store] a
    call that has returned [true] has settled the topic: the same call
    again reads the comments, writes nothing and leaves the store as it
    is, whichever of the three decisions the first call took; and a topic
    that had no thread has exactly one afterwards. *)

From S2P Require Import Prelude JsValue Effect Sdk Session Mock.
From S2P Require Import Directory Comments Merge Store.

(** ** Lemmas: the decision after a write *)

Section settle_lemmas.
Context `{!Utils}.

Lemma reconcile_Update_id topic body ths id :
  reconcile topic body ths = Update id → Js.truthy_val (Some id) = Some id.
Proof.
  unfold reconcile. destruct (selected_root topic body ths) as [c|]; [|done].
  destruct (Js.truthy_val (commentId c)) as [i|] eqn:Hi; [|done].
  destruct (Js.strict_eq _ _); [done|]. intros [= ->].
  apply truthy_val_Some in Hi as [_ Hi]. by apply truthy_val_Some.
Qed.

(** The root of a thread that holds the composed body settles the
    topic. *)
Lemma reconcile_root_body topic text id c th ths :
  let body := comment_body topic text in
  thread_root th = Some c → commentId c = Some id → content c = Some body →
  Js.truthy_val (Some id) = Some id →
  reconcile topic body (th :: ths) = NoOp.
Proof.
  intros body Hr Hid Hc Ht. unfold reconcile.
  rewrite selected_root_cons, Hr, Hc. unfold body.
  rewrite root_matches_body, Hid, Ht, Hc. by rewrite strict_eq_refl.
Qed.

(** After the update the decision asked for, the decision is to leave. *)
Lemma reconcile_after_store_update topic text ths id :
  let body := comment_body topic text in
  reconcile topic body ths = Update id →
  reconcile topic body (update_thread id (Some body) <$> ths) = NoOp.
Proof.
  intros body Hu. pose proof (reconcile_Update_id _ _ _ _ Hu) as Ht.
  revert Hu. induction ths as [|th ths IH]; [done|]. rewrite fmap_cons.
  unfold reconcile at 1. rewrite selected_root_cons.
  destruct (thread_root th) as [c|] eqn:Hr.
  - destruct (Js.strict_eq (commentId c) (Some id)) eqn:Hid.
    + intros _. apply bool_decide_eq_true in Hid.
      apply (reconcile_root_body topic text id (set_content id (Some body) c));
        [by rewrite thread_root_update, Hr|..|done];
        unfold set_content; by rewrite Hid, strict_eq_refl.
    + destruct (root_matches topic body (content c)) eqn:Hm.
      * destruct (Js.truthy_val (commentId c)) as [i|] eqn:Hi; [|done].
        destruct (Js.strict_eq (content c) _); [done|]. intros [= ->].
        apply truthy_val_Some in Hi as [Hi _].
        by rewrite Hi, strict_eq_refl in Hid.
      * intros Hu. unfold reconcile in IH |- *.
        rewrite selected_root_cons, thread_root_update, Hr. simpl.
        unfold set_content. rewrite Hid, Hm. by apply IH.
  - intros Hu. unfold reconcile in IH |- *.
    rewrite selected_root_cons, thread_root_update, Hr. by apply IH.
Qed.

End settle_lemmas.

(** ** Lemmas: a call on the store *)

Section run_lemmas.
Context `{!Utils}.
Implicit Types (w : World Store).

(** The store answers the read with its threads: [ensureComment] is the
    action of the decision on them. *)
Lemma ensureComment_on_store number topic text w :
  store_wf (Js.toString number) (remote w) →
  ensureComment number topic text w =
  act number topic (comment_body topic text)
    (reconcile topic (comment_body topic text)
       (st_threads (remote w) (Js.toString number)))
    (comments_read (ensureComment_msg number topic) (Js.toString number)
       (remote w) w).
Proof.
  intros Hwf. apply ensureComment_act; [done|].
  by apply well_formed_nonempty.
Qed.

(** A create that returns [true] has added the thread. *)
Lemma create_comment_store number topic body w :
  (create_comment number topic body w).1 = Ok true →
  remote (create_comment number topic body w).2 =
  store_create (Js.toString number) body (remote w).
Proof.
  unfold create_comment, client_getPrEvents, client_createPrComment.
  rewrite bind_invoke. simpl.
  destruct (st_events (remote w) (Js.toString number)) as [[|ev evs]|];
    try done.
  simpl. rewrite bind_ret_l. by repeat case_match.
Qed.

(** When the decision is to leave, the call reads, writes nothing and
    returns [true]. *)
Lemma ensureComment_settled number topic text w :
  store_wf (Js.toString number) (remote w) →
  reconcile topic (comment_body topic text)
    (st_threads (remote w) (Js.toString number)) = NoOp →
  (ensureComment number topic text w).1 = Ok true ∧
  calls_of (ensureComment number topic text) w =
    [GetPrComments (repository (config w)) (Js.toString number)] ∧
  remote (ensureComment number topic text w).2 = remote w.
Proof.
  intros Hwf Hn. rewrite (calls_of_run _ _
    [GetPrComments (repository (config w)) (Js.toString number)]);
    by rewrite ensureComment_on_store, Hn.
Qed.

(** What a call that returns [true] leaves: a store on which the
    decision is to leave. *)
Lemma ensureComment_leaves_settled number topic text w :
  store_wf (Js.toString number) (remote w) →
  (ensureComment number topic text w).1 = Ok true →
  let st := remote (ensureComment number topic text w).2 in
  store_wf (Js.toString number) st ∧
  reconcile topic (comment_body topic text)
    (st_threads st (Js.toString number)) = NoOp.
Proof.
  intros Hwf. rewrite ensureComment_on_store by done.
  destruct (reconcile _ _ _) as [|id|] eqn:Hd; simpl.
  - intros ->%create_comment_store.
    split; [by apply store_create_wf|]. simpl. rewrite decide_True by done.
    apply reconcile_after_update; [|apply fresh_id_nonempty].
    by apply reconcile_Create_wf.
  - intros _. split; [by apply store_update_wf|].
    by apply reconcile_after_store_update.
  - by intros _.
Qed.

End run_lemmas.

(** ** Theorems *)

Section store_theorems.
Context `{!Utils}.

(** C6: Idempotence of [ensureComment] on a service that remembers.
    After a call that returned [true], whichever of create, update and
    leave it decided, the same call again returns [true], makes the read
    of the comments its only call and leaves the store as it is. *)
Theorem ensureComment_idempotent number topic text (w : World Store) :
  store_wf (Js.toString number) (remote w) →
  (ensureComment number topic text w).1 = Ok true →
  let w1 := (ensureComment number topic text w).2 in
  (ensureComment number topic text w1).1 = Ok true ∧
  calls_of (ensureComment number topic text) w1 =
    [GetPrComments (repository (config w1)) (Js.toString number)] ∧
  remote (ensureComment number topic text w1).2 = remote w1.
Proof.
  intros Hwf Hok.
  destruct (ensureComment_leaves_settled number topic text w Hwf Hok)
    as [Hwf1 Hn].
  by apply ensureComment_settled.
Qed.

(** The store keeps one comment per topic.  A call that decides to
    create adds one thread; any number of calls after it add none. *)
Theorem ensureComment_one_thread number topic text (w : World Store) n :
  store_wf (Js.toString number) (remote w) →
  (ensureComment number topic text w).1 = Ok true →
  let w1 := (ensureComment number topic text w).2 in
  st_threads (remote (Nat.iter n (λ w', (ensureComment number topic text w').2) w1))
    (Js.toString number) =
  st_threads (remote w1) (Js.toString number).
Proof.
  intros Hwf Hok w1.
  destruct (ensureComment_leaves_settled number topic text w Hwf Hok)
    as [Hwf1 Hn]. fold w1 in Hwf1, Hn.
  induction n as [|n IH]; [done|]. simpl.
  set (wn := Nat.iter n _ w1) in *.
  assert (remote wn = remote w1) as Hr.
  { clear IH. subst wn. induction n as [|n IHn]; [done|]. simpl.
    destruct (ensureComment_settled number topic text
                (Nat.iter n (λ w', (ensureComment number topic text w').2) w1))
      as (_ & _ & ->); by rewrite ?IHn. }
  destruct (ensureComment_settled number topic text wn) as (_ & _ & ->);
    by rewrite ?Hr.
Qed.

End store_theorems.

(** ** The store of the example *)

Lemma test_store_wf : store_wf "42" test_store.
Proof.
  unfold store_wf. simpl. constructor; [|constructor].
  by apply well_formed_thread_of.
Defined.

Lemma ensureComment_idempotent_witness :
  let w1 := (ensureComment (Js.Num 42) test_subject test_content
               (store_world test_store)).2 in
  (ensureComment (Js.Num 42) test_subject test_content w1).1 = Ok true ∧
  calls_of (ensureComment (Js.Num 42) test_subject test_content) w1 =
    [GetPrComments (Some "repositoryName") "42"] ∧
  remote (ensureComment (Js.Num 42) test_subject test_content w1).2 = remote w1.
Proof.
  apply (ensureComment_idempotent (Js.Num 42) test_subject test_content
           (store_world test_store) test_store_wf).
  by vm_compute.
Defined.

Lemma ensureComment_one_thread_witness :
  let w1 := (ensureComment (Js.Num 42) test_subject test_content
               (store_world test_store)).2 in
  st_threads
    (remote (Nat.iter 3
               (λ w', (ensureComment (Js.Num 42) test_subject test_content w').2)
               w1)) "42" =
  st_threads (remote w1) "42".
Proof.
  apply (ensureComment_one_thread (Js.Num 42) test_subject test_content
           (store_world test_store) 3 test_store_wf).
  by vm_compute.
Defined.

(** The first call creates the comment after the thread of the other
    topic; the store then holds the two threads. *)
Example ensureComment_store_run :
  let w1 := (ensureComment (Js.Num 42) test_subject test_content
               (store_world test_store)).2 in
  trace w1 =
    [GetPrComments (Some "repositoryName") "42"; GetPrEvents "42";
     CreatePrComment "42" (Some "repositoryName") test_body "beforeCommitId"
       "afterCommitId"] ∧
  st_threads (remote w1) "42" =
    [thread_of "comment-a" "### other topic"; thread_of "comment-1" test_body].
Proof. by vm_compute. Qed.

(** A new content for the topic: the second call updates the comment
    the first created, and the store still holds two threads. *)
Example ensureComment_store_update :
  let w1 := (ensureComment (Js.Num 42) test_subject test_content
               (store_world test_store)).2 in
  let w2 := (ensureComment (Js.Num 42) test_subject "another content" w1).2 in
  calls_of (ensureComment (Js.Num 42) test_subject "another content") w1 =
    [GetPrComments (Some "repositoryName") "42";
     UpdateComment "comment-1" (comment_body test_subject "another content")] ∧
  st_threads (remote w2) "42" =
    [thread_of "comment-a" "### other topic";
     thread_of "comment-1" (comment_body test_subject "another content")].
Proof. by vm_compute. Qed.

(** A removal empties the comment and leaves its thread; the next call
    for the topic does not find the emptied comment and adds a thread. *)
Example removal_then_ensure_adds_thread :
  let threads (w : World Store) := length (st_threads (remote w) "42") in
  let w1 := (ensureComment (Js.Num 42) (Some "some-subject") "text"
               (store_world test_store)).2 in
  let w2 := (ensureCommentRemoval (ByTopic "some-subject") (Js.Num 42) w1).2 in
  let w3 := (ensureComment (Js.Num 42) (Some "some-subject") "text" w2).2 in
  threads w1 = 2 ∧ threads w2 = 2 ∧ threads w3 = 3.
Proof. by vm_compute. Qed.
