(* ===== verification/Topics.v ===== *)
(** * Topics: the comments of a pull request as a map from topics

    [ensureComment] keeps one comment per topic.  Seen from its callers
    the comments of a pull request are a map from topics to bodies:
    [shown] is what the map holds under a topic, the content of the first
    thread whose first comment carries the header of the topic.  On the
    service of [Store] a call of [ensureComment] that returns [true] is
    an insertion into this map: the topic shows the composed body
    afterwards, and every topic whose header is not comparable with the
    header of the topic written shows what it showed before.  A sequence
    of calls is the sequence of the insertions.  Topics without a line
    break have headers that are not comparable; two topics of which one
    continues the other after a blank line share their comment.

    [ensureCommentRemoval] on the store deletes the content of the
    comment [removal_target] names; on threads of one comment each it
    removes what [ensureComment] has posted for the topic, and the
    emptied thread stays. *)

From stdpp Require Import functions.
From S2P Require Import Prelude JsValue Effect Sdk Session Mock.
From S2P Require Import Directory Comments Merge Store StoreComments.

(** ** The abstraction *)

Section topics.
Context `{!Utils}.

(** What the pull request shows under a topic. *)
Definition shown (topic : string) (ths : list CommentsForPullRequest)
  : option string :=
  selected_root (Some topic) "" ths ≫= content.

(** The map of a pull request of the store. *)
Definition topic_map (prId : string) (st : Store) : string → option string :=
  λ topic, shown topic (st_threads st prId).

(** Two topics of which neither header starts with the other. *)
Definition independent (t t' : string) : bool :=
  negb (Js.startsWith (comment_header (Some t)) (comment_header (Some t'))) &&
  negb (Js.startsWith (comment_header (Some t')) (comment_header (Some t))).

(** A topic on one line. *)
Fixpoint single_line (s : string) : bool :=
  match s with
  | EmptyString => true
  | String c r => negb (bool_decide (String c "" = Js.LF)) && single_line r
  end.

(** The identifiers of the first comments. *)
Definition root_ids (ths : list CommentsForPullRequest) : list string :=
  omap (λ th, thread_root th ≫= commentId) ths.

(** The first comments of a pull request have distinct identifiers, and
    none that the store has still to give out. *)
Definition ids_wf (prId : string) (st : Store) : Prop :=
  NoDup (root_ids (st_threads st prId)) ∧
  ∀ n, st_next st ≤ n →
       "comment-" +:+ pretty n ∉ root_ids (st_threads st prId).

(** The store after the action of a decision. *)
Definition after_action (prId body : string) (a : Action) (st : Store)
  : Store :=
  match a with
  | Create => store_create prId body st
  | Update id => store_update id (Some body) st
  | NoOp => st
  end.

(** A sequence of calls of [ensureComment] on a pull request, each with
    its topic and its text, and that each of them returns [true]. *)
Fixpoint ensure_all (number : Js.number) (calls : list (string * string))
    (w : World Store) : World Store :=
  match calls with
  | [] => w
  | (t, text) :: calls =>
      ensure_all number calls (ensureComment number (Some t) text w).2
  end.

Fixpoint all_true (number : Js.number) (calls : list (string * string))
    (w : World Store) : Prop :=
  match calls with
  | [] => True
  | (t, text) :: calls =>
      (ensureComment number (Some t) text w).1 = Ok true ∧
      all_true number calls (ensureComment number (Some t) text w).2
  end.

(** The insertions of the calls into a map from topics. *)
Definition insert_all (calls : list (string * string))
    (m : string → option string) : string → option string :=
  foldl (λ m c, <[c.1 := Some (comment_body (Some c.1) c.2)]> m) m calls.

(** Threads of one comment each, as [ensureComment] posts them. *)
Definition flat (ths : list CommentsForPullRequest) : Prop :=
  Forall (λ th, ∃ c, comments th = Some [c]) ths.

(** The store after a removal with the target [target]. *)
Definition after_removal (target : option string) (st : Store) : Store :=
  match target with
  | Some id => store_update id None st
  | None => st
  end.

End topics.

(** A pull request with the comments of two topics. *)
Definition topic_store : Store :=
  mkStore []
    (λ p, if decide (p = "42")
          then [thread_of "comment-0" (comment_body (Some "a") "first");
                thread_of "comment-1" (comment_body (Some "b") "second")]
          else [])
    (λ p, if decide (p = "42") then Some [test_event] else None) 2
    [] (λ _ _, None) [].

(** A pull request with the comment of a topic that continues the topic
    [a] after a blank line. *)
Definition nested_store : Store :=
  mkStore []
    (λ p, if decide (p = "42")
          then [thread_of "comment-0"
                  (comment_body (Some ("a" +:+ Js.LF +:+ Js.LF +:+ "b"))
                     "first")]
          else [])
    (λ p, if decide (p = "42") then Some [test_event] else None) 1
    [] (λ _ _, None) [].

(** ** Lemmas: prefixes *)

Lemma startsWith_nil (s : string) : Js.startsWith s "" = true.
Proof. by destruct s. Qed.

Lemma startsWith_cons c d (s p : string) :
  Js.startsWith (String c s) (String d p) =
  bool_decide (c = d) && Js.startsWith s p.
Proof.
  unfold Js.startsWith. cbn [String.prefix].
  destruct (Ascii.ascii_dec d c) as [->|Hne].
  - by rewrite bool_decide_eq_true_2.
  - by rewrite bool_decide_eq_false_2 by congruence.
Qed.

(** A prefix of a concatenation is comparable with its first part. *)
Lemma startsWith_app_inv (a x b : string) :
  Js.startsWith (a +:+ x) b = true →
  Js.startsWith a b = true ∨ Js.startsWith b a = true.
Proof.
  revert b. induction a as [|c a IH]; intros b.
  - right. apply startsWith_nil.
  - destruct b as [|d b]; [by left|]. rewrite string_app_cons, !startsWith_cons.
    intros [Hc Hs]%andb_true_iff. apply bool_decide_eq_true in Hc as ->.
    rewrite bool_decide_eq_true_2 by done. by apply IH.
Qed.

(** Two strings with a common prefix are comparable. *)
Lemma startsWith_comparable (s a b : string) :
  Js.startsWith s a = true → Js.startsWith s b = true →
  Js.startsWith a b = true ∨ Js.startsWith b a = true.
Proof.
  intros [r ->]%startsWith_spec. apply startsWith_app_inv.
Qed.

(** Single lines followed by the same line break: one starts with the
    other only when they are equal. *)
Lemma single_line_prefix (t t' : string) :
  single_line t = true → single_line t' = true →
  Js.startsWith (t +:+ Js.LF +:+ Js.LF) (t' +:+ Js.LF +:+ Js.LF) = true →
  t = t'.
Proof.
  revert t'. induction t as [|c t IH]; intros [|d t']; [done|..];
    cbn [single_line]; rewrite ?string_app_cons;
    change ("" +:+ Js.LF +:+ Js.LF) with (String (Ascii.ascii_of_nat 10) Js.LF);
    rewrite startsWith_cons; intros Ht Ht' [Hc Hs]%andb_true_iff;
    apply bool_decide_eq_true in Hc; subst.
  - by vm_compute in Ht'.
  - by vm_compute in Ht.
  - apply andb_true_iff in Ht as [_ Ht], Ht' as [_ Ht']. f_equal. by apply IH.
Qed.

(** ** Lemmas: what a pull request shows *)

Section shown_lemmas.
Context `{!Utils}.

(** With a topic, a first comment is selected by the header alone. *)
Lemma root_matches_topic (t body : string) c :
  t ≠ "" →
  root_matches (Some t) body c = Js.opt_startsWith c (comment_header (Some t)).
Proof. intros Ht. unfold root_matches. destruct t; [done|]. simpl. by rewrite orb_false_r. Qed.

Lemma selected_root_topic (t body body' : string) ths :
  t ≠ "" → selected_root (Some t) body ths = selected_root (Some t) body' ths.
Proof.
  intros Ht. induction ths as [|th ths IH]; [done|].
  rewrite !selected_root_cons, IH. destruct (thread_root th) as [c|]; [|done].
  by rewrite !root_matches_topic.
Qed.

Lemma shown_cons t th ths :
  t ≠ "" →
  shown t (th :: ths) =
  match thread_root th with
  | Some c => if Js.opt_startsWith (content c) (comment_header (Some t))
              then content c else shown t ths
  | None => shown t ths
  end.
Proof.
  intros Ht. unfold shown. rewrite selected_root_cons.
  destruct (thread_root th) as [c|]; [|done].
  rewrite root_matches_topic by done. by destruct (Js.opt_startsWith _ _).
Qed.

(** A thread after the others is shown when no other is. *)
Lemma shown_app t ths th :
  t ≠ "" →
  shown t (ths ++ [th]) =
  match shown t ths with
  | Some b => Some b
  | None => shown t [th]
  end.
Proof.
  intros Ht. induction ths as [|th' ths IH]; [reflexivity|].
  rewrite <-app_comm_cons, (shown_cons t th' (ths ++ [th])),
    (shown_cons t th' ths), IH by done.
  destruct (thread_root th') as [c|]; [|done].
  destruct (Js.opt_startsWith _ _) eqn:Hm; [|done].
  by destruct (content c).
Qed.

Lemma shown_thread_of t id body :
  t ≠ "" →
  shown t [thread_of id body] =
  if Js.startsWith body (comment_header (Some t)) then Some body else None.
Proof. intros Ht. by rewrite shown_cons. Qed.

(** The decision to leave is taken on a topic that shows the body. *)
Lemma reconcile_NoOp_shown t body ths :
  t ≠ "" → reconcile (Some t) body ths = NoOp → shown t ths = Some body.
Proof.
  intros Ht. unfold reconcile, shown.
  rewrite (selected_root_topic t "" body) by done.
  destruct (selected_root _ _ _) as [c|]; [|done].
  destruct (Js.truthy_val _); [|done].
  destruct (Js.strict_eq _ _) eqn:He; [|done].
  by apply strict_eq_true in He.
Qed.

(** The decision to update names the first comment the topic selects. *)
Lemma reconcile_Update_root t body ths id :
  reconcile (Some t) body ths = Update id →
  ∃ th c, th ∈ ths ∧ thread_root th = Some c ∧ commentId c = Some id ∧
          root_matches (Some t) body (content c) = true.
Proof.
  unfold reconcile. destruct (selected_root _ _ _) as [c|] eqn:Hs; [|done].
  destruct (Js.truthy_val (commentId c)) as [i|] eqn:Hi; [|done].
  destruct (Js.strict_eq _ _); [done|]. intros [= ->].
  apply truthy_val_Some in Hi as [Hi _].
  destruct (selected_root_In _ _ _ _ Hs) as (th & cs & Hin & Hc & Hm).
  exists th, c. unfold thread_root. by rewrite Hc.
Qed.

End shown_lemmas.

(** ** Lemmas: identifiers *)

Section id_lemmas.
Context `{!Utils}.

Lemma root_ids_cons th ths :
  root_ids (th :: ths) =
  match thread_root th ≫= commentId with
  | Some id => id :: root_ids ths
  | None => root_ids ths
  end.
Proof. reflexivity. Qed.

Lemma root_ids_elem th ths c id :
  th ∈ ths → thread_root th = Some c → commentId c = Some id →
  id ∈ root_ids ths.
Proof.
  intros Hin Hr Hid. apply list_elem_of_omap. exists th. split; [done|].
  by rewrite Hr.
Qed.

(** Two threads whose first comments have the same identifier are one. *)
Lemma root_ids_unique ths th th' c c' id :
  NoDup (root_ids ths) → th ∈ ths → th' ∈ ths →
  thread_root th = Some c → thread_root th' = Some c' →
  commentId c = Some id → commentId c' = Some id → th = th'.
Proof.
  intros Hnd Hin Hin' Hr Hr' Hid Hid'.
  induction ths as [|x ths IH]; [by apply elem_of_nil in Hin|].
  rewrite root_ids_cons in Hnd.
  apply elem_of_cons in Hin as [->|Hin], Hin' as [->|Hin']; [done|..].
  - rewrite Hr in Hnd. simpl in Hnd. rewrite Hid in Hnd.
    apply NoDup_cons in Hnd as [Hn _]. destruct Hn. by eapply root_ids_elem.
  - rewrite Hr' in Hnd. simpl in Hnd. rewrite Hid' in Hnd.
    apply NoDup_cons in Hnd as [Hn _]. destruct Hn. by eapply root_ids_elem.
  - apply IH; [|done..]. destruct (thread_root x ≫= commentId); [|done].
    by apply NoDup_cons in Hnd as [_ ?].
Qed.

Lemma root_ids_update id body ths :
  root_ids (update_thread id body <$> ths) = root_ids ths.
Proof.
  induction ths as [|th ths IH]; [done|].
  rewrite fmap_cons, !root_ids_cons, IH, thread_root_update.
  destruct (thread_root th) as [c|]; [|done]. simpl.
  by rewrite set_content_id.
Qed.

Lemma root_ids_app ths th :
  root_ids (ths ++ [th]) = root_ids ths ++ root_ids [th].
Proof. unfold root_ids. by rewrite omap_app. Qed.

(** The writes keep the identifiers well formed. *)
Lemma ids_wf_create p prId body st :
  ids_wf p st → ids_wf p (store_create prId body st).
Proof.
  intros [Hnd Hfresh]. unfold ids_wf. simpl. case_decide as Hp.
  - rewrite root_ids_app. simpl. split.
    + apply NoDup_app. split; [done|]. split; [|apply NoDup_singleton].
      intros x Hx ->%list_elem_of_singleton. by apply (Hfresh (st_next st)).
    + intros n Hn [Hin|Hin%list_elem_of_singleton]%elem_of_app.
      * apply (Hfresh n); [lia|done].
      * unfold fresh_id in Hin. apply (inj _), (inj _) in Hin. lia.
  - split; [done|]. intros n Hn. apply Hfresh. lia.
Qed.

Lemma ids_wf_update p id body st :
  ids_wf p st → ids_wf p (store_update id body st).
Proof. unfold ids_wf. simpl. by rewrite root_ids_update. Qed.

Lemma ids_wf_after p prId body a st :
  ids_wf p st → ids_wf p (after_action prId body a st).
Proof.
  destruct a; simpl; [apply ids_wf_create|apply ids_wf_update|done].
Qed.

End id_lemmas.

(** ** Lemmas: independent topics *)

Section independent_lemmas.
Context `{!Utils}.

(** The body composed for a topic does not carry the header of an
    independent one. *)
Lemma body_independent t t' text :
  independent t t' = true →
  Js.startsWith (comment_body (Some t) text) (comment_header (Some t')) = false.
Proof.
  unfold independent. intros [H1 H2]%andb_true_iff.
  apply negb_true_iff in H1, H2. apply not_true_is_false.
  intros [H|H]%startsWith_app_inv; congruence.
Qed.

(** Nor does a content that carries the header of the topic. *)
Lemma content_independent t t' c :
  independent t t' = true →
  Js.opt_startsWith c (comment_header (Some t)) = true →
  Js.opt_startsWith c (comment_header (Some t')) = false.
Proof.
  unfold independent. intros [H1 H2]%andb_true_iff.
  apply negb_true_iff in H1, H2. destruct c as [s|]; [|done]. simpl.
  intros Hs. apply not_true_is_false. intros Hs'.
  destruct (startsWith_comparable s _ _ Hs Hs'); congruence.
Qed.

(** Different topics on one line are independent. *)
Lemma single_line_independent t t' :
  t ≠ "" → t' ≠ "" → t ≠ t' →
  single_line t = true → single_line t' = true → independent t t' = true.
Proof.
  intros Ht Ht' Hne Hl Hl'. unfold independent.
  rewrite !comment_header_topic by done.
  apply andb_true_iff; split; apply negb_true_iff, not_true_is_false;
    change ("### " +:+ ?x) with (String "#" (String "#" (String "#" (String " " x))));
    rewrite !startsWith_cons; simpl; intros Hs;
    apply single_line_prefix in Hs; congruence.
Qed.

(** An update of the comment a topic selects leaves the topics that do
    not select it as they are. *)
Lemma shown_update t' id (body : option string) ths :
  t' ≠ "" →
  Js.opt_startsWith body (comment_header (Some t')) = false →
  (∀ th c, th ∈ ths → thread_root th = Some c → commentId c = Some id →
           Js.opt_startsWith (content c) (comment_header (Some t')) = false) →
  shown t' (update_thread id body <$> ths) = shown t' ths.
Proof.
  intros Ht Hb Hid. induction ths as [|th ths IH]; [done|].
  rewrite fmap_cons, !shown_cons, thread_root_update by done.
  rewrite IH by (intros th' c' Hin; apply Hid; by right).
  destruct (thread_root th) as [c|] eqn:Hr; [|done]. simpl.
  unfold set_content. destruct (Js.strict_eq (commentId c) (Some id)) eqn:He;
    [|done].
  apply strict_eq_true in He. simpl. rewrite Hb.
  by rewrite (Hid th c) by (done || by left).
Qed.

End independent_lemmas.

(** ** Theorems *)

Section topic_theorems.
Context `{!Utils}.
Implicit Types w : World Store.

(** The store after a call that returned [true] is the store after the
    action of the decision. *)
Lemma ensureComment_after number topic text w :
  store_wf (Js.toString number) (remote w) →
  (ensureComment number topic text w).1 = Ok true →
  remote (ensureComment number topic text w).2 =
  after_action (Js.toString number) (comment_body topic text)
    (reconcile topic (comment_body topic text)
       (st_threads (remote w) (Js.toString number))) (remote w).
Proof.
  intros Hwf. rewrite ensureComment_on_store by done.
  destruct (reconcile _ _ _) as [|id|]; simpl; [|done..].
  by intros ->%create_comment_store.
Qed.

(** The topic written shows the composed body. *)
Theorem ensureComment_shows number t text w :
  store_wf (Js.toString number) (remote w) →
  t ≠ "" →
  (ensureComment number (Some t) text w).1 = Ok true →
  topic_map (Js.toString number)
    (remote (ensureComment number (Some t) text w).2) t =
  Some (comment_body (Some t) text).
Proof.
  intros Hwf Ht Hok.
  destruct (ensureComment_leaves_settled number (Some t) text w Hwf Hok)
    as [_ Hn]. by apply reconcile_NoOp_shown.
Qed.

(** An independent topic shows what it showed. *)
Theorem ensureComment_frame number t text t' w :
  store_wf (Js.toString number) (remote w) →
  ids_wf (Js.toString number) (remote w) →
  t ≠ "" → t' ≠ "" → independent t t' = true →
  (ensureComment number (Some t) text w).1 = Ok true →
  topic_map (Js.toString number)
    (remote (ensureComment number (Some t) text w).2) t' =
  topic_map (Js.toString number) (remote w) t'.
Proof.
  intros Hwf [Hnd _] Ht Ht' Hi Hok.
  rewrite (ensureComment_after _ _ _ _ Hwf Hok). unfold topic_map.
  pose proof (body_independent t t' text Hi) as Hb.
  destruct (reconcile _ _ _) as [|id|] eqn:Hd; simpl; [| |done].
  - rewrite decide_True, shown_app, shown_thread_of, Hb by done.
    by destruct (shown t' _).
  - apply shown_update; [done..|]. intros th c Hin Hr Hid.
    destruct (reconcile_Update_root _ _ _ _ Hd)
      as (th0 & c0 & Hin0 & Hr0 & Hid0 & Hm).
    assert (th = th0) as -> by (by eapply root_ids_unique).
    rewrite Hr0 in Hr. injection Hr as <-.
    rewrite root_matches_topic in Hm by done.
    by eapply content_independent.
Qed.

(** The invariants of the store after the call. *)
Lemma ensureComment_keeps_wf number topic text w :
  store_wf (Js.toString number) (remote w) →
  ids_wf (Js.toString number) (remote w) →
  (ensureComment number topic text w).1 = Ok true →
  store_wf (Js.toString number) (remote (ensureComment number topic text w).2) ∧
  ids_wf (Js.toString number) (remote (ensureComment number topic text w).2).
Proof.
  intros Hwf Hids Hok. split.
  - by apply ensureComment_leaves_settled.
  - rewrite (ensureComment_after _ _ _ _ Hwf Hok). by apply ids_wf_after.
Qed.

(** [ensureComment] is an insertion into the map of the pull request:
    on the topic written and on every topic independent of it, the map
    after the call is the map before with the composed body under the
    topic. *)
Theorem ensureComment_inserts number t text w t' :
  store_wf (Js.toString number) (remote w) →
  ids_wf (Js.toString number) (remote w) →
  t ≠ "" → t' ≠ "" → t' = t ∨ independent t t' = true →
  (ensureComment number (Some t) text w).1 = Ok true →
  topic_map (Js.toString number)
    (remote (ensureComment number (Some t) text w).2) t' =
  <[t := Some (comment_body (Some t) text)]>
    (topic_map (Js.toString number) (remote w)) t'.
Proof.
  intros Hwf Hids Ht Ht' Hi Hok. destruct (decide (t' = t)) as [->|Hne].
  - rewrite fn_lookup_insert. by apply ensureComment_shows.
  - rewrite fn_lookup_insert_ne by done. destruct Hi as [->|Hi]; [done|].
    by apply ensureComment_frame.
Qed.

(** What a sequence of insertions holds under a topic depends on what
    the map held under that topic only. *)
Lemma insert_all_at calls (m1 m2 : string → option string) t' :
  m1 t' = m2 t' → insert_all calls m1 t' = insert_all calls m2 t'.
Proof.
  revert m1 m2. induction calls as [|[t x] calls IH]; intros m1 m2 Hm; [done|].
  apply IH. simpl. destruct (decide (t' = t)) as [->|Hne].
  - by rewrite !fn_lookup_insert.
  - by rewrite !fn_lookup_insert_ne.
Qed.

Lemma ensure_all_insert_all number calls w t' :
  store_wf (Js.toString number) (remote w) →
  ids_wf (Js.toString number) (remote w) →
  t' ≠ "" →
  Forall (λ c, c.1 ≠ "" ∧ (t' = c.1 ∨ independent c.1 t' = true)) calls →
  all_true number calls w →
  topic_map (Js.toString number) (remote (ensure_all number calls w)) t' =
  insert_all calls (topic_map (Js.toString number) (remote w)) t'.
Proof.
  intros Hwf Hids Ht' Hall. revert w Hwf Hids.
  induction Hall as [|[t x] calls [Ht Hi] _ IH]; intros w Hwf Hids; [done|].
  intros [Hok Hrest]. simpl in *.
  destruct (ensureComment_keeps_wf _ _ _ _ Hwf Hids Hok) as [Hwf1 Hids1].
  rewrite IH by done. apply insert_all_at. by apply ensureComment_inserts.
Qed.

(** C4: a sequence of calls is the sequence of the insertions: on every
    topic that each topic written equals or is independent of, the pull
    request shows after the calls what the map before shows after the
    insertions, in the order of the calls. *)
Theorem ensure_all_inserts number calls w t' :
  store_wf (Js.toString number) (remote w) →
  ids_wf (Js.toString number) (remote w) →
  t' ≠ "" →
  Forall (λ c, c.1 ≠ "" ∧ (t' = c.1 ∨ independent c.1 t' = true)) calls →
  all_true number calls w →
  topic_map (Js.toString number) (remote (ensure_all number calls w)) t' =
  insert_all calls (topic_map (Js.toString number) (remote w)) t'.
Proof. apply ensure_all_insert_all. Qed.

(** C32: topics on one line do not interfere.  A call of
    [ensureComment] for one of them that returns [true] leaves what the
    pull request shows under every other. *)
Theorem single_line_topics_frame number t text t' w :
  store_wf (Js.toString number) (remote w) →
  ids_wf (Js.toString number) (remote w) →
  t ≠ "" → t' ≠ "" → t ≠ t' →
  single_line t = true → single_line t' = true →
  (ensureComment number (Some t) text w).1 = Ok true →
  topic_map (Js.toString number)
    (remote (ensureComment number (Some t) text w).2) t' =
  topic_map (Js.toString number) (remote w) t'.
Proof.
  intros Hwf Hids Ht Ht' Hne Hl Hl' Hok.
  by apply ensureComment_frame; [..|apply single_line_independent|].
Qed.

(** Two topics, one call each: both show their body. *)
Theorem ensureComment_two_topics number t1 text1 t2 text2 w :
  store_wf (Js.toString number) (remote w) →
  ids_wf (Js.toString number) (remote w) →
  t1 ≠ "" → t2 ≠ "" → independent t2 t1 = true →
  (ensureComment number (Some t1) text1 w).1 = Ok true →
  let w1 := (ensureComment number (Some t1) text1 w).2 in
  (ensureComment number (Some t2) text2 w1).1 = Ok true →
  let m := topic_map (Js.toString number)
             (remote (ensureComment number (Some t2) text2 w1).2) in
  m t1 = Some (comment_body (Some t1) text1) ∧
  m t2 = Some (comment_body (Some t2) text2).
Proof.
  intros Hwf Hids Ht1 Ht2 Hi Hok1 w1 Hok2 m.
  destruct (ensureComment_keeps_wf _ _ _ _ Hwf Hids Hok1) as [Hwf1 Hids1].
  split.
  - unfold m. rewrite ensureComment_frame by done.
    by apply ensureComment_shows.
  - by apply ensureComment_shows.
Qed.

End topic_theorems.

(** ** Lemmas and theorems: removal *)

Section removal_on_store.
Context `{!Utils}.
Implicit Types w : World Store.

(** A thread with a comment to remove, on the store: the content of the
    comment is deleted and the loop breaks. *)
Lemma removal_body_store key prNo th loc w id :
  thread_removal key th = Some id →
  ∃ w', removal_body key prNo th loc w = (Ok (Break (Some id)), w') ∧
        remote w' = store_update id None (remote w).
Proof.
  intros Hth. unfold removal_body, thread_removal in *.
  destruct (comments th) as [cs|]; simpl in *; [|done].
  erewrite bind_Ok by apply removal_inner_loop.
  destruct (head _) as [c|]; simpl in *; [|done]. rewrite Hth.
  apply truthy_val_Some in Hth as [-> _].
  unfold client_deleteComment. rewrite bind_invoke. simpl.
  rewrite bind_log. by eexists.
Qed.

Lemma removal_loop_store key prNo ths loc w :
  Js.truthy_val loc = None →
  ∃ loc' w', for_of ths (removal_body key prNo) loc w = (Ok loc', w') ∧
             remote w' = after_removal (removal_target key ths) (remote w).
Proof.
  revert loc. induction ths as [|th ths IH]; intros loc Hloc; [by eauto|].
  rewrite removal_target_cons, for_of_cons.
  destruct (thread_removal key th) as [id|] eqn:Hth.
  - destruct (removal_body_store key prNo th loc w id Hth) as (w' & Hr & Hw).
    rewrite (bind_Ok _ _ _ _ _ Hr). by eexists _, _.
  - destruct (removal_body_skip key prNo th loc w Hloc Hth) as (loc' & Hr & Hl).
    rewrite (bind_Ok _ _ _ _ _ Hr). by apply IH.
Qed.

(** [ensureCommentRemoval] on the store returns, and has deleted the
    content of the comment [removal_target] names. *)
Theorem ensureCommentRemoval_on_store key prNo w :
  (ensureCommentRemoval key prNo w).1 = Ok tt ∧
  remote (ensureCommentRemoval key prNo w).2 =
  after_removal
    (removal_target key (st_threads (remote w) (Js.toString prNo))) (remote w).
Proof.
  unfold ensureCommentRemoval, client_getPrComments.
  rewrite bind_log, bind_read_config, bind_attempt, invoke_run. simpl.
  match goal with |- context [bind (for_of ?l _ _) _ ?W] =>
    destruct (removal_loop_store key prNo l None W eq_refl)
      as (loc' & w' & Hl & Hw)
  end.
  by rewrite (bind_Ok _ _ _ _ _ Hl).
Qed.

(** On threads of one comment a removal by topic looks at the first
    comments only: where the topic shows nothing there is nothing to
    remove. *)
Lemma removal_target_flat t ths :
  t ≠ "" → flat ths → shown t ths = None →
  removal_target (ByTopic t) ths = None.
Proof.
  intros Ht Hflat. induction Hflat as [|th ths (c & Hc) _ IH]; [done|].
  rewrite removal_target_cons, shown_cons by done.
  unfold thread_root, thread_removal. rewrite Hc. simpl.
  rewrite comment_header_topic by done.
  rewrite filter_cons. case_decide as Hm.
  - change (removal_matches (ByTopic t) c) with
      (Js.opt_startsWith (content c) ("### " +:+ t +:+ Js.LF +:+ Js.LF)) in Hm.
    rewrite Hm. intros Hn. by rewrite Hn in Hm.
  - apply not_true_is_false in Hm.
    change (removal_matches (ByTopic t) c) with
      (Js.opt_startsWith (content c) ("### " +:+ t +:+ Js.LF +:+ Js.LF)) in Hm.
    rewrite Hm. simpl. by apply IH.
Qed.

Lemma removal_target_app key ths ths' :
  removal_target key ths = None →
  removal_target key (ths ++ ths') = removal_target key ths'.
Proof.
  induction ths as [|th ths IH]; [done|]. rewrite <-app_comm_cons.
  rewrite !removal_target_cons. by destruct (thread_removal key th).
Qed.

(** The thread [ensureComment] has posted for a topic is what a removal
    by the topic finds. *)
Lemma removal_target_posted t text id :
  t ≠ "" → id ≠ "" →
  removal_target (ByTopic t) [thread_of id (comment_body (Some t) text)]
    = Some id.
Proof.
  intros Ht Hid. unfold removal_target, thread_removal. simpl.
  rewrite filter_cons, decide_True.
  - simpl. by destruct id.
  - simpl. unfold comment_body. rewrite comment_header_topic by done.
    apply startsWith_app.
Qed.

(** An emptied comment is shown under no topic. *)
Lemma shown_emptied t id body :
  t ≠ "" → shown t [update_thread id None (thread_of id body)] = None.
Proof.
  intros Ht. rewrite shown_cons by done. simpl. unfold set_content. simpl.
  by rewrite strict_eq_refl.
Qed.

(** Where a topic shows nothing the decision is to create. *)
Lemma reconcile_Create_shown t body ths :
  t ≠ "" → shown t ths = None → reconcile (Some t) body ths = Create.
Proof.
  intros Ht. unfold shown, reconcile.
  rewrite (selected_root_topic t "" body) by done.
  destruct (selected_root _ _ _) as [c|] eqn:Hs; [|done].
  destruct (selected_root_In _ _ _ _ Hs) as (_ & _ & _ & _ & Hm).
  rewrite root_matches_topic in Hm by done. simpl. intros Hc.
  by rewrite Hc in Hm.
Qed.

(** The threads after a comment was posted and emptied again. *)
Lemma shown_posted_emptied t id body ths :
  t ≠ "" → id ∉ root_ids ths → shown t ths = None →
  shown t (update_thread id None <$> ths ++ [thread_of id body]) = None.
Proof.
  intros Ht Hid Hn. rewrite fmap_app, list_fmap_singleton, shown_app by done.
  rewrite shown_update, Hn; [by apply shown_emptied|done..|].
  intros th c Hin Hr Hc. destruct Hid. by eapply root_ids_elem.
Qed.

(** Comment, then remove.  On threads of one comment each, a topic that
    showed nothing shows nothing again after [ensureComment] has posted
    its comment and [ensureCommentRemoval] has removed it by the topic;
    the emptied thread stays. *)
Theorem removal_after_ensure number t text w :
  store_wf (Js.toString number) (remote w) →
  ids_wf (Js.toString number) (remote w) →
  flat (st_threads (remote w) (Js.toString number)) →
  t ≠ "" →
  topic_map (Js.toString number) (remote w) t = None →
  (ensureComment number (Some t) text w).1 = Ok true →
  let st2 := remote (ensureCommentRemoval (ByTopic t) number
                       (ensureComment number (Some t) text w).2).2 in
  topic_map (Js.toString number) st2 t = None ∧
  length (st_threads st2 (Js.toString number)) =
    S (length (st_threads (remote w) (Js.toString number))).
Proof.
  intros Hwf [_ Hfresh] Hflat Ht Hn Hok st2. subst st2.
  destruct (ensureCommentRemoval_on_store (ByTopic t) number
              (ensureComment number (Some t) text w).2) as [_ ->].
  rewrite (ensureComment_after _ _ _ _ Hwf Hok).
  rewrite (reconcile_Create_shown _ _ _ Ht Hn). unfold topic_map. simpl.
  rewrite decide_True by done.
  rewrite removal_target_app by (by apply removal_target_flat).
  rewrite removal_target_posted by done. simpl. rewrite decide_True by done.
  split; [|by rewrite length_fmap, length_app, Nat.add_1_r].
  apply shown_posted_emptied; [done| |done]. by apply (Hfresh (st_next _)).
Qed.

End removal_on_store.

(** ** Runs *)

Lemma topic_store_wf : store_wf "42" topic_store.
Proof.
  unfold store_wf. simpl. repeat constructor; by apply well_formed_thread_of.
Qed.

Lemma topic_store_ids : ids_wf "42" topic_store.
Proof.
  split; [by apply (bool_decide_unpack _)|].
  intros n Hn. simpl in *.
  intros [Hin|[Hin|Hin%elem_of_nil]%elem_of_cons]%elem_of_cons; [| |done].
  - change "comment-0" with ("comment-" +:+ pretty 0%nat) in Hin.
    apply (inj _), (inj _) in Hin. lia.
  - change "comment-1" with ("comment-" +:+ pretty 1%nat) in Hin.
    apply (inj _), (inj _) in Hin. lia.
Qed.

Lemma ensureComment_shows_witness :
  topic_map "42"
    (remote (ensureComment (Js.Num 42) (Some "c") "third"
               (store_world topic_store)).2) "c" =
  Some (comment_body (Some "c") "third").
Proof.
  by apply (ensureComment_shows (Js.Num 42) "c" "third"
              (store_world topic_store) topic_store_wf).
Defined.

Lemma ensureComment_frame_witness :
  topic_map "42"
    (remote (ensureComment (Js.Num 42) (Some "a") "changed"
               (store_world topic_store)).2) "b" =
  topic_map "42" (remote (store_world topic_store)) "b".
Proof.
  by apply (ensureComment_frame (Js.Num 42) "a" "changed" "b"
              (store_world topic_store) topic_store_wf topic_store_ids).
Defined.

Lemma single_line_topics_frame_witness :
  topic_map "42"
    (remote (ensureComment (Js.Num 42) (Some "b") "changed"
               (store_world topic_store)).2) "a" =
  topic_map "42" (remote (store_world topic_store)) "a".
Proof.
  by apply (single_line_topics_frame (Js.Num 42) "b" "changed" "a"
              (store_world topic_store) topic_store_wf topic_store_ids).
Defined.

Lemma ensureComment_inserts_witness :
  topic_map "42"
    (remote (ensureComment (Js.Num 42) (Some "a") "changed"
               (store_world topic_store)).2) "b" =
  <[ "a" := Some (comment_body (Some "a") "changed") ]>
    (topic_map "42" (remote (store_world topic_store))) "b".
Proof.
  apply (ensureComment_inserts (Js.Num 42) "a" "changed"
           (store_world topic_store) "b" topic_store_wf topic_store_ids);
    [done|done|by right|done].
Defined.

Lemma ensureComment_two_topics_witness :
  let w1 := (ensureComment (Js.Num 42) (Some "a") "changed"
               (store_world topic_store)).2 in
  let m := topic_map "42"
             (remote (ensureComment (Js.Num 42) (Some "c") "third" w1).2) in
  m "a" = Some (comment_body (Some "a") "changed") ∧
  m "c" = Some (comment_body (Some "c") "third").
Proof.
  by apply (ensureComment_two_topics (Js.Num 42) "a" "changed" "c" "third"
              (store_world topic_store) topic_store_wf topic_store_ids).
Defined.

Lemma ensure_all_inserts_witness :
  let calls := [("c", "third"); ("a", "changed"); ("c", "fourth")] in
  topic_map "42" (remote (ensure_all (Js.Num 42) calls
                            (store_world topic_store))) "c" =
  insert_all calls (topic_map "42" (remote (store_world topic_store))) "c".
Proof.
  apply (ensure_all_inserts (Js.Num 42)
           [("c", "third"); ("a", "changed"); ("c", "fourth")]
           (store_world topic_store) "c" topic_store_wf topic_store_ids);
    [done|repeat constructor; by auto|by vm_compute].
Defined.

(** The last call for a topic is the one the pull request shows. *)
Example ensure_all_last_wins :
  topic_map "42"
    (remote (ensure_all (Js.Num 42)
               [("c", "third"); ("a", "changed"); ("c", "fourth")]
               (store_world topic_store))) "c" =
  Some (comment_body (Some "c") "fourth").
Proof. by vm_compute. Qed.

Lemma topic_store_flat : flat (st_threads topic_store "42").
Proof. repeat constructor; by eexists. Qed.

Lemma removal_after_ensure_witness :
  let st2 := remote (ensureCommentRemoval (ByTopic "c") (Js.Num 42)
                       (ensureComment (Js.Num 42) (Some "c") "third"
                          (store_world topic_store)).2).2 in
  topic_map "42" st2 "c" = None ∧ length (st_threads st2 "42") = 3.
Proof.
  by apply (removal_after_ensure (Js.Num 42) "c" "third"
              (store_world topic_store) topic_store_wf topic_store_ids
              topic_store_flat).
Defined.

(** A topic that continues another after a blank line is not
    independent of it: the call for the shorter topic selects the comment
    of the longer and overwrites it. *)
Example nested_topics_share :
  let long := "a" +:+ Js.LF +:+ Js.LF +:+ "b" in
  independent "a" long = false ∧
  topic_map "42" nested_store long = Some (comment_body (Some long) "first") ∧
  let st := remote (ensureComment (Js.Num 42) (Some "a") "second"
                      (store_world nested_store)).2 in
  topic_map "42" st long = None ∧ length (st_threads st "42") = 1.
Proof. by vm_compute. Qed.
