(* ===== verification/TopicOrder.v ===== *)
(** * The order of the comments does not matter

    The orchestrator posts its comments on a pull request one after the
    other, in an order the adapter does not choose.  On topics whose
    headers are not comparable the order is immaterial: the calls of
    [ensureComment] for them, made in any order, leave a pull request
    that shows under each topic the text of its call, and under every
    other topic apart from them what it showed.  The threads themselves
    differ with the order, and so do the identifiers the service gives
    out; what the callers of the adapter read off the pull request does
    not. *)

From stdpp Require Import functions.
From S2P Require Import Prelude JsValue Effect Sdk Session Mock.
From S2P Require Import Directory Comments Merge Store StoreComments Topics.

(** ** Definitions *)

(** A new topic and one the pull request has, in the two orders. *)
Definition two_calls : list (string * string) :=
  [("x", "one"); ("a", "changed")].

Definition two_calls_swapped : list (string * string) :=
  [("a", "changed"); ("x", "one")].

Section topic_order.
Context `{!Utils}.

(** Topics of which no two have comparable headers. *)
Fixpoint apart (ts : list string) : bool :=
  match ts with
  | [] => true
  | t :: ts => forallb (independent t) ts && apart ts
  end.

(** A topic the calls do not interfere with: it is written by them or
    apart from the ones written. *)
Definition settled_by (calls : list (string * string)) (t' : string) : Prop :=
  Forall (λ c, c.1 ≠ "" ∧ (t' = c.1 ∨ independent c.1 t' = true)) calls.

(** ** Lemmas: topics apart *)

Lemma independent_sym t t' : independent t t' = independent t' t.
Proof. unfold independent. apply andb_comm. Qed.

Lemma independent_ne t t' : independent t t' = true → t ≠ t'.
Proof.
  intros Hi ->. unfold independent in Hi. by rewrite startsWith_refl in Hi.
Qed.

Lemma forallb_independent t ts :
  forallb (independent t) ts = true ↔ ∀ t', t' ∈ ts → independent t t' = true.
Proof. rewrite forallb_forall. by setoid_rewrite list_elem_of_In. Qed.

Lemma apart_cons t ts :
  apart (t :: ts) = true ↔
  (∀ t', t' ∈ ts → independent t t' = true) ∧ apart ts = true.
Proof. simpl. by rewrite andb_true_iff, forallb_independent. Qed.

#[export] Instance apart_perm : Proper ((≡ₚ) ==> (=)) apart.
Proof.
  assert (∀ ts ts', ts ≡ₚ ts' → apart ts = true → apart ts' = true) as Himp.
  { induction 1 as [|t ts ts' Hp IH|t1 t2 ts|ts1 ts2 ts3 _ IH1 _ IH2];
      [done| | |by auto].
    - rewrite !apart_cons. intros [Ht Hts]. split; [|by auto].
      intros t' Hin. apply Ht. by rewrite Hp.
    - rewrite !apart_cons. intros [H2 [H1 Hts]].
      repeat split; [|by intros t' Hin; apply H2; right|done].
      intros t' [->|Hin]%elem_of_cons; [|by apply H1].
      rewrite independent_sym. apply H2. by left. }
  intros ts ts' Hp. destruct (apart ts) eqn:Ha.
  - symmetry. by apply (Himp ts).
  - destruct (apart ts') eqn:Ha'; [|done].
    symmetry in Hp. by rewrite (Himp _ _ Hp Ha') in Ha.
Qed.

Lemma apart_NoDup ts : apart ts = true → NoDup ts.
Proof.
  induction ts as [|t ts IH]; [constructor|].
  intros [Ht Hts]%apart_cons. constructor; [|by apply IH].
  intros Hin. by apply (independent_ne t t (Ht t Hin)).
Qed.

(** Two of the topics are the same or independent. *)
Lemma apart_elem ts t t' :
  apart ts = true → t ∈ ts → t' ∈ ts → t' = t ∨ independent t t' = true.
Proof.
  induction ts as [|t0 ts IH]; [by intros _ ?%elem_of_nil|].
  intros [Ht Hts]%apart_cons [->|Hin]%elem_of_cons [->|Hin']%elem_of_cons;
    [by left|right; by apply Ht| |by apply IH].
  right. rewrite independent_sym. by apply Ht.
Qed.

(** The topics of calls that are apart are settled by the calls. *)
Lemma apart_settled calls t' :
  apart calls.*1 = true → Forall (λ c, c.1 ≠ "") calls → t' ∈ calls.*1 →
  settled_by calls t'.
Proof.
  intros Ha Hne Hin. apply Forall_forall. intros c Hc. split.
  { apply (proj1 (Forall_forall _ _) Hne c Hc). }
  apply (apart_elem calls.*1); [done| |done].
  apply list_elem_of_fmap. by exists c.
Qed.

#[export] Instance settled_by_perm :
  Proper ((≡ₚ) ==> (=) ==> iff) settled_by.
Proof. intros calls calls' Hp t ? <-. unfold settled_by. by rewrite Hp. Qed.

(** ** Lemmas: insertions in any order *)

Lemma insert_all_snoc calls t x (m : string → option string) :
  insert_all (calls ++ [(t, x)]) m =
  <[t := Some (comment_body (Some t) x)]> (insert_all calls m).
Proof. unfold insert_all. by rewrite foldl_app. Qed.

Lemma insert_all_notin calls (m : string → option string) t' :
  t' ∉ calls.*1 → insert_all calls m t' = m t'.
Proof.
  induction calls as [|[t x] calls IH] using rev_ind; [done|].
  rewrite fmap_app, not_elem_of_app, insert_all_snoc. simpl.
  intros [Hin Hne%not_elem_of_cons]. rewrite fn_lookup_insert_ne; [by apply IH|].
  by destruct Hne as [? _].
Qed.

Lemma insert_all_in calls (m : string → option string) t x :
  NoDup calls.*1 → (t, x) ∈ calls →
  insert_all calls m t = Some (comment_body (Some t) x).
Proof.
  induction calls as [|[t0 x0] calls IH] using rev_ind;
    [by intros _ ?%elem_of_nil|].
  rewrite fmap_app, insert_all_snoc. simpl.
  intros [Hnd [Hd _]]%NoDup_app [Hin|Hin%list_elem_of_singleton]%elem_of_app.
  - rewrite fn_lookup_insert_ne; [by apply IH|]. intros Heq.
    apply (Hd t0); [|by left]. apply list_elem_of_fmap. exists (t, x).
    by rewrite Heq.
  - injection Hin as -> ->. by rewrite fn_lookup_insert.
Qed.

(** With one call per topic the insertions commute. *)
Lemma insert_all_perm calls calls' (m : string → option string) t' :
  calls ≡ₚ calls' → NoDup calls.*1 →
  insert_all calls m t' = insert_all calls' m t'.
Proof.
  intros Hp Hnd. destruct (decide (t' ∈ calls.*1)) as [Hin|Hin].
  - apply list_elem_of_fmap in Hin as ([t x] & -> & Hin). simpl.
    rewrite (insert_all_in calls _ t x), (insert_all_in calls' _ t x);
      [done|by rewrite <-Hp|by rewrite <-Hp|done..].
  - rewrite !insert_all_notin; [done|by rewrite <-Hp|done].
Qed.

(** ** Theorems *)

Implicit Types w : World Store.

(** C5: The calls of [ensureComment] for topics apart from each other
    commute: made in either of two orders, each returning [true], they
    leave a pull request that shows the same under every topic they
    settle. *)
Theorem ensure_all_any_order number calls calls' w t' :
  store_wf (Js.toString number) (remote w) →
  ids_wf (Js.toString number) (remote w) →
  calls ≡ₚ calls' → apart calls.*1 = true →
  t' ≠ "" → settled_by calls t' →
  all_true number calls w → all_true number calls' w →
  topic_map (Js.toString number) (remote (ensure_all number calls w)) t' =
  topic_map (Js.toString number) (remote (ensure_all number calls' w)) t'.
Proof.
  intros Hwf Hids Hp Ha Ht' Hs Hok Hok'.
  rewrite (ensure_all_insert_all number calls w t') by done.
  rewrite (ensure_all_insert_all number calls' w t');
    [|done..|by rewrite <-Hp|done].
  by apply insert_all_perm, apart_NoDup.
Qed.

(** Each topic written shows the text of its call, whatever the order
    of the calls. *)
Theorem ensure_all_shows number calls w t x :
  store_wf (Js.toString number) (remote w) →
  ids_wf (Js.toString number) (remote w) →
  apart calls.*1 = true → Forall (λ c, c.1 ≠ "") calls →
  all_true number calls w → (t, x) ∈ calls →
  topic_map (Js.toString number) (remote (ensure_all number calls w)) t =
  Some (comment_body (Some t) x).
Proof.
  intros Hwf Hids Ha Hne Hok Hin.
  assert (t ∈ calls.*1) as Ht.
  { apply list_elem_of_fmap. by exists (t, x). }
  rewrite ensure_all_insert_all; [|done..| |by apply apart_settled|done].
  - by apply insert_all_in; [apply apart_NoDup|].
  - apply (proj1 (Forall_forall _ _) Hne (t, x) Hin).
Qed.

End topic_order.

(** ** Two comments in both orders *)

Lemma ensure_all_any_order_witness :
  topic_map "42" (remote (ensure_all (Js.Num 42) two_calls
                            (store_world topic_store))) "x" =
  topic_map "42" (remote (ensure_all (Js.Num 42) two_calls_swapped
                            (store_world topic_store))) "x".
Proof.
  apply (ensure_all_any_order (Js.Num 42) two_calls two_calls_swapped
           (store_world topic_store) "x" topic_store_wf topic_store_ids);
    [apply Permutation_swap|done|done|repeat constructor; by auto
    |by vm_compute..].
Defined.

Lemma ensure_all_shows_witness :
  topic_map "42" (remote (ensure_all (Js.Num 42) two_calls_swapped
                            (store_world topic_store))) "x" =
  Some (comment_body (Some "x") "one").
Proof.
  apply (ensure_all_shows (Js.Num 42) two_calls_swapped
           (store_world topic_store) "x" "one" topic_store_wf
           topic_store_ids);
    [done|repeat constructor; by auto|by vm_compute
    |apply elem_of_list_here || (right; left)].
Defined.

(** The stores differ with the order when both topics are new: the
    threads are in the order of the calls and the identifiers follow. *)
Example new_topics_in_both_orders :
  let after calls :=
    root_ids (st_threads (remote (ensure_all (Js.Num 42) calls
                                    (store_world topic_store))) "42") in
  let shown_after calls t :=
    topic_map "42" (remote (ensure_all (Js.Num 42) calls
                              (store_world topic_store))) t in
  after [("x", "one"); ("y", "two")] = after [("y", "two"); ("x", "one")] ∧
  shown_after [("x", "one"); ("y", "two")] "x" =
  shown_after [("y", "two"); ("x", "one")] "x" ∧
  remote (ensure_all (Js.Num 42) [("x", "one"); ("y", "two")]
            (store_world topic_store)) ≠
  remote (ensure_all (Js.Num 42) [("y", "two"); ("x", "one")]
            (store_world topic_store)).
Proof.
  repeat split; [by vm_compute..|]. intros Heq.
  apply (f_equal (λ st, st_threads st "42" !! 2%nat)) in Heq.
  by vm_compute in Heq.
Qed.
