(* ===== verification/StorePulls.v ===== *)
(** * StorePulls: the directory and the merge dispatcher on the store

    The theorems of [Directory] and [Merge] describe one call on the
    answers of an arbitrary backend.  On the service of [Store] the calls
    compose: what [mergePr] and [updatePr] have written is what [getPr]
    reads next, and the listing the session has cached is compared with
    what the service holds.

    - [mergePr] on an open pull request returns [true], and the pull
      request read again is merged; on a pull request that is closed
      already it merges the branches and returns [false].
    - The listing cached before a merge still has the pull request open:
      [getBranchPr], which looks a branch up among the open entries,
      returns a merged pull request.
    - [updatePr] sets the title and closes; it never opens again.
    - A pull request created through a session whose listing is cached
      exists in the service and is not found by [findPr] until the
      session is reset, the question the specification leaves open. *)

From S2P Require Import Prelude JsValue Effect Sdk Session Mock.
From S2P Require Import Directory Comments Merge Store.

(** ** The store after an operation *)

(** The status after the status call of [updatePr]. *)
Definition updated_status (state : option PrState) (status : option string)
  : option string :=
  if decide (status = Some OPEN ∧ state = Some Closed) then Some CLOSED
  else status.

(** Pull request 0 of the test store after it has been closed. *)
Definition closed_store : Store :=
  alter_pr "0" (set_status CLOSED) test_store.

(** The store after the merge call of [mergePr] on the target [t]. *)
Definition merged_store (t : PullRequestTarget) (st : Store) : Store :=
  store_merge (repositoryName t) (sourceReference t) (destinationReference t)
    st.

(** The store after the title call and after the status call of
    [updatePr]. *)
Definition title_step (prId prTitle : string) (st : Store) : Store :=
  if Js.truthy (Some prTitle) then alter_pr prId (set_title prTitle) st else st.

Definition status_step (prId : string) (state : option PrState)
    (status : option string) (st : Store) : Store :=
  if decide (status = Some OPEN ∧ state = Some Closed)
  then alter_pr prId (set_status CLOSED) st else st.

(** The pull request of the test store, its target and its entry in
    the listing. *)
Definition stored_pr : PullRequest :=
  new_pr "0" "Update lodash" "renovate/lodash" "main" (Some "repositoryName").

Definition stored_target : PullRequestTarget :=
  {| repositoryName := Some "repositoryName";
     sourceReference := Some "refs/heads/renovate/lodash";
     destinationReference := Some "refs/heads/main";
     mergeMetadata := Some {| isMerged := Some false |} |}.

Definition listed_entry : Pr.t :=
  {| Pr.number := Js.Num 0;
     Pr.sourceBranch := Some "refs/heads/renovate/lodash";
     Pr.targetBranch := Some "refs/heads/main";
     Pr.title := Some "Update lodash"; Pr.state := Open;
     Pr.sha := None; Pr.sourceRepo := None |}.

(** ** The merge dispatcher on the store *)

Section merge_on_store.
Context `{!Utils}.
Implicit Types w : World Store.

(** [getPr] reads what the store holds. *)
Lemma getPr_on_store n w p t ts :
  find_pr (Js.toString n) (remote w) = Some p →
  pullRequestTargets p = Some (t :: ts) →
  getPr n w =
  (Ok (Some {| Pr.sourceBranch := sourceReference t;
               Pr.state := derived_state t (pullRequestStatus p);
               Pr.number := n;
               Pr.title := title p;
               Pr.targetBranch := destinationReference t;
               Pr.sha := revisionId p;
               Pr.sourceRepo := None |}),
   getPr_world n (remote w) w).
Proof. intros Hp Ht. eapply getPr_run; [by apply store_getPr|done]. Qed.

Lemma merge_op_store strategy t ttl st :
  supported strategy = true →
  ∃ c op, merge_call strategy t ttl = Some c ∧
          merge_op strategy t ttl = Some op ∧
          op st = (Ok tt, merged_store t st).
Proof. destruct strategy as [[]|]; intros [=]; by do 2 eexists. Qed.

Lemma mergePr_close_store prNo w p :
  find_pr (Js.toString prNo) (remote w) = Some p →
  let r := mergePr_finish prNo (Ok None) w in
  config r.2 = config w ∧
  if decide (pullRequestStatus p = Some OPEN)
  then r.1 = Ok true ∧
       remote r.2 = alter_pr (Js.toString prNo) (set_status CLOSED) (remote w)
  else r.1 = Ok false ∧ remote r.2 = remote w.
Proof.
  intros Hp. unfold mergePr_finish, mergePr_close, client_updatePrStatus.
  rewrite bind_log, bind_attempt, bind_invoke.
  cbn [config remote trace logs cl_updatePrStatus store_client].
  unfold store_update_status. rewrite Hp.
  destruct (decide (pullRequestStatus p = Some OPEN)) as [Ho|Ho].
  - by rewrite decide_True.
  - by rewrite decide_False by (by intros [? _]).
Qed.

Lemma find_pr_closed_merged prId status t st p :
  find_pr prId st = Some p →
  find_pr prId (alter_pr prId (set_status status) (merged_store t st)) =
  Some (set_status status
          (merge_targets (repositoryName t) (sourceReference t)
             (destinationReference t) p)).
Proof.
  intros Hp. apply find_pr_alter; [done|].
  unfold merged_store. by rewrite find_pr_merge, Hp.
Qed.

(** [mergePr] on a pull request of the store with a target, on a
    strategy the service has: the branches are merged, and the pull
    request is closed when it was open. *)
Lemma mergePr_on_store branchName prNo strategy w p t ts :
  find_pr (Js.toString prNo) (remote w) = Some p →
  pullRequestTargets p = Some (t :: ts) →
  supported strategy = true →
  config (mergePr branchName prNo strategy w).2 = config w ∧
  if decide (pullRequestStatus p = Some OPEN)
  then (mergePr branchName prNo strategy w).1 = Ok true ∧
       remote (mergePr branchName prNo strategy w).2 =
         alter_pr (Js.toString prNo) (set_status CLOSED)
           (merged_store t (remote w))
  else (mergePr branchName prNo strategy w).1 = Ok false ∧
       remote (mergePr branchName prNo strategy w).2 =
         merged_store t (remote w).
Proof.
  intros Hp Ht Hs.
  destruct (merge_op_store strategy t (title p) (remote w) Hs)
    as (c & op & Hc & Hop & Hrun).
  rewrite (mergePr_run_merge branchName prNo strategy w _ t ts _ c op
             (store_getPr _ _ _ Hp) Ht Hc Hop), Hrun.
  cbn [fst snd].
  match goal with |- context [mergePr_finish prNo (Ok None) ?W] =>
    apply (mergePr_close_store prNo W
             (merge_targets (repositoryName t) (sourceReference t)
                (destinationReference t) p))
  end.
  cbn [remote]. unfold merged_store. by rewrite find_pr_merge, Hp.
Qed.

(** The state the adapter derives from the store is the one [getPr]
    returns. *)
Lemma stored_state_eq prId st p t ts :
  find_pr prId st = Some p →
  pullRequestTargets p = Some (t :: ts) →
  stored_state prId st = Some (derived_state t (pullRequestStatus p)).
Proof.
  intros Hp Ht. unfold stored_state, pr_state. by rewrite Hp; simpl; rewrite Ht.
Qed.

Lemma stored_state_merged prId status t st p ts :
  find_pr prId st = Some p →
  pullRequestTargets p = Some (t :: ts) →
  stored_state prId (alter_pr prId (set_status status) (merged_store t st))
    = Some Merged ∧
  stored_state prId (merged_store t st) = Some Merged.
Proof.
  intros Hp Ht. destruct (merge_targets_first p t ts Ht) as (t' & Ht' & Hm & _).
  split.
  - erewrite stored_state_eq;
      [|by apply find_pr_closed_merged|by rewrite set_status_targets].
    by rewrite derived_state_merged by (by rewrite Hm).
  - erewrite stored_state_eq;
      [|unfold merged_store; by rewrite find_pr_merge, Hp|done].
    by rewrite derived_state_merged by (by rewrite Hm).
Qed.

(** [getPr] returns the state the store holds. *)
Lemma getPr_stored_state n w pr :
  (getPr n w).1 = Ok (Some pr) →
  stored_state (Js.toString n) (remote w) = Some (Pr.state pr) ∧
  Pr.number pr = n.
Proof.
  unfold getPr, client_getPr. rewrite bind_log, bind_invoke.
  cbn [config remote trace logs cl_getPr store_client].
  unfold stored_state, pr_state.
  destruct (find_pr _ _) as [p|]; [|done]. cbn [mbind option_bind pullRequest].
  unfold first_target. destruct (pullRequestTargets p) as [[|t ts]|]; [done| |done].
  by intros [= <-].
Qed.

(** C15: merge, then read.  On an open pull request of the store with a
    target, [mergePr] with a strategy the service has returns [true], and
    [getPr] of the same number then returns the pull request with state
    [Merged], its number and its source branch. *)
Theorem mergePr_then_getPr branchName prNo strategy w p t ts :
  find_pr (Js.toString prNo) (remote w) = Some p →
  pullRequestTargets p = Some (t :: ts) →
  pullRequestStatus p = Some OPEN →
  supported strategy = true →
  (mergePr branchName prNo strategy w).1 = Ok true ∧
  ∃ pr, (getPr prNo (mergePr branchName prNo strategy w).2).1 = Ok (Some pr) ∧
        Pr.state pr = Merged ∧ Pr.number pr = prNo ∧
        Pr.sourceBranch pr = sourceReference t.
Proof.
  intros Hp Ht Ho Hs.
  destruct (mergePr_on_store branchName prNo strategy w p t ts Hp Ht Hs)
    as [_ Hrun]. rewrite decide_True in Hrun by done.
  destruct Hrun as [-> Hrm]. split; [done|].
  destruct (merge_targets_first p t ts Ht) as (t' & Ht' & Hm & Hsrc & _).
  eexists. erewrite getPr_on_store;
    [|rewrite Hrm; by apply find_pr_closed_merged|by rewrite set_status_targets].
  split; [done|]. cbn [Pr.state Pr.number Pr.sourceBranch].
  by rewrite derived_state_merged by (by rewrite Hm).
Qed.

(** C23: a pull request that is not open.  [mergePr] sends the merge all
    the same, the store merges the branches and rejects the status call,
    and [mergePr] returns [false]: the pull request is merged in the
    store. *)
Theorem mergePr_closed_pr branchName prNo strategy w p t ts :
  find_pr (Js.toString prNo) (remote w) = Some p →
  pullRequestTargets p = Some (t :: ts) →
  pullRequestStatus p ≠ Some OPEN →
  supported strategy = true →
  (mergePr branchName prNo strategy w).1 = Ok false ∧
  stored_state (Js.toString prNo) (remote (mergePr branchName prNo strategy w).2)
    = Some Merged.
Proof.
  intros Hp Ht Ho Hs.
  destruct (mergePr_on_store branchName prNo strategy w p t ts Hp Ht Hs)
    as [_ Hrun]. rewrite decide_False in Hrun by done.
  destruct Hrun as [-> ->]. split; [done|].
  by eapply (stored_state_merged _ CLOSED).
Qed.

(** C21: The listing is not refreshed by a merge.  In a session whose listing
    is cached and has the pull request open, [findPr] still finds it among
    the open ones after [mergePr] has merged it, and [getBranchPr], which
    looks the branch up among the open entries, returns it as merged. *)
Theorem getBranchPr_after_merge b branchName strategy w l pr p t ts :
  prList (config w) = Some l →
  head (findPr_filter b None Open l) = Some pr →
  find_pr (Js.toString (Pr.number pr)) (remote w) = Some p →
  pullRequestTargets p = Some (t :: ts) →
  pullRequestStatus p = Some OPEN →
  supported strategy = true →
  let w' := (mergePr branchName (Pr.number pr) strategy w).2 in
  (findPr b None (Some Open) w').1 = Ok (Some pr) ∧
  ∃ pr', (getBranchPr b w').1 = Ok (Some pr') ∧ Pr.state pr' = Merged ∧
         Pr.number pr' = Pr.number pr.
Proof.
  intros Hl Hh Hp Ht Ho Hs w'.
  destruct (mergePr_on_store branchName _ strategy w p t ts Hp Ht Hs)
    as [Hc Hrun]. rewrite decide_True in Hrun by done.
  destruct Hrun as [_ Hrm]. fold w' in Hc, Hrm. rewrite <-Hc in Hl. split.
  - rewrite (findPr_run_Ok _ _ _ _ _ _ (getPrList_hit _ _ Hl)).
    change (default All (Some Open)) with Open. by rewrite Hh.
  - rewrite (getBranchPr_run b w' l _ (getPrList_hit (logged _ _ w') _ Hl)), Hh.
    destruct (merge_targets_first p t ts Ht) as (t' & Ht' & Hm & _).
    eexists. erewrite getPr_on_store;
      [|cbn [remote logged]; rewrite Hrm; by apply find_pr_closed_merged
       |by rewrite set_status_targets].
    split; [done|]. cbn [Pr.state Pr.number].
    by rewrite derived_state_merged by (by rewrite Hm).
Qed.

End merge_on_store.

(** ** updatePr on the store *)

Section update_on_store.
Context `{!Utils}.
Implicit Types w : World Store.

Lemma find_pr_title_step prId prTitle st p :
  find_pr prId st = Some p →
  ∃ p', find_pr prId (title_step prId prTitle st) = Some p' ∧
        pullRequestStatus p' = pullRequestStatus p ∧
        pullRequestTargets p' = pullRequestTargets p ∧
        title p' = if Js.truthy (Some prTitle) then Some prTitle else title p.
Proof.
  intros Hp. unfold title_step. destruct (Js.truthy _); [|eauto].
  eexists. split; [by apply find_pr_alter|done].
Qed.

(** The status call of [updatePr] on the store. *)
Lemma update_status_store prId state st p :
  find_pr prId st = Some p →
  (store_update_status prId (prStatusInput state) st).2 =
  status_step prId state (pullRequestStatus p) st.
Proof.
  intros Hp. unfold store_update_status, status_step. rewrite Hp.
  unfold prStatusInput.
  destruct (decide (state = Some Closed)) as [->|Hs].
  - destruct (decide (pullRequestStatus p = Some OPEN)) as [Ho|Ho].
    + by rewrite !decide_True.
    + by rewrite !decide_False by (by intros [? _]).
  - by rewrite !decide_False by (by intros [_ ?]).
Qed.

(** The description and the title calls of [updatePr] on the store. *)
Lemma updatePr_description_store prNo body w p :
  find_pr (Js.toString prNo) (remote w) = Some p →
  ∃ w1, match Js.truthy_val body with
        | Some body =>
            client_updatePrDescription (Js.toString prNo)
              (smartTruncate (sanitize body) description_limit)
        | None => ret tt
        end w = (Ok tt, w1) ∧
        remote w1 = remote w ∧ config w1 = config w.
Proof.
  intros Hp. destruct (Js.truthy_val body); [|by eexists].
  unfold client_updatePrDescription. rewrite invoke_run. simpl.
  unfold store_update_description. rewrite Hp. by eexists.
Qed.

Lemma updatePr_title_store prNo prTitle w p :
  find_pr (Js.toString prNo) (remote w) = Some p →
  ∃ w1, (if Js.truthy (Some prTitle)
         then client_updatePrTitle (Js.toString prNo) prTitle
         else ret tt) w = (Ok tt, w1) ∧
        remote w1 = title_step (Js.toString prNo) prTitle (remote w) ∧
        config w1 = config w.
Proof.
  intros Hp. unfold title_step. destruct (Js.truthy _); [|by eexists].
  unfold client_updatePrTitle. rewrite invoke_run. simpl.
  unfold store_update_title. rewrite Hp. by eexists.
Qed.

(** [updatePr] on a pull request of the store resolves; the title is
    set when one is given and the pull request is closed when it was open
    and the state asked for is [Closed]. *)
Lemma updatePr_on_store prNo prTitle body state w p :
  find_pr (Js.toString prNo) (remote w) = Some p →
  (updatePr prNo prTitle body state w).1 = Ok tt ∧
  config (updatePr prNo prTitle body state w).2 = config w ∧
  remote (updatePr prNo prTitle body state w).2 =
    status_step (Js.toString prNo) state (pullRequestStatus p)
      (title_step (Js.toString prNo) prTitle (remote w)).
Proof.
  intros Hp. unfold updatePr. rewrite bind_log.
  match goal with |- context [bind _ _ ?W] =>
    destruct (updatePr_description_store prNo body W p Hp)
      as (w1 & E1 & Hr1 & Hc1)
  end.
  cbn [remote config] in Hr1, Hc1.
  rewrite (bind_Ok _ _ _ _ _ E1). rewrite <-Hr1 in Hp.
  destruct (updatePr_title_store prNo prTitle w1 p Hp) as (w2 & E2 & Hr2 & Hc2).
  rewrite (bind_Ok _ _ _ _ _ E2), bind_attempt.
  unfold client_updatePrStatus. rewrite invoke_run.
  cbn [fst snd config remote ret]. split; [done|]. split; [congruence|].
  destruct (find_pr_title_step _ prTitle _ _ Hp) as (p' & Hp' & Hst & _).
  rewrite <-Hr2 in Hp'. simpl.
  by rewrite (update_status_store _ _ _ _ Hp'), Hst, Hr2, Hr1.
Qed.

(** C31: update, then read.  What [updatePr] has written is what [getPr]
    reads: the title given, and the state after the one update the service
    accepts, from open to closed; a closed pull request is not opened
    again. *)
Theorem updatePr_then_getPr prNo prTitle body state w p t ts :
  find_pr (Js.toString prNo) (remote w) = Some p →
  pullRequestTargets p = Some (t :: ts) →
  prTitle ≠ "" →
  ∃ pr, (getPr prNo (updatePr prNo prTitle body state w).2).1 = Ok (Some pr) ∧
        Pr.title pr = Some prTitle ∧
        Pr.state pr =
          derived_state t (updated_status state (pullRequestStatus p)).
Proof.
  intros Hp Ht Hne.
  destruct (updatePr_on_store prNo prTitle body state w p Hp) as (_ & _ & Hrm).
  destruct (find_pr_title_step _ prTitle _ _ Hp) as (p' & Hp' & Hst & Htg & Htt).
  rewrite Ht in Htg. replace (Js.truthy (Some prTitle)) with true in Htt
    by (by destruct prTitle).
  unfold status_step, updated_status in *.
  destruct (decide (_ ∧ _)) as [Hd|Hd].
  - eexists. erewrite getPr_on_store;
      [|rewrite Hrm; by apply find_pr_alter|by rewrite set_status_targets].
    by rewrite <-Htt.
  - eexists. erewrite getPr_on_store; [|by rewrite Hrm|done].
    by rewrite <-Htt, Hst.
Qed.

(** [updatePr] on a pull request the store does not hold: the first
    call made throws, and with nothing to describe and no title the
    rejected status call is swallowed. *)
Theorem updatePr_absent prNo prTitle body state w :
  find_pr (Js.toString prNo) (remote w) = None →
  (updatePr prNo prTitle body state w).1 =
  if Js.truthy body || Js.truthy (Some prTitle) then Throw no_such_pr
  else Ok tt.
Proof.
  intros Hp. unfold updatePr. rewrite bind_log.
  destruct body as [[|c r]|]; cbn [Js.truthy Js.truthy_val orb].
  2: { unfold client_updatePrDescription. rewrite bind_invoke.
       cbn [remote cl_updatePrDescription store_client].
       unfold store_update_description. by rewrite Hp. }
  all: rewrite bind_ret_l; destruct prTitle as [|c r]; cbn [Js.truthy];
    [by rewrite bind_ret_l, bind_attempt|].
  all: unfold client_updatePrTitle; rewrite bind_invoke;
    cbn [remote cl_updatePrTitle store_client];
    unfold store_update_title; by rewrite Hp.
Qed.

End update_on_store.

(** ** The listing and a pull request created after it *)

Section stale_theorems.
Context `{!Utils}.

Lemma next_pr_id_truthy st : Js.truthy_val (Some (next_pr_id st)) = Some (next_pr_id st).
Proof.
  apply truthy_val_Some. split; [done|]. unfold next_pr_id. intros Hs.
  pose proof (parseInt_toString (Js.Num (Z.of_nat (st_next st)))) as Hp.
  by rewrite Hs in Hp.
Qed.

(** [createPr] on the store: the pull request is added and returned. *)
Lemma createPr_on_store sourceBranch targetBranch prTitle body (w : World Store) :
  prTitle ≠ "" →
  ∃ pr tr,
    createPr sourceBranch targetBranch prTitle body w =
      (Ok pr, mkWorld (config w)
                (store_create_pr prTitle sourceBranch targetBranch
                   (repository (config w)) (remote w)) tr (logs w)) ∧
    Pr.state pr = Open ∧
    Pr.sourceBranch pr = Some sourceBranch.
Proof.
  intros Ht. do 2 eexists. split.
  - eapply createPr_created;
      [done|by apply truthy_val_Some|apply next_pr_id_truthy].
  - done.
Qed.

(** C20: The listing is not refreshed by a creation.  In a session whose
    listing is cached and holds no pull request of a branch, [createPr]
    for that branch succeeds and the service holds the open pull request,
    yet [findPr] for the branch finds nothing. *)
Theorem created_pr_not_found sourceBranch targetBranch prTitle body
    (w : World Store) l :
  prList (config w) = Some l →
  Forall (λ x, Pr.sourceBranch x ≠ Some (getNewBranchName sourceBranch)) l →
  prTitle ≠ "" →
  let w' := (createPr sourceBranch targetBranch prTitle body w).2 in
  is_Ok (createPr sourceBranch targetBranch prTitle body w).1 = true ∧
  (findPr sourceBranch None None w').1 = Ok None ∧
  ∃ p t, p ∈ st_prs (remote w') ∧ pullRequestStatus p = Some OPEN ∧
         pullRequestTargets p = Some [t] ∧
         sourceReference t = Some (getNewBranchName sourceBranch).
Proof.
  intros Hc Hl Ht.
  destruct (createPr_on_store sourceBranch targetBranch prTitle body w Ht)
    as (pr & tr & -> & _). simpl. split; [done|]. split.
  - eapply findPr_absent_iff; [by apply getPrList_hit|].
    eapply Forall_impl; [exact Hl|]. by intros x Hx [Hb _].
  - do 2 eexists. split; [apply elem_of_app; right; by left|done].
Qed.

End stale_theorems.

(** ** Runs on the test store *)

Lemma mergePr_then_getPr_witness :
  let w := store_world test_store in
  (mergePr (Some "renovate/lodash") (Js.Num 0) (Some StrategySquash) w).1
    = Ok true ∧
  ∃ pr, (getPr (Js.Num 0)
           (mergePr (Some "renovate/lodash") (Js.Num 0) (Some StrategySquash)
              w).2).1 = Ok (Some pr) ∧
        Pr.state pr = Merged ∧ Pr.number pr = Js.Num 0 ∧
        Pr.sourceBranch pr = sourceReference stored_target.
Proof.
  by apply (mergePr_then_getPr (Some "renovate/lodash") (Js.Num 0)
              (Some StrategySquash) (store_world test_store) stored_pr
              stored_target []).
Defined.

Lemma mergePr_closed_pr_witness :
  let w := store_world closed_store in
  (mergePr None (Js.Num 0) (Some StrategyFastForward) w).1 = Ok false ∧
  stored_state "0"
    (remote (mergePr None (Js.Num 0) (Some StrategyFastForward) w).2)
    = Some Merged.
Proof.
  by apply (mergePr_closed_pr None (Js.Num 0) (Some StrategyFastForward)
              (store_world closed_store) (set_status CLOSED stored_pr)
              stored_target []).
Defined.

Lemma getBranchPr_after_merge_witness :
  let w := (getPrList (store_world test_store)).2 in
  let w' := (mergePr None (Js.Num 0) (Some StrategyAuto) w).2 in
  (findPr "renovate/lodash" None (Some Open) w').1 = Ok (Some listed_entry) ∧
  ∃ pr', (getBranchPr "renovate/lodash" w').1 = Ok (Some pr') ∧
         Pr.state pr' = Merged ∧ Pr.number pr' = Js.Num 0.
Proof.
  by apply (getBranchPr_after_merge "renovate/lodash" None (Some StrategyAuto)
              (getPrList (store_world test_store)).2 [listed_entry] listed_entry
              stored_pr stored_target []).
Defined.

Lemma updatePr_then_getPr_witness :
  ∃ pr, (getPr (Js.Num 0)
           (updatePr (Js.Num 0) "Update lodash to v5" (Some "body")
              (Some Closed) (store_world test_store)).2).1 = Ok (Some pr) ∧
        Pr.title pr = Some "Update lodash to v5" ∧
        Pr.state pr = Closed.
Proof.
  by apply (updatePr_then_getPr (Js.Num 0) "Update lodash to v5" (Some "body")
              (Some Closed) (store_world test_store) stored_pr stored_target []).
Defined.

Lemma updatePr_absent_witness :
  (updatePr (Js.Num 7) "Update react" None None (store_world test_store)).1
    = Throw no_such_pr.
Proof. by apply (updatePr_absent (Js.Num 7) "Update react" None None). Defined.

(** A closed pull request stays closed: [updatePr] without a state asks
    the service to open it and the service refuses. *)
Example updatePr_never_reopens :
  stored_state "0"
    (remote (updatePr (Js.Num 0) "Update lodash" None None
               (store_world closed_store)).2) = Some Closed.
Proof. by vm_compute. Qed.

(** Merging twice: the second call merges again and returns [false]. *)
Example mergePr_twice :
  let w := (mergePr None (Js.Num 0) (Some StrategySquash)
              (store_world test_store)).2 in
  (mergePr None (Js.Num 0) (Some StrategySquash) w).1 = Ok false.
Proof. by vm_compute. Qed.

Lemma created_pr_not_found_witness :
  let w := (getPrList (store_world test_store)).2 in
  let w' := (createPr "renovate/react" "main" "Update react" "body" w).2 in
  is_Ok (createPr "renovate/react" "main" "Update react" "body" w).1 = true ∧
  (findPr "renovate/react" None None w').1 = Ok None ∧
  ∃ p t, p ∈ st_prs (remote w') ∧ pullRequestStatus p = Some OPEN ∧
         pullRequestTargets p = Some [t] ∧
         sourceReference t = Some (getNewBranchName "renovate/react").
Proof.
  apply (created_pr_not_found "renovate/react" "main" "Update react" "body"
           (getPrList (store_world test_store)).2
           [{| Pr.number := Js.Num 0;
               Pr.sourceBranch := Some "refs/heads/renovate/lodash";
               Pr.targetBranch := Some "refs/heads/main";
               Pr.title := Some "Update lodash"; Pr.state := Open;
               Pr.sha := None; Pr.sourceRepo := None |}]);
    [by vm_compute|repeat constructor; by vm_compute|done].
Defined.

(** The same lookup after the session has been reset: the listing is
    read again and the pull request is found. *)
Example created_pr_found_after_reset :
  let w := (getPrList (store_world test_store)).2 in
  let w' := (createPr "renovate/react" "main" "Update react" "body" w).2 in
  Pr.number <$> (default None
    (match (findPr "renovate/react" None None (reset_cache w')).1 with
     | Ok r => Some r
     | Throw _ => None
     end)) = Some (Js.Num 1).
Proof. by vm_compute. Qed.
