(* ===== verification/StoreListing.v ===== *)
(** * StoreListing: the directory on the store

    [getPrList] on the service of [Store]: with the cache empty it asks
    for the identifiers of the pull requests of the repository, fetches
    each, and returns and caches one entry for each of them, in the order
    of the store.  A session that is reset after [createPr] lists the new
    pull request; one that is reset after [mergePr] lists the merged pull
    request as closed, the entries of the directory being made from the
    status alone. *)

From S2P Require Import Prelude JsValue Effect Sdk Session Mock.
From S2P Require Import Directory Comments Merge Store StorePulls.

(** ** Definitions *)

(** The entry of the directory for a pull request of the store. *)
Definition entry_of (p : PullRequest) : option Pr.t :=
  id ← pullRequestId p;
  t ← pullRequestTargets p ≫= head;
  Some {| Pr.targetBranch := destinationReference t;
          Pr.sourceBranch := sourceReference t;
          Pr.state := status_to_state (pullRequestStatus p);
          Pr.number := Js.parseInt id;
          Pr.title := title p;
          Pr.sha := None;
          Pr.sourceRepo := None |}.

(** The directory of a repository: the entries of its pull requests. *)
Definition listing (repo : option string) (st : Store) : list Pr.t :=
  omap entry_of (filter (listed_in repo) (st_prs st)).

(** A pull request that the service has made: its identifier is a
    number the store has given out, and it has a target. *)
Definition numbered (next : nat) (p : PullRequest) : Prop :=
  (∃ n, pullRequestId p = Some (Js.toString (Js.Num (Z.of_nat n))) ∧
        n < next) ∧
  ∃ t ts, pullRequestTargets p = Some (t :: ts).

(** The pull requests of the store are numbered, each with a number of
    its own. *)
Definition prs_wf (st : Store) : Prop :=
  NoDup (omap pullRequestId (st_prs st)) ∧
  Forall (numbered (st_next st)) (st_prs st).

(** The entry of the pull request that [createPr] has made. *)
Definition created_entry (prTitle sourceBranch targetBranch : string)
    (st : Store) : Pr.t :=
  {| Pr.targetBranch := Some (getNewBranchName targetBranch);
     Pr.sourceBranch := Some (getNewBranchName sourceBranch);
     Pr.state := Open;
     Pr.number := Js.parseInt (next_pr_id st);
     Pr.title := Some prTitle;
     Pr.sha := None;
     Pr.sourceRepo := None |}.

(** ** Lemmas *)

Section listing_lemmas.
Context `{!Utils}.
Implicit Types w : World Store.

Lemma omap_fmap_same {A B} (f : A → option B) (g : A → A) (l : list A) :
  (∀ x, f (g x) = f x) → omap f (g <$> l) = omap f l.
Proof.
  intros Hfg. induction l as [|x l IH]; [done|]. csimpl.
  by rewrite Hfg, IH.
Qed.

Lemma omap_filter_fmap {A B} (P Q : A → Prop) `{!∀ x, Decision (P x)}
    `{!∀ x, Decision (Q x)} (f : A → option B) (g : A → A) (l : list A) :
  (∀ x, P (g x) ↔ Q x) → (∀ x, Q x → f (g x) = f x) →
  omap f (filter P (g <$> l)) = omap f (filter Q l).
Proof.
  intros HP Hf. induction l as [|x l IH]; [done|].
  rewrite fmap_cons, !filter_cons. destruct (decide (Q x)) as [Hx|Hx].
  - rewrite decide_True by by apply HP. csimpl. by rewrite Hf, IH.
  - rewrite decide_False; [done|]. by rewrite HP.
Qed.

(** An identifier names one pull request. *)
Lemma head_filter_unique (prs : list PullRequest) p id :
  NoDup (omap pullRequestId prs) → p ∈ prs → pullRequestId p = Some id →
  head (filter (λ q, pullRequestId q = Some id) prs) = Some p.
Proof.
  intros Hnd Hin Hid. induction prs as [|q prs IH]; [by apply elem_of_nil in Hin|].
  rewrite filter_cons. simpl in Hnd.
  apply elem_of_cons in Hin as [<-|Hin].
  - by rewrite decide_True.
  - destruct (pullRequestId q) as [i|] eqn:Hq.
    + apply NoDup_cons in Hnd as [Hn Hnd]. rewrite decide_False; [by apply IH|].
      intros [= ->]. apply Hn, list_elem_of_omap. eauto.
    + rewrite decide_False by done. by apply IH.
Qed.

Lemma find_pr_unique st p id :
  prs_wf st → p ∈ st_prs st → pullRequestId p = Some id →
  find_pr id st = Some p.
Proof. intros [Hnd _]. by apply head_filter_unique. Qed.

(** One iteration of the loop on a pull request of the store. *)
Lemma getPrList_body_store p id fetched w e :
  find_pr id (remote w) = Some p → pullRequestId p = Some id →
  entry_of p = Some e →
  ∃ w', getPrList_body id fetched w = (Ok (Continue (fetched ++ [e])), w') ∧
        remote w' = remote w ∧ config w' = config w ∧
        trace w' = trace w ++ [GetPr id].
Proof.
  intros Hf Hid He. unfold getPrList_body, client_getPr.
  rewrite bind_invoke, (store_getPr _ _ _ Hf). cbn [mbind option_bind pullRequest].
  unfold entry_of in He. rewrite Hid in He. simpl in He.
  unfold listed_pr, first_target.
  destruct (pullRequestTargets p) as [[|t ts]|]; simplify_eq/=.
  by eexists.
Qed.

(** The loop on pull requests of the store. *)
Lemma getPrList_loop_store (ps : list PullRequest) fetched w :
  prs_wf (remote w) → ps ⊆ st_prs (remote w) →
  ∃ w', for_of (omap pullRequestId ps) getPrList_body fetched w =
          (Ok (fetched ++ omap entry_of ps), w') ∧
        remote w' = remote w ∧ config w' = config w ∧
        trace w' = trace w ++ (GetPr <$> omap pullRequestId ps).
Proof.
  intros Hwf. revert fetched w Hwf.
  induction ps as [|p ps IH]; intros fetched w Hwf Hsub.
  { exists w. by rewrite !app_nil_r. }
  assert (p ∈ st_prs (remote w)) as Hin by (apply Hsub; by left).
  destruct Hwf as [Hnd Hall]. pose proof Hall as Hp.
  rewrite Forall_forall in Hp.
  destruct (Hp p Hin) as ((n & Hid & _) & t & ts & Ht).
  set (id := Js.toString (Js.Num (Z.of_nat n))) in *.
  assert (∃ e, entry_of p = Some e) as [e He].
  { unfold entry_of. rewrite Hid, Ht. by eexists. }
  assert (omap pullRequestId (p :: ps) = id :: omap pullRequestId ps) as ->
    by (simpl; by rewrite Hid).
  assert (omap entry_of (p :: ps) = e :: omap entry_of ps) as ->
    by (simpl; by rewrite He).
  rewrite for_of_cons.
  destruct (getPrList_body_store p id fetched w e)
    as (w1 & Hr & Hrm & Hc & Htr); [by apply find_pr_unique|done..|].
  rewrite (bind_Ok _ _ _ _ _ Hr).
  destruct (IH (fetched ++ [e]) w1) as (w2 & Hl & Hrm2 & Hc2 & Htr2).
  - by rewrite Hrm.
  - rewrite Hrm. intros q Hq. apply Hsub. by right.
  - exists w2. rewrite Hl, <-app_assoc, Htr2, Htr, <-app_assoc.
    repeat split; congruence.
Qed.

(** A listing with the cache empty: the identifiers are asked for, each
    pull request is fetched, and the entries are cached. *)
Lemma getPrList_store_run w :
  prList (config w) = None → prs_wf (remote w) →
  ∃ w', getPrList w =
          (Ok (listing (repository (config w)) (remote w)), w') ∧
        remote w' = remote w ∧
        config w' =
          set_prList (Some (listing (repository (config w)) (remote w)))
            (config w) ∧
        trace w' =
          trace w ++ ListPullRequests (repository (config w))
                       (userArn (config w))
                     :: (GetPr <$> listed_ids (repository (config w))
                                     (remote w)).
Proof.
  intros Hc Hwf. unfold getPrList. rewrite bind_log, bind_read_config.
  cbn [config logged]. rewrite Hc, !bind_read_config.
  unfold client_listPullRequests. rewrite bind_invoke.
  cbn [cl_listPullRequests store_client gets fst snd mbind option_bind
       pullRequestIds default].
  rewrite bool_decide_eq_false_2 by (by intros [_ ?]).
  cbn [config remote trace logs id]. unfold listed_ids.
  match goal with |- context [bind (for_of _ _ _) _ ?W] =>
    destruct (getPrList_loop_store
                (filter (listed_in (repository (config w))) (st_prs (remote w)))
                [] W) as (w1 & Hl & Hr & Hc1 & Ht1)
  end; [done|by intros x [_ ?]%list_elem_of_filter|].
  cbn [remote config trace] in Hl, Hr, Hc1, Ht1.
  rewrite (bind_Ok _ _ _ _ _ Hl), bind_write_config, bind_log.
  eexists. split; [done|]. cbn. by rewrite Hr, Hc1, Ht1, <-app_assoc.
Qed.

End listing_lemmas.

(** ** Lemmas: the listing and the operations of the store *)

Section listing_store.
Context `{!Utils}.

Lemma entry_of_state p e :
  entry_of p = Some e → Pr.state e = status_to_state (pullRequestStatus p).
Proof.
  unfold entry_of. destruct (pullRequestId p); [|done]. simpl.
  destruct (pullRequestTargets p ≫= head); [|done]. by intros [= <-].
Qed.

(** A merge changes what [getPr] makes of a pull request and nothing of
    its entry in the directory. *)
Lemma mark_merged_fields repo src dst t :
  repositoryName (mark_merged repo src dst t) = repositoryName t ∧
  sourceReference (mark_merged repo src dst t) = sourceReference t ∧
  destinationReference (mark_merged repo src dst t) = destinationReference t.
Proof. unfold mark_merged. by case_decide. Qed.

Lemma entry_of_merge repo src dst p :
  entry_of (merge_targets repo src dst p) = entry_of p.
Proof.
  unfold entry_of. simpl. destruct (pullRequestId p); [|done]. simpl.
  destruct (pullRequestTargets p) as [[|t ts]|]; try done. simpl.
  by destruct (mark_merged_fields repo src dst t) as (_ & -> & ->).
Qed.

Lemma listed_in_merge r repo src dst p :
  listed_in r (merge_targets repo src dst p) ↔ listed_in r p.
Proof.
  unfold listed_in, pr_repo. simpl.
  destruct (pullRequestTargets p) as [[|t ts]|]; try done. simpl.
  by destruct (mark_merged_fields repo src dst t) as (-> & _).
Qed.

Lemma listing_merge r repo src dst st :
  listing r (store_merge repo src dst st) = listing r st.
Proof.
  apply omap_filter_fmap; [apply listed_in_merge|].
  intros p _. apply entry_of_merge.
Qed.

(** The new pull request comes last. *)
Lemma listing_create_pr prTitle src dst repo st :
  listing repo (store_create_pr prTitle src dst repo st) =
  listing repo st ++ [created_entry prTitle src dst st].
Proof.
  unfold listing. simpl. rewrite filter_app, omap_app. f_equal.
  rewrite filter_cons, decide_True by done. done.
Qed.

(** A pull request of the repository has its entry in the directory. *)
Lemma listing_elem repo prId st p e :
  find_pr prId st = Some p → pr_repo p = repo → entry_of p = Some e →
  e ∈ listing repo st.
Proof.
  intros Hp%head_Some_elem_of%list_elem_of_filter Hr He.
  apply list_elem_of_omap. exists p. split; [|done].
  apply list_elem_of_filter. by destruct Hp.
Qed.

End listing_store.

(** ** Lemmas: the numbering is kept *)

Section numbering.
Context `{!Utils}.

Lemma numbered_mono n m p : n ≤ m → numbered n p → numbered m p.
Proof. intros Hn ((k & Hk & Hlt) & Ht). split; [|done]. exists k. split; [done|lia]. Qed.

(** A change of the pull requests that keeps identifiers and targets. *)
Lemma prs_wf_fmap (f : PullRequest → PullRequest) prs n m :
  (∀ p, pullRequestId (f p) = pullRequestId p) →
  (∀ p t ts, pullRequestTargets p = Some (t :: ts) →
             ∃ t' ts', pullRequestTargets (f p) = Some (t' :: ts')) →
  n ≤ m →
  NoDup (omap pullRequestId prs) ∧ Forall (numbered n) prs →
  NoDup (omap pullRequestId (f <$> prs)) ∧ Forall (numbered m) (f <$> prs).
Proof.
  intros Hid Ht Hn [Hnd Hall]. split.
  - by rewrite omap_fmap_same.
  - apply Forall_fmap. eapply Forall_impl; [exact Hall|].
    intros p ((k & Hk & Hlt) & t & ts & Hp). split.
    + exists k. rewrite Hid. split; [done|lia].
    + by eapply Ht.
Qed.

Lemma prs_wf_alter prId f st :
  (∀ p, pullRequestId (f p) = pullRequestId p) →
  (∀ p, pullRequestTargets (f p) = pullRequestTargets p) →
  prs_wf st → prs_wf (alter_pr prId f st).
Proof.
  intros Hid Ht. apply prs_wf_fmap; [| |done].
  - intros p. by case_decide.
  - intros p t ts Hp. case_decide; rewrite ?Ht; eauto.
Qed.

Lemma prs_wf_merge repo src dst st :
  prs_wf st → prs_wf (store_merge repo src dst st).
Proof.
  apply prs_wf_fmap; [done| |done].
  intros p t ts Hp. simpl. rewrite Hp. simpl. eauto.
Qed.

(** The next number is new. *)
Lemma prs_wf_create_pr prTitle src dst repo st :
  prs_wf st → prs_wf (store_create_pr prTitle src dst repo st).
Proof.
  intros [Hnd Hall]. split; simpl.
  - rewrite omap_app. simpl. apply NoDup_app. split; [done|].
    split; [|apply NoDup_singleton].
    intros i (p & Hp & Hi)%list_elem_of_omap ->%list_elem_of_singleton.
    rewrite Forall_forall in Hall.
    destruct (Hall p Hp) as ((k & Hk & Hlt) & _).
    assert (Js.Num (Z.of_nat k) = Js.Num (Z.of_nat (st_next st))) as [= ?];
      [|lia].
    apply toString_inj. unfold next_pr_id in Hi. congruence.
  - apply Forall_app. split.
    + eapply Forall_impl; [exact Hall|]. intros p. apply numbered_mono. lia.
    + repeat constructor; [|simpl; eauto]. exists (st_next st). split; [done|lia].
Qed.

(** The comments leave the pull requests alone. *)
Lemma prs_wf_create prId body st : prs_wf st → prs_wf (store_create prId body st).
Proof.
  intros [Hnd Hall]. split; [done|]. simpl.
  eapply Forall_impl; [exact Hall|]. intros p. apply numbered_mono. lia.
Qed.

End numbering.

(** ** Theorems *)

Section listing_theorems.
Context `{!Utils}.
Implicit Types w : World Store.

(** C16: The directory of a session that has none yet is the listing of the
    store: [getPrList] returns one entry for each pull request of the
    repository, in the order of the store, caches them and leaves the
    store as it is. *)
Theorem getPrList_on_store w :
  prList (config w) = None → prs_wf (remote w) →
  let l := listing (repository (config w)) (remote w) in
  (getPrList w).1 = Ok l ∧
  prList (config (getPrList w).2) = Some l ∧
  remote (getPrList w).2 = remote w.
Proof.
  intros Hc Hwf.
  destruct (getPrList_store_run w Hc Hwf) as (w' & -> & Hr & Hc' & _).
  simpl. by rewrite Hc', Hr.
Qed.

(** What the listing costs: with the cache empty [getPrList] asks for
    the identifiers and then for each pull request of the repository, in
    the order of the store: one call and one more for every pull
    request. *)
Theorem getPrList_store_calls w :
  prList (config w) = None → prs_wf (remote w) →
  calls_of getPrList w =
  ListPullRequests (repository (config w)) (userArn (config w))
  :: (GetPr <$> listed_ids (repository (config w)) (remote w)).
Proof.
  intros Hc Hwf.
  destruct (getPrList_store_run w Hc Hwf) as (w' & Hrun & _ & _ & Ht).
  apply calls_of_run. by rewrite Hrun.
Qed.

(** After a reset the new pull request is listed.  The session that is
    reset after [createPr] lists the pull requests it listed before and
    the new one after them, with its branches as references. *)
Theorem created_pr_listed_after_reset sourceBranch targetBranch prTitle body w :
  prs_wf (remote w) → prTitle ≠ "" →
  let w' := reset_cache (createPr sourceBranch targetBranch prTitle body w).2 in
  (getPrList w').1 =
  Ok (listing (repository (config w)) (remote w) ++
      [created_entry prTitle sourceBranch targetBranch (remote w)]).
Proof.
  intros Hwf Ht.
  destruct (createPr_on_store sourceBranch targetBranch prTitle body w Ht)
    as (pr & tr & -> & _). cbn [snd].
  match goal with |- context [getPrList ?W] =>
    destruct (getPrList_store_run W) as (w1 & -> & _)
  end; [done|by apply prs_wf_create_pr|].
  cbn [reset_cache config remote set_prList repository].
  by rewrite listing_create_pr.
Qed.

(** C22: After a reset the merged pull request is listed as closed.  [mergePr]
    on an open pull request of the repository merges and closes it; the
    session that is reset then lists it with the state [Closed], the
    entries of the directory being made without the merge metadata,
    while [getPr] of the same number reads [Merged]. *)
Theorem merged_pr_listed_closed branchName prNo strategy w p t ts :
  prs_wf (remote w) →
  find_pr (Js.toString prNo) (remote w) = Some p →
  pullRequestTargets p = Some (t :: ts) →
  pullRequestStatus p = Some OPEN →
  repositoryName t = repository (config w) →
  supported strategy = true →
  let w' := reset_cache (mergePr branchName prNo strategy w).2 in
  ∃ l e, (getPrList w').1 = Ok l ∧ e ∈ l ∧
         Pr.number e = prNo ∧ Pr.state e = Closed ∧
         stored_state (Js.toString prNo) (remote w') = Some Merged.
Proof.
  intros Hwf Hp Ht Ho Hr Hs w'.
  destruct (mergePr_on_store branchName prNo strategy w p t ts Hp Ht Hs)
    as [Hc Hrun]. rewrite decide_True in Hrun by done.
  destruct Hrun as [_ Hrm].
  assert (remote w' = alter_pr (Js.toString prNo) (set_status CLOSED)
                        (merged_store t (remote w))) as Hrm' by done.
  destruct (getPrList_store_run w') as (w1 & -> & _); [done| |].
  { rewrite Hrm'. apply prs_wf_alter; [done..|]. by apply prs_wf_merge. }
  pose proof (find_pr_closed_merged _ CLOSED t _ _ Hp) as Hp'.
  destruct (merge_targets_first p t ts Ht) as (t' & Ht' & _).
  pose proof Hp as [Hid _]%head_Some_elem_of%list_elem_of_filter.
  rewrite Hrm'. do 2 eexists. split; [done|].
  split; [|split; [|split]].
  - eapply listing_elem; [exact Hp'| |].
    + unfold pr_repo. rewrite set_status_targets, Ht'. simpl.
      cbn [config reset_cache set_prList repository]. rewrite Hc, <-Hr.
      cbn in Ht'. rewrite Ht in Ht'. injection Ht' as <-.
      apply mark_merged_fields.
    + unfold entry_of. rewrite set_status_targets, Ht'. simpl.
      rewrite Hid. reflexivity.
  - apply parseInt_toString.
  - done.
  - by apply (stored_state_merged _ CLOSED t _ p ts).
Qed.

End listing_theorems.

(** ** Runs on the test store *)

Lemma test_store_prs_wf : prs_wf test_store.
Proof.
  split; [by apply (bool_decide_unpack _)|]. repeat constructor.
  - exists 0%nat. split; [done|simpl; lia].
  - simpl. eauto.
Defined.

Lemma getPrList_on_store_witness :
  (getPrList (store_world test_store)).1 = Ok [listed_entry] ∧
  prList (config (getPrList (store_world test_store)).2) = Some [listed_entry] ∧
  remote (getPrList (store_world test_store)).2 = test_store.
Proof.
  apply (getPrList_on_store (store_world test_store)); [done|].
  apply test_store_prs_wf.
Defined.

Lemma getPrList_store_calls_witness :
  calls_of getPrList (store_world test_store) =
  [ListPullRequests (Some "repositoryName") None; GetPr "0"].
Proof.
  apply (getPrList_store_calls (store_world test_store)); [done|].
  apply test_store_prs_wf.
Defined.

Lemma created_pr_listed_after_reset_witness :
  (getPrList (reset_cache
     (createPr "renovate/react" "main" "Update react" "body"
        (store_world test_store)).2)).1 =
  Ok [listed_entry;
      created_entry "Update react" "renovate/react" "main" test_store].
Proof.
  apply (created_pr_listed_after_reset "renovate/react" "main" "Update react"
           "body" (store_world test_store)); [apply test_store_prs_wf|done].
Defined.

Lemma merged_pr_listed_closed_witness :
  let w' := reset_cache (mergePr (Some "renovate/lodash") (Js.Num 0) (Some StrategySquash)
                           (store_world test_store)).2 in
  ∃ l e, (getPrList w').1 = Ok l ∧ e ∈ l ∧
         Pr.number e = Js.Num 0 ∧ Pr.state e = Closed ∧
         stored_state "0" (remote w') = Some Merged.
Proof.
  apply (merged_pr_listed_closed (Some "renovate/lodash") (Js.Num 0) (Some StrategySquash)
           (store_world test_store) stored_pr stored_target []);
    [apply test_store_prs_wf|done..].
Defined.
