(* ===== verification/History.v ===== *)
(** * History: what a session does to the service

    The handlers reach the service through the operations of the client
    and through nothing else.  A relation between the states of the
    service that every operation of the client respects is therefore
    respected by every handler, by every request and by every session:
    [Advances] states what the service promises, one law per operation,
    and the theorems here are proved against it once.  The services of
    [Host] and of [Store] discharge it. *)

From stdpp Require Import relations.
From S2P Require Import Prelude JsValue Effect Sdk Mock Session Host Iam.
From S2P Require Import Directory Init Comments Merge Capabilities Lifecycle.

(** ** Definitions *)

(** An operation of a backend takes every state to a related one,
    whether it resolves or rejects. *)
Definition steps {R A} (P : relation R) (op : M R A) : Prop :=
  ∀ st, P st (op st).2.

(** A relation of the services as a relation of the worlds. *)
Definition on_remote {R} (P : relation R) : relation (World R) :=
  λ w w', P (remote w) (remote w').

(** The same for a computation of the adapter and the service behind
    it. *)
Definition advances {R A} (P : relation R) (c : H R A) : Prop :=
  respects (on_remote P) c.

(** What a service promises: [P] is a preorder and every operation of
    the client steps along it. *)
Class Advances {R : Type} (P : relation R) `{!Client R} : Prop := {
  adv_preorder :: PreOrder P;
  adv_getRepositoryInfo r : steps P (cl_getRepositoryInfo r);
  adv_listPullRequests r u : steps P (cl_listPullRequests r u);
  adv_getPr i : steps P (cl_getPr i);
  adv_listRepositories : steps P cl_listRepositories;
  adv_getFile r f b : steps P (cl_getFile r f b);
  adv_createPr t d s b r : steps P (cl_createPr t d s b r);
  adv_updatePrDescription i d : steps P (cl_updatePrDescription i d);
  adv_updatePrTitle i t : steps P (cl_updatePrTitle i t);
  adv_updatePrStatus i s : steps P (cl_updatePrStatus i s);
  adv_squashMerge r s d m : steps P (cl_squashMerge r s d m);
  adv_fastForwardMerge r s d : steps P (cl_fastForwardMerge r s d);
  adv_createPrApprovalRule i c : steps P (cl_createPrApprovalRule i c);
  adv_getPrComments r i : steps P (cl_getPrComments r i);
  adv_getPrEvents i : steps P (cl_getPrEvents i);
  adv_createPrComment i r b x y : steps P (cl_createPrComment i r b x y);
  adv_updateComment i b : steps P (cl_updateComment i b);
  adv_deleteComment i : steps P (cl_deleteComment i);
}.

(** The same of the collaborators of the initialisation. *)
Class ServicesAdvance {R : Type} (P : relation R) `{!Services R} : Prop := {
  adv_GetUser c : steps P (iam_send_GetUser c);
  adv_buildCodeCommitClient r k : steps P (cl_buildCodeCommitClient r k);
  adv_initRepo u : steps P (git_initRepo u);
}.

(** A relation of the backends as a relation of the hosts. *)
Definition on_backend {R} (P : relation R) : relation (Host R) :=
  λ h h', P (backend h) (backend h').

(** An invariant of the service as a relation: a state in which it holds
    is taken to states in which it holds. *)
Definition keeps {R} (I : R → Prop) : relation R := λ st st', I st → I st'.

(** ** Lemmas: the combinators *)

#[export] Instance keeps_preorder {R} (I : R → Prop) : PreOrder (keeps I).
Proof. unfold keeps. split; [by intros st|]. intros st1 st2 st3. auto. Qed.

Section advances.
Context {R : Type} (P : relation R) `{!PreOrder P}.

#[export] Instance on_remote_preorder : PreOrder (on_remote P).
Proof.
  split; [by intros w; unfold on_remote|].
  intros w1 w2 w3. unfold on_remote. apply transitivity.
Qed.

Lemma advances_pure {A} (c : H R A) :
  (∀ w, remote (c w).2 = remote w) → advances P c.
Proof. intros Hc w. unfold on_remote. by rewrite Hc. Qed.

Lemma advances_ret {A} (a : A) : advances P (ret a : H R A).
Proof. apply respects_ret, _. Qed.

Lemma advances_throw {A} e : advances P (throw e : H R A).
Proof. apply respects_throw, _. Qed.

Lemma advances_read_config {A} (f : Config → A) :
  advances P (read_config f : H R A).
Proof. apply respects_gets, _. Qed.

Lemma advances_write_config f : advances P (write_config f : H R unit).
Proof. by apply advances_pure. Qed.

Lemma advances_log l msg : advances P (log l msg : H R unit).
Proof. by apply advances_pure. Qed.

Lemma advances_deref {A} (o : option A) : advances P (deref o : H R A).
Proof. apply respects_deref, _. Qed.

Lemma advances_invoke {A} c (op : M R A) :
  steps P op → advances P (invoke c op).
Proof. intros Hop w. rewrite invoke_run. apply Hop. Qed.

Lemma advances_bind {A B} (c : H R A) (k : A → H R B) :
  advances P c → (∀ a, advances P (k a)) → advances P (bind c k).
Proof. apply respects_bind, _. Qed.

Lemma advances_try_catch {A} (c : H R A) (h : exn → H R A) :
  advances P c → (∀ e, advances P (h e)) → advances P (try_catch c h).
Proof. apply respects_try_catch, _. Qed.

Lemma advances_attempt {A} (c : H R A) : advances P c → advances P (attempt c).
Proof. apply respects_attempt. Qed.

Lemma advances_for_of {A B} (l : list A) (body : A → B → H R (ctl B)) b :
  (∀ x b, advances P (body x b)) → advances P (for_of l body b).
Proof. apply respects_for_of, _. Qed.

End advances.

Create HintDb advances.

#[export] Hint Resolve advances_ret advances_throw advances_read_config
  advances_write_config advances_log advances_deref : advances.

#[export] Hint Resolve adv_getRepositoryInfo adv_listPullRequests adv_getPr
  adv_listRepositories adv_getFile adv_createPr adv_updatePrDescription
  adv_updatePrTitle adv_updatePrStatus adv_squashMerge adv_fastForwardMerge
  adv_createPrApprovalRule adv_getPrComments adv_getPrEvents
  adv_createPrComment adv_updateComment adv_deleteComment adv_GetUser
  adv_buildCodeCommitClient adv_initRepo : advances.

(** [solve_advances] proves that a handler advances along [P] by
    following its structure down to the calls. *)
Ltac solve_advances :=
  repeat first
    [ match goal with |- ∀ _, _ => intro end
    | match goal with
      | |- advances _ (bind _ _) => apply advances_bind
      | |- advances _ (try_catch _ _) => apply advances_try_catch
      | |- advances _ (for_of _ _ _) => apply advances_for_of
      | |- advances _ (attempt _) => apply advances_attempt
      | |- advances _ (invoke _ _) => apply advances_invoke
      | |- advances _ (match ?x with _ => _ end) => destruct x
      | |- advances _ (if ?b then _ else _) => destruct b
      end
    | solve [eauto with advances typeclass_instances] ].

(** ** Lemmas: the host *)

Section host_advances.
Context {R : Type} (P : relation R).
Context `{!Client R, !Services R, !Advances P, !ServicesAdvance P}.

#[export] Instance on_backend_preorder : PreOrder (on_backend P).
Proof.
  split; [by intros h; unfold on_backend|].
  intros h1 h2 h3. unfold on_backend. apply transitivity.
Qed.

Lemma steps_zoom {A} (op : M R A) :
  steps P op → steps (on_backend P) (zoom backend set_backend op).
Proof.
  intros Hop h. unfold zoom, on_backend. specialize (Hop (backend h)).
  by destruct (op (backend h)).
Qed.

#[export] Instance host_advances : Advances (on_backend P).
Proof.
  split; [apply _|intros; apply steps_zoom;
                  eauto with advances typeclass_instances..].
Qed.

#[export] Instance host_services_advance : ServicesAdvance (on_backend P).
Proof.
  split; intros; apply steps_zoom; eauto with advances typeclass_instances.
Qed.

Lemma advances_read_host {A} (f : Host R → A) :
  advances (on_backend P) (read_host f).
Proof. by apply advances_pure; [apply _|]. Qed.

Lemma advances_set_iam c : advances (on_backend P) (write_host (set_iam c)).
Proof. intros w. unfold on_remote, on_backend. simpl. reflexivity. Qed.

Lemma advances_resolve {A} (o : outcome A) :
  advances (on_backend P) (resolve o : H (Host R) A).
Proof. destruct o; simpl; eauto with advances typeclass_instances. Qed.

End host_advances.

#[export] Hint Resolve advances_read_host advances_set_iam advances_resolve
  : advances.

(** ** Theorems: requests and sessions *)

Section session_advances.
Context {R : Type} (P : relation R).
Context `{!Client R, !Services R, !Utils, !Advances P, !ServicesAdvance P}.
Implicit Types w : World (Host R).

(** One request, whichever it is and however it ends. *)
Lemma serve_advances r : advances (on_backend P) (serve r).
Proof.
  destruct r; open_requests; solve_advances.
Qed.

(** A session advances the service along every relation the service
    promises to respect. *)
Theorem session_advances w w' :
  rtc step w w' → P (backend (remote w)) (backend (remote w')).
Proof. apply (steps_respect (on_remote (on_backend P))), serve_advances. Qed.

End session_advances.
