(* ===== verification/Replay.v ===== *)
(** * Replay: the trace is a complete log of a session

    Every handler reaches the service through the wrappers of [Session]
    and [Host], and every wrapper records its call before the service
    runs.  So the calls on the trace, made again in their order on the
    service as it was, give the service as it is: nothing the adapter
    does to the service goes unrecorded, nothing is recorded that was not
    done, and the arguments on the trace are the arguments the service
    got.

    [Replays] states what a service promises for that: a function [apply]
    from a call and a state to the state after it, and one law per
    operation of the client.  The theorems are proved against it once,
    by the rules of [respects]; the scripted mock of the unit tests
    discharges it here and the store in [StoreReplay].  A service that
    also keeps a relation under every operation ([Advances]) keeps it
    under every sequence of calls, the adapter's or not. *)

From stdpp Require Import relations.
From S2P Require Import Prelude JsValue Effect Sdk Mock Session Host Iam.
From S2P Require Import Directory Init Comments Merge Capabilities Lifecycle.
From S2P Require Import History.

(** ** Definitions *)

(** The service after the calls [cs], made one after the other. *)
Definition replay {R} (apply : Call → R → R) (cs : list Call) (st : R) : R :=
  foldl (λ st c, apply c st) st cs.

(** An operation leaves the service as [apply] says of its call, whether
    it resolves or rejects. *)
Definition performs {R A} (apply : Call → R → R) (c : Call) (op : M R A)
  : Prop :=
  ∀ st, (op st).2 = apply c st.

(** What a service promises: each operation of the client performs the
    call its wrapper records. *)
Class Replays {R : Type} (apply : Call → R → R) `{!Client R} : Prop := {
  rep_getRepositoryInfo r :
    performs apply (GetRepositoryInfo r) (cl_getRepositoryInfo r);
  rep_listPullRequests r u :
    performs apply (ListPullRequests r u) (cl_listPullRequests r u);
  rep_getPr i : performs apply (GetPr i) (cl_getPr i);
  rep_listRepositories : performs apply ListRepositories cl_listRepositories;
  rep_getFile r f b : performs apply (GetFile r f b) (cl_getFile r f b);
  rep_createPr t d s b r :
    performs apply (CreatePr t d s b r) (cl_createPr t d s b r);
  rep_updatePrDescription i d :
    performs apply (UpdatePrDescription i d) (cl_updatePrDescription i d);
  rep_updatePrTitle i t :
    performs apply (UpdatePrTitle i t) (cl_updatePrTitle i t);
  rep_updatePrStatus i s :
    performs apply (UpdatePrStatus i s) (cl_updatePrStatus i s);
  rep_squashMerge r s d m :
    performs apply (SquashMerge r s d m) (cl_squashMerge r s d m);
  rep_fastForwardMerge r s d :
    performs apply (FastForwardMerge r s d) (cl_fastForwardMerge r s d);
  rep_createPrApprovalRule i c :
    performs apply (CreatePrApprovalRule i c) (cl_createPrApprovalRule i c);
  rep_getPrComments r i :
    performs apply (GetPrComments r i) (cl_getPrComments r i);
  rep_getPrEvents i : performs apply (GetPrEvents i) (cl_getPrEvents i);
  rep_createPrComment i r b x y :
    performs apply (CreatePrComment i r b x y) (cl_createPrComment i r b x y);
  rep_updateComment i b :
    performs apply (UpdateComment i b) (cl_updateComment i b);
  rep_deleteComment i : performs apply (DeleteComment i) (cl_deleteComment i);
}.

(** The same of the collaborators of the initialisation. *)
Class ServicesReplay {R : Type} (apply : Call → R → R) `{!Services R}
  : Prop := {
  rep_GetUser c : performs apply GetUser (iam_send_GetUser c);
  rep_buildCodeCommitClient r k :
    performs apply (BuildCodeCommitClient r k) (cl_buildCodeCommitClient r k);
  rep_initRepo u : performs apply (GitInitRepo u) (git_initRepo u);
}.

(** The calls that only read leave the service as it is. *)
Class ReadsKeep {R : Type} (apply : Call → R → R) : Prop :=
  reads_keep c st : is_mutation c = false → apply c st = st.

(** Two worlds of a host: the trace of the second is that of the first
    and the calls that take the service from the one to the other. *)
Definition replayed {R} (apply : Call → R → R) : relation (World (Host R)) :=
  λ w w', ∃ cs, trace w' = trace w ++ cs ∧
                backend (remote w') = replay apply cs (backend (remote w)).

(** The command of the SDK a call of the client sends. *)
Definition command (c : Call) : option Cmd :=
  match c with
  | BuildCodeCommitClient _ _ | GetUser | GitInitRepo _ => None
  | GetRepositoryInfo _ => Some GetRepositoryCommand
  | ListPullRequests _ _ => Some ListPullRequestsCommand
  | GetPr _ => Some GetPullRequestCommand
  | ListRepositories => Some ListRepositoriesCommand
  | GetFile _ _ _ => Some GetFileCommand
  | CreatePr _ _ _ _ _ => Some CreatePullRequestCommand
  | UpdatePrDescription _ _ => Some UpdatePullRequestDescriptionCommand
  | UpdatePrTitle _ _ => Some UpdatePullRequestTitleCommand
  | UpdatePrStatus _ _ => Some UpdatePullRequestStatusCommand
  | SquashMerge _ _ _ _ => Some MergeBranchesBySquashCommand
  | FastForwardMerge _ _ _ => Some MergeBranchesByFastForwardCommand
  | CreatePrApprovalRule _ _ => Some CreatePullRequestApprovalRuleCommand
  | GetPrComments _ _ => Some GetCommentsForPullRequestCommand
  | GetPrEvents _ => Some DescribePullRequestEventsCommand
  | CreatePrComment _ _ _ _ _ => Some PostCommentForPullRequestCommand
  | UpdateComment _ _ => Some UpdateCommentCommand
  | DeleteComment _ => Some DeleteCommentContentCommand
  end.

(** What a call does to the mock: its command takes the behaviour
    queued for it, if there is one. *)
Definition mock_apply (c : Call) (m : Mock) : Mock :=
  match command c with
  | Some cmd => (send cmd m).2
  | None => m
  end.

Definition stub_apply (c : Call) (s : Stub) : Stub :=
  set_stub_mock (mock_apply c (stub_mock s)) s.

(** ** Lemmas: replaying *)

Section replay.
Context {R : Type} (apply : Call → R → R).
Implicit Types (cs : list Call) (st : R).

Lemma replay_app cs1 cs2 st :
  replay apply (cs1 ++ cs2) st = replay apply cs2 (replay apply cs1 st).
Proof. apply foldl_app. Qed.

Lemma replay_snoc cs c st :
  replay apply (cs ++ [c]) st = apply c (replay apply cs st).
Proof. by rewrite replay_app. Qed.

(** Reads can be left out of a replay. *)
Lemma replay_mutations `{!ReadsKeep apply} cs st :
  replay apply cs st = replay apply (filter (λ c, is_mutation c = true) cs) st.
Proof.
  revert st. induction cs as [|c cs IH]; intros st; [done|].
  rewrite filter_cons. simpl. case_decide as Hc; simpl; [apply IH|].
  rewrite reads_keep; [apply IH|]. by destruct (is_mutation c).
Qed.

Lemma replay_reads `{!ReadsKeep apply} cs st :
  Forall (λ c, is_mutation c = false) cs → replay apply cs st = st.
Proof.
  unfold replay. induction 1 as [|c cs Hc _ IH]; [done|]. simpl.
  by rewrite reads_keep.
Qed.

#[export] Instance replayed_preorder : PreOrder (replayed apply).
Proof.
  split; [intros w; exists []; by rewrite app_nil_r|].
  intros w1 w2 w3 (cs1 & H1 & Hr1) (cs2 & H2 & Hr2). exists (cs1 ++ cs2).
  split; [by rewrite H2, H1, app_assoc|by rewrite replay_app, <-Hr1].
Qed.

(** *** The steps of a handler *)

(** A step that leaves the trace and the service alone. *)
Lemma replayed_silent {A} (c : H (Host R) A) :
  (∀ w, trace (c w).2 = trace w ∧
        backend (remote (c w).2) = backend (remote w)) →
  respects (replayed apply) c.
Proof. intros Hc w. destruct (Hc w) as [Ht Hb]. exists []. by rewrite app_nil_r. Qed.

Lemma replayed_read_config {A} (f : Config → A) :
  respects (replayed apply) (read_config f : H (Host R) A).
Proof. by apply replayed_silent. Qed.

Lemma replayed_write_config f :
  respects (replayed apply) (write_config f : H (Host R) unit).
Proof. by apply replayed_silent. Qed.

Lemma replayed_log l msg :
  respects (replayed apply) (log l msg : H (Host R) unit).
Proof. by apply replayed_silent. Qed.

Lemma replayed_read_host {A} (f : Host R → A) :
  respects (replayed apply) (read_host f).
Proof. by apply replayed_silent. Qed.

Lemma replayed_set_iam c : respects (replayed apply) (write_host (set_iam c)).
Proof. by apply replayed_silent. Qed.

Lemma replayed_resolve {A} (o : outcome A) :
  respects (replayed apply) (resolve o : H (Host R) A).
Proof. apply replayed_silent. by destruct o. Qed.

(** A call: one more entry of the trace, one more step of the service. *)
Lemma replayed_invoke {A} c (op : M R A) :
  performs apply c op →
  respects (replayed apply) (invoke c (zoom backend set_backend op)).
Proof.
  intros Hop w. exists [c]. rewrite invoke_run, zoom_run. simpl.
  by rewrite Hop.
Qed.

End replay.

#[export] Hint Resolve replayed_read_config replayed_write_config
  replayed_log replayed_read_host replayed_set_iam replayed_resolve
  : respects.

#[export] Hint Resolve rep_getRepositoryInfo rep_listPullRequests rep_getPr
  rep_listRepositories rep_getFile rep_createPr rep_updatePrDescription
  rep_updatePrTitle rep_updatePrStatus rep_squashMerge rep_fastForwardMerge
  rep_createPrApprovalRule rep_getPrComments rep_getPrEvents
  rep_createPrComment rep_updateComment rep_deleteComment rep_GetUser
  rep_buildCodeCommitClient rep_initRepo : respects.

(** [solve_replays] follows a handler down to its calls. *)
Ltac solve_replays :=
  repeat first
    [ respects_step
    | match goal with
      | |- respects _ (invoke _ _) => apply replayed_invoke
      end
    | solve [eauto with respects typeclass_instances] ].

(** ** Lemmas: what the service promises, of any sequence of calls *)

Section replay_advances.
Context {R : Type} (P : relation R) (apply : Call → R → R).
Context `{!Client R, !Services R, !Advances P, !ServicesAdvance P}.
Context `{!Replays apply, !ServicesReplay apply}.

(** A call is an operation of the service, so it steps along every
    relation the operations step along. *)
Lemma apply_advances c st : P st (apply c st).
Proof.
  destruct c;
    [ erewrite <-rep_buildCodeCommitClient
    | erewrite <-(rep_GetUser test_iam)
    | erewrite <-rep_initRepo
    | erewrite <-rep_getRepositoryInfo
    | erewrite <-rep_listPullRequests
    | erewrite <-rep_getPr
    | erewrite <-rep_listRepositories
    | erewrite <-rep_getFile
    | erewrite <-rep_createPr
    | erewrite <-rep_updatePrDescription
    | erewrite <-rep_updatePrTitle
    | erewrite <-rep_updatePrStatus
    | erewrite <-rep_squashMerge
    | erewrite <-rep_fastForwardMerge
    | erewrite <-rep_createPrApprovalRule
    | erewrite <-rep_getPrComments
    | erewrite <-rep_getPrEvents
    | erewrite <-rep_createPrComment
    | erewrite <-rep_updateComment
    | erewrite <-rep_deleteComment ];
    match goal with
    | |- P ?st (?op ?st).2 =>
        cut (steps P op);
          [intros Hs; apply Hs|eauto with advances typeclass_instances]
    end.
Qed.

(** The calls of any client, in any order, keep what the service
    promises: it does not rest on how the adapter behaves. *)
Lemma replay_advances cs st : P st (replay apply cs st).
Proof.
  revert st. induction cs as [|c cs IH]; intros st; [reflexivity|].
  etrans; [apply (apply_advances c)|apply IH].
Qed.

End replay_advances.

(** ** Lemmas: the mock *)

Lemma performs_forward {A} c cmd (f : Reply → A) :
  command c = Some cmd → performs mock_apply c (forward cmd f).
Proof.
  intros Hc m. unfold mock_apply, forward, bind. rewrite Hc.
  by destruct (send cmd m) as [[]].
Qed.

#[export] Instance mock_replays : Replays mock_apply.
Proof.
  split; intros; try (by apply performs_forward).
  intros m. unfold mock_apply. simpl. unfold mock_getPr.
  rewrite bind_attempt. by destruct (send _ m) as [[]].
Qed.

(** A client that runs on a part of the state replays on the whole. *)
Lemma performs_zoom {S R A} (get : S → R) (set : R → S → S) apply c
    (op : M R A) :
  performs apply c op →
  performs (λ c s, set (apply c (get s)) s) c (zoom get set op).
Proof. intros Hop s. rewrite zoom_run. simpl. by rewrite Hop. Qed.

#[export] Instance stub_replays : Replays stub_apply.
Proof.
  split; intros; apply (performs_zoom stub_mock set_stub_mock mock_apply);
    eauto with respects typeclass_instances.
Qed.

#[export] Instance stub_services_replay : ServicesReplay stub_apply.
Proof. split; intros; intros [? ? ?]; reflexivity. Qed.

(** ** Theorems: requests and sessions *)

Section session_replays.
Context {R : Type} (apply : Call → R → R).
Context `{!Client R, !Services R, !Utils}.
Context `{!Replays apply, !ServicesReplay apply}.
Implicit Types w : World (Host R).

(** One request, whichever it is and however it ends. *)
Lemma serve_replays r : respects (replayed apply) (serve r).
Proof.
  destruct r; open_requests; solve_replays.
Qed.

Lemma steps_replayed w w' : rtc step w w' → replayed apply w w'.
Proof. apply (steps_respect (replayed apply)), serve_replays. Qed.


(** What a session that starts with an empty trace leaves of the service
    is the replay of its trace. *)
Lemma session_replays_trace w w' :
  rtc step w w' → trace w = [] →
  backend (remote w') = replay apply (trace w') (backend (remote w)).
Proof.
  intros (cs & Ht & ->)%steps_replayed Hw. by rewrite Ht, Hw.
Qed.

(** Lookups leave a service alone whose reads do. *)
Lemma lookups_keep_service `{!ReadsKeep apply} w w' :
  rtc lookup_step w w' → backend (remote w') = backend (remote w).
Proof.
  intros Hl. assert (rtc step w w') as (cs & Ht & ->)%steps_replayed.
  { eapply rtc_subrel; [|exact Hl]. intros ? ? [r w1 _]. constructor. }
  destruct (lookup_steps_calls _ _ Hl) as (cs' & Ht' & Hcs).
  rewrite Ht' in Ht. apply app_inv_head in Ht as <-. by apply replay_reads.
Qed.

End session_replays.

(** ** The session of the unit tests *)


(** The mock after the session is the mock before with one queued
    behaviour taken by each call of the trace. *)
Example test_session_replay :
  backend (remote (session test_requests listed_session)) =
  replay stub_apply
    [GetRepositoryInfo "repositoryName";
     GitInitRepo ("https://accessKeyId@git-codecommit.eu-central-1" +:+
                  ".amazonaws.com/v1/repos/repositoryName");
     GetPr "1"; GetPr "1"]
    (backend (remote listed_session)).
Proof. by vm_compute. Qed.
