(* ===== verification/StoreHistory.v ===== *)
(** * StoreHistory: the store only moves forward

    The service of [Store] keeps the promise of [History.Advances] for an
    order of its states: no pull request disappears, the state of a pull
    request moves from open to closed to merged and never back, no
    comment thread is removed and the identifiers given out are not given
    again.  Every session of the adapter on the store therefore moves it
    forward, whatever the requests are and however they end. *)

From stdpp Require Import relations.
From S2P Require Import Prelude JsValue Effect Sdk Mock Session Host Iam.
From S2P Require Import Directory Init Comments Merge Capabilities Lifecycle.
From S2P Require Import Store History.

(** ** The order *)

(** Open, then closed, then merged. *)
Definition state_rank (s : PrState) : nat :=
  match s with
  | Open => 0
  | Closed => 1
  | Merged => 2
  | _ => 3
  end.

Definition state_le (s s' : PrState) : Prop := state_rank s ≤ state_rank s'.

(** A pull request that has a state keeps one, and a later one. *)
Definition pr_le (p p' : PullRequest) : Prop :=
  ∀ s, pr_state p = Some s → ∃ s', pr_state p' = Some s' ∧ state_le s s'.

Definition store_le (st st' : Store) : Prop :=
  (∀ prId p, find_pr prId st = Some p →
             ∃ p', find_pr prId st' = Some p' ∧ pr_le p p') ∧
  (∀ prId, length (st_threads st prId) ≤ length (st_threads st' prId)) ∧
  st_next st ≤ st_next st' ∧
  st_rules st `prefix_of` st_rules st'.

(** ** The collaborators of the initialisation beside the store *)

(** IAM knows the user, git clones, and neither touches the store. *)
Definition store_user : GetUserCommandOutput :=
  {| User := Some {| Arn := Some "aws:arn:iam:123456:user/ok" |} |}.

#[export] Instance store_services : Services Store := {|
  iam_send_GetUser _ := ret (Some store_user);
  cl_buildCodeCommitClient _ _ := ret tt;
  cl_getCodeCommitUrl := cl_getCodeCommitUrl (R:=Stub);
  git_initRepo _ := ret tt;
  util_repoFingerprint := util_repoFingerprint (R:=Stub);
|}.

(** A host of the test store, and a session on it. *)
Definition store_host (st : Store) : World (Host Store) :=
  mkWorld (set_repository (Some "repositoryName") config_empty)
    (mkHost env_empty None st) [] [].

Definition store_requests : list Request :=
  [ReqGetPrList;
   ReqEnsureComment (Js.Num 42) (Some "some-subject") "some content";
   ReqMergePr None (Js.Num 0) (Some StrategySquash);
   ReqUpdatePr (Js.Num 0) "Update lodash" None None;
   ReqCreatePr "renovate/react" "main" "Update react" "body";
   ReqEnsureCommentRemoval (ByTopic "some-subject") (Js.Num 42)].

(** ** Lemmas: the order *)

Section order.
Context `{!Utils}.

#[export] Instance state_le_preorder : PreOrder state_le.
Proof. split; unfold state_le; intros ?; [done|]. intros ??. lia. Qed.

#[export] Instance pr_le_preorder : PreOrder pr_le.
Proof.
  split; [intros p s Hs; by exists s|].
  intros p1 p2 p3 H12 H23 s Hs.
  destruct (H12 s Hs) as (s2 & Hs2 & Hle). destruct (H23 s2 Hs2) as (s3 & ? & ?).
  exists s3. split; [done|]. by etrans.
Qed.

#[export] Instance store_le_preorder : PreOrder store_le.
Proof.
  split.
  { intros st. repeat split; [|done..]. intros prId p Hp. by exists p. }
  intros st1 st2 st3 (Hp12 & Ht12 & Hn12 & Hr12) (Hp23 & Ht23 & Hn23 & Hr23).
  repeat split; [|intros prId; etrans; [apply Ht12|apply Ht23]|lia
                 |by etrans].
  intros prId p Hp. destruct (Hp12 _ _ Hp) as (p2 & Hp2 & Hle).
  destruct (Hp23 _ _ Hp2) as (p3 & ? & ?). exists p3. split; [done|].
  by etrans.
Qed.

(** The states [getPr] derives are the three of a pull request. *)
Lemma derived_state_rank t status : state_rank (derived_state t status) ≤ 2.
Proof.
  unfold derived_state. destruct (Js.truthy_bool _); [done|].
  destruct (status_to_state_cases status) as [->| ->]; simpl; lia.
Qed.

Lemma derived_state_closed t status :
  state_le (derived_state t status) (derived_state t (Some CLOSED)).
Proof.
  unfold state_le, derived_state. destruct (Js.truthy_bool _); [done|].
  destruct (status_to_state_cases status) as [->| ->]; by vm_compute; lia.
Qed.

(** The three changes of a pull request. *)
Lemma pr_le_set_title prTitle p : pr_le p (set_title prTitle p).
Proof. intros s Hs. by exists s. Qed.

Lemma pr_le_set_status p : pr_le p (set_status CLOSED p).
Proof.
  intros s. unfold pr_state. simpl.
  destruct (pullRequestTargets p ≫= head) as [t|]; [|done]. simpl.
  intros [= <-]. eexists. split; [done|]. apply derived_state_closed.
Qed.

Lemma pr_le_merge repo src dst p : pr_le p (merge_targets repo src dst p).
Proof.
  intros s. unfold pr_state. simpl.
  destruct (pullRequestTargets p) as [[|t ts]|]; simpl; [done| |done].
  intros [= <-]. eexists. split; [done|]. unfold mark_merged.
  case_decide; [|done]. unfold state_le.
  match goal with |- _ ≤ state_rank (derived_state ?t' ?st) =>
    rewrite (derived_state_merged t' st) by reflexivity
  end.
  apply derived_state_rank.
Qed.

(** A change of the pull requests that keeps the identifiers. *)
Lemma store_le_fmap (f : PullRequest → PullRequest) st :
  (∀ p, pullRequestId (f p) = pullRequestId p) →
  (∀ p, pr_le p (f p)) →
  store_le st (mkStore (f <$> st_prs st) (st_threads st) (st_events st)
                 (st_next st) (st_repos st) (st_files st) (st_rules st)).
Proof.
  intros Hid Hle. repeat split; [|done..]. intros prId p Hp.
  exists (f p). split; [|done]. unfold find_pr in *. simpl.
  by rewrite head_filter_id_fmap, Hp.
Qed.

Lemma store_le_alter prId f st :
  (∀ p, pullRequestId (f p) = pullRequestId p) →
  (∀ p, pr_le p (f p)) →
  store_le st (alter_pr prId f st).
Proof.
  intros Hid Hle. apply store_le_fmap; intros p; by case_decide.
Qed.

Lemma store_le_merge repo src dst st :
  store_le st (store_merge repo src dst st).
Proof. apply store_le_fmap; [done|]. intros p. apply pr_le_merge. Qed.

Lemma store_le_create_pr prTitle src dst repo st :
  store_le st (store_create_pr prTitle src dst repo st).
Proof.
  repeat split; [|done|simpl; lia|done]. intros prId p Hp. exists p.
  split; [|done]. unfold find_pr in *. simpl. rewrite filter_app.
  by destruct (filter _ (st_prs st)).
Qed.

(** A change of the comments. *)
Lemma store_le_threads st st' :
  st_prs st' = st_prs st →
  (∀ prId, length (st_threads st prId) ≤ length (st_threads st' prId)) →
  st_next st ≤ st_next st' →
  st_rules st `prefix_of` st_rules st' →
  store_le st st'.
Proof.
  intros Hprs Hth Hn Hr. repeat split; [|done..]. intros prId p Hp. exists p.
  split; [|done]. unfold find_pr in *. by rewrite Hprs.
Qed.

Lemma store_le_create prId body st : store_le st (store_create prId body st).
Proof.
  apply store_le_threads; [done| |simpl; lia|done]. intros p. simpl.
  case_decide; rewrite ?length_app; lia.
Qed.

Lemma store_le_update id body st : store_le st (store_update id body st).
Proof.
  apply store_le_threads; [done| |done..]. intros p. simpl.
  by rewrite length_fmap.
Qed.

Lemma store_le_add_rule prId rule st : store_le st (store_add_rule prId rule st).
Proof. apply store_le_threads; [done..|]. by apply prefix_app_r. Qed.

End order.

(** ** The store keeps the promise *)

Section store_advances.
Context `{!Utils}.

Lemma steps_getPr prId : steps store_le (cl_getPr prId).
Proof. intros st. simpl. by destruct (find_pr prId st). Qed.

Lemma steps_getRepositoryInfo name :
  steps store_le (store_getRepositoryInfo name).
Proof.
  intros st. unfold store_getRepositoryInfo. by destruct (find_repo name st).
Qed.

Lemma steps_getFile repo path : steps store_le (store_getFile repo path).
Proof. intros st. unfold store_getFile. by destruct (st_files st repo path). Qed.

Lemma steps_createPrApprovalRule prId rule :
  steps store_le (store_createPrApprovalRule prId rule).
Proof.
  intros st. unfold store_createPrApprovalRule.
  destruct (find_pr prId st); [apply store_le_add_rule|done].
Qed.

Lemma steps_update_description prId d :
  steps store_le (store_update_description prId d).
Proof.
  intros st. unfold store_update_description. by destruct (find_pr prId st).
Qed.

Lemma steps_update_title prId prTitle :
  steps store_le (store_update_title prId prTitle).
Proof.
  intros st. unfold store_update_title. destruct (find_pr prId st); [|done].
  apply store_le_alter; [done|]. intros q. apply pr_le_set_title.
Qed.

Lemma steps_update_status prId status :
  steps store_le (store_update_status prId status).
Proof.
  intros st. unfold store_update_status. destruct (find_pr prId st); [|done].
  case_decide as Hs; [|done]. destruct Hs as [_ ->].
  apply store_le_alter; [done|]. intros q. apply pr_le_set_status.
Qed.

#[export] Instance store_advances : Advances store_le.
Proof.
  split; [apply _|..]; intros;
    first [ apply steps_getPr | apply steps_getRepositoryInfo
          | apply steps_getFile | apply steps_createPrApprovalRule
          | apply steps_update_description
          | apply steps_update_title | apply steps_update_status
          | intros st; first [ apply store_le_create_pr | apply store_le_merge
                             | apply store_le_create | apply store_le_update
                             | reflexivity ] ].
Qed.

#[export] Instance store_services_advance : ServicesAdvance store_le.
Proof. split; intros; by intros st. Qed.


(** A merged pull request stays merged. *)
Theorem merged_stays_merged (w w' : World (Host Store)) prId :
  rtc step w w' →
  stored_state prId (backend (remote w)) = Some Merged →
  stored_state prId (backend (remote w')) = Some Merged.
Proof.
  intros Hsteps Hs.
  destruct (session_advances store_le w w' Hsteps) as (Hp & _).
  unfold stored_state in *. destruct (find_pr _ _) as [p|] eqn:Hf; [|done].
  destruct (Hp _ _ Hf) as (p' & -> & Hle).
  destruct (Hle _ Hs) as (s' & Hs' & Hr). simpl. rewrite Hs'. f_equal.
  unfold pr_state in Hs'. destruct (_ ≫= head) as [t|]; [|done].
  injection Hs' as <-. pose proof (derived_state_rank t (pullRequestStatus p')).
  unfold state_le in Hr. simpl in Hr.
  destruct (derived_state _ _); simpl in *; by try lia.
Qed.


End store_advances.

(** ** A session on the test store *)


Lemma merged_stays_merged_witness :
  let w := session [ReqMergePr None (Js.Num 0) (Some StrategySquash)]
             (store_host test_store) in
  stored_state "0"
    (backend (remote (session [ReqUpdatePr (Js.Num 0) "t" None (Some Closed)]
                        w))) = Some Merged.
Proof.
  apply (merged_stays_merged
           (session [ReqMergePr None (Js.Num 0) (Some StrategySquash)]
              (store_host test_store)));
    [apply session_reachable|by vm_compute].
Defined.


(** The session of the test: the pull request is merged, the topic has
    its thread, emptied by the removal, and a second pull request
    exists. *)
Example store_session_run :
  let st := backend (remote (session store_requests (store_host test_store))) in
  stored_state "0" st = Some Merged ∧
  length (st_threads st "42") = 2 ∧
  stored_state "2" st = Some Open.
Proof. by vm_compute. Qed.
