(* ===== verification/StoreInvariant.v ===== *)
(** * StoreInvariant: what every session keeps of the store

    The theorems of [StoreComments], [Topics] and [StoreListing] are
    stated of a store that is well formed: numbered pull requests with
    a target each, comment threads as the SDK documents them, first
    comments with identifiers of their own.  The store that the service
    starts with has these properties and every operation of the client
    keeps them, so that they hold after every sequence of requests,
    however the requests end. *)

From stdpp Require Import relations.
From S2P Require Import Prelude JsValue Effect Sdk Session Mock Host Iam.
From S2P Require Import Directory Init Comments Merge Capabilities Lifecycle.
From S2P Require Import Store StoreComments Topics StorePulls StoreListing.
From S2P Require Import History StoreHistory.

(** ** Definitions *)

(** The store is well formed: its pull requests are, and the threads of
    every pull request. *)
Definition store_inv (st : Store) : Prop :=
  prs_wf st ∧ ∀ prId, store_wf prId st ∧ ids_wf prId st.

(** A store to start from: the pull request of the test store and the
    comments of two topics on pull request 42. *)
Definition seed_store : Store :=
  mkStore (st_prs test_store) (st_threads topic_store)
    (st_events topic_store) 2 (st_repos test_store) (st_files test_store) [].

(** ** Lemmas: the operations keep the store well formed *)

Section store_inv.
Context `{!Utils}.

Lemma ids_wf_next prId st st' :
  st_threads st' = st_threads st → st_next st ≤ st_next st' →
  ids_wf prId st → ids_wf prId st'.
Proof.
  intros Ht Hn [Hnd Hfresh]. unfold ids_wf. rewrite Ht. split; [done|].
  intros n Hle. apply Hfresh. lia.
Qed.

(** A change of the pull requests alone. *)
Lemma store_inv_prs st st' :
  st_threads st' = st_threads st → st_next st ≤ st_next st' →
  (prs_wf st → prs_wf st') → store_inv st → store_inv st'.
Proof.
  intros Ht Hn Hp [Hwf Hth]. split; [auto|]. intros prId.
  destruct (Hth prId) as [Hs Hi]. split; [|by eapply ids_wf_next].
  unfold store_wf. by rewrite Ht.
Qed.

Lemma store_inv_alter prId f st :
  (∀ p, pullRequestId (f p) = pullRequestId p) →
  (∀ p, pullRequestTargets (f p) = pullRequestTargets p) →
  store_inv st → store_inv (alter_pr prId f st).
Proof. intros Hid Ht. apply store_inv_prs; [done..|by apply prs_wf_alter]. Qed.

Lemma store_inv_merge repo src dst st :
  store_inv st → store_inv (store_merge repo src dst st).
Proof. apply store_inv_prs; [done..|apply prs_wf_merge]. Qed.

Lemma store_inv_create_pr prTitle src dst repo st :
  store_inv st → store_inv (store_create_pr prTitle src dst repo st).
Proof. apply store_inv_prs; [done|simpl; lia|apply prs_wf_create_pr]. Qed.

Lemma store_inv_add_rule prId rule st :
  store_inv st → store_inv (store_add_rule prId rule st).
Proof. by apply store_inv_prs. Qed.

Lemma store_inv_create prId body st :
  store_inv st → store_inv (store_create prId body st).
Proof.
  intros [Hwf Hth]. split; [by apply prs_wf_create|]. intros p.
  destruct (Hth p). split; [by apply store_create_wf|by apply ids_wf_create].
Qed.

Lemma store_inv_update id body st :
  store_inv st → store_inv (store_update id body st).
Proof.
  intros [Hwf Hth]. split; [done|]. intros p.
  destruct (Hth p). split; [by apply store_update_wf|by apply ids_wf_update].
Qed.

(** The operations of the client, one by one. *)
Lemma keeps_update_title prId prTitle :
  steps (keeps store_inv) (store_update_title prId prTitle).
Proof.
  intros st. unfold store_update_title. destruct (find_pr prId st); [|done].
  unfold keeps. simpl. by apply store_inv_alter.
Qed.

Lemma keeps_update_status prId status :
  steps (keeps store_inv) (store_update_status prId status).
Proof.
  intros st. unfold store_update_status. destruct (find_pr prId st); [|done].
  case_decide; [|done]. unfold keeps. simpl. by apply store_inv_alter.
Qed.

Lemma keeps_createPrApprovalRule prId rule :
  steps (keeps store_inv) (store_createPrApprovalRule prId rule).
Proof.
  intros st. unfold store_createPrApprovalRule.
  destruct (find_pr prId st); [|done].
  unfold keeps. simpl. apply store_inv_add_rule.
Qed.

Lemma keeps_read {A} (op : M Store A) :
  (∀ st, (op st).2 = st) → steps (keeps store_inv) op.
Proof. intros Hop st. by rewrite Hop. Qed.

#[export] Instance store_keeps_inv : Advances (keeps store_inv).
Proof.
  split; [apply _|..]; intros;
    first [ apply keeps_update_title | apply keeps_update_status
          | apply keeps_createPrApprovalRule
          | intros st; unfold keeps; simpl;
            first [ apply store_inv_create_pr
                  | apply store_inv_merge
                  | apply store_inv_create
                  | apply store_inv_update ]
          | apply keeps_read; intros st; simpl;
            unfold store_getRepositoryInfo, store_getFile,
              store_update_description; by repeat case_match ].
Qed.

#[export] Instance store_services_keep_inv : ServicesAdvance (keeps store_inv).
Proof. split; intros; by intros st. Qed.

End store_inv.

(** ** Theorems *)

Section store_inv_theorems.
Context `{!Utils}.


End store_inv_theorems.

(** ** A session on a well-formed store *)

Lemma seed_store_inv : store_inv seed_store.
Proof.
  split.
  - split; [by apply (bool_decide_unpack _)|]. repeat constructor.
    + exists 0%nat. split; [done|simpl; lia].
    + simpl. eauto.
  - intros prId. destruct (decide (prId = "42")) as [->|Hne].
    + split; [apply topic_store_wf|apply topic_store_ids].
    + unfold store_wf, ids_wf. simpl. rewrite decide_False by done.
      split; [done|]. split; [constructor|]. intros n _. apply not_elem_of_nil.
Defined.


(** The session of the example leaves two pull requests, numbered 0 and
    3, and three threads on pull request 42: the store numbers comments
    and pull requests with one counter. *)
Example seed_session_run :
  let st := backend (remote (session store_requests (store_host seed_store))) in
  omap pullRequestId (st_prs st) = ["0"; "3"] ∧
  root_ids (st_threads st "42") = ["comment-0"; "comment-1"; "comment-2"] ∧
  st_next st = 4.
Proof. by vm_compute. Qed.
