(* ===== verification/StoreReplay.v ===== *)
(** * The store replays the trace

    What each call of the client does to the store, written as a function
    of the store alone ([apply_call]); the operations of the client over
    the store perform it, so the store discharges [Replays], and the
    calls that only read leave the store as it is.  The theorems of
    [Replay] then say of the store: what a session leaves is the replay
    of the writes on its trace, two sessions that made the same writes
    leave the same store, and lookups leave the store alone. *)

From stdpp Require Import relations.
From S2P Require Import Prelude JsValue Effect Sdk Mock Session Host Iam.
From S2P Require Import Directory Init Comments Merge Capabilities Lifecycle.
From S2P Require Import Store StoreComments Topics StorePulls StoreListing.
From S2P Require Import History Replay StoreHistory StoreInvariant.

(** ** Definitions *)

(** The store after a call.  A title is set on the pull request named,
    if there is one; the status call and the approval rule change the
    store only where the service accepts them; the reads and the calls
    of the initialisation change nothing. *)
Definition apply_call `{!Utils} (c : Call) (st : Store) : Store :=
  match c with
  | CreatePr prTitle _ sourceBranch targetBranch repo =>
      store_create_pr prTitle sourceBranch targetBranch repo st
  | UpdatePrTitle prId prTitle => alter_pr prId (set_title prTitle) st
  | UpdatePrStatus prId status =>
      match find_pr prId st with
      | Some p =>
          if decide (pullRequestStatus p = Some OPEN ∧ status = CLOSED)
          then alter_pr prId (set_status status) st
          else st
      | None => st
      end
  | SquashMerge repo src dst _ | FastForwardMerge repo src dst =>
      store_merge repo src dst st
  | CreatePrApprovalRule prId rule =>
      match find_pr prId st with
      | Some _ => store_add_rule prId rule st
      | None => st
      end
  | CreatePrComment prId _ body _ _ => store_create prId body st
  | UpdateComment id body => store_update id (Some body) st
  | DeleteComment id => store_update id None st
  | _ => st
  end.

(** The writes of a trace. *)
Definition writes (cs : list Call) : list Call :=
  filter (λ c, is_mutation c = true) cs.

(** The lookups of the test session, on the store. *)
Definition store_lookups : list Request :=
  [ReqGetPrList; ReqFindPr "renovate/lodash" None (Some Open);
   ReqGetBranchPr "renovate/lodash"; ReqGetPr (Js.Num 0); ReqGetRepos].

(** ** Lemmas *)

Section store_replay.
Context `{!Utils}.
Implicit Types (st : Store) (w : World (Host Store)).

(** A change of a pull request that is not there changes nothing. *)
Lemma alter_pr_absent prId f st :
  find_pr prId st = None → alter_pr prId f st = st.
Proof.
  intros Hf. destruct st as [prs ths evs n rs fs rules].
  unfold alter_pr, find_pr in *. simpl in *. f_equal.
  rewrite <-(list_fmap_id prs) at 2. apply list_fmap_ext.
  intros i p Hp. rewrite decide_False; [done|]. intros Hid.
  apply head_None in Hf.
  assert (p ∈ filter (λ p, pullRequestId p = Some prId) prs) as Hin.
  { apply list_elem_of_filter. split; [done|]. by eapply list_elem_of_lookup_2. }
  rewrite Hf in Hin. by apply not_elem_of_nil in Hin.
Qed.

#[export] Instance store_replays : Replays apply_call.
Proof.
  split; intros; intros st; try reflexivity; simpl.
  - unfold store_getRepositoryInfo. by destruct (find_repo _ _).
  - by destruct (find_pr _ _).
  - unfold store_getFile. by destruct (st_files _ _ _).
  - unfold store_update_description. by destruct (find_pr _ _).
  - unfold store_update_title. destruct (find_pr _ _) eqn:Hf; [done|].
    simpl. by rewrite alter_pr_absent.
  - unfold store_update_status. destruct (find_pr _ _); [|done].
    by case_decide.
  - unfold store_createPrApprovalRule. by destruct (find_pr _ _).
Qed.

#[export] Instance store_services_replay : ServicesReplay apply_call.
Proof. split; intros; by intros st. Qed.

#[export] Instance store_reads_keep : ReadsKeep apply_call.
Proof. intros c st Hc. by destruct c. Qed.

(** ** Theorems *)

(** What a session leaves of the store is the replay of the writes on
    its trace; the reads and their order among the writes do not
    matter. *)
Theorem session_replays_writes w w' :
  rtc step w w' →
  ∃ cs, trace w' = trace w ++ cs ∧
        backend (remote w') =
        replay apply_call (writes cs) (backend (remote w)).
Proof.
  intros (cs & Ht & Hb)%(steps_replayed apply_call). exists cs.
  split; [done|]. by rewrite Hb, (replay_mutations apply_call).
Qed.

(** Two sessions from the same world that made the same writes leave
    the same store. *)
Theorem sessions_agree w w1 w2 :
  rtc step w w1 → rtc step w w2 →
  writes (trace w1) = writes (trace w2) →
  backend (remote w1) = backend (remote w2).
Proof.
  intros (cs1 & Ht1 & ->)%session_replays_writes
         (cs2 & Ht2 & ->)%session_replays_writes.
  rewrite Ht1, Ht2. unfold writes. rewrite !filter_app.
  by intros ->%app_inv_head.
Qed.

(** The store stays well formed under the calls of any client, in any
    order: its well-formedness does not rest on how the adapter uses
    it. *)
Theorem store_inv_any_calls cs st :
  store_inv st → store_inv (replay apply_call cs st).
Proof. apply (replay_advances (keeps store_inv) apply_call). Qed.

(** Nor does the order of its history: whatever is called, the pull
    requests only move forward and no thread is removed. *)
Theorem store_le_any_calls cs st : store_le st (replay apply_call cs st).
Proof. apply (replay_advances store_le apply_call). Qed.

(** C17: Lookups leave the store alone: after any sequence of [getRepos],
    [getPrList], [findPr], [getBranchPr], [getPr] and [getRawFile],
    whatever they return or throw, the store is what it was. *)
Theorem lookups_keep_store w w' :
  rtc lookup_step w w' → backend (remote w') = backend (remote w).
Proof. apply (lookups_keep_service apply_call). Qed.

End store_replay.

(** ** The session of the seed store *)

Lemma session_replays_writes_witness :
  ∃ cs, trace (session store_requests (store_host seed_store)) = [] ++ cs ∧
        backend (remote (session store_requests (store_host seed_store))) =
        replay apply_call (writes cs) seed_store.
Proof.
  apply (session_replays_writes (store_host seed_store)).
  apply session_reachable.
Defined.

Lemma sessions_agree_witness :
  backend (remote (session store_requests (store_host seed_store))) =
  backend (remote (session (store_lookups ++ store_requests)
                     (store_host seed_store))).
Proof.
  apply (sessions_agree (store_host seed_store));
    [apply session_reachable..|by vm_compute].
Defined.

Lemma store_inv_any_calls_witness :
  store_inv (replay apply_call
               [DeleteComment "comment-0"; UpdatePrStatus "0" "CLOSED";
                CreatePr "" "" "a" "b" None; UpdatePrStatus "0" "OPEN";
                CreatePrComment "7" None "text" "" ""]
               seed_store).
Proof. apply store_inv_any_calls, seed_store_inv. Defined.

Lemma lookups_keep_store_witness :
  backend (remote (session store_lookups (store_host seed_store))) = seed_store.
Proof.
  apply (lookups_keep_store (store_host seed_store)).
  by apply session_lookups.
Defined.

(** The writes of the session of the seed store.  The second status
    call is the one the store rejects: it is on the trace, and replaying
    it changes nothing. *)
Example seed_session_writes :
  writes (trace (session store_requests (store_host seed_store))) =
  [CreatePrComment "42" (Some "repositoryName")
     ("### some-subject" +:+ Js.LF +:+ Js.LF +:+ "some content")
     "beforeCommitId" "afterCommitId";
   SquashMerge (Some "repositoryName") (Some "refs/heads/renovate/lodash")
     (Some "refs/heads/main") (Some "Update lodash");
   UpdatePrStatus "0" "CLOSED"; UpdatePrTitle "0" "Update lodash";
   UpdatePrStatus "0" "OPEN";
   CreatePr "Update react" "body" "renovate/react" "main"
     (Some "repositoryName");
   DeleteComment "comment-2"].
Proof. by vm_compute. Qed.

Example seed_lookups_calls :
  trace (session store_lookups (store_host seed_store)) =
  [ListPullRequests (Some "repositoryName") None; GetPr "0"; GetPr "0";
   GetPr "0"; ListRepositories].
Proof. by vm_compute. Qed.
