(* ===== verification/StoreSessions.v ===== *)
(** * StoreSessions: the theorems on the store, in every session

    The theorems of [StoreListing] and [StoreComments] are stated of one
    call on a store that is well formed.  The store of a session stays
    well formed ([StoreInvariant]) and a handler in a host is the handler
    on the service of the host ([Lift]): the theorems therefore hold of a
    call at any point of any session that has started on a well-formed
    store. *)

From stdpp Require Import relations.
From S2P Require Import Prelude JsValue Effect Sdk Session Mock Host Iam.
From S2P Require Import Directory Init Comments Merge Capabilities Lifecycle.
From S2P Require Import Store StoreComments Topics StorePulls StoreListing.
From S2P Require Import History StoreHistory StoreInvariant Lift.

(** ** Lemmas *)

Section session_lemmas.
Context `{!Utils}.
Implicit Types w : World (Host Store).

(** The store of a session that started well formed. *)
Lemma session_store_inv w w' :
  rtc step w w' → store_inv (backend (remote w)) →
  store_inv (remote (down w')).
Proof. intros Hsteps. apply (session_advances (keeps store_inv) w w' Hsteps). Qed.

(** The host after a lifted computation that left the service alone. *)
Lemma lifts_remote {A} (ch : H (Host Store) A) c w :
  lifts ch c → remote (c (down w)).2 = backend (remote w) →
  remote (ch w).2 = remote w.
Proof.
  intros Hl Hr. rewrite Hl. simpl. rewrite Hr. by destruct w as [? [] ? ?].
Qed.

End session_lemmas.

(** ** Theorems *)

Section session_theorems.
Context `{!Utils}.
Implicit Types w : World (Host Store).

(** The directory at any point of a session.  In a session that has
    started on a well-formed store, whatever requests it has served, a
    call of [getPrList] that finds the cache empty returns the listing
    of the store as it is then, caches it and leaves the host as it
    is. *)
Theorem session_getPrList w w' :
  rtc step w w' → store_inv (backend (remote w)) →
  prList (config w') = None →
  let l := listing (repository (config w')) (backend (remote w')) in
  (getPrList w').1 = Ok l ∧
  prList (config (getPrList w').2) = Some l ∧
  remote (getPrList w').2 = remote w'.
Proof.
  intros Hsteps Hinv Hc.
  destruct (session_store_inv w w' Hsteps Hinv) as [Hwf _].
  destruct (getPrList_store_run (down w') Hc Hwf) as (v & Hrun & Hr & Hcfg & _).
  pose proof (getPrList_lifts (R:=Store)) as Hl. simpl.
  rewrite (lifts_result _ _ w' Hl), Hrun. split; [done|]. split.
  - change (config (getPrList w').2) with (config (down (getPrList w').2)).
    rewrite (lifts_world _ _ w' Hl), Hrun. simpl. by rewrite Hcfg.
  - apply (lifts_remote _ _ w' Hl). by rewrite Hrun.
Qed.


End session_theorems.

(** ** Runs on the store of the example *)

Lemma session_getPrList_witness :
  let w' := session [ReqCreatePr "renovate/react" "main" "Update react" "body"]
              (store_host seed_store) in
  let l := listing (repository (config w')) (backend (remote w')) in
  (getPrList w').1 = Ok l ∧
  prList (config (getPrList w').2) = Some l ∧
  remote (getPrList w').2 = remote w'.
Proof.
  apply (session_getPrList (store_host seed_store));
    [apply session_reachable|apply seed_store_inv|done].
Defined.


(** The listing of the session of the example: the pull request of the
    store and the one the session has created, numbered 2. *)
Example session_listing_run :
  let w' := session [ReqCreatePr "renovate/react" "main" "Update react" "body"]
              (store_host seed_store) in
  Pr.number <$> listing (repository (config w')) (backend (remote w')) =
  [Js.Num 0; Js.Num 2].
Proof. by vm_compute. Qed.
