(* ===== verification/StoreRepos.v ===== *)
(** * StoreRepos: repositories, files and approval rules on the store

    The handlers that read the repositories and the files of the service
    and the one that writes an approval rule, on the service of [Store]:
    [getRepos] returns the names the store holds, [getRawFile] the
    content of a stored file, [initRepo] finds a stored repository and
    turns the rejection for an unknown one into its own error, and
    [addReviewers] leaves one rule more. *)

From stdpp Require Import relations.
From S2P Require Import Prelude JsValue Effect Sdk Mock Session Host Iam.
From S2P Require Import Directory Init Comments Merge Capabilities Lifecycle.
From S2P Require Import Store StorePulls History StoreHistory.

(** ** Definitions *)

(** The names [getRepos] returns for the store. *)
Definition stored_names (st : Store) : list string :=
  filter (λ name, name ≠ "") ((st_repos st).*1).

(** The result of [getRawFile] on the store. *)
Definition stored_file (repo : option string) (path : string) (st : Store)
  : outcome string :=
  match st_files st repo path with
  | Some text => Ok text
  | None => Throw (RemoteError "FileDoesNotExistException")
  end.

(** The session of the test after [initPlatform]. *)
Definition store_params : PlatformParams.t :=
  {| PlatformParams.endpoint :=
       Some "https://git-codecommit.eu-central-1.amazonaws.com/";
     PlatformParams.username := Some "accessKeyId";
     PlatformParams.password := Some "SecretAccessKey" |}.

Definition store_repo : RepoParams.t :=
  {| RepoParams.repository := "repositoryName";
     RepoParams.endpoint := PlatformParams.endpoint store_params |}.

Definition fresh_host (st : Store) : World (Host Store) :=
  mkWorld config_empty (mkHost env_empty None st) [] [].

(** ** Lemmas and theorems *)

Section store_repos.
Context `{!Utils}.

Lemma repo_names_pairs st : repo_names (repo_pairs st) = stored_names st.
Proof.
  unfold repo_pairs, stored_names.
  induction (st_repos st) as [|[name md] l IH]; [done|].
  rewrite !fmap_cons, filter_cons, <-IH. unfold repo_names. by destruct name.
Qed.

Lemma store_listRepositories st :
  cl_listRepositories st =
  (Ok (Some {| repositories := Some (repo_pairs st) |}), st).
Proof. reflexivity. Qed.

(** [getRepos] on the store: the names of the repositories, without the
    empty ones, in the order of the store. *)
Theorem getRepos_on_store (w : World Store) :
  (getRepos w).1 = Ok (stored_names (remote w)) ∧
  remote (getRepos w).2 = remote w.
Proof.
  unfold getRepos, client_listRepositories. rewrite bind_log, bind_attempt.
  rewrite invoke_run. cbn [remote]. rewrite store_listRepositories.
  cbn [fst snd mbind option_bind repositories default from_option id].
  unfold ret. by rewrite repo_names_pairs.
Qed.

(** [getRawFile] on the store: the content of the file of the
    repository named, or of the repository of the session, and the
    rejection of the service for a file it does not hold. *)
Theorem getRawFile_on_store fileName repoName branchOrTag (w : World Store) :
  (getRawFile fileName repoName branchOrTag w).1 =
  stored_file (from_option Some (repository (config w)) repoName) fileName
    (remote w).
Proof.
  rewrite getRawFile_run. unfold client_getFile, stored_file.
  rewrite bind_invoke. simpl. unfold store_getFile.
  by destruct (st_files _ _ _).
Qed.

(** [addReviewers] on the store: one rule more for a pull request the
    store holds, the rejection of the service for another. *)
Theorem addReviewers_on_store prNo reviewers (w : World Store) :
  let r := addReviewers prNo reviewers w in
  match find_pr (Js.toString prNo) (remote w) with
  | Some _ =>
      r.1 = Ok tt ∧
      st_rules (remote r.2) =
        st_rules (remote w) ++
        [(Js.toString prNo, approvalRuleContents reviewers)]
  | None => r.1 = Throw no_such_pr ∧ remote r.2 = remote w
  end.
Proof.
  unfold addReviewers, client_createPrApprovalRule. rewrite bind_invoke.
  simpl. unfold store_createPrApprovalRule.
  by destruct (find_pr _ _).
Qed.

(** The host asks the store. *)
Lemma host_getRepositoryInfo name (h : Host Store) :
  cl_getRepositoryInfo name h =
  match find_repo name (backend h) with
  | Some md => (Ok (Some {| repositoryMetadata := Some md |}), h)
  | None => (Throw (RemoteError "RepositoryDoesNotExistException"), h)
  end.
Proof.
  simpl. rewrite zoom_run. unfold store_getRepositoryInfo.
  destruct (find_repo name (backend h)); by destruct h.
Qed.

(** [initRepo] for a repository the store does not hold throws
    [REPOSITORY_NOT_FOUND]; the session context names the repository all
    the same. *)
Theorem initRepo_unknown_on_store p (w : World (Host Store)) :
  find_repo (RepoParams.repository p) (backend (remote w)) = None →
  (initRepo p w).1 = Throw (Error REPOSITORY_NOT_FOUND) ∧
  repository (config (initRepo p w).2) = Some (RepoParams.repository p) ∧
  remote (initRepo p w).2 = remote w.
Proof.
  intros Hr. rewrite initRepo_run. cbv zeta.
  by rewrite host_getRepositoryInfo, Hr.
Qed.

(** [initRepo] for a repository of the store with a default branch and
    an identifier, in a session that has credentials: the default branch
    of the store is returned and kept in the session context. *)
Theorem initRepo_known_on_store p (w : World (Host Store)) md b i :
  find_repo (RepoParams.repository p) (backend (remote w)) = Some md →
  is_Some (credentials (config w)) →
  Js.truthy_val (md_defaultBranch md) = Some b →
  Js.truthy_val (md_repositoryId md) = Some i →
  (initRepo p w).1 =
    Ok {| RepoResult.repoFingerprint :=
            util_repoFingerprint i (RepoParams.endpoint p);
          RepoResult.defaultBranch := b; RepoResult.isFork := false |} ∧
  defaultBranch (config (initRepo p w).2) = Some b ∧
  repository (config (initRepo p w).2) = Some (RepoParams.repository p) ∧
  remote (initRepo p w).2 = remote w.
Proof.
  intros Hr [k Hk] Hb Hi. rewrite initRepo_run. cbv zeta.
  rewrite host_getRepositoryInfo, Hr, Hk. simpl.
  unfold initRepo_finish. simpl. rewrite Hb, Hi.
  rewrite bind_log, bind_write_config, bind_log. simpl. by destruct (remote w).
Qed.

End store_repos.

(** ** Runs on the test store *)

Lemma initRepo_unknown_on_store_witness :
  let p := {| RepoParams.repository := "other"; RepoParams.endpoint := None |} in
  (initRepo p (store_host test_store)).1 = Throw (Error REPOSITORY_NOT_FOUND) ∧
  repository (config (initRepo p (store_host test_store)).2) = Some "other" ∧
  remote (initRepo p (store_host test_store)).2 = remote (store_host test_store).
Proof.
  by apply (initRepo_unknown_on_store
              {| RepoParams.repository := "other"; RepoParams.endpoint := None |}
              (store_host test_store)).
Defined.

Lemma initRepo_known_on_store_witness :
  let w := (initPlatform store_params (fresh_host test_store)).2 in
  (initRepo store_repo w).1 =
    Ok {| RepoResult.repoFingerprint :=
            "https://git-codecommit.eu-central-1.amazonaws.com/::id";
          RepoResult.defaultBranch := "main"; RepoResult.isFork := false |} ∧
  defaultBranch (config (initRepo store_repo w).2) = Some "main" ∧
  repository (config (initRepo store_repo w).2) = Some "repositoryName" ∧
  remote (initRepo store_repo w).2 = remote w.
Proof.
  apply (initRepo_known_on_store store_repo
           (initPlatform store_params (fresh_host test_store)).2
           {| md_defaultBranch := Some "main"; md_repositoryId := Some "id" |}
           "main" "id"); [by vm_compute|vm_compute; by eexists|done|done].
Defined.

(** A session from the initialisation on: the repositories are listed,
    the configuration file is read, a reviewer is added to pull
    request 0 and the pull request is merged. *)
Example store_session_from_init :
  let w := session [ReqInitPlatform store_params; ReqInitRepo store_repo;
                    ReqAddReviewers (Js.Num 0) ["reviewer"];
                    ReqMergePr None (Js.Num 0) (Some StrategyAuto)]
             (fresh_host test_store) in
  (getRepos w).1 = Ok ["repositoryName"] ∧
  (getRawFile "renovate.json" None None w).1 = Ok "{}" ∧
  length (st_rules (backend (remote w))) = 1 ∧
  stored_state "0" (backend (remote w)) = Some Merged.
Proof. by vm_compute. Qed.
