(* ===== verification/StorePolicy.v ===== *)
(** * StorePolicy: which requests end in an exception

    The specification has the handlers after the initialisation answer
    a failure with [false], nothing or an empty list and never with an
    exception.  On the service of [Store], well formed, this file states
    of every such request whether it returns or throws, exactly: four
    handlers have no [try] around a call the service can reject
    ([getRawFile], [updatePr], [addReviewers]) or reject a response the
    service gives ([createPr] with an empty title), and [ensureComment]
    reads the first event of a pull request that has none.  Every other
    request returns, whatever the store holds and whatever the session
    has cached. *)

From stdpp Require Import relations.
From S2P Require Import Prelude JsValue Effect Sdk Session Mock Host Iam.
From S2P Require Import Directory Init Comments Merge Capabilities Lifecycle.
From S2P Require Import Lift Store StoreComments Topics StorePulls StoreListing.
From S2P Require Import History StoreHistory StoreInvariant StoreRepos.

(** ** Definitions *)

Section policy.
Context `{!Utils}.

(** The requests the adapter answers with an exception on the store. *)
Definition rejects (cfg : Config) (st : Store) (r : Request) : Prop :=
  match r with
  | ReqGetRawFile f repo _ =>
      st_files st (from_option Some (repository cfg) repo) f = None
  | ReqCreatePr _ _ prTitle _ => prTitle = ""
  | ReqUpdatePr n prTitle body _ =>
      find_pr (Js.toString n) st = None ∧
      Js.truthy body || Js.truthy (Some prTitle) = true
  | ReqAddReviewers n _ => find_pr (Js.toString n) st = None
  | ReqEnsureComment n topic text =>
      match reconcile topic (comment_body topic text)
              (st_threads st (Js.toString n)),
            st_events st (Js.toString n) with
      | Create, Some [] => True
      | _, _ => False
      end
  | _ => False
  end.

#[export] Instance rejects_dec cfg st r : Decision (rejects cfg st r).
Proof. destruct r; simpl; try apply _; repeat case_match; apply _. Defined.

End policy.

(** ** Lemmas: a request and its handler *)

Section returns.
Context {S A : Type}.

Lemma is_Ok_then (c : M S A) s : is_Ok ((c ;; ret tt) s).1 = is_Ok (c s).1.
Proof. unfold bind. by destruct (c s) as [[a|e] s']. Qed.

Lemma is_Ok_never_throws (c : M S A) s : never_throws c → is_Ok (c s).1 = true.
Proof. intros Hc. by destruct (Hc s) as (a & s' & ->). Qed.

End returns.

(** ** Lemmas: the lookups return *)

Section lookups.
Context `{!Utils}.
Implicit Types w : World Store.

(** A pull request of a well-formed store has a target. *)
Lemma find_pr_target prId st p :
  prs_wf st → find_pr prId st = Some p →
  ∃ t ts, pullRequestTargets p = Some (t :: ts).
Proof.
  intros [_ Hall] [_ Hin]%head_Some_elem_of%list_elem_of_filter.
  rewrite Forall_forall in Hall. by destruct (Hall p Hin) as [_ ?].
Qed.

Lemma getPr_returns n w : prs_wf (remote w) → is_Ok (getPr n w).1 = true.
Proof.
  intros Hwf. destruct (find_pr (Js.toString n) (remote w)) as [p|] eqn:Hp.
  - destruct (find_pr_target _ _ _ Hwf Hp) as (t & ts & Ht).
    by rewrite (getPr_on_store n w p t ts Hp Ht).
  - unfold getPr, client_getPr. rewrite bind_log, bind_invoke.
    cbn [remote logged]. by rewrite (store_getPr_absent _ _ Hp).
Qed.

(** The listing returns and leaves the store as it is. *)
Lemma getPrList_returns w :
  prs_wf (remote w) → ∃ l w1, getPrList w = (Ok l, w1) ∧ remote w1 = remote w.
Proof.
  intros Hwf. destruct (prList (config w)) as [l|] eqn:Hc.
  - rewrite (getPrList_hit _ _ Hc). by eexists _, _.
  - destruct (getPrList_store_run w Hc Hwf) as (w1 & -> & Hr & _). by eexists _, _.
Qed.

Lemma getBranchPr_returns b w :
  prs_wf (remote w) → is_Ok (getBranchPr b w).1 = true.
Proof.
  intros Hwf.
  destruct (getPrList_returns (logged LDebug ("getBranchPr(" +:+ b +:+ ")") w))
    as (l & w1 & Hrun & Hr); [done|].
  rewrite (getBranchPr_run b w l w1 Hrun).
  destruct (head _) as [pr|]; [|done]. apply getPr_returns. by rewrite Hr.
Qed.

Lemma mergePr_returns b n s w : is_Ok (mergePr b n s w).1 = true.
Proof.
  destruct (mergePr b n s w).1 as [r|e] eqn:Hm; [done|].
  apply mergePr_throws_only_read in Hm. simpl in Hm.
  by destruct (find_pr _ _).
Qed.

End lookups.

(** ** Lemmas: the handlers that can throw *)

Section throwers.
Context `{!Utils}.
Implicit Types w : World Store.

Lemma getRawFile_returns f repo b w :
  is_Ok (getRawFile f repo b w).1 = true ↔
  st_files (remote w) (from_option Some (repository (config w)) repo) f ≠ None.
Proof.
  rewrite getRawFile_on_store. unfold stored_file.
  by destruct (st_files _ _ _).
Qed.

Lemma createPr_returns src dst prTitle body w :
  is_Ok (createPr src dst prTitle body w).1 = true ↔ prTitle ≠ "".
Proof.
  destruct (decide (prTitle = "")) as [->|Ht].
  - edestruct (createPr_missing_info src dst "" body w) as [-> _];
      [reflexivity|by left|]. by split.
  - destruct (createPr_on_store src dst prTitle body w Ht) as (pr & tr & -> & _).
    by split.
Qed.

Lemma updatePr_returns n prTitle body state w :
  is_Ok (updatePr n prTitle body state w).1 = true ↔
  ¬ (find_pr (Js.toString n) (remote w) = None ∧
     Js.truthy body || Js.truthy (Some prTitle) = true).
Proof.
  destruct (find_pr (Js.toString n) (remote w)) as [p|] eqn:Hp.
  - destruct (updatePr_on_store n prTitle body state w p Hp) as (-> & _).
    split; [by intros _ [? _]|done].
  - rewrite (updatePr_absent n prTitle body state w Hp).
    destruct (_ || _).
    + split; [done|]. intros Hn. by destruct Hn.
    + split; [by intros _ [_ ?]|done].
Qed.

Lemma addReviewers_returns n rs w :
  is_Ok (addReviewers n rs w).1 = true ↔
  find_pr (Js.toString n) (remote w) ≠ None.
Proof.
  pose proof (addReviewers_on_store n rs w) as Hr. simpl in Hr.
  destruct (find_pr _ _); destruct Hr as [-> _]; by split.
Qed.

(** The branch of [ensureComment] that creates: it throws on the first
    event of an empty list. *)
Lemma create_comment_returns n topic body w :
  is_Ok (create_comment n topic body w).1 = true ↔
  st_events (remote w) (Js.toString n) ≠ Some [].
Proof.
  unfold create_comment, client_getPrEvents. rewrite bind_invoke. simpl.
  destruct (st_events (remote w) (Js.toString n)) as [[|ev evs]|]; simpl;
    [by split|..|by split].
  rewrite bind_ret_l. split; [done|intros _]. by repeat case_match.
Qed.

Lemma ensureComment_returns n topic text w :
  store_wf (Js.toString n) (remote w) →
  is_Ok (ensureComment n topic text w).1 = true ↔
  ¬ rejects (config w) (remote w) (ReqEnsureComment n topic text).
Proof.
  intros Hwf. rewrite ensureComment_on_store by done. simpl.
  destruct (reconcile _ _ _) as [|id|]; simpl; [|by split; auto..].
  rewrite create_comment_returns. simpl.
  destruct (st_events _ _) as [[|ev evs]|]; split; try done; tauto.
Qed.

End throwers.

(** ** Theorems *)

Section policy_theorems.
Context `{!Utils}.

(** The error policy on the store, one request at a time. *)
Lemma serve_on_returns r (w : World Store) :
  steady r = true → store_inv (remote w) →
  is_Ok (serve_on r w).1 = true ↔ ¬ rejects (config w) (remote w) r.
Proof.
  intros Hr [Hwf Hth]. destruct r; try done; cbn [serve_on];
    rewrite is_Ok_then; cbn [rejects].
  - split; [auto|intros _]. by destruct (getRepos_best_effort w) as (? & ? & -> & _).
  - split; [auto|intros _]. by destruct (getPrList_returns w Hwf) as (? & ? & -> & _).
  - split; [auto|intros _]. apply is_Ok_never_throws, findPr_never_throws.
  - split; [auto|intros _]. by apply getBranchPr_returns.
  - split; [auto|intros _]. by apply getPr_returns.
  - apply getRawFile_returns.
  - apply createPr_returns.
  - apply updatePr_returns.
  - split; [auto|intros _]. apply mergePr_returns.
  - apply addReviewers_returns.
  - apply ensureComment_returns, Hth.
  - split; [auto|intros _]. by destruct (ensureCommentRemoval_on_store key prNo w) as [-> _].
Qed.

(** C12: The error policy of the adapter on the service.  At any point of a
    session that has started on a well-formed store, a request other than
    the two of the initialisation ends in an exception exactly when it
    is [getRawFile] of a file the store does not hold, [createPr] with an
    empty title, [updatePr] with a body or a title or [addReviewers] for
    a pull request the store does not hold, or [ensureComment] that has
    to create the comment of a pull request whose list of events is
    empty.  Every other request returns: the lookups, [mergePr] and
    [ensureCommentRemoval] always, whatever the store holds and whatever
    the session has cached. *)
Theorem session_error_policy (w0 w : World (Host Store)) r :
  rtc step w0 w → store_inv (backend (remote w0)) → steady r = true →
  is_Ok (serve r w).1 = true ↔ ¬ rejects (config w) (backend (remote w)) r.
Proof.
  intros Hsteps Hinv Hr.
  rewrite (lifts_result _ _ w (serve_lifts r Hr)).
  apply (serve_on_returns r (down w) Hr).
  apply (session_advances (keeps store_inv) w0 w Hsteps Hinv).
Qed.

End policy_theorems.

(** ** Runs on the store of the example *)

(** A file the store does not hold: [getRawFile] throws. *)
Lemma session_error_policy_witness :
  let w := session store_requests (store_host seed_store) in
  let r := ReqGetRawFile "missing.json" None None in
  is_Ok (serve r w).1 = true ↔ ¬ rejects (config w) (backend (remote w)) r.
Proof.
  apply (session_error_policy (store_host seed_store));
    [apply session_reachable|apply seed_store_inv|done].
Defined.

(** The five requests that throw, and what they throw, after the session
    of the example. *)
Example store_throwers_run :
  let w := session store_requests (store_host seed_store) in
  (serve (ReqGetRawFile "missing.json" None None) w).1 =
    Throw (RemoteError "FileDoesNotExistException") ∧
  (serve (ReqCreatePr "renovate/x" "main" "" "body") w).1 =
    Throw (Error "Could not create pr, missing PR info") ∧
  (serve (ReqUpdatePr (Js.Num 7) "title" None None) w).1 = Throw no_such_pr ∧
  (serve (ReqAddReviewers (Js.Num 7) ["arn"]) w).1 = Throw no_such_pr ∧
  (serve (ReqGetPr (Js.Num 7)) w).1 = Ok tt ∧
  (serve (ReqMergePr None (Js.Num 7) (Some StrategySquash)) w).1 = Ok tt.
Proof. by vm_compute. Qed.

(** A pull request with an empty list of events: the first comment of a
    topic cannot be created. *)
Example ensureComment_without_events :
  let st := mkStore (st_prs seed_store) (st_threads seed_store)
              (λ _, Some []) 2 [] (λ _ _, None) [] in
  (ensureComment (Js.Num 42) (Some "c") "third" (store_world st)).1 =
  Throw TypeError.
Proof. by vm_compute. Qed.
